(** * k8sGO: the interaction engine, embedded and checked

  The repository holds two terminal programs that share one design:

  - the root program [main.go] ([Model]): a view stack, asynchronous
    loaders delivering [...LoadedMsg] results, the health annotations
    that [loadPods] gives each pod, and the helper [analyzeResourceHealth];
  - the [pkg/ui] application ([App]): paginated resource table, nine
    scrollable text panes, mouse selection and copy, single-slot
    navigation history.

  Both are embedded below as pure functions over explicit state.  Go's
  [int] is a 64-bit two's-complement integer on every target of the main
  Makefile (amd64, arm64); it is modelled as [Z] with the wrap-around
  written out.  Go strings are byte strings and are modelled by [string]
  (one [ascii] per byte).  A run-time panic (index or slice out of range,
  division by zero, nil dereference) is modelled by [None]. *)

From Stdlib Require Import ZArith List String Ascii Bool Lia DecimalString.
From stdpp Require Import base option list strings gmap.

Local Open Scope string_scope.
Local Open Scope list_scope.
Local Open Scope Z_scope.

(* ===================================================================== *)
(** ** Go's [int] *)
(* ===================================================================== *)

Module GoInt.

Definition min_int : Z := - 2 ^ 63.
Definition max_int : Z := 2 ^ 63 - 1.

(** Two's-complement reduction of a mathematical integer to 64 bits. *)
Definition wrap (z : Z) : Z := (z + 2 ^ 63) mod 2 ^ 64 - 2 ^ 63.

Definition in_range (z : Z) : Prop := min_int <= z <= max_int.

Definition add (a b : Z) : Z := wrap (a + b).
Definition sub (a b : Z) : Z := wrap (a - b).
Definition mul (a b : Z) : Z := wrap (a * b).

(** Integer division truncates toward zero and panics on a zero divisor. *)
Definition quot (a b : Z) : option Z :=
  if b =? 0 then None else Some (wrap (Z.quot a b)).

(** [len] of a slice. *)
Definition len {A} (l : list A) : Z := Z.of_nat (length l).

End GoInt.

(* ===================================================================== *)
(** ** The parts of Go's [strings], [strconv] and [fmt] that the code uses *)
(* ===================================================================== *)

Module GoStrings.

(** [len(s)]: the number of bytes. *)
Definition len (s : string) : Z := Z.of_nat (String.length s).

Definition newline : ascii := "010"%char.

(** [strings.Split(s, sep)] for a one-byte separator; the result is never
    empty ([Split "" sep = [""]]). *)
Fixpoint Split (s : string) (sep : ascii) : list string :=
  match s with
  | EmptyString => [EmptyString]
  | String c rest =>
      if Ascii.eqb c sep then EmptyString :: Split rest sep
      else match Split rest sep with
           | [] => [String c EmptyString]
           | l :: ls => String c l :: ls
           end
  end.

(** [strings.Join(elems, sep)]. *)
Fixpoint Join (elems : list string) (sep : string) : string :=
  match elems with
  | [] => ""
  | x :: rest =>
      match rest with
      | [] => x
      | _ :: _ => x +:+ sep +:+ Join rest sep
      end
  end.

(** *** White space

    [strings.TrimSpace] and [strings.Fields] take white space as
    [unicode.IsSpace] defines it, on the runes that UTF-8 decoding finds in
    the bytes of the text; both have a fast path for ASCII bytes, written
    out below as the library has it. *)

Definition byte (c : ascii) : Z := Z.of_N (N_of_ascii c).

(** The table [asciiSpace] of package [strings]: tab, line feed, vertical
    tab, form feed, carriage return, space. *)
Definition asciiSpace (c : ascii) : bool :=
  let n := N_of_ascii c in
  ((9 <=? n) && (n <=? 13) || (n =? 32))%N.

(** [unicode.IsSpace]: in Latin-1 the six ASCII bytes, U+0085 and U+00A0;
    beyond it the table [White_Space]. *)
Definition IsSpace (r : Z) : bool :=
  if r <=? 0xFF then
    ((0x09 <=? r) && (r <=? 0x0D)) || (r =? 0x20) || (r =? 0x85) || (r =? 0xA0)
  else
    (r =? 0x1680) || ((0x2000 <=? r) && (r <=? 0x200A)) || (r =? 0x2028)
    || (r =? 0x2029) || (r =? 0x202F) || (r =? 0x205F) || (r =? 0x3000).

(** [utf8.RuneError], the rune that stands for a byte that does not decode. *)
Definition RuneError : Z := 0xFFFD.

(** The table [first] of package [utf8] for a leading byte of [0x80] or
    more: the width of the sequence and the range accepted for its second
    byte; [None] for a byte that starts no sequence. *)
Definition first (s0 : Z) : option (nat * Z * Z) :=
  if (s0 <? 0xC2) || (0xF4 <? s0) then None
  else if s0 <? 0xE0 then Some (2%nat, 0x80, 0xBF)
  else if s0 =? 0xE0 then Some (3%nat, 0xA0, 0xBF)
  else if s0 =? 0xED then Some (3%nat, 0x80, 0x9F)
  else if s0 <? 0xF0 then Some (3%nat, 0x80, 0xBF)
  else if s0 =? 0xF0 then Some (4%nat, 0x90, 0xBF)
  else if s0 =? 0xF4 then Some (4%nat, 0x80, 0x8F)
  else Some (4%nat, 0x80, 0xBF).

(** A continuation byte: [locb <= b <= hicb]. *)
Definition continues (b : Z) : bool := (0x80 <=? b) && (b <=? 0xBF).

(** [utf8.DecodeRuneInString]: the first rune of [s] and its width in
    bytes; a byte that does not decode gives [(RuneError, 1)].  The loop
    [for i, r := range s] decodes the same way. *)
Definition DecodeRuneInString (s : string) : Z * nat :=
  match s with
  | EmptyString => (RuneError, 0%nat)
  | String c0 rest =>
      let s0 := byte c0 in
      if s0 <? 0x80 then (s0, 1%nat)
      else
        match first s0 with
        | None => (RuneError, 1%nat)
        | Some (sz, lo, hi) =>
            if (String.length s <? sz)%nat then (RuneError, 1%nat)
            else
              match rest with
              | EmptyString => (RuneError, 1%nat)
              | String c1 rest1 =>
                  let s1 := byte c1 in
                  if (s1 <? lo) || (hi <? s1) then (RuneError, 1%nat)
                  else if (sz <=? 2)%nat then
                    (Z.lor (Z.shiftl (Z.land s0 0x1F) 6) (Z.land s1 0x3F), 2%nat)
                  else
                    match rest1 with
                    | EmptyString => (RuneError, 1%nat)
                    | String c2 rest2 =>
                        let s2 := byte c2 in
                        if negb (continues s2) then (RuneError, 1%nat)
                        else if (sz <=? 3)%nat then
                          (Z.lor (Z.lor (Z.shiftl (Z.land s0 0x0F) 12)
                                        (Z.shiftl (Z.land s1 0x3F) 6))
                                 (Z.land s2 0x3F), 3%nat)
                        else
                          match rest2 with
                          | EmptyString => (RuneError, 1%nat)
                          | String c3 _ =>
                              let s3 := byte c3 in
                              if negb (continues s3) then (RuneError, 1%nat)
                              else
                                (Z.lor (Z.lor (Z.lor (Z.shiftl (Z.land s0 0x07) 18)
                                                     (Z.shiftl (Z.land s1 0x3F) 12))
                                              (Z.shiftl (Z.land s2 0x3F) 6))
                                       (Z.land s3 0x3F), 4%nat)
                          end
                    end
              end
        end
  end.

(** The bytes of a text from the last to the first, and back. *)
Definition reversed (s : string) : list ascii := rev (list_ascii_of_string s).
Definition ofReversed (rs : list ascii) : string := string_of_list_ascii (rev rs).

(** [utf8.RuneStart]. *)
Definition RuneStart (b : Z) : bool := negb (Z.land b 0xC0 =? 0x80).

(** How many bytes before the last one [utf8.DecodeLastRuneInString] takes
    into the sequence it decodes: it walks back over at most three bytes
    to the nearest one that can start a rune and, finding none, one byte
    further (or to the start of the text). *)
Definition lookBack (before : list ascii) : nat :=
  match before with
  | [] => 0
  | b1 :: r1 =>
      if RuneStart (byte b1) then 1
      else match r1 with
           | [] => 1
           | b2 :: r2 =>
               if RuneStart (byte b2) then 2
               else match r2 with
                    | [] => 2
                    | b3 :: r3 =>
                        if RuneStart (byte b3) then 3
                        else match r3 with [] => 3 | _ :: _ => 4 end
                    end
           end
  end%nat.

(** [utf8.DecodeLastRuneInString] of the text whose bytes, from the last
    to the first, are [rs]: the last rune and its width. *)
Definition DecodeLastRune (rs : list ascii) : Z * nat :=
  match rs with
  | [] => (RuneError, 0%nat)
  | b0 :: before =>
      if byte b0 <? 0x80 then (byte b0, 1%nat)
      else
        let n := S (lookBack before) in
        let '(r, size) := DecodeRuneInString (ofReversed (take n rs)) in
        if (size =? n)%nat then (r, size) else (RuneError, 1%nat)
  end.

(** [strings.TrimLeftFunc(s, unicode.IsSpace)]: the text from its first
    rune that is not white space; [skip] counts the bytes still to pass of
    the white-space rune being left. *)
Fixpoint trimLeftLoop (s : string) (skip : nat) : string :=
  match s with
  | EmptyString => EmptyString
  | String _ rest =>
      match skip with
      | S k => trimLeftLoop rest k
      | O =>
          let '(r, size) := DecodeRuneInString s in
          if IsSpace r then trimLeftLoop rest (size - 1) else s
      end
  end.

Definition TrimLeftFunc (s : string) : string := trimLeftLoop s 0.

(** [lastIndexFunc(s, unicode.IsSpace, false)] on the bytes of [s] from the
    last to the first: runes are taken off the end while they are white
    space.  The result is the bytes before the last rune that is not white
    space, so that their number is the index of that rune; [None] is -1. *)
Fixpoint lastIndexLoop (rs : list ascii) (skip : nat) : option (list ascii) :=
  match rs with
  | [] => None
  | _ :: before =>
      match skip with
      | S k => lastIndexLoop before k
      | O =>
          let '(r, size) := DecodeLastRune rs in
          if IsSpace r then lastIndexLoop before (size - 1) else Some (drop size rs)
      end
  end.

(** [strings.TrimRightFunc(s, unicode.IsSpace)]: [s[0:i]], where [i] is the
    index found, moved past the rune that starts there. *)
Definition TrimRightFunc (s : string) : string :=
  match lastIndexLoop (reversed s) 0 with
  | None => EmptyString
  | Some before =>
      let i := length before in
      let tail := String.substring i (String.length s - i) s in
      let wid :=
        match tail with
        | String c _ => if 0x80 <=? byte c then snd (DecodeRuneInString tail) else 1%nat
        | EmptyString => 1%nat
        end in
      String.substring 0 (i + wid) s
  end.

(** [strings.TrimFunc(s, unicode.IsSpace)]. *)
Definition TrimFunc (s : string) : string := TrimRightFunc (TrimLeftFunc s).

(** The second loop of [strings.TrimSpace], on the bytes of [s[start:stop]]
    from the last to the first: ASCII white space is dropped; a byte of
    [0x80] or more hands [s[start:stop]] over to [TrimRightFunc]. *)
Fixpoint trimSpaceEnd (rs : list ascii) : string :=
  match rs with
  | [] => EmptyString
  | c :: before =>
      if 0x80 <=? byte c then TrimRightFunc (ofReversed rs)
      else if asciiSpace c then trimSpaceEnd before
      else ofReversed rs
  end.

(** [strings.TrimSpace]: the first loop drops ASCII white space from the
    front; a byte of [0x80] or more hands the rest over to [TrimFunc]; at
    the first other byte the second loop trims the end. *)
Fixpoint TrimSpace (s : string) : string :=
  match s with
  | EmptyString => EmptyString
  | String c rest =>
      if 0x80 <=? byte c then TrimFunc s
      else if asciiSpace c then TrimSpace rest
      else trimSpaceEnd (reversed s)
  end.

(** [strings.HasPrefix(s, prefix)]. *)
Fixpoint HasPrefix (s prefix : string) : bool :=
  match prefix, s with
  | EmptyString, _ => true
  | String _ _, EmptyString => false
  | String p ps, String c cs => Ascii.eqb p c && HasPrefix cs ps
  end.

(** [strings.HasSuffix(s, suffix)]. *)
Definition HasSuffix (s suffix : string) : bool :=
  let n := String.length s in
  let m := String.length suffix in
  (m <=? n)%nat && String.eqb (String.substring (n - m) m s) suffix.

(** [strings.Contains(s, substr)]. *)
Fixpoint Contains (s substr : string) : bool :=
  HasPrefix s substr ||
  match s with
  | EmptyString => false
  | String _ rest => Contains rest substr
  end.

(** The slice expression [s[lo:hi]]; panics unless [0 <= lo <= hi <= len s]. *)
Definition slice (s : string) (lo hi : Z) : option string :=
  if (0 <=? lo) && (lo <=? hi) && (hi <=? len s)
  then Some (String.substring (Z.to_nat lo) (Z.to_nat (hi - lo)) s)
  else None.

(** [s[lo:]] and [s[:hi]]. *)
Definition sliceFrom (s : string) (lo : Z) : option string := slice s lo (len s).
Definition sliceTo (s : string) (hi : Z) : option string := slice s 0 hi.

(** [fmt.Sprintf("%d", n)]. *)
Definition itoa (n : Z) : string := NilZero.string_of_int (Z.to_int n).

Definition digitVal (c : ascii) : option Z :=
  let n := Z.of_N (N_of_ascii c) in
  if (48 <=? n) && (n <=? 57) then Some (n - 48) else None.

Fixpoint parseDigits (acc : Z) (s : string) : option Z :=
  match s with
  | EmptyString => Some acc
  | String c rest =>
      match digitVal c with
      | Some d => parseDigits (acc * 10 + d) rest
      | None => None
      end
  end.

(** [strconv.Atoi]: an optional sign followed by at least one decimal
    digit; [None] stands for a non-nil error (syntax or range). *)
Definition Atoi (s : string) : option Z :=
  match s with
  | EmptyString => None
  | String c rest =>
      let neg := Ascii.eqb c "-" in
      let signed := neg || Ascii.eqb c "+" in
      let body := if signed then rest else s in
      match body with
      | EmptyString => None
      | String _ _ =>
          match parseDigits 0 body with
          | Some n =>
              let v := if neg then - n else n in
              if (GoInt.min_int <=? v) && (v <=? GoInt.max_int) then Some v else None
          | None => None
          end
      end
  end.

(** No byte of [s] has its top bit set: [setBits < utf8.RuneSelf] in
    [strings.Fields]. *)
Fixpoint isASCII (s : string) : bool :=
  match s with
  | EmptyString => true
  | String c rest => (byte c <? 0x80) && isASCII rest
  end.

(** The ASCII path of [strings.Fields]: the maximal runs of bytes that are
    not in [asciiSpace], in order.  A byte that is not white space starts a
    new field when the next byte is white space or missing, and otherwise
    extends the field that follows. *)
Fixpoint fieldsASCII (s : string) : list string :=
  match s with
  | EmptyString => []
  | String c rest =>
      if asciiSpace c then fieldsASCII rest
      else match rest with
           | EmptyString => [String c EmptyString]
           | String d _ =>
               if asciiSpace d then String c EmptyString :: fieldsASCII rest
               else match fieldsASCII rest with
                    | f :: fs => String c f :: fs
                    | [] => [String c EmptyString]
                    end
           end
  end.

(** For each byte of [s], whether the rune it belongs to is white space,
    the runes being those of [for end, rune := range s]; [skip] counts the
    bytes still to pass of the rune being left, [white] is its kind. *)
Fixpoint runeKinds (s : string) (skip : nat) (white : bool) : list bool :=
  match s with
  | EmptyString => []
  | String _ rest =>
      match skip with
      | S k => white :: runeKinds rest k white
      | O =>
          let '(r, size) := DecodeRuneInString s in
          IsSpace r :: runeKinds rest (size - 1) (IsSpace r)
      end
  end.

(** The maximal runs of bytes not marked as white space. *)
Fixpoint runsOf (s : string) (kinds : list bool) : list string :=
  match s, kinds with
  | String c rest, white :: kinds' =>
      if white then runsOf rest kinds'
      else match kinds' with
           | false :: _ =>
               match runsOf rest kinds' with
               | f :: fs => String c f :: fs
               | [] => [String c EmptyString]
               end
           | _ => String c EmptyString :: runsOf rest kinds'
           end
  | _, _ => []
  end.

(** [strings.FieldsFunc(s, unicode.IsSpace)]: the maximal runs of runes
    that are not white space. *)
Definition FieldsFunc (s : string) : list string := runsOf s (runeKinds s 0 false).

(** [strings.Fields]. *)
Definition Fields (s : string) : list string :=
  if isASCII s then fieldsASCII s else FieldsFunc s.

(** [strings.TrimPrefix]. *)
Definition TrimPrefix (s prefix : string) : string :=
  if HasPrefix s prefix
  then String.substring (String.length prefix) (String.length s - String.length prefix) s
  else s.

End GoStrings.

(* ===================================================================== *)
(** ** The root program: [main.go] *)
(* ===================================================================== *)

Module Root.

Import GoInt.

Inductive ViewType :=
| ClusterOrNamespaceView
| NamespaceView
| ResourceView
| DetailView
| LogView
| EventView.

Inductive ResourceScope := ClusterScoped | NamespaceScoped.

Inductive ResourceType :=
| NodesResource
| PersistentVolumesResource
| StorageClassesResource
| ClusterRolesResource
| PodsResource
| ServicesResource
| DeploymentsResource
| ConfigMapsResource
| SecretsResource
| IngressResource
| PersistentVolumeClaimsResource
| ReplicaSetsResource
| DaemonSetsResource
| StatefulSetsResource
| JobsResource
| CronJobsResource
| EventsResource.

Record ResourceInfo := {
  InfoName : string;
  Scope : ResourceScope;
  SupportsLogs : bool;
  SupportsEvents : bool
}.

(** [GetResourceInfo] (the icon column is display only and left out). *)
Definition GetResourceInfo (rt : ResourceType) : ResourceInfo :=
  match rt with
  | NodesResource => Build_ResourceInfo "Nodes" ClusterScoped false true
  | PersistentVolumesResource => Build_ResourceInfo "Persistent Volumes" ClusterScoped false true
  | StorageClassesResource => Build_ResourceInfo "Storage Classes" ClusterScoped false false
  | ClusterRolesResource => Build_ResourceInfo "Cluster Roles" ClusterScoped false false
  | PodsResource => Build_ResourceInfo "Pods" NamespaceScoped true true
  | ServicesResource => Build_ResourceInfo "Services" NamespaceScoped false true
  | DeploymentsResource => Build_ResourceInfo "Deployments" NamespaceScoped false true
  | ConfigMapsResource => Build_ResourceInfo "ConfigMaps" NamespaceScoped false true
  | SecretsResource => Build_ResourceInfo "Secrets" NamespaceScoped false true
  | IngressResource => Build_ResourceInfo "Ingress" NamespaceScoped false true
  | PersistentVolumeClaimsResource =>
      Build_ResourceInfo "Persistent Volume Claims" NamespaceScoped false true
  | ReplicaSetsResource => Build_ResourceInfo "ReplicaSets" NamespaceScoped false true
  | DaemonSetsResource => Build_ResourceInfo "DaemonSets" NamespaceScoped false true
  | StatefulSetsResource => Build_ResourceInfo "StatefulSets" NamespaceScoped false true
  | JobsResource => Build_ResourceInfo "Jobs" NamespaceScoped false true
  | CronJobsResource => Build_ResourceInfo "CronJobs" NamespaceScoped false true
  | EventsResource => Build_ResourceInfo "Events" NamespaceScoped false false
  end.

Record K8sResource := {
  Name : string;
  Namespace : string;
  Status : string;
  Age : string;
  Details : gmap string string;
  ResourceKind : ResourceType;   (* field [ResourceType] of the struct *)
  Errors : list string;
  Warnings : list string
}.

(** Reading a Go map at a missing key gives the zero value. *)
Definition detail (r : K8sResource) (key : string) : string :=
  default "" (Details r !! key).

Definition withHealth (r : K8sResource) (errs warns : list string) : K8sResource :=
  {| Name := Name r; Namespace := Namespace r; Status := Status r; Age := Age r;
     Details := Details r; ResourceKind := ResourceKind r;
     Errors := errs; Warnings := warns |}.

(** [analyzeResourceHealth]: the annotations start empty and are appended
    to in source order. *)
Definition analyzeResourceHealth (resource : K8sResource) : K8sResource :=
  let errors0 : list string := [] in
  let warnings0 : list string := [] in
  match ResourceKind resource with
  | PodsResource =>
      let errors1 :=
        if String.eqb (Status resource) "Failed" || String.eqb (Status resource) "Error"
        then errors0 ++ ["Pod is in failed state"] else errors0 in
      let warnings1 :=
        if String.eqb (Status resource) "Pending"
        then warnings0 ++ ["Pod is stuck in pending state"] else warnings0 in
      let restarts := detail resource "Restarts" in
      let warnings2 :=
        if negb (String.eqb restarts "") && negb (String.eqb restarts "0")
        then match GoStrings.Atoi restarts with
             | Some r =>
                 if 5 <? r
                 then warnings1 ++ ["High restart count: " +:+ restarts]
                 else warnings1
             | None => warnings1
             end
        else warnings1 in
      withHealth resource errors1 warnings2
  | DeploymentsResource =>
      withHealth resource
        (if String.eqb (Status resource) "NotReady"
         then errors0 ++ ["Deployment replicas not ready"] else errors0)
        warnings0
  | ServicesResource =>
      withHealth resource errors0
        (if String.eqb (detail resource "Endpoints") "0"
         then warnings0 ++ ["Service has no endpoints"] else warnings0)
  | JobsResource =>
      withHealth resource
        (if String.eqb (Status resource) "Failed"
         then errors0 ++ ["Job failed to complete"] else errors0)
        warnings0
  | _ => withHealth resource errors0 warnings0
  end.

(** *** Loading the pod list ([loadPods]) *)


(** What [loadPods] reads of a [corev1.ContainerStatus]. *)
Module ContainerStatus.
Record t := {
  Name : string;
  RestartCount : Z;             (* [int32] *)
  Ready : bool;
  Waiting : option string;      (* [State.Waiting], when not nil: its [Reason] *)
  Terminated : option Z         (* [State.Terminated], when not nil: its [ExitCode] *)
}.
End ContainerStatus.
Abbreviation ContainerStatus := ContainerStatus.t.

(** What [loadPods] reads of a [corev1.Pod].  The clock and the quantity
    library are outside the program: the time since creation, the age text
    made of it and the four resource figures made of the containers'
    requests and limits are taken as they come. *)
Module Pod.
Record t := {
  Name : string;
  Namespace : string;
  Phase : string;                            (* [Status.Phase] *)
  ContainerStatuses : list ContainerStatus;  (* [Status.ContainerStatuses] *)
  sinceCreation : Z;       (* [now.Sub(pod.CreationTimestamp.Time)], nanoseconds *)
  age : string;            (* [humanAge] of that duration *)
  NodeName : string;       (* [Spec.NodeName] *)
  PodIP : string;          (* [Status.PodIP] *)
  containers : Z;          (* [len(pod.Spec.Containers)] *)
  cpuReq : string;         (* [cpuReq.String()] *)
  memoryReq : string;      (* [formatMemory(memoryReq)] *)
  cpuLimit : string;       (* [cpuLimit.String()] *)
  memoryLimit : string;    (* [formatMemory(memoryLimit)] *)
  QOSClass : string        (* [Status.QOSClass] *)
}.
End Pod.
Abbreviation Pod := Pod.t.







(** *** Navigation and message folding *)

Record LogEntry := { LogMessage : string; Container : string; Level : string }.

Record EventEntry := {
  EventType : string; Reason : string; EventMessage : string;
  Source : string; Count : Z
}.

(** The fields of [Model] that its transition functions read or write
    (client handles and wall-clock stamps are left out). *)
Record Model := {
  isOpenShift : bool;
  currentView : ViewType;
  cursor : Z;
  viewStack : list ViewType;          (* top of the stack is the last element *)
  logScrollOffset : Z;
  eventScrollOffset : Z;
  namespaces : list string;
  resourceTypes : list ResourceType;
  resources : list K8sResource;
  logEntries : list LogEntry;
  eventEntries : list EventEntry;
  selectedNamespace : string;
  selectedResource : ResourceType;
  selectedK8sResource : option K8sResource;
  selectedScope : ResourceScope;
  width : Z;
  height : Z;
  loading : bool;
  errorMessage : string;
  autoRefresh : bool
}.

(** A command closes over the [Model] value it was created from. *)
Inductive Cmd :=
| CmdNone
| Quit
| Tick
| LoadNamespaces (issuedBy : Model)
| LoadResources (issuedBy : Model)
| LoadLogs (issuedBy : Model)
| LoadEvents (issuedBy : Model).

(** A Go [error] value: [None] is [nil], [Some text] an error. *)
Definition error := option string.

Inductive Msg :=
| WindowSizeMsg (w h : Z)
| KeyMsg (key : string)
| namespacesLoadedMsg (names : list string) (err : error)
| resourcesLoadedMsg (rs : list K8sResource) (err : error)
| logsLoadedMsg (logs : list LogEntry) (err : error)
| eventsLoadedMsg (events : list EventEntry) (err : error)
| refreshMsg.

Definition view_eqb (a b : ViewType) : bool :=
  match a, b with
  | ClusterOrNamespaceView, ClusterOrNamespaceView
  | NamespaceView, NamespaceView
  | ResourceView, ResourceView
  | DetailView, DetailView
  | LogView, LogView
  | EventView, EventView => true
  | _, _ => false
  end.

(** [s[i]] on a slice: panics outside [0 <= i < len s]. *)
Definition index {A} (l : list A) (i : Z) : option A :=
  if (0 <=? i) && (i <? len l) then l !! Z.to_nat i else None.

Definition clusterResourceTypes : list ResourceType :=
  [NodesResource; PersistentVolumesResource; StorageClassesResource; ClusterRolesResource].

Definition namespaceResourceTypes : list ResourceType :=
  [PodsResource; ServicesResource; DeploymentsResource;
   ConfigMapsResource; SecretsResource; IngressResource;
   PersistentVolumeClaimsResource; ReplicaSetsResource;
   DaemonSetsResource; StatefulSetsResource;
   JobsResource; CronJobsResource; EventsResource].

Definition set_nav (m : Model) (v : ViewType) (st : list ViewType) (c : Z) : Model :=
  {| isOpenShift := isOpenShift m; currentView := v; cursor := c; viewStack := st;
     logScrollOffset := logScrollOffset m; eventScrollOffset := eventScrollOffset m;
     namespaces := namespaces m; resourceTypes := resourceTypes m;
     resources := resources m; logEntries := logEntries m;
     eventEntries := eventEntries m; selectedNamespace := selectedNamespace m;
     selectedResource := selectedResource m;
     selectedK8sResource := selectedK8sResource m; selectedScope := selectedScope m;
     width := width m; height := height m; loading := loading m;
     errorMessage := errorMessage m; autoRefresh := autoRefresh m |}.

Definition set_cursor (m : Model) (c : Z) : Model :=
  set_nav m (currentView m) (viewStack m) c.

Definition set_scroll (m : Model) (lo eo : Z) : Model :=
  {| isOpenShift := isOpenShift m; currentView := currentView m; cursor := cursor m;
     viewStack := viewStack m;
     logScrollOffset := lo; eventScrollOffset := eo;
     namespaces := namespaces m; resourceTypes := resourceTypes m;
     resources := resources m; logEntries := logEntries m;
     eventEntries := eventEntries m; selectedNamespace := selectedNamespace m;
     selectedResource := selectedResource m;
     selectedK8sResource := selectedK8sResource m; selectedScope := selectedScope m;
     width := width m; height := height m; loading := loading m;
     errorMessage := errorMessage m; autoRefresh := autoRefresh m |}.

Definition set_selection (m : Model) (ns : string) (rt : ResourceType)
    (sel : option K8sResource) (sc : ResourceScope) (rts : list ResourceType) : Model :=
  {| isOpenShift := isOpenShift m; currentView := currentView m; cursor := cursor m;
     viewStack := viewStack m;
     logScrollOffset := logScrollOffset m; eventScrollOffset := eventScrollOffset m;
     namespaces := namespaces m; resourceTypes := rts;
     resources := resources m; logEntries := logEntries m;
     eventEntries := eventEntries m; selectedNamespace := ns;
     selectedResource := rt;
     selectedK8sResource := sel; selectedScope := sc;
     width := width m; height := height m; loading := loading m;
     errorMessage := errorMessage m; autoRefresh := autoRefresh m |}.

Definition set_data (m : Model) (nss : list string) (rs : list K8sResource)
    (ls : list LogEntry) (es : list EventEntry) : Model :=
  {| isOpenShift := isOpenShift m; currentView := currentView m; cursor := cursor m;
     viewStack := viewStack m;
     logScrollOffset := logScrollOffset m; eventScrollOffset := eventScrollOffset m;
     namespaces := nss; resourceTypes := resourceTypes m;
     resources := rs; logEntries := ls;
     eventEntries := es; selectedNamespace := selectedNamespace m;
     selectedResource := selectedResource m;
     selectedK8sResource := selectedK8sResource m; selectedScope := selectedScope m;
     width := width m; height := height m; loading := loading m;
     errorMessage := errorMessage m; autoRefresh := autoRefresh m |}.

Definition set_ui (m : Model) (w h : Z) (ld : bool) (em : string) (ar : bool) : Model :=
  {| isOpenShift := isOpenShift m; currentView := currentView m; cursor := cursor m;
     viewStack := viewStack m;
     logScrollOffset := logScrollOffset m; eventScrollOffset := eventScrollOffset m;
     namespaces := namespaces m; resourceTypes := resourceTypes m;
     resources := resources m; logEntries := logEntries m;
     eventEntries := eventEntries m; selectedNamespace := selectedNamespace m;
     selectedResource := selectedResource m;
     selectedK8sResource := selectedK8sResource m; selectedScope := selectedScope m;
     width := w; height := h; loading := ld;
     errorMessage := em; autoRefresh := ar |}.

Definition set_loading (m : Model) (ld : bool) : Model :=
  set_ui m (width m) (height m) ld (errorMessage m) (autoRefresh m).

Definition set_errorMessage (m : Model) (em : string) : Model :=
  set_ui m (width m) (height m) (loading m) em (autoRefresh m).

(** [navigateBack]. *)
Definition navigateBack (m : Model) : Model * Cmd :=
  match last (viewStack m) with
  | Some top =>
      let m := set_nav m top (removelast (viewStack m)) 0 in
      let m := set_scroll m 0 0 in
      (set_errorMessage m "", CmdNone)
  | None => (m, CmdNone)
  end.

(** [handleSelection]. *)
Definition handleSelection (m : Model) : option (Model * Cmd) :=
  match currentView m with
  | ClusterOrNamespaceView =>
      let m := set_nav m (currentView m) (viewStack m ++ [currentView m]) (cursor m) in
      if cursor m =? 0 then
        let m := set_selection m (selectedNamespace m) (selectedResource m)
                   (selectedK8sResource m) ClusterScoped (resourceTypes m) in
        let m := set_nav m ResourceView (viewStack m) (cursor m) in
        let m := set_selection m (selectedNamespace m) (selectedResource m)
                   (selectedK8sResource m) (selectedScope m) clusterResourceTypes in
        Some (set_cursor m 0, CmdNone)
      else
        let m := set_selection m (selectedNamespace m) (selectedResource m)
                   (selectedK8sResource m) NamespaceScoped (resourceTypes m) in
        let m := set_nav m NamespaceView (viewStack m) (cursor m) in
        let m := set_loading m true in
        Some (m, LoadNamespaces m)
  | NamespaceView =>
      if (0 <? len (namespaces m)) && (cursor m <? len (namespaces m)) then
        ns ← index (namespaces m) (cursor m);
        let m := set_selection m ns (selectedResource m)
                   (selectedK8sResource m) (selectedScope m) (resourceTypes m) in
        let m := set_nav m ResourceView (viewStack m ++ [currentView m]) 0 in
        let m := set_selection m (selectedNamespace m) (selectedResource m)
                   (selectedK8sResource m) (selectedScope m) namespaceResourceTypes in
        Some (m, CmdNone)
      else Some (m, CmdNone)
  | ResourceView =>
      if (0 <? len (resourceTypes m)) && (cursor m <? len (resourceTypes m)) then
        rt ← index (resourceTypes m) (cursor m);
        let m := set_selection m (selectedNamespace m) rt
                   (selectedK8sResource m) (selectedScope m) (resourceTypes m) in
        let m := set_nav m DetailView (viewStack m ++ [currentView m]) 0 in
        let m := set_loading m true in
        Some (m, LoadResources m)
      else Some (m, CmdNone)
  | _ => Some (m, CmdNone)
  end.

Definition scrollMax (entries : Z) (h : Z) : Z :=
  let maxScroll := sub entries (sub h 10) in
  if maxScroll <? 0 then 0 else maxScroll.

(** The shared body of the ["l"] and ["e"] cases. *)
Definition openResourcePane (m : Model) (target : ViewType)
    (supported : ResourceInfo -> bool) (load : Model -> Cmd) : option (Model * Cmd) :=
  if view_eqb (currentView m) DetailView && (0 <? len (resources m))
     && (cursor m <? len (resources m)) then
    selected ← index (resources m) (cursor m);
    if supported (GetResourceInfo (ResourceKind selected)) then
      let m := set_selection m (selectedNamespace m) (selectedResource m)
                 (Some selected) (selectedScope m) (resourceTypes m) in
      let m := set_nav m target (viewStack m ++ [currentView m]) 0 in
      let m := match target with
               | LogView => set_scroll m 0 (eventScrollOffset m)
               | _ => set_scroll m (logScrollOffset m) 0
               end in
      let m := set_loading m true in
      Some (m, load m)
    else Some (m, CmdNone)
  else Some (m, CmdNone).

(** [handleKeyPress]. *)
Definition handleKeyPress (key : string) (m : Model) : option (Model * Cmd) :=
  if String.eqb key "ctrl+c" || String.eqb key "q" then Some (m, Quit)
  else if String.eqb key "up" || String.eqb key "k" then
    match currentView m with
    | LogView =>
        Some (if 0 <? logScrollOffset m
              then set_scroll m (sub (logScrollOffset m) 1) (eventScrollOffset m)
              else m, CmdNone)
    | EventView =>
        Some (if 0 <? eventScrollOffset m
              then set_scroll m (logScrollOffset m) (sub (eventScrollOffset m) 1)
              else m, CmdNone)
    | _ => Some (if 0 <? cursor m then set_cursor m (sub (cursor m) 1) else m, CmdNone)
    end
  else if String.eqb key "down" || String.eqb key "j" then
    match currentView m with
    | LogView =>
        Some (if logScrollOffset m <? scrollMax (len (logEntries m)) (height m)
              then set_scroll m (add (logScrollOffset m) 1) (eventScrollOffset m)
              else m, CmdNone)
    | EventView =>
        Some (if eventScrollOffset m <? scrollMax (len (eventEntries m)) (height m)
              then set_scroll m (logScrollOffset m) (add (eventScrollOffset m) 1)
              else m, CmdNone)
    | ClusterOrNamespaceView =>
        Some (if cursor m <? 1 then set_cursor m (add (cursor m) 1) else m, CmdNone)
    | NamespaceView =>
        Some (if cursor m <? sub (len (namespaces m)) 1
              then set_cursor m (add (cursor m) 1) else m, CmdNone)
    | ResourceView =>
        Some (if cursor m <? sub (len (resourceTypes m)) 1
              then set_cursor m (add (cursor m) 1) else m, CmdNone)
    | DetailView =>
        Some (if cursor m <? sub (len (resources m)) 1
              then set_cursor m (add (cursor m) 1) else m, CmdNone)
    end
  else if String.eqb key "enter" || String.eqb key " " then handleSelection m
  else if String.eqb key "esc" || String.eqb key "backspace" then Some (navigateBack m)
  else if String.eqb key "l" then openResourcePane m LogView SupportsLogs LoadLogs
  else if String.eqb key "e" then openResourcePane m EventView SupportsEvents LoadEvents
  else if String.eqb key "r" then
    match currentView m with
    | NamespaceView => let m := set_loading m true in Some (m, LoadNamespaces m)
    | DetailView => let m := set_loading m true in Some (m, LoadResources m)
    | LogView =>
        match selectedK8sResource m with
        | Some _ => let m := set_loading m true in Some (m, LoadLogs m)
        | None => Some (m, CmdNone)
        end
    | EventView => let m := set_loading m true in Some (m, LoadEvents m)
    | _ => Some (m, CmdNone)
    end
  else if String.eqb key "a" then
    Some (set_ui m (width m) (height m) (loading m) (errorMessage m)
            (negb (autoRefresh m)), CmdNone)
  else Some (m, CmdNone).

(** [Update]: one step of the message loop. *)
Definition Update (msg : Msg) (m : Model) : option (Model * Cmd) :=
  match msg with
  | WindowSizeMsg w h =>
      Some (set_ui m w h (loading m) (errorMessage m) (autoRefresh m), CmdNone)
  | KeyMsg key => handleKeyPress key m
  | namespacesLoadedMsg names err =>
      let m := set_loading m false in
      match err with
      | Some e => Some (set_errorMessage m ("Error loading namespaces: " +:+ e), CmdNone)
      | None =>
          let m := set_data m names (resources m) (logEntries m) (eventEntries m) in
          Some (set_errorMessage m "", CmdNone)
      end
  | resourcesLoadedMsg rs err =>
      let m := set_loading m false in
      match err with
      | Some e => Some (set_errorMessage m ("Error loading resources: " +:+ e), CmdNone)
      | None =>
          let m := set_data m (namespaces m) rs (logEntries m) (eventEntries m) in
          Some (set_errorMessage m "", CmdNone)
      end
  | logsLoadedMsg logs err =>
      let m := set_loading m false in
      match err with
      | Some e => Some (set_errorMessage m ("Error loading logs: " +:+ e), CmdNone)
      | None =>
          let m := set_data m (namespaces m) (resources m) logs (eventEntries m) in
          Some (set_errorMessage m "", CmdNone)
      end
  | eventsLoadedMsg events err =>
      let m := set_loading m false in
      match err with
      | Some e => Some (set_errorMessage m ("Error loading events: " +:+ e), CmdNone)
      | None =>
          let m := set_data m (namespaces m) (resources m) (logEntries m) events in
          Some (set_errorMessage m "", CmdNone)
      end
  | refreshMsg =>
      if autoRefresh m then
        match currentView m with
        | DetailView => Some (m, LoadResources m)
        | LogView => Some (m, LoadLogs m)
        | EventView => Some (m, LoadEvents m)
        | _ => Some (m, Tick)
        end
      else Some (m, Tick)
  end.

(** The model built in [main]. *)
Definition initialModel : Model :=
  {| isOpenShift := false; currentView := ClusterOrNamespaceView; cursor := 0;
     viewStack := []; logScrollOffset := 0; eventScrollOffset := 0;
     namespaces := []; resourceTypes := []; resources := [];
     logEntries := []; eventEntries := [];
     selectedNamespace := ""; selectedResource := NodesResource;
     selectedK8sResource := None; selectedScope := ClusterScoped;
     width := 0; height := 0; loading := false; errorMessage := "";
     autoRefresh := true |}.

End Root.

(* ===================================================================== *)
(** ** The [pkg/ui] application: data model ([internal/types]) *)
(* ===================================================================== *)

Module UI.

Import GoInt.

Inductive ViewType :=
| ResourceView
| DetailView
| HelpView
| ContextView
| DescribeView
| TagsView
| TopView
| ResourcesView
| YamlView
| EventsView
| NamespaceView
| DiagramView
| FeedbackView
| MemoryView
| LogsView.

(** The [iota] value of a view; [==] on views compares these. *)
Definition view_code (v : ViewType) : Z :=
  match v with
  | ResourceView => 0 | DetailView => 1 | HelpView => 2 | ContextView => 3
  | DescribeView => 4 | TagsView => 5 | TopView => 6 | ResourcesView => 7
  | YamlView => 8 | EventsView => 9 | NamespaceView => 10 | DiagramView => 11
  | FeedbackView => 12 | MemoryView => 13 | LogsView => 14
  end.

Definition view_eqb (a b : ViewType) : bool := view_code a =? view_code b.

Module Resource.
Record t := {
  Name : string;
  Namespace : string;
  Type_ : string;            (* field [Type] *)
  Status : string;
  Ready : string;
  Restarts : Z;
  Age : Z;                   (* [time.Duration]: nanoseconds, 64-bit *)
  CPU : string;
  Memory : string;
  Description : string;
  Volume : string;
  Capacity : string;
  AccessModes : string;
  StorageClass : string
}.
End Resource.
Abbreviation Resource := Resource.t.

Module PaginatedResult.
Record t := {
  Items : list Resource;
  CurrentPage : Z;
  TotalPages : Z;
  TotalItems : Z;
  HasNext : bool;
  HasPrev : bool
}.
End PaginatedResult.
Abbreviation PaginatedResult := PaginatedResult.t.

(** [types.AppState]: the fields that the handlers read or write.  The
    banner, accessibility and search-filter fields and the wall-clock
    stamp [LastUpdate] are touched by no handler below and are left out. *)
Record AppState := {
  CurrentView : ViewType;
  SelectedResource : Resource;
  CurrentPage : Z;
  PageSize : Z;
  TotalItems : Z;
  TotalPages : Z;
  SelectedIndex : Z;
  FocusedElement : string;
  Resources : list Resource;
  ResourceType : string;
  Context : string;
  Namespace : string;
  Tool : string;
  DescribeOutput : string;
  PreviousView : ViewType;
  PreviousResource : string;
  DescribeScrollOffset : Z;
  TagsOutput : string;
  TagsScrollOffset : Z;
  TopOutput : string;
  TopScrollOffset : Z;
  ResourcesOutput : string;
  ResourcesScrollOffset : Z;
  YamlOutput : string;
  YamlScrollOffset : Z;
  EventsOutput : string;
  EventsScrollOffset : Z;
  DiagramOutput : string;
  DiagramScrollOffset : Z;
  MemoryOutput : string;
  MemoryScrollOffset : Z;
  LogsOutput : string;
  LogsScrollOffset : Z;
  StatusMessage : string;
  SelectionActive : bool;
  SelectionStartX : Z;
  SelectionStartY : Z;
  SelectionEndX : Z;
  SelectionEndY : Z;
  SelectedText : string;
  FeedbackText : string;
  FeedbackCursorPos : Z;
  ShowFeedbackForm : bool;
  FeedbackSubmitting : bool;
  SortField : string;
  SortDirection : string
}.

(** A state rebuilt field by field; every field update below is this term
    with one field replaced. *)
Definition rebuild (s : AppState) : AppState :=
  {| CurrentView := CurrentView s; SelectedResource := SelectedResource s;
     CurrentPage := CurrentPage s; PageSize := PageSize s; TotalItems := TotalItems s;
     TotalPages := TotalPages s; SelectedIndex := SelectedIndex s;
     FocusedElement := FocusedElement s; Resources := Resources s;
     ResourceType := ResourceType s; Context := Context s; Namespace := Namespace s;
     Tool := Tool s; DescribeOutput := DescribeOutput s; PreviousView := PreviousView s;
     PreviousResource := PreviousResource s;
     DescribeScrollOffset := DescribeScrollOffset s;
     TagsOutput := TagsOutput s; TagsScrollOffset := TagsScrollOffset s;
     TopOutput := TopOutput s; TopScrollOffset := TopScrollOffset s;
     ResourcesOutput := ResourcesOutput s;
     ResourcesScrollOffset := ResourcesScrollOffset s;
     YamlOutput := YamlOutput s; YamlScrollOffset := YamlScrollOffset s;
     EventsOutput := EventsOutput s; EventsScrollOffset := EventsScrollOffset s;
     DiagramOutput := DiagramOutput s; DiagramScrollOffset := DiagramScrollOffset s;
     MemoryOutput := MemoryOutput s; MemoryScrollOffset := MemoryScrollOffset s;
     LogsOutput := LogsOutput s; LogsScrollOffset := LogsScrollOffset s;
     StatusMessage := StatusMessage s; SelectionActive := SelectionActive s;
     SelectionStartX := SelectionStartX s; SelectionStartY := SelectionStartY s;
     SelectionEndX := SelectionEndX s; SelectionEndY := SelectionEndY s;
     SelectedText := SelectedText s; FeedbackText := FeedbackText s;
     FeedbackCursorPos := FeedbackCursorPos s; ShowFeedbackForm := ShowFeedbackForm s;
     FeedbackSubmitting := FeedbackSubmitting s; SortField := SortField s;
     SortDirection := SortDirection s |}.

(** [field_update proj] builds [fun v s => rebuild s] with [proj s] replaced
    by [v], i.e. the assignment [a.state.proj = v]. *)
Ltac field_update proj :=
  let v := fresh "v" in
  let s := fresh "s" in
  intros v s;
  let e := eval cbv delta [rebuild] beta in (rebuild s) in
  let e' := eval pattern (proj s) in e in
  lazymatch e' with
  | ?f _ => let r := eval cbv beta in (f v) in exact r
  end.

Definition set_CurrentView : ViewType -> AppState -> AppState := ltac:(field_update CurrentView).
Definition set_SelectedResource : Resource -> AppState -> AppState :=
  ltac:(field_update SelectedResource).
Definition set_CurrentPage : Z -> AppState -> AppState := ltac:(field_update CurrentPage).
Definition set_TotalItems : Z -> AppState -> AppState := ltac:(field_update TotalItems).
Definition set_TotalPages : Z -> AppState -> AppState := ltac:(field_update TotalPages).
Definition set_SelectedIndex : Z -> AppState -> AppState := ltac:(field_update SelectedIndex).
Definition set_FocusedElement : string -> AppState -> AppState :=
  ltac:(field_update FocusedElement).
Definition set_Resources : list Resource -> AppState -> AppState :=
  ltac:(field_update Resources).
Definition set_ResourceType : string -> AppState -> AppState := ltac:(field_update ResourceType).
Definition set_Context : string -> AppState -> AppState := ltac:(field_update Context).
Definition set_Namespace : string -> AppState -> AppState := ltac:(field_update Namespace).
Definition set_Tool : string -> AppState -> AppState := ltac:(field_update Tool).
Definition set_DescribeOutput : string -> AppState -> AppState :=
  ltac:(field_update DescribeOutput).
Definition set_PreviousView : ViewType -> AppState -> AppState :=
  ltac:(field_update PreviousView).
Definition set_PreviousResource : string -> AppState -> AppState :=
  ltac:(field_update PreviousResource).
Definition set_DescribeScrollOffset : Z -> AppState -> AppState :=
  ltac:(field_update DescribeScrollOffset).
Definition set_TagsOutput : string -> AppState -> AppState := ltac:(field_update TagsOutput).
Definition set_TagsScrollOffset : Z -> AppState -> AppState :=
  ltac:(field_update TagsScrollOffset).
Definition set_TopScrollOffset : Z -> AppState -> AppState :=
  ltac:(field_update TopScrollOffset).
Definition set_ResourcesOutput : string -> AppState -> AppState :=
  ltac:(field_update ResourcesOutput).
Definition set_ResourcesScrollOffset : Z -> AppState -> AppState :=
  ltac:(field_update ResourcesScrollOffset).
Definition set_YamlOutput : string -> AppState -> AppState := ltac:(field_update YamlOutput).
Definition set_YamlScrollOffset : Z -> AppState -> AppState :=
  ltac:(field_update YamlScrollOffset).
Definition set_EventsOutput : string -> AppState -> AppState :=
  ltac:(field_update EventsOutput).
Definition set_EventsScrollOffset : Z -> AppState -> AppState :=
  ltac:(field_update EventsScrollOffset).
Definition set_DiagramOutput : string -> AppState -> AppState :=
  ltac:(field_update DiagramOutput).
Definition set_DiagramScrollOffset : Z -> AppState -> AppState :=
  ltac:(field_update DiagramScrollOffset).
Definition set_MemoryScrollOffset : Z -> AppState -> AppState :=
  ltac:(field_update MemoryScrollOffset).
Definition set_LogsScrollOffset : Z -> AppState -> AppState :=
  ltac:(field_update LogsScrollOffset).
Definition set_StatusMessage : string -> AppState -> AppState :=
  ltac:(field_update StatusMessage).
Definition set_SelectionActive : bool -> AppState -> AppState :=
  ltac:(field_update SelectionActive).
Definition set_SelectionStartX : Z -> AppState -> AppState :=
  ltac:(field_update SelectionStartX).
Definition set_SelectionStartY : Z -> AppState -> AppState :=
  ltac:(field_update SelectionStartY).
Definition set_SelectionEndX : Z -> AppState -> AppState := ltac:(field_update SelectionEndX).
Definition set_SelectionEndY : Z -> AppState -> AppState := ltac:(field_update SelectionEndY).
Definition set_SelectedText : string -> AppState -> AppState :=
  ltac:(field_update SelectedText).
Definition set_FeedbackText : string -> AppState -> AppState :=
  ltac:(field_update FeedbackText).
Definition set_FeedbackCursorPos : Z -> AppState -> AppState :=
  ltac:(field_update FeedbackCursorPos).
Definition set_ShowFeedbackForm : bool -> AppState -> AppState :=
  ltac:(field_update ShowFeedbackForm).
Definition set_FeedbackSubmitting : bool -> AppState -> AppState :=
  ltac:(field_update FeedbackSubmitting).
Definition set_SortField : string -> AppState -> AppState := ltac:(field_update SortField).
Definition set_SortDirection : string -> AppState -> AppState :=
  ltac:(field_update SortDirection).

(* ===================================================================== *)
(** ** The [pkg/ui] application: the [App], its collaborators, messages *)
(* ===================================================================== *)

(** [s[i]] on a slice: panics outside [0 <= i < len s]. *)
Definition index {A} (l : list A) (i : Z) : option A :=
  if (0 <=? i) && (i <? len l) then l !! Z.to_nat i else None.

(** [s[lo:hi]] on a slice whose capacity is not exceeded: panics unless
    [0 <= lo <= hi <= len s] (every use below has [hi <= len s]). *)
Definition sliceList {A} (l : list A) (lo hi : Z) : option (list A) :=
  if (0 <=? lo) && (lo <=? hi) && (hi <=? len l)
  then Some (take (Z.to_nat (hi - lo)) (drop (Z.to_nat lo) l))
  else None.

(** The index set by [for i, x := range xs { if x == cur { idx = i; break } }]. *)
Fixpoint firstIndexOf (cur : string) (xs : list string) (i : Z) : option Z :=
  match xs with
  | [] => None
  | x :: rest => if String.eqb x cur then Some i else firstIndexOf cur rest (i + 1)
  end.

Module ContextSelector.
Record t := {
  contexts : list string;
  currentContext : string;
  selectedIndex : Z
}.
End ContextSelector.
Abbreviation ContextSelector := ContextSelector.t.

Module NamespaceSelector.
Record t := {
  namespaces : list string;
  currentNamespace : string;
  selectedIndex : Z
}.
End NamespaceSelector.
Abbreviation NamespaceSelector := NamespaceSelector.t.

(** [utils.PodInfo]: one parsed row of CLI output. *)
Module PodInfo.
Record t := {
  Name : string;
  Ready : string;
  Status : string;
  Restarts : string;
  Age : string;
  CPU : string;
  Memory : string;
  Volume : string;
  Capacity : string;
  AccessModes : string;
  StorageClass : string
}.
End PodInfo.
Abbreviation PodInfo := PodInfo.t.

(** The listing calls of [utils.OcCommands] used by [fetchResources]. *)
Inductive Listing :=
| GetPods | GetServices | GetDeployments | GetPVC
| GetImageStreams | GetSecrets | GetConfigMaps | GetEvents.

(** What lies outside the program at the moment of a call: the answers of
    the [oc]/[kubectl] processes and of the library routines whose result
    the language leaves open.  A failed call carries its error text. *)
Record Env := {
  GetTool : string;
  GetContexts : option (list string * string);
  SwitchContext : string -> bool;                  (* [true]: [err == nil] *)
  GetNamespaces : option (list string);
  GetCurrentNamespace : option string;
  runProject : string -> string -> bool;           (* tool, namespace; [true]: [err == nil] *)
  list_ : Listing -> string -> list PodInfo + string;
  sort_Slice : (Resource -> Resource -> bool) -> list Resource -> list Resource;
  Sscanf_int : string -> string -> Z               (* input, format; 0 when nothing is stored *)
}.

Record App := {
  state : AppState;
  contextSelector : ContextSelector;
  namespaceSelector : option NamespaceSelector;    (* [nil] until first created *)
  width : Z;
  height : Z
}.

Definition with_state (a : App) (s : AppState) : App :=
  {| state := s; contextSelector := contextSelector a;
     namespaceSelector := namespaceSelector a; width := width a; height := height a |}.

Definition with_contextSelector (a : App) (cs : ContextSelector) : App :=
  {| state := state a; contextSelector := cs;
     namespaceSelector := namespaceSelector a; width := width a; height := height a |}.

Definition with_namespaceSelector (a : App) (ns : option NamespaceSelector) : App :=
  {| state := state a; contextSelector := contextSelector a;
     namespaceSelector := ns; width := width a; height := height a |}.

Definition with_size (a : App) (w h : Z) : App :=
  {| state := state a; contextSelector := contextSelector a;
     namespaceSelector := namespaceSelector a; width := w; height := h |}.

(** [a.state = f(a.state)]. *)
Definition upd (f : AppState -> AppState) (a : App) : App := with_state a (f (state a)).

(** Commands handed back to the runtime.  A fetch command is a method value
    bound to the [App] pointer: it reads the state at the time it runs. *)
Inductive Cmd :=
| CmdNone
| Quit
| Tick
| Batch (c1 c2 : Cmd)
| CmdFetchResources
| CmdFetchResourceDescription
| CmdFetchResourceTags
| CmdFetchTopCommand
| CmdFetchResourceRequests
| CmdFetchResourceYaml
| CmdFetchResourceEvents
| CmdFetchResourceDiagram
| CmdFetchPodMemory
| CmdFetchPodLogs
| CmdSubmitFeedback
| CmdCopy (text : string).                         (* [createCopyCommand] *)

Record KeyMsg := { keyString : string; keyType : Z }.

Inductive MouseEventType :=
| MouseWheelUp | MouseWheelDown | MouseLeft | MouseRight | MouseRelease | MouseMotion
| MouseOther.

Record MouseMsg := { mouseType : MouseEventType; X : Z; Y : Z }.

Inductive Msg :=
| WindowSizeMsg (w h : Z)
| Key (k : KeyMsg)
| Mouse (m : MouseMsg)
| TickMsg
| resourcesMsg (resources : list Resource)
| describeMsg (output : string)
| tagsMsg (output : string)
| containerResourcesMsg (output : string)
| yamlMsg (output : string)
| eventsMsg (output : string)
| diagramMsg (output : string)
| FeedbackSubmittedMsg (success : bool)
| OtherMsg.                                        (* any type [Update] has no case for *)

Definition zeroResource : Resource :=
  {| Resource.Name := ""; Resource.Namespace := ""; Resource.Type_ := "";
     Resource.Status := ""; Resource.Ready := ""; Resource.Restarts := 0;
     Resource.Age := 0; Resource.CPU := ""; Resource.Memory := "";
     Resource.Description := ""; Resource.Volume := ""; Resource.Capacity := "";
     Resource.AccessModes := ""; Resource.StorageClass := "" |}.

Definition zeroState : AppState :=
  {| CurrentView := ResourceView; SelectedResource := zeroResource;
     CurrentPage := 0; PageSize := 0; TotalItems := 0; TotalPages := 0;
     SelectedIndex := 0; FocusedElement := ""; Resources := []; ResourceType := "";
     Context := ""; Namespace := ""; Tool := ""; DescribeOutput := "";
     PreviousView := ResourceView; PreviousResource := "";
     DescribeScrollOffset := 0; TagsOutput := ""; TagsScrollOffset := 0;
     TopOutput := ""; TopScrollOffset := 0; ResourcesOutput := "";
     ResourcesScrollOffset := 0; YamlOutput := ""; YamlScrollOffset := 0;
     EventsOutput := ""; EventsScrollOffset := 0; DiagramOutput := "";
     DiagramScrollOffset := 0; MemoryOutput := ""; MemoryScrollOffset := 0;
     LogsOutput := ""; LogsScrollOffset := 0; StatusMessage := "";
     SelectionActive := false; SelectionStartX := 0; SelectionStartY := 0;
     SelectionEndX := 0; SelectionEndY := 0; SelectedText := "";
     FeedbackText := ""; FeedbackCursorPos := 0; ShowFeedbackForm := false;
     FeedbackSubmitting := false; SortField := ""; SortDirection := "" |}.

(** [NewApp]: every field not named keeps its zero value. *)
Definition NewApp : App :=
  {| state :=
       {| CurrentView := ResourceView; SelectedResource := zeroResource;
          CurrentPage := 0; PageSize := 50; TotalItems := 0; TotalPages := 0;
          SelectedIndex := 0; FocusedElement := ""; Resources := [];
          ResourceType := "pods";
          Context := ""; Namespace := ""; Tool := ""; DescribeOutput := "";
          PreviousView := ResourceView; PreviousResource := "";
          DescribeScrollOffset := 0; TagsOutput := ""; TagsScrollOffset := 0;
          TopOutput := ""; TopScrollOffset := 0; ResourcesOutput := "";
          ResourcesScrollOffset := 0; YamlOutput := ""; YamlScrollOffset := 0;
          EventsOutput := ""; EventsScrollOffset := 0; DiagramOutput := "";
          DiagramScrollOffset := 0; MemoryOutput := ""; MemoryScrollOffset := 0;
          LogsOutput := ""; LogsScrollOffset := 0; StatusMessage := "";
          SelectionActive := false; SelectionStartX := 0; SelectionStartY := 0;
          SelectionEndX := 0; SelectionEndY := 0; SelectedText := "";
          FeedbackText := ""; FeedbackCursorPos := 0; ShowFeedbackForm := false;
          FeedbackSubmitting := false; SortField := "name"; SortDirection := "asc" |};
     contextSelector :=
       {| ContextSelector.contexts := []; ContextSelector.currentContext := "";
          ContextSelector.selectedIndex := 0 |};
     namespaceSelector := None;
     width := 0; height := 0 |}.

(** [initialize]: context, namespace and tool as the CLI reports them. *)
Definition initialize (env : Env) (a : App) : App :=
  let ctx :=
    match GetContexts env with
    | Some (_, current) => if String.eqb current "" then "unknown" else current
    | None => "unknown"
    end in
  let ns :=
    match GetCurrentNamespace env with
    | Some current => if String.eqb current "" then "default" else current
    | None => "default"
    end in
  upd (fun s => set_Tool (GetTool env) (set_Namespace ns (set_Context ctx s))) a.

(* ===================================================================== *)
(** ** Pagination and the resource table ([table.go]) *)
(* ===================================================================== *)

(** [paginateResources]. *)
Definition paginateResources (a : App) : option PaginatedResult :=
  let s := state a in
  let totalItems := len (Resources s) in
  totalPages ← quot (sub (add totalItems (PageSize s)) 1) (PageSize s);
  let totalPages := if totalPages =? 0 then 1 else totalPages in
  let start := mul (CurrentPage s) (PageSize s) in
  let end_ := add start (PageSize s) in
  if totalItems <=? start then
    Some {| PaginatedResult.Items := [];
            PaginatedResult.CurrentPage := CurrentPage s;
            PaginatedResult.TotalPages := totalPages;
            PaginatedResult.TotalItems := totalItems;
            PaginatedResult.HasNext := false;
            PaginatedResult.HasPrev := 0 <? CurrentPage s |}
  else
    let end_ := if totalItems <? end_ then totalItems else end_ in
    items ← sliceList (Resources s) start end_;
    Some {| PaginatedResult.Items := items;
            PaginatedResult.CurrentPage := CurrentPage s;
            PaginatedResult.TotalPages := totalPages;
            PaginatedResult.TotalItems := totalItems;
            PaginatedResult.HasNext := CurrentPage s <? sub totalPages 1;
            PaginatedResult.HasPrev := 0 <? CurrentPage s |}.

(** [getSelectedIndex]. *)
Definition getSelectedIndex (a : App) : Z :=
  let pageStart := mul (CurrentPage (state a)) (PageSize (state a)) in
  sub (SelectedIndex (state a)) pageStart.

Definition Second : Z := 1000000000.
Definition Minute : Z := 60 * Second.
Definition Hour : Z := 60 * Minute.

(** [formatDuration].  Go goes through [float64] ([d.Seconds()] and so on)
    before truncating; on durations that are whole seconds, which is all
    [parseAge] produces, that is the integer quotient written here. *)
Definition formatDuration (d : Z) : string :=
  if d <? Minute then GoStrings.itoa (Z.quot d Second) +:+ "s"
  else if d <? Hour then GoStrings.itoa (Z.quot d Minute) +:+ "m"
  else if d <? 24 * Hour then GoStrings.itoa (Z.quot d Hour) +:+ "h"
  else GoStrings.itoa (Z.quot d (24 * Hour)) +:+ "d".

(* ===================================================================== *)
(** ** Fetching the resource list ([app.go]) *)
(* ===================================================================== *)

(** [getAvailableResourceTypes]. *)
Definition getAvailableResourceTypes (a : App) : list string :=
  let types := ["pods"; "services"; "deployments"; "pvc"] in
  let types := if String.eqb (Tool (state a)) "oc" then types ++ ["is"] else types in
  types ++ ["secrets"; "configmaps"; "events"].

(** [parseRestarts]. *)
Definition parseRestarts (env : Env) (restartStr : string) : Z :=
  Sscanf_int env restartStr "%d".

(** [parseAge]. *)
Definition parseAge (env : Env) (ageStr : string) : Z :=
  if GoStrings.HasSuffix ageStr "d" then mul (mul (Sscanf_int env ageStr "%dd") 24) Hour
  else if GoStrings.HasSuffix ageStr "h" then mul (Sscanf_int env ageStr "%dh") Hour
  else if GoStrings.HasSuffix ageStr "m" then mul (Sscanf_int env ageStr "%dm") Minute
  else if GoStrings.HasSuffix ageStr "s" then mul (Sscanf_int env ageStr "%ds") Second
  else 0.

(** The [less] closure of [sortResources]. *)
Definition resourceLess (s : AppState) (x y : Resource) : bool :=
  let less :=
    if String.eqb (SortField s) "name" then String.ltb (Resource.Name x) (Resource.Name y)
    else if String.eqb (SortField s) "age" then Resource.Age x <? Resource.Age y
    else if String.eqb (SortField s) "status"
      then String.ltb (Resource.Status x) (Resource.Status y)
    else if String.eqb (SortField s) "ready"
      then String.ltb (Resource.Ready x) (Resource.Ready y)
    else if String.eqb (SortField s) "restarts"
      then Resource.Restarts x <? Resource.Restarts y
    else String.ltb (Resource.Name x) (Resource.Name y) in
  if String.eqb (SortDirection s) "desc" then negb less else less.

(** [sortResources]; the permutation [sort.Slice] picks is the library's. *)
Definition sortResources (env : Env) (s : AppState) (resources : list Resource)
    : list Resource :=
  if len resources <=? 1 then resources
  else sort_Slice env (resourceLess s) resources.

(** The listing call and display name [fetchResources] picks for a type. *)
Definition listingFor (resourceType : string) : Listing * string :=
  if String.eqb resourceType "services" then (GetServices, "Services")
  else if String.eqb resourceType "deployments" then (GetDeployments, "Deployments")
  else if String.eqb resourceType "pvc" then (GetPVC, "PersistentVolumeClaims")
  else if String.eqb resourceType "is" then (GetImageStreams, "ImageStreams")
  else if String.eqb resourceType "secrets" then (GetSecrets, "Secrets")
  else if String.eqb resourceType "configmaps" then (GetConfigMaps, "ConfigMaps")
  else if String.eqb resourceType "events" then (GetEvents, "Events")
  else (GetPods, "Pods").

Definition placeholder (name ns type_ status : string) : Resource :=
  {| Resource.Name := name; Resource.Namespace := ns; Resource.Type_ := type_;
     Resource.Status := status; Resource.Ready := "N/A"; Resource.Restarts := 0;
     Resource.Age := 0; Resource.CPU := ""; Resource.Memory := "";
     Resource.Description := ""; Resource.Volume := ""; Resource.Capacity := "";
     Resource.AccessModes := ""; Resource.StorageClass := "" |}.

Definition toResource (env : Env) (s : AppState) (resourceTypeName : string)
    (item : PodInfo) : Resource :=
  {| Resource.Name := PodInfo.Name item; Resource.Namespace := Namespace s;
     Resource.Type_ := resourceTypeName; Resource.Status := PodInfo.Status item;
     Resource.Ready := PodInfo.Ready item;
     Resource.Restarts := parseRestarts env (PodInfo.Restarts item);
     Resource.Age := parseAge env (PodInfo.Age item);
     Resource.CPU := "N/A"; Resource.Memory := "N/A"; Resource.Description := "";
     Resource.Volume := PodInfo.Volume item; Resource.Capacity := PodInfo.Capacity item;
     Resource.AccessModes := PodInfo.AccessModes item;
     Resource.StorageClass := PodInfo.StorageClass item |}.

(** [fetchResources], run against the state [s] current when the command
    executes; it always answers with a [resourcesMsg]. *)
Definition fetchResources (env : Env) (s : AppState) : Msg :=
  let '(call, resourceTypeName) := listingFor (ResourceType s) in
  match list_ env call (Namespace s) with
  | inr err =>
      resourcesMsg
        [placeholder ("Error fetching " +:+ ResourceType s) (Namespace s) "Error" err]
  | inl resourceData =>
      let resources := map (toResource env s resourceTypeName) resourceData in
      let resources := sortResources env s resources in
      let resources :=
        if len resources =? 0
        then resources ++
             [placeholder ("No " +:+ ResourceType s +:+ " found") (Namespace s) "Info" "Empty"]
        else resources in
      resourcesMsg resources
  end.

(* ===================================================================== *)
(** ** Scrollable panes ([handlers.go]) *)
(* ===================================================================== *)

(** Code that [handlers.go] calls and that is taken as a parameter.  The
    viewport heights of the memory and logs panes are defined in no file of
    the source tree.  The key handler of the feedback form comes in two
    differing versions ([pkg/ui/feedback.go] and an earlier one); it is a
    rune-level editor of the feedback text, kept as a collaborator: only
    its dispatch from [handleKeyPress] is embedded, and statements about
    key presses leave the feedback form aside. *)
Record Outside := {
  getMemoryViewHeight : App -> Z;
  getLogsViewHeight : App -> Z;
  handleFeedbackViewKeys : KeyMsg -> App -> option (App * Cmd)
}.

(** The nine panes repeat one body each for the six scroll operations; the
    bodies are written once here and instantiated per pane below. *)

(** [getMax<Pane>Scroll]: zero for empty text, else lines - height + 2
    floored at zero. *)
Definition maxScrollFor (output : string) (viewHeight : Z) : Z :=
  if String.eqb output "" then 0
  else
    let lines := GoStrings.Split output GoStrings.newline in
    let contentLines := len lines in
    let maxScroll := add (sub contentLines viewHeight) 2 in
    if maxScroll <? 0 then 0 else maxScroll.

(** [scroll<Pane>Down]. *)
Definition scrollDownFrom (offset maxScroll : Z) : Z :=
  if offset <? maxScroll then add offset 1 else offset.

(** [scroll<Pane>Up]. *)
Definition scrollUpFrom (offset : Z) : Z :=
  if 0 <? offset then sub offset 1 else offset.

(** [pageSize := viewHeight / 2; if pageSize < 1 { pageSize = 1 }]. *)
Definition halfPage (viewHeight : Z) : Z :=
  let pageSize := Z.quot viewHeight 2 in
  if pageSize <? 1 then 1 else pageSize.

(** [page<Pane>Down]. *)
Definition pageDownFrom (offset viewHeight maxScroll : Z) : Z :=
  let offset := add offset (halfPage viewHeight) in
  if maxScroll <? offset then maxScroll else offset.

(** [page<Pane>Up]. *)
Definition pageUpFrom (offset viewHeight : Z) : Z :=
  let offset := sub offset (halfPage viewHeight) in
  if offset <? 0 then 0 else offset.

Definition getDescribeViewHeight (a : App) : Z := sub (height a) 8.

Definition getMaxDescribeScroll (a : App) : Z :=
  maxScrollFor (DescribeOutput (state a)) (getDescribeViewHeight a).

Definition scrollDescribeDown (a : App) : App :=
  upd (set_DescribeScrollOffset (scrollDownFrom (DescribeScrollOffset (state a)) (getMaxDescribeScroll a))) a.

Definition scrollDescribeUp (a : App) : App :=
  upd (set_DescribeScrollOffset (scrollUpFrom (DescribeScrollOffset (state a)))) a.

Definition pageDescribeDown (a : App) : App :=
  upd (set_DescribeScrollOffset
         (pageDownFrom (DescribeScrollOffset (state a)) (getDescribeViewHeight a) (getMaxDescribeScroll a))) a.

Definition pageDescribeUp (a : App) : App :=
  upd (set_DescribeScrollOffset (pageUpFrom (DescribeScrollOffset (state a)) (getDescribeViewHeight a))) a.

Definition scrollDescribeToBottom (a : App) : App :=
  upd (set_DescribeScrollOffset (getMaxDescribeScroll a)) a.

Definition getTagsViewHeight (a : App) : Z := sub (height a) 8.

Definition getMaxTagsScroll (a : App) : Z :=
  maxScrollFor (TagsOutput (state a)) (getTagsViewHeight a).

Definition scrollTagsDown (a : App) : App :=
  upd (set_TagsScrollOffset (scrollDownFrom (TagsScrollOffset (state a)) (getMaxTagsScroll a))) a.

Definition scrollTagsUp (a : App) : App :=
  upd (set_TagsScrollOffset (scrollUpFrom (TagsScrollOffset (state a)))) a.

Definition pageTagsDown (a : App) : App :=
  upd (set_TagsScrollOffset
         (pageDownFrom (TagsScrollOffset (state a)) (getTagsViewHeight a) (getMaxTagsScroll a))) a.

Definition pageTagsUp (a : App) : App :=
  upd (set_TagsScrollOffset (pageUpFrom (TagsScrollOffset (state a)) (getTagsViewHeight a))) a.

Definition scrollTagsToBottom (a : App) : App :=
  upd (set_TagsScrollOffset (getMaxTagsScroll a)) a.

Definition getTopViewHeight (a : App) : Z := sub (height a) 8.

Definition getMaxTopScroll (a : App) : Z :=
  maxScrollFor (TopOutput (state a)) (getTopViewHeight a).

Definition scrollTopDown (a : App) : App :=
  upd (set_TopScrollOffset (scrollDownFrom (TopScrollOffset (state a)) (getMaxTopScroll a))) a.

Definition scrollTopUp (a : App) : App :=
  upd (set_TopScrollOffset (scrollUpFrom (TopScrollOffset (state a)))) a.

Definition pageTopDown (a : App) : App :=
  upd (set_TopScrollOffset
         (pageDownFrom (TopScrollOffset (state a)) (getTopViewHeight a) (getMaxTopScroll a))) a.

Definition pageTopUp (a : App) : App :=
  upd (set_TopScrollOffset (pageUpFrom (TopScrollOffset (state a)) (getTopViewHeight a))) a.

Definition scrollTopToBottom (a : App) : App :=
  upd (set_TopScrollOffset (getMaxTopScroll a)) a.

Definition getResourcesViewHeight (a : App) : Z := sub (height a) 8.

Definition getMaxResourcesScroll (a : App) : Z :=
  maxScrollFor (ResourcesOutput (state a)) (getResourcesViewHeight a).

Definition scrollResourcesDown (a : App) : App :=
  upd (set_ResourcesScrollOffset (scrollDownFrom (ResourcesScrollOffset (state a)) (getMaxResourcesScroll a))) a.

Definition scrollResourcesUp (a : App) : App :=
  upd (set_ResourcesScrollOffset (scrollUpFrom (ResourcesScrollOffset (state a)))) a.

Definition pageResourcesDown (a : App) : App :=
  upd (set_ResourcesScrollOffset
         (pageDownFrom (ResourcesScrollOffset (state a)) (getResourcesViewHeight a) (getMaxResourcesScroll a))) a.

Definition pageResourcesUp (a : App) : App :=
  upd (set_ResourcesScrollOffset (pageUpFrom (ResourcesScrollOffset (state a)) (getResourcesViewHeight a))) a.

Definition scrollResourcesToBottom (a : App) : App :=
  upd (set_ResourcesScrollOffset (getMaxResourcesScroll a)) a.

Definition getYamlViewHeight (a : App) : Z := sub (height a) 8.

Definition getMaxYamlScroll (a : App) : Z :=
  maxScrollFor (YamlOutput (state a)) (getYamlViewHeight a).

Definition scrollYamlDown (a : App) : App :=
  upd (set_YamlScrollOffset (scrollDownFrom (YamlScrollOffset (state a)) (getMaxYamlScroll a))) a.

Definition scrollYamlUp (a : App) : App :=
  upd (set_YamlScrollOffset (scrollUpFrom (YamlScrollOffset (state a)))) a.

Definition pageYamlDown (a : App) : App :=
  upd (set_YamlScrollOffset
         (pageDownFrom (YamlScrollOffset (state a)) (getYamlViewHeight a) (getMaxYamlScroll a))) a.

Definition pageYamlUp (a : App) : App :=
  upd (set_YamlScrollOffset (pageUpFrom (YamlScrollOffset (state a)) (getYamlViewHeight a))) a.

Definition scrollYamlToBottom (a : App) : App :=
  upd (set_YamlScrollOffset (getMaxYamlScroll a)) a.

Definition getEventsViewHeight (a : App) : Z := sub (height a) 8.

Definition getMaxEventsScroll (a : App) : Z :=
  maxScrollFor (EventsOutput (state a)) (getEventsViewHeight a).

Definition scrollEventsDown (a : App) : App :=
  upd (set_EventsScrollOffset (scrollDownFrom (EventsScrollOffset (state a)) (getMaxEventsScroll a))) a.

Definition scrollEventsUp (a : App) : App :=
  upd (set_EventsScrollOffset (scrollUpFrom (EventsScrollOffset (state a)))) a.

Definition pageEventsDown (a : App) : App :=
  upd (set_EventsScrollOffset
         (pageDownFrom (EventsScrollOffset (state a)) (getEventsViewHeight a) (getMaxEventsScroll a))) a.

Definition pageEventsUp (a : App) : App :=
  upd (set_EventsScrollOffset (pageUpFrom (EventsScrollOffset (state a)) (getEventsViewHeight a))) a.

Definition scrollEventsToBottom (a : App) : App :=
  upd (set_EventsScrollOffset (getMaxEventsScroll a)) a.

Definition getDiagramViewHeight (a : App) : Z := sub (height a) 8.

Definition getMaxDiagramScroll (a : App) : Z :=
  maxScrollFor (DiagramOutput (state a)) (getDiagramViewHeight a).

Definition scrollDiagramDown (a : App) : App :=
  upd (set_DiagramScrollOffset (scrollDownFrom (DiagramScrollOffset (state a)) (getMaxDiagramScroll a))) a.

Definition scrollDiagramUp (a : App) : App :=
  upd (set_DiagramScrollOffset (scrollUpFrom (DiagramScrollOffset (state a)))) a.

Definition pageDiagramDown (a : App) : App :=
  upd (set_DiagramScrollOffset
         (pageDownFrom (DiagramScrollOffset (state a)) (getDiagramViewHeight a) (getMaxDiagramScroll a))) a.

Definition pageDiagramUp (a : App) : App :=
  upd (set_DiagramScrollOffset (pageUpFrom (DiagramScrollOffset (state a)) (getDiagramViewHeight a))) a.

Definition scrollDiagramToBottom (a : App) : App :=
  upd (set_DiagramScrollOffset (getMaxDiagramScroll a)) a.

Definition getMaxMemoryScroll (x : Outside) (a : App) : Z :=
  maxScrollFor (MemoryOutput (state a)) (getMemoryViewHeight x a).

Definition scrollMemoryDown (x : Outside) (a : App) : App :=
  upd (set_MemoryScrollOffset (scrollDownFrom (MemoryScrollOffset (state a)) (getMaxMemoryScroll x a))) a.

Definition scrollMemoryUp (a : App) : App :=
  upd (set_MemoryScrollOffset (scrollUpFrom (MemoryScrollOffset (state a)))) a.

Definition pageMemoryDown (x : Outside) (a : App) : App :=
  upd (set_MemoryScrollOffset
         (pageDownFrom (MemoryScrollOffset (state a)) (getMemoryViewHeight x a) (getMaxMemoryScroll x a))) a.

Definition pageMemoryUp (x : Outside) (a : App) : App :=
  upd (set_MemoryScrollOffset (pageUpFrom (MemoryScrollOffset (state a)) (getMemoryViewHeight x a))) a.

Definition scrollMemoryToBottom (x : Outside) (a : App) : App :=
  upd (set_MemoryScrollOffset (getMaxMemoryScroll x a)) a.

Definition getMaxLogsScroll (x : Outside) (a : App) : Z :=
  maxScrollFor (LogsOutput (state a)) (getLogsViewHeight x a).

Definition scrollLogsDown (x : Outside) (a : App) : App :=
  upd (set_LogsScrollOffset (scrollDownFrom (LogsScrollOffset (state a)) (getMaxLogsScroll x a))) a.

Definition scrollLogsUp (a : App) : App :=
  upd (set_LogsScrollOffset (scrollUpFrom (LogsScrollOffset (state a)))) a.

Definition pageLogsDown (x : Outside) (a : App) : App :=
  upd (set_LogsScrollOffset
         (pageDownFrom (LogsScrollOffset (state a)) (getLogsViewHeight x a) (getMaxLogsScroll x a))) a.

Definition pageLogsUp (x : Outside) (a : App) : App :=
  upd (set_LogsScrollOffset (pageUpFrom (LogsScrollOffset (state a)) (getLogsViewHeight x a))) a.

Definition scrollLogsToBottom (x : Outside) (a : App) : App :=
  upd (set_LogsScrollOffset (getMaxLogsScroll x a)) a.

(* ===================================================================== *)
(** ** Selection, extraction and copy ([handlers.go]) *)
(* ===================================================================== *)

(** [min(end, len(line))] as the extractors write it. *)
Definition clampEnd (endX : Z) (line : string) : Z :=
  if GoStrings.len line <? endX then GoStrings.len line else endX.

(** What one source line adds to [selectedLines]; [screenY] is its screen
    row.  This is the loop body shared by the four extractors. *)
Definition lineContribution (line : string) (screenY startX startY endX endY : Z)
    : option (list string) :=
  if (startY <=? screenY) && (screenY <=? endY) then
    if (startY =? endY) && (startY =? screenY) then
      (* single line selection *)
      if startX <? GoStrings.len line then
        let end_ := clampEnd endX line in
        if startX <? end_
        then piece ← GoStrings.slice line startX end_; Some [piece]
        else Some []
      else Some []
    else if screenY =? startY then
      (* first line *)
      if startX <? GoStrings.len line
      then piece ← GoStrings.sliceFrom line startX; Some [piece]
      else Some []
    else if screenY =? endY then
      (* last line *)
      let end_ := clampEnd endX line in
      if 0 <? end_
      then piece ← GoStrings.sliceTo line end_; Some [piece]
      else Some []
    else
      (* middle lines *)
      Some [line]
  else Some [].

(** [for lineIdx, line := range lines { ... }] with the screen row of line
    [lineIdx] given by [screenYOf]. *)
Fixpoint extractLoop (screenYOf : Z -> Z) (lines : list string) (lineIdx : Z)
    (startX startY endX endY : Z) : option (list string) :=
  match lines with
  | [] => Some []
  | line :: rest =>
      here ← lineContribution line (screenYOf lineIdx) startX startY endX endY;
      more ← extractLoop screenYOf rest (lineIdx + 1) startX startY endX endY;
      Some (here ++ more)
  end.

(** [viewStartY := 3]: the text of a pane starts on screen row 3. *)
Definition viewStartY : Z := 3.

(** [extractTextFromScrollableView]. *)
Definition extractTextFromScrollableView (output : string) (scrollOffset : Z)
    (startX startY endX endY : Z) : option string :=
  if String.eqb output "" then Some ""
  else
    let lines := GoStrings.Split output GoStrings.newline in
    selectedLines ←
      extractLoop (fun lineIdx => sub (add viewStartY lineIdx) scrollOffset)
        lines 0 startX startY endX endY;
    Some (GoStrings.Join selectedLines (String GoStrings.newline "")).

(** [extractTextFromTagsView] and [extractTextFromDescribeView] are the same
    text over their own pane's fields. *)
Definition extractTextFromTagsView (a : App) (startX startY endX endY : Z) : option string :=
  extractTextFromScrollableView (TagsOutput (state a)) (TagsScrollOffset (state a))
    startX startY endX endY.

Definition extractTextFromDescribeView (a : App) (startX startY endX endY : Z)
    : option string :=
  extractTextFromScrollableView (DescribeOutput (state a)) (DescribeScrollOffset (state a))
    startX startY endX endY.

(** The row text of [extractTextFromResourceView]. *)
Definition rowText (resource : Resource) : string :=
  Resource.Name resource +:+ " " +:+ Resource.Ready resource +:+ " " +:+
  Resource.Status resource +:+ " " +:+ GoStrings.itoa (Resource.Restarts resource) +:+ " " +:+
  Resource.CPU resource +:+ " " +:+ Resource.Memory resource +:+ " " +:+
  formatDuration (Resource.Age resource).

(** [extractTextFromResourceView]: rows of the current page, the first on
    screen row [headerOffset + 3 = 9]. *)
Definition extractTextFromResourceView (a : App) (startX startY endX endY : Z)
    : option string :=
  if len (Resources (state a)) =? 0 then Some ""
  else
    paginatedResult ← paginateResources a;
    let resources := PaginatedResult.Items paginatedResult in
    let tableStartY := add 6 3 in
    selectedLines ←
      extractLoop (fun i => add tableStartY i) (map rowText resources) 0
        startX startY endX endY;
    Some (GoStrings.Join selectedLines (String GoStrings.newline "")).

(** The clean-up loop of [extractSelectedText]: trim each line, drop the
    lines that become empty. *)
Definition cleanLines (content : string) : list string :=
  filter (fun trimmed => trimmed <> "")
         (map GoStrings.TrimSpace (GoStrings.Split content GoStrings.newline)).

(** [extractSelectedText]. *)
Definition extractSelectedText (a : App) : option App :=
  let s := state a in
  if negb (SelectionActive s) then Some (upd (set_SelectedText "") a)
  else
    let backwards :=
      (SelectionEndY s <? SelectionStartY s) ||
      ((SelectionStartY s =? SelectionEndY s) && (SelectionEndX s <? SelectionStartX s)) in
    let startX := if backwards then SelectionEndX s else SelectionStartX s in
    let endX := if backwards then SelectionStartX s else SelectionEndX s in
    let startY := if backwards then SelectionEndY s else SelectionStartY s in
    let endY := if backwards then SelectionStartY s else SelectionEndY s in
    if (startX <? 0) || (startY <? 0) || (endX <? 0) || (endY <? 0)
    then Some (upd (set_SelectedText "") a)
    else if (startX =? endX) && (startY =? endY)
    then Some (upd (set_SelectedText "") a)
    else
      content ←
        match CurrentView s with
        | ResourceView => extractTextFromResourceView a startX startY endX endY
        | TagsView => extractTextFromTagsView a startX startY endX endY
        | TopView =>
            extractTextFromScrollableView (TopOutput s) (TopScrollOffset s)
              startX startY endX endY
        | DescribeView => extractTextFromDescribeView a startX startY endX endY
        | YamlView =>
            extractTextFromScrollableView (YamlOutput s) (YamlScrollOffset s)
              startX startY endX endY
        | EventsView =>
            extractTextFromScrollableView (EventsOutput s) (EventsScrollOffset s)
              startX startY endX endY
        | ResourcesView =>
            extractTextFromScrollableView (ResourcesOutput s) (ResourcesScrollOffset s)
              startX startY endX endY
        | DiagramView =>
            extractTextFromScrollableView (DiagramOutput s) (DiagramScrollOffset s)
              startX startY endX endY
        | MemoryView =>
            extractTextFromScrollableView (MemoryOutput s) (MemoryScrollOffset s)
              startX startY endX endY
        | LogsView =>
            extractTextFromScrollableView (LogsOutput s) (LogsScrollOffset s)
              startX startY endX endY
        | _ => Some ""
        end;
      Some (upd (set_SelectedText
                   (GoStrings.Join (cleanLines content) (String GoStrings.newline ""))) a).

(** The text [handleCopyContent] falls back to when nothing is selected. *)
Definition viewContent (a : App) : option string :=
  let s := state a in
  match CurrentView s with
  | ResourceView =>
      if (0 <? len (Resources s)) && (SelectedIndex s <? len (Resources s)) then
        selectedResource ← index (Resources s) (SelectedIndex s);
        Some ("Name: " +:+ Resource.Name selectedResource +:+
              String GoStrings.newline "Namespace: " +:+ Resource.Namespace selectedResource +:+
              String GoStrings.newline "Status: " +:+ Resource.Status selectedResource +:+
              String GoStrings.newline "Ready: " +:+ Resource.Ready selectedResource +:+
              String GoStrings.newline "Restarts: " +:+
                GoStrings.itoa (Resource.Restarts selectedResource) +:+
              String GoStrings.newline "Age: " +:+ formatDuration (Resource.Age selectedResource))
      else Some ""
  | DescribeView => Some (DescribeOutput s)
  | TagsView => Some (TagsOutput s)
  | TopView => Some (TopOutput s)
  | ResourcesView => Some (ResourcesOutput s)
  | YamlView => Some (YamlOutput s)
  | EventsView => Some (EventsOutput s)
  | DiagramView => Some (DiagramOutput s)
  | MemoryView => Some (MemoryOutput s)
  | LogsView => Some (LogsOutput s)
  | _ => Some ""
  end.

(** [handleCopyContent]. *)
Definition handleCopyContent (a : App) : option (App * Cmd) :=
  let s := state a in
  '(content, a) ←
    (if SelectionActive s && negb (String.eqb (SelectedText s) "") then
       let content := SelectedText s in
       Some (content,
             upd (set_StatusMessage
                    ("✓ Copied selected text (" +:+ GoStrings.itoa (GoStrings.len content)
                     +:+ " chars) to clipboard")) a)
     else
       content ← viewContent a;
       if negb (String.eqb content "") then
         Some (content,
               upd (set_StatusMessage
                      ("✓ Copied " +:+ GoStrings.itoa (GoStrings.len content)
                       +:+ " chars to clipboard (use Ctrl+V to paste)")) a)
       else Some (content, a));
  if negb (String.eqb content "") then
    let a := upd (set_SelectionActive false) a in
    let a := upd (set_SelectedText "") a in
    Some (a, CmdCopy content)
  else Some (upd (set_StatusMessage "✗ No content to copy") a, CmdNone).

(** [clearStatusMessage]. *)
Definition clearStatusMessage (a : App) : App :=
  let a :=
    if negb (GoStrings.Contains (StatusMessage (state a)) "Copied")
    then upd (set_StatusMessage "") a else a in
  if negb (SelectionActive (state a)) then upd (set_SelectedText "") a else a.

(* ===================================================================== *)
(** ** Navigation handlers ([handlers.go]) *)
(* ===================================================================== *)

(** The block every key handler runs on ["q"]: open the feedback form. *)
Definition showFeedbackForm (a : App) : App :=
  let a := upd (set_CurrentView FeedbackView) a in
  let a := upd (set_FeedbackText "") a in
  let a := upd (set_FeedbackCursorPos 0) a in
  let a := upd (set_ShowFeedbackForm true) a in
  upd (set_FeedbackSubmitting false) a.

(** [handleDownNavigation]. *)
Definition handleDownNavigation (a : App) : App * Cmd :=
  let s := state a in
  if 0 <? len (Resources s) then
    let maxIndex := sub (len (Resources s)) 1 in
    if SelectedIndex s <? maxIndex then
      let s := set_SelectedIndex (add (SelectedIndex s) 1) s in
      let pageStart := mul (CurrentPage s) (PageSize s) in
      let pageEnd := sub (add pageStart (PageSize s)) 1 in
      let s := if pageEnd <? SelectedIndex s
               then set_CurrentPage (add (CurrentPage s) 1) s else s in
      (with_state a s, CmdNone)
    else (a, CmdNone)
  else (a, CmdNone).

(** [handleUpNavigation]. *)
Definition handleUpNavigation (a : App) : App * Cmd :=
  let s := state a in
  if 0 <? len (Resources s) then
    if 0 <? SelectedIndex s then
      let s := set_SelectedIndex (sub (SelectedIndex s) 1) s in
      let pageStart := mul (CurrentPage s) (PageSize s) in
      let s := if SelectedIndex s <? pageStart
               then set_CurrentPage (sub (CurrentPage s) 1) s else s in
      (with_state a s, CmdNone)
    else (a, CmdNone)
  else (a, CmdNone).

(** [handleLeftNavigation]. *)
Definition handleLeftNavigation (a : App) : App * Cmd :=
  if 0 <? CurrentPage (state a)
  then (upd (set_CurrentPage (sub (CurrentPage (state a)) 1)) a, CmdNone)
  else (a, CmdNone).

(** [handleRightNavigation]. *)
Definition handleRightNavigation (a : App) : option (App * Cmd) :=
  paginatedResult ← paginateResources a;
  if PaginatedResult.HasNext paginatedResult
  then Some (upd (set_CurrentPage (add (CurrentPage (state a)) 1)) a, CmdNone)
  else Some (a, CmdNone).

(** [handleSearchFocus]. *)
Definition handleSearchFocus (a : App) : App * Cmd :=
  (upd (set_FocusedElement "search") a, CmdNone).

(** [handleResourceSelect]. *)
Definition handleResourceSelect (a : App) : App * Cmd := (a, CmdNone).

(** [handleBackNavigation]. *)
Definition handleBackNavigation (a : App) : App * Cmd :=
  let s := state a in
  if negb (view_eqb (CurrentView s) ResourceView) then
    let s :=
      if negb (view_eqb (PreviousView s) (CurrentView s)) then
        let previousView := PreviousView s in
        let s := set_PreviousView (CurrentView s) s in
        set_CurrentView previousView s
      else
        let s := set_PreviousView (CurrentView s) s in
        set_CurrentView ResourceView s in
    if view_eqb (CurrentView s) ResourceView && negb (String.eqb (PreviousResource s) "")
    then
      let previousResource := PreviousResource s in
      let s := set_PreviousResource (ResourceType s) s in
      let s := set_ResourceType previousResource s in
      let s := set_CurrentPage 0 s in
      let s := set_SelectedIndex 0 s in
      (with_state a s, CmdFetchResources)
    else (with_state a s, CmdNone)
  else (a, CmdNone).

(** [handleResourceTypeSwitch]. *)
Definition handleResourceTypeSwitch (resourceType : string) (a : App) : App * Cmd :=
  let s := state a in
  let s := set_PreviousResource (ResourceType s) s in
  let s := set_PreviousView (CurrentView s) s in
  let s := set_ResourceType resourceType s in
  let s := set_CurrentPage 0 s in
  let s := set_SelectedIndex 0 s in
  (with_state a s, CmdFetchResources).

(** [handleResourceTypeSwitchByIndex]: [index := int(key[0] - '1')], a byte
    subtraction. *)
Definition handleResourceTypeSwitchByIndex (key : string) (a : App) : option (App * Cmd) :=
  match key with
  | EmptyString => None
  | String c _ =>
      let idx := (Z.of_N (N_of_ascii c) - 49) mod 256 in
      let types := getAvailableResourceTypes a in
      if (0 <=? idx) && (idx <? len types) then
        t ← index types idx;
        Some (handleResourceTypeSwitch t a)
      else Some (a, CmdNone)
  end.

(** [ContextSelector.LoadContexts]; [None] is a non-nil error. *)
Definition LoadContexts (env : Env) (cs : ContextSelector) : option ContextSelector :=
  match GetContexts env with
  | None => None
  | Some (contexts, current) =>
      Some {| ContextSelector.contexts := contexts;
              ContextSelector.currentContext := current;
              ContextSelector.selectedIndex :=
                default (ContextSelector.selectedIndex cs) (firstIndexOf current contexts 0) |}
  end.

(** [handleContextSwitch]. *)
Definition handleContextSwitch (env : Env) (a : App) : App * Cmd :=
  match LoadContexts env (contextSelector a) with
  | None => (a, CmdNone)
  | Some cs =>
      let a := with_contextSelector a cs in
      let a := upd (fun s => set_PreviousView (CurrentView s) s) a in
      (upd (set_CurrentView ContextView) a, CmdNone)
  end.

(** [switchToNamespace]; [true] is a nil error. *)
Definition switchToNamespace (env : Env) (a : App) (namespace : string) : bool :=
  if String.eqb (Tool (state a)) "oc"
  then runProject env "oc" namespace
  else runProject env "kubectl" namespace.

(** [NamespaceSelector.SetNamespaces] on [NewNamespaceSelector()] or on an
    existing selector. *)
Definition SetNamespaces (ns : NamespaceSelector) (namespaces : list string)
    (currentNamespace : string) : NamespaceSelector :=
  {| NamespaceSelector.namespaces := namespaces;
     NamespaceSelector.currentNamespace := currentNamespace;
     NamespaceSelector.selectedIndex :=
       default (NamespaceSelector.selectedIndex ns)
               (firstIndexOf currentNamespace namespaces 0) |}.

Definition NewNamespaceSelector : NamespaceSelector :=
  {| NamespaceSelector.namespaces := []; NamespaceSelector.currentNamespace := "";
     NamespaceSelector.selectedIndex := 0 |}.

(** [handleContextViewKeys]. *)
Definition handleContextViewKeys (env : Env) (key : string) (a : App) : option (App * Cmd) :=
  let cs := contextSelector a in
  if String.eqb key "q" then Some (showFeedbackForm a, CmdNone)
  else if String.eqb key "ctrl+c" then Some (a, Quit)
  else if String.eqb key "esc" then Some (upd (set_CurrentView ResourceView) a, CmdNone)
  else if String.eqb key "j" || String.eqb key "down" then
    (* MoveDown *)
    let idx := ContextSelector.selectedIndex cs in
    let idx := if idx <? sub (len (ContextSelector.contexts cs)) 1 then add idx 1 else idx in
    Some (with_contextSelector a
            {| ContextSelector.contexts := ContextSelector.contexts cs;
               ContextSelector.currentContext := ContextSelector.currentContext cs;
               ContextSelector.selectedIndex := idx |}, CmdNone)
  else if String.eqb key "k" || String.eqb key "up" then
    (* MoveUp *)
    let idx := ContextSelector.selectedIndex cs in
    let idx := if 0 <? idx then sub idx 1 else idx in
    Some (with_contextSelector a
            {| ContextSelector.contexts := ContextSelector.contexts cs;
               ContextSelector.currentContext := ContextSelector.currentContext cs;
               ContextSelector.selectedIndex := idx |}, CmdNone)
  else if String.eqb key "enter" then
    (* SelectContext *)
    let idx := ContextSelector.selectedIndex cs in
    if (idx <? 0) || (len (ContextSelector.contexts cs) <=? idx) then Some (a, CmdNone)
    else
      selectedContext ← index (ContextSelector.contexts cs) idx;
      if negb (SwitchContext env selectedContext) then Some (a, CmdNone)
      else
        let cs := {| ContextSelector.contexts := ContextSelector.contexts cs;
                     ContextSelector.currentContext := selectedContext;
                     ContextSelector.selectedIndex := idx |} in
        let a := with_contextSelector a cs in
        (* GetSelectedContext: same index, in range *)
        let a := upd (set_Context selectedContext) a in
        match GetNamespaces env with
        | None =>
            let a := upd (set_Namespace "default") a in
            Some (upd (set_CurrentView ResourceView) a, CmdFetchResources)
        | Some namespaces =>
            let currentNs := default "default" (GetCurrentNamespace env) in
            ns ← namespaceSelector a;
            let a := with_namespaceSelector a (Some (SetNamespaces ns namespaces currentNs)) in
            let a := upd (set_Namespace currentNs) a in
            Some (upd (set_CurrentView NamespaceView) a, CmdNone)
        end
  else Some (a, CmdNone).

(** [handleNamespaceSelector]. *)
Definition handleNamespaceSelector (env : Env) (a : App) : App * Cmd :=
  match GetNamespaces env with
  | None => (a, CmdNone)
  | Some namespaces =>
      let ns := default NewNamespaceSelector (namespaceSelector a) in
      let a := with_namespaceSelector a
                 (Some (SetNamespaces ns namespaces (Namespace (state a)))) in
      let a := upd (fun s => set_PreviousView (CurrentView s) s) a in
      (upd (set_CurrentView NamespaceView) a, CmdNone)
  end.

(** [handleNamespaceViewKeys]. *)
Definition handleNamespaceViewKeys (env : Env) (key : string) (a : App)
    : option (App * Cmd) :=
  if String.eqb key "q" then Some (showFeedbackForm a, CmdNone)
  else if String.eqb key "ctrl+c" then Some (a, Quit)
  else if String.eqb key "esc" || String.eqb key "backspace" then
    Some (upd (set_CurrentView ContextView) a, CmdNone)
  else if String.eqb key "j" || String.eqb key "down" then
    ns ← namespaceSelector a;
    let idx := NamespaceSelector.selectedIndex ns in
    let idx := if idx <? sub (len (NamespaceSelector.namespaces ns)) 1
               then add idx 1 else idx in
    Some (with_namespaceSelector a
            (Some {| NamespaceSelector.namespaces := NamespaceSelector.namespaces ns;
                     NamespaceSelector.currentNamespace :=
                       NamespaceSelector.currentNamespace ns;
                     NamespaceSelector.selectedIndex := idx |}), CmdNone)
  else if String.eqb key "k" || String.eqb key "up" then
    ns ← namespaceSelector a;
    let idx := NamespaceSelector.selectedIndex ns in
    let idx := if 0 <? idx then sub idx 1 else idx in
    Some (with_namespaceSelector a
            (Some {| NamespaceSelector.namespaces := NamespaceSelector.namespaces ns;
                     NamespaceSelector.currentNamespace :=
                       NamespaceSelector.currentNamespace ns;
                     NamespaceSelector.selectedIndex := idx |}), CmdNone)
  else if String.eqb key "enter" then
    ns ← namespaceSelector a;
    (* GetSelectedNamespace *)
    let idx := NamespaceSelector.selectedIndex ns in
    selectedNamespace ←
      (if (0 <=? idx) && (idx <? len (NamespaceSelector.namespaces ns))
       then index (NamespaceSelector.namespaces ns) idx else Some "");
    if negb (String.eqb selectedNamespace "") then
      if negb (switchToNamespace env a selectedNamespace) then Some (a, CmdNone)
      else
        let a := upd (set_Namespace selectedNamespace) a in
        let a := upd (set_CurrentPage 0) a in
        let a := upd (set_SelectedIndex 0) a in
        Some (upd (set_CurrentView ResourceView) a, CmdFetchResources)
    else Some (upd (set_CurrentView ResourceView) a, CmdFetchResources)
  else Some (a, CmdNone).

(* ===================================================================== *)
(** ** Entering the data views ([handlers.go]) *)
(* ===================================================================== *)

(** [selectedResource.Type == "Info" || selectedResource.Type == "Error"]:
    the two synthetic rows [fetchResources] can produce. *)
Definition isPlaceholder (r : Resource) : bool :=
  String.eqb (Resource.Type_ r) "Info" || String.eqb (Resource.Type_ r) "Error".

(** [len(a.state.Resources) == 0 || a.state.SelectedIndex >= len(a.state.Resources)]. *)
Definition noValidSelection (s : AppState) : bool :=
  (len (Resources s) =? 0) || (len (Resources s) <=? SelectedIndex s).

(** The assignments that end every [handleShow...]: remember the selected
    record and the view being left, switch view, reset that pane's scroll. *)
Definition enterView (selected : Resource) (v : ViewType)
    (resetScroll : Z -> AppState -> AppState) (a : App) : App :=
  let a := upd (set_SelectedResource selected) a in
  let a := upd (fun s => set_PreviousView (CurrentView s) s) a in
  let a := upd (set_CurrentView v) a in
  upd (resetScroll 0) a.

(** [handleDescribeResource]. *)
Definition handleDescribeResource (a : App) : option (App * Cmd) :=
  if len (Resources (state a)) =? 0 then Some (a, CmdNone)
  else
    let a :=
      if (len (Resources (state a)) <=? SelectedIndex (state a))
         || (SelectedIndex (state a) <? 0)
      then upd (set_SelectedIndex 0) a else a in
    selectedResource ← index (Resources (state a)) (SelectedIndex (state a));
    if isPlaceholder selectedResource then Some (a, CmdNone)
    else
      Some (enterView selectedResource DescribeView set_DescribeScrollOffset a,
            CmdFetchResourceDescription).

(** [handleShowTags]. *)
Definition handleShowTags (a : App) : option (App * Cmd) :=
  if noValidSelection (state a) then Some (a, CmdNone)
  else if negb (String.eqb (ResourceType (state a)) "is")
          || negb (String.eqb (Tool (state a)) "oc")
  then Some (a, CmdNone)
  else
    selectedResource ← index (Resources (state a)) (SelectedIndex (state a));
    Some (enterView selectedResource TagsView set_TagsScrollOffset a, CmdFetchResourceTags).

(** [handleShowTop]. *)
Definition handleShowTop (a : App) : App * Cmd :=
  let a := upd (fun s => set_PreviousView (CurrentView s) s) a in
  let a := upd (set_CurrentView TopView) a in
  (upd (set_TopScrollOffset 0) a, CmdFetchTopCommand).

(** [handleShowResources]. *)
Definition handleShowResources (a : App) : option (App * Cmd) :=
  if noValidSelection (state a) then Some (a, CmdNone)
  else if negb (String.eqb (ResourceType (state a)) "pods")
          && negb (String.eqb (ResourceType (state a)) "deployments")
  then Some (a, CmdNone)
  else
    selectedResource ← index (Resources (state a)) (SelectedIndex (state a));
    Some (enterView selectedResource ResourcesView set_ResourcesScrollOffset a,
          CmdFetchResourceRequests).

(** [handleShowYaml]. *)
Definition handleShowYaml (a : App) : option (App * Cmd) :=
  if noValidSelection (state a) then Some (a, CmdNone)
  else
    selectedResource ← index (Resources (state a)) (SelectedIndex (state a));
    if isPlaceholder selectedResource then Some (a, CmdNone)
    else
      Some (enterView selectedResource YamlView set_YamlScrollOffset a, CmdFetchResourceYaml).

(** [handleShowEvents]. *)
Definition handleShowEvents (a : App) : option (App * Cmd) :=
  if noValidSelection (state a) then Some (a, CmdNone)
  else
    selectedResource ← index (Resources (state a)) (SelectedIndex (state a));
    if isPlaceholder selectedResource then Some (a, CmdNone)
    else
      Some (enterView selectedResource EventsView set_EventsScrollOffset a,
            CmdFetchResourceEvents).

(** [handleShowDiagram]. *)
Definition handleShowDiagram (a : App) : option (App * Cmd) :=
  if noValidSelection (state a) then Some (a, CmdNone)
  else if negb (String.eqb (ResourceType (state a)) "deployments") then Some (a, CmdNone)
  else
    selectedResource ← index (Resources (state a)) (SelectedIndex (state a));
    if isPlaceholder selectedResource then Some (a, CmdNone)
    else
      Some (enterView selectedResource DiagramView set_DiagramScrollOffset a,
            CmdFetchResourceDiagram).

(** [handleShowMemory]. *)
Definition handleShowMemory (a : App) : option (App * Cmd) :=
  if noValidSelection (state a) then Some (a, CmdNone)
  else if negb (String.eqb (ResourceType (state a)) "pods") then Some (a, CmdNone)
  else
    selectedResource ← index (Resources (state a)) (SelectedIndex (state a));
    if isPlaceholder selectedResource then Some (a, CmdNone)
    else
      Some (enterView selectedResource MemoryView set_MemoryScrollOffset a,
            CmdFetchPodMemory).

(** [handleShowLogs]. *)
Definition handleShowLogs (a : App) : option (App * Cmd) :=
  if len (Resources (state a)) =? 0 then
    Some (upd (set_StatusMessage "Loading resources...") a, CmdFetchResources)
  else
    let a :=
      if len (Resources (state a)) <=? SelectedIndex (state a)
      then upd (set_SelectedIndex 0) a else a in
    if negb (String.eqb (ResourceType (state a)) "pods") then
      let a := upd (set_ResourceType "pods") a in
      let a := upd (set_CurrentPage 0) a in
      let a := upd (set_SelectedIndex 0) a in
      Some (upd (set_StatusMessage "Switching to pods view for logs...") a,
            CmdFetchResources)
    else
      selectedResource ← index (Resources (state a)) (SelectedIndex (state a));
      if isPlaceholder selectedResource
      then Some (upd (set_StatusMessage "No valid pod selected for logs") a, CmdNone)
      else
        let a := enterView selectedResource LogsView set_LogsScrollOffset a in
        Some (upd (set_StatusMessage
                     ("Loading logs for pod: " +:+ Resource.Name selectedResource)) a,
              CmdFetchPodLogs).

(* ===================================================================== *)
(** ** Key handling inside a pane ([handlers.go]) *)
(* ===================================================================== *)

(** [handleDescribeViewKeys]. *)
Definition handleDescribeViewKeys (key : string) (a : App) : option (App * Cmd) :=
  if String.eqb key "q" then Some (showFeedbackForm a, CmdNone)
  else if String.eqb key "ctrl+c" then Some (a, Quit)
  else if String.eqb key "esc" || String.eqb key "backspace" then
    let a := upd (set_DescribeScrollOffset 0) a in
    Some (upd (set_CurrentView ResourceView) a, CmdNone)
  else if String.eqb key "j" || String.eqb key "down" then Some (scrollDescribeDown a, CmdNone)
  else if String.eqb key "k" || String.eqb key "up" then Some (scrollDescribeUp a, CmdNone)
  else if String.eqb key "d" || String.eqb key "ctrl+d" then Some (pageDescribeDown a, CmdNone)
  else if String.eqb key "u" || String.eqb key "ctrl+u" then Some (pageDescribeUp a, CmdNone)
  else if String.eqb key "g" then Some (upd (set_DescribeScrollOffset 0) a, CmdNone)
  else if String.eqb key "G" then Some (scrollDescribeToBottom a, CmdNone)
  else if String.eqb key "x" then handleCopyContent a
  else if String.eqb key "L" then handleShowLogs a
  else Some (a, CmdNone).

(** [handleTagsViewKeys]. *)
Definition handleTagsViewKeys (key : string) (a : App) : option (App * Cmd) :=
  if String.eqb key "q" then Some (showFeedbackForm a, CmdNone)
  else if String.eqb key "ctrl+c" then Some (a, Quit)
  else if String.eqb key "esc" || String.eqb key "backspace" then
    let a := upd (set_TagsScrollOffset 0) a in
    Some (upd (set_CurrentView ResourceView) a, CmdNone)
  else if String.eqb key "j" || String.eqb key "down" then Some (scrollTagsDown a, CmdNone)
  else if String.eqb key "k" || String.eqb key "up" then Some (scrollTagsUp a, CmdNone)
  else if String.eqb key "d" || String.eqb key "ctrl+d" then Some (pageTagsDown a, CmdNone)
  else if String.eqb key "u" || String.eqb key "ctrl+u" then Some (pageTagsUp a, CmdNone)
  else if String.eqb key "g" then Some (upd (set_TagsScrollOffset 0) a, CmdNone)
  else if String.eqb key "G" then Some (scrollTagsToBottom a, CmdNone)
  else if String.eqb key "x" then handleCopyContent a
  else if String.eqb key "L" then handleShowLogs a
  else Some (a, CmdNone).

(** [handleTopViewKeys]. *)
Definition handleTopViewKeys (key : string) (a : App) : option (App * Cmd) :=
  if String.eqb key "q" then Some (showFeedbackForm a, CmdNone)
  else if String.eqb key "ctrl+c" then Some (a, Quit)
  else if String.eqb key "esc" || String.eqb key "backspace" then
    let a := upd (set_TopScrollOffset 0) a in
    Some (upd (set_CurrentView ResourceView) a, CmdNone)
  else if String.eqb key "j" || String.eqb key "down" then Some (scrollTopDown a, CmdNone)
  else if String.eqb key "k" || String.eqb key "up" then Some (scrollTopUp a, CmdNone)
  else if String.eqb key "d" || String.eqb key "ctrl+d" then Some (pageTopDown a, CmdNone)
  else if String.eqb key "u" || String.eqb key "ctrl+u" then Some (pageTopUp a, CmdNone)
  else if String.eqb key "g" then Some (upd (set_TopScrollOffset 0) a, CmdNone)
  else if String.eqb key "G" then Some (scrollTopToBottom a, CmdNone)
  else if String.eqb key "x" then handleCopyContent a
  else if String.eqb key "L" then handleShowLogs a
  else Some (a, CmdNone).

(** [handleResourcesViewKeys]. *)
Definition handleResourcesViewKeys (key : string) (a : App) : option (App * Cmd) :=
  if String.eqb key "q" then Some (showFeedbackForm a, CmdNone)
  else if String.eqb key "ctrl+c" then Some (a, Quit)
  else if String.eqb key "esc" || String.eqb key "backspace" then
    let a := upd (set_ResourcesScrollOffset 0) a in
    Some (upd (set_CurrentView ResourceView) a, CmdNone)
  else if String.eqb key "j" || String.eqb key "down" then Some (scrollResourcesDown a, CmdNone)
  else if String.eqb key "k" || String.eqb key "up" then Some (scrollResourcesUp a, CmdNone)
  else if String.eqb key "d" || String.eqb key "ctrl+d" then Some (pageResourcesDown a, CmdNone)
  else if String.eqb key "u" || String.eqb key "ctrl+u" then Some (pageResourcesUp a, CmdNone)
  else if String.eqb key "g" then Some (upd (set_ResourcesScrollOffset 0) a, CmdNone)
  else if String.eqb key "G" then Some (scrollResourcesToBottom a, CmdNone)
  else if String.eqb key "x" then handleCopyContent a
  else if String.eqb key "L" then handleShowLogs a
  else Some (a, CmdNone).

(** [handleYamlViewKeys]. *)
Definition handleYamlViewKeys (key : string) (a : App) : option (App * Cmd) :=
  if String.eqb key "q" then Some (showFeedbackForm a, CmdNone)
  else if String.eqb key "ctrl+c" then Some (a, Quit)
  else if String.eqb key "esc" || String.eqb key "backspace" then
    let a := upd (set_YamlScrollOffset 0) a in
    Some (upd (set_CurrentView ResourceView) a, CmdNone)
  else if String.eqb key "j" || String.eqb key "down" then Some (scrollYamlDown a, CmdNone)
  else if String.eqb key "k" || String.eqb key "up" then Some (scrollYamlUp a, CmdNone)
  else if String.eqb key "d" || String.eqb key "ctrl+d" then Some (pageYamlDown a, CmdNone)
  else if String.eqb key "u" || String.eqb key "ctrl+u" then Some (pageYamlUp a, CmdNone)
  else if String.eqb key "g" then Some (upd (set_YamlScrollOffset 0) a, CmdNone)
  else if String.eqb key "G" then Some (scrollYamlToBottom a, CmdNone)
  else if String.eqb key "x" then handleCopyContent a
  else if String.eqb key "L" then handleShowLogs a
  else Some (a, CmdNone).

(** [handleEventsViewKeys]. *)
Definition handleEventsViewKeys (key : string) (a : App) : option (App * Cmd) :=
  if String.eqb key "q" then Some (showFeedbackForm a, CmdNone)
  else if String.eqb key "ctrl+c" then Some (a, Quit)
  else if String.eqb key "esc" || String.eqb key "backspace" then
    let a := upd (set_EventsScrollOffset 0) a in
    Some (upd (set_CurrentView ResourceView) a, CmdNone)
  else if String.eqb key "j" || String.eqb key "down" then Some (scrollEventsDown a, CmdNone)
  else if String.eqb key "k" || String.eqb key "up" then Some (scrollEventsUp a, CmdNone)
  else if String.eqb key "d" || String.eqb key "ctrl+d" then Some (pageEventsDown a, CmdNone)
  else if String.eqb key "u" || String.eqb key "ctrl+u" then Some (pageEventsUp a, CmdNone)
  else if String.eqb key "g" then Some (upd (set_EventsScrollOffset 0) a, CmdNone)
  else if String.eqb key "G" then Some (scrollEventsToBottom a, CmdNone)
  else if String.eqb key "x" then handleCopyContent a
  else if String.eqb key "L" then handleShowLogs a
  else Some (a, CmdNone).

(** [handleDiagramViewKeys]. *)
Definition handleDiagramViewKeys (key : string) (a : App) : option (App * Cmd) :=
  if String.eqb key "q" then Some (showFeedbackForm a, CmdNone)
  else if String.eqb key "ctrl+c" then Some (a, Quit)
  else if String.eqb key "esc" || String.eqb key "backspace" then
    let a := upd (set_DiagramScrollOffset 0) a in
    Some (upd (set_CurrentView ResourceView) a, CmdNone)
  else if String.eqb key "j" || String.eqb key "down" then Some (scrollDiagramDown a, CmdNone)
  else if String.eqb key "k" || String.eqb key "up" then Some (scrollDiagramUp a, CmdNone)
  else if String.eqb key "d" || String.eqb key "ctrl+d" then Some (pageDiagramDown a, CmdNone)
  else if String.eqb key "u" || String.eqb key "ctrl+u" then Some (pageDiagramUp a, CmdNone)
  else if String.eqb key "g" then Some (upd (set_DiagramScrollOffset 0) a, CmdNone)
  else if String.eqb key "G" then Some (scrollDiagramToBottom a, CmdNone)
  else if String.eqb key "x" then handleCopyContent a
  else if String.eqb key "L" then handleShowLogs a
  else Some (a, CmdNone).

(** [handleMemoryViewKeys]. *)
Definition handleMemoryViewKeys (x : Outside) (key : string) (a : App) : option (App * Cmd) :=
  if String.eqb key "q" then Some (showFeedbackForm a, CmdNone)
  else if String.eqb key "ctrl+c" then Some (a, Quit)
  else if String.eqb key "esc" || String.eqb key "backspace" then
    let a := upd (set_MemoryScrollOffset 0) a in
    Some (upd (set_CurrentView ResourceView) a, CmdNone)
  else if String.eqb key "j" || String.eqb key "down" then Some (scrollMemoryDown x a, CmdNone)
  else if String.eqb key "k" || String.eqb key "up" then Some (scrollMemoryUp a, CmdNone)
  else if String.eqb key "d" || String.eqb key "ctrl+d" then Some (pageMemoryDown x a, CmdNone)
  else if String.eqb key "u" || String.eqb key "ctrl+u" then Some (pageMemoryUp x a, CmdNone)
  else if String.eqb key "g" then Some (upd (set_MemoryScrollOffset 0) a, CmdNone)
  else if String.eqb key "G" then Some (scrollMemoryToBottom x a, CmdNone)
  else if String.eqb key "x" then handleCopyContent a
  else if String.eqb key "L" then handleShowLogs a
  else Some (a, CmdNone).

(** [handleLogsViewKeys]. *)
Definition handleLogsViewKeys (x : Outside) (key : string) (a : App) : option (App * Cmd) :=
  if String.eqb key "q" then Some (showFeedbackForm a, CmdNone)
  else if String.eqb key "ctrl+c" then Some (a, Quit)
  else if String.eqb key "esc" || String.eqb key "backspace" then
    let a := upd (set_LogsScrollOffset 0) a in
    Some (upd (set_CurrentView ResourceView) a, CmdNone)
  else if String.eqb key "j" || String.eqb key "down" then Some (scrollLogsDown x a, CmdNone)
  else if String.eqb key "k" || String.eqb key "up" then Some (scrollLogsUp a, CmdNone)
  else if String.eqb key "d" || String.eqb key "ctrl+d" then Some (pageLogsDown x a, CmdNone)
  else if String.eqb key "u" || String.eqb key "ctrl+u" then Some (pageLogsUp x a, CmdNone)
  else if String.eqb key "g" then Some (upd (set_LogsScrollOffset 0) a, CmdNone)
  else if String.eqb key "G" then Some (scrollLogsToBottom x a, CmdNone)
  else if String.eqb key "x" then handleCopyContent a
  else Some (a, CmdNone).

(* ===================================================================== *)
(** ** Mouse handling and column sorting ([handlers.go]) *)
(* ===================================================================== *)

(** [calculateColumnWidths]. *)
Definition calculateColumnWidths (a : App) : list Z :=
  let fixedWidths := [55; 10; 20; 8; 8; 8; 10] in
  let fixedWidths :=
    if (0 <? width a) && (width a <? 100) then [40; 8; 15; 6; 6; 6; 8] else fixedWidths in
  if 140 <? width a then [65; 12; 25; 10; 10; 10; 12] else fixedWidths.

Fixpoint clickedColumnLoop (x currentX i : Z) (widths : list Z) : Z :=
  match widths with
  | [] => -1
  | w :: rest =>
      if (currentX <=? x) && (x <? add currentX w) then i
      else clickedColumnLoop x (add currentX (add w 3)) (i + 1) rest
  end.

(** [getClickedColumn]. *)
Definition getClickedColumn (a : App) (x : Z) : Z :=
  clickedColumnLoop x 2 0 (calculateColumnWidths a).

(** [isColumnSortable]. *)
Definition isColumnSortable (header : string) : bool :=
  existsb (String.eqb header)
    ["NAME"; "AGE"; "STATUS"; "READY"; "RESTARTS"; "UPDATED"; "DATA"; "TYPE"].

(** [getFieldNameFromHeader]. *)
Definition getFieldNameFromHeader (header : string) : string :=
  if String.eqb header "NAME" then "name"
  else if String.eqb header "AGE" then "age"
  else if String.eqb header "STATUS" then "status"
  else if String.eqb header "READY" then "ready"
  else if String.eqb header "RESTARTS" then "restarts"
  else if String.eqb header "UPDATED" then "age"
  else if String.eqb header "DATA" then "ready"
  else if String.eqb header "TYPE" then "ready"
  else "name".

Definition columnHeaders (resourceType : string) : list string :=
  if String.eqb resourceType "is" then ["NAME"; "DOCKER REPO"; "TAGS"; "UPDATED"; ""; ""; ""]
  else if String.eqb resourceType "pvc"
    then ["NAME"; "STATUS"; "VOLUME"; "CAPACITY"; "ACCESS MODES"; "STORAGE CLASS"; "AGE"]
  else if String.eqb resourceType "services"
    then ["NAME"; "TYPE"; "CLUSTER-IP"; "EXTERNAL-IP"; "PORT(S)"; ""; "AGE"]
  else if String.eqb resourceType "events"
    then ["NAME"; "TYPE"; "REASON"; "OBJECT"; "MESSAGE"; "COUNT"; "AGE"]
  else if String.eqb resourceType "deployments"
    then ["NAME"; "READY"; "UP-TO-DATE"; "AVAILABLE"; ""; ""; "AGE"]
  else if String.eqb resourceType "secrets" then ["NAME"; "TYPE"; "DATA"; "AGE"; ""; ""; ""]
  else if String.eqb resourceType "configmaps" then ["NAME"; "DATA"; "AGE"; ""; ""; ""; ""]
  else ["NAME"; "READY"; "STATUS"; "RESTARTS"; "CPU"; "MEM"; "AGE"].

(** [handleColumnSort]. *)
Definition handleColumnSort (columnIndex : Z) (a : App) : option (App * Cmd) :=
  let headers := columnHeaders (ResourceType (state a)) in
  if len headers <=? columnIndex then Some (a, CmdNone)
  else
    headerName ← index headers columnIndex;
    if String.eqb headerName "" then Some (a, CmdNone)
    else if negb (isColumnSortable headerName) then Some (a, CmdNone)
    else
      let fieldName := getFieldNameFromHeader headerName in
      let a :=
        if String.eqb (SortField (state a)) fieldName then
          if String.eqb (SortDirection (state a)) "asc"
          then upd (set_SortDirection "desc") a
          else upd (set_SortDirection "asc") a
        else
          let a := upd (set_SortField fieldName) a in
          upd (set_SortDirection "asc") a in
      Some (a, CmdFetchResources).

(** The views in which a click starts, and a drag extends, a selection. *)
Definition selectableView (v : ViewType) : bool :=
  match v with
  | DescribeView | YamlView | TagsView | TopView | EventsView | ResourcesView
  | DiagramView => true
  | _ => false
  end.

(** The selection part of [handleMouseClick]. *)
Definition startSelection (msg : MouseMsg) (a : App) : App :=
  if selectableView (CurrentView (state a)) then
    let a := upd (set_SelectionActive true) a in
    let a := upd (set_SelectionStartX (X msg)) a in
    let a := upd (set_SelectionStartY (Y msg)) a in
    let a := upd (set_SelectionEndX (X msg)) a in
    let a := upd (set_SelectionEndY (Y msg)) a in
    let a := upd (set_SelectedText "") a in
    upd (set_StatusMessage
           "Click and drag to select text, then right-click or press 'x' to copy") a
  else a.

(** [handleMouseClick]. *)
Definition handleMouseClick (msg : MouseMsg) (a : App) : option (App * Cmd) :=
  if view_eqb (CurrentView (state a)) ResourceView then
    let headerY := 7 in
    let columnIndex := getClickedColumn a (X msg) in
    if (Y msg =? headerY) && (0 <=? columnIndex) then handleColumnSort columnIndex a
    else
      let resourceRowStart := 8 in
      let clickedIndex := sub (Y msg) resourceRowStart in
      if (resourceRowStart <=? Y msg)
         && (Y msg <? add resourceRowStart (len (Resources (state a))))
         && (0 <=? clickedIndex) && (clickedIndex <? len (Resources (state a)))
      then Some (upd (set_SelectedIndex clickedIndex) a, CmdNone)
      else Some (startSelection msg a, CmdNone)
  else Some (startSelection msg a, CmdNone).

(** [handleRightClick]. *)
Definition handleRightClick (msg : MouseMsg) (a : App) : option (App * Cmd) :=
  let s := state a in
  if SelectionActive s && negb (String.eqb (SelectedText s) "") then
    let copyCmd := CmdCopy (SelectedText s) in
    let a := upd (set_StatusMessage
                    ("✓ Copied selected text (" +:+
                     GoStrings.itoa (GoStrings.len (SelectedText s)) +:+
                     " chars) - use Ctrl+V to paste")) a in
    let a := upd (set_SelectionActive false) a in
    let a := upd (set_SelectedText "") a in
    Some (a, copyCmd)
  else handleCopyContent a.

Definition noTextSelected (a : App) : App :=
  let a := upd (set_SelectionActive false) a in
  upd (set_StatusMessage "No text selected - click and drag to select text") a.

(** [handleMouseRelease]. *)
Definition handleMouseRelease (msg : MouseMsg) (a : App) : option (App * Cmd) :=
  if SelectionActive (state a) then
    let a := upd (set_SelectionEndX (X msg)) a in
    let a := upd (set_SelectionEndY (Y msg)) a in
    a ← extractSelectedText a;
    if String.eqb (SelectedText (state a)) "" then Some (noTextSelected a, CmdNone)
    else
      let a := upd (set_SelectedText (GoStrings.TrimSpace (SelectedText (state a)))) a in
      if String.eqb (SelectedText (state a)) "" then Some (noTextSelected a, CmdNone)
      else
        Some (upd (set_StatusMessage
                     ("Selected " +:+
                      GoStrings.itoa (GoStrings.len (SelectedText (state a))) +:+
                      " chars - right-click or press 'x' to copy")) a, CmdNone)
  else Some (a, CmdNone).

(** [handleMouseMotion]. *)
Definition handleMouseMotion (msg : MouseMsg) (a : App) : option (App * Cmd) :=
  if SelectionActive (state a) && selectableView (CurrentView (state a)) then
    let a := upd (set_SelectionEndX (X msg)) a in
    let a := upd (set_SelectionEndY (Y msg)) a in
    a ← extractSelectedText a;
    Some (a, CmdNone)
  else Some (a, CmdNone).

(** [handleMouseWheelUp]. *)
Definition handleMouseWheelUp (a : App) : App * Cmd :=
  match CurrentView (state a) with
  | ResourceView => handleUpNavigation a
  | TagsView => (scrollTagsUp a, CmdNone)
  | TopView => (scrollTopUp a, CmdNone)
  | ResourcesView => (scrollResourcesUp a, CmdNone)
  | YamlView => (scrollYamlUp a, CmdNone)
  | EventsView => (scrollEventsUp a, CmdNone)
  | DiagramView => (scrollDiagramUp a, CmdNone)
  | _ => (a, CmdNone)
  end.

(** [handleMouseWheelDown]. *)
Definition handleMouseWheelDown (a : App) : App * Cmd :=
  match CurrentView (state a) with
  | ResourceView => handleDownNavigation a
  | TagsView => (scrollTagsDown a, CmdNone)
  | TopView => (scrollTopDown a, CmdNone)
  | ResourcesView => (scrollResourcesDown a, CmdNone)
  | YamlView => (scrollYamlDown a, CmdNone)
  | EventsView => (scrollEventsDown a, CmdNone)
  | DiagramView => (scrollDiagramDown a, CmdNone)
  | _ => (a, CmdNone)
  end.

Definition at_ (x y : Z) : string :=
  "(" +:+ GoStrings.itoa x +:+ "," +:+ GoStrings.itoa y +:+ ")".

(** [handleMouseEvent]. *)
Definition handleMouseEvent (msg : MouseMsg) (a : App) : option (App * Cmd) :=
  match mouseType msg with
  | MouseWheelUp => Some (handleMouseWheelUp a)
  | MouseWheelDown => Some (handleMouseWheelDown a)
  | MouseLeft =>
      handleMouseClick msg
        (upd (set_StatusMessage ("Mouse click at " +:+ at_ (X msg) (Y msg))) a)
  | MouseRight =>
      handleRightClick msg
        (upd (set_StatusMessage ("Right click at " +:+ at_ (X msg) (Y msg))) a)
  | MouseRelease =>
      handleMouseRelease msg
        (upd (set_StatusMessage ("Mouse release at " +:+ at_ (X msg) (Y msg))) a)
  | MouseMotion =>
      handleMouseMotion msg
        (if SelectionActive (state a)
         then upd (set_StatusMessage ("Dragging to " +:+ at_ (X msg) (Y msg))) a
         else a)
  | MouseOther => Some (a, CmdNone)
  end.

(* ===================================================================== *)
(** ** Key dispatch and the message loop ([handlers.go], [app.go]) *)
(* ===================================================================== *)

(** The [switch msg.String()] that [handleKeyPress] reaches when the current
    view has no handler of its own (the resource table and the help view). *)
Definition handleMainKeys (env : Env) (key : string) (a : App) : option (App * Cmd) :=
  let s := state a in
  if String.eqb key "q" then Some (showFeedbackForm a, CmdNone)
  else if String.eqb key "ctrl+c" then Some (a, Quit)
  else if String.eqb key "?" then
    if view_eqb (CurrentView s) HelpView
    then Some (upd (set_CurrentView ResourceView) a, CmdNone)
    else Some (upd (set_CurrentView HelpView) a, CmdNone)
  else if String.eqb key "esc" then
    if view_eqb (CurrentView s) HelpView || view_eqb (CurrentView s) DescribeView
    then Some (upd (set_CurrentView ResourceView) a, CmdNone)
    else Some (handleContextSwitch env a)
  else if String.eqb key "j" || String.eqb key "down" then Some (handleDownNavigation a)
  else if String.eqb key "k" || String.eqb key "up" then Some (handleUpNavigation a)
  else if String.eqb key "h" || String.eqb key "left" then Some (handleLeftNavigation a)
  else if String.eqb key "l" || String.eqb key "right" then handleRightNavigation a
  else if String.eqb key "/" then Some (handleSearchFocus a)
  else if String.eqb key "r" then Some (a, CmdFetchResources)
  else if String.eqb key "enter" then Some (handleResourceSelect a)
  else if String.eqb key "tab" then Some (handleContextSwitch env a)
  else if String.eqb key "backspace" then Some (handleBackNavigation a)
  else if existsb (String.eqb key) ["1"; "2"; "3"; "4"; "5"; "6"; "7"; "8"]
    then handleResourceTypeSwitchByIndex key a
  else if String.eqb key "c" then Some (handleContextSwitch env a)
  else if String.eqb key "i" then handleDescribeResource a
  else if String.eqb key "d" then handleShowDiagram a
  else if String.eqb key "t" then Some (handleShowTop a)
  else if String.eqb key "m" then handleShowMemory a
  else if String.eqb key "y" then handleShowYaml a
  else if String.eqb key "e" then handleShowEvents a
  else if String.eqb key "n" then Some (handleNamespaceSelector env a)
  else if String.eqb key "L" then handleShowLogs a
  else if String.eqb key "x" then handleCopyContent a
  else Some (a, CmdNone).

(** [handleKeyPress]. *)
Definition handleKeyPress (x : Outside) (env : Env) (msg : KeyMsg) (a : App)
    : option (App * Cmd) :=
  let key := keyString msg in
  let a := if negb (String.eqb key "x") then clearStatusMessage a else a in
  match CurrentView (state a) with
  | ContextView => handleContextViewKeys env key a
  | DescribeView => handleDescribeViewKeys key a
  | TagsView => handleTagsViewKeys key a
  | TopView => handleTopViewKeys key a
  | ResourcesView => handleResourcesViewKeys key a
  | YamlView => handleYamlViewKeys key a
  | EventsView => handleEventsViewKeys key a
  | NamespaceView => handleNamespaceViewKeys env key a
  | MemoryView => handleMemoryViewKeys x key a
  | LogsView => handleLogsViewKeys x key a
  | DiagramView => handleDiagramViewKeys key a
  | FeedbackView => handleFeedbackViewKeys x msg a
  | ResourceView | DetailView | HelpView => handleMainKeys env key a
  end.

(** [Update]: one step of the message loop. *)
Definition Update (x : Outside) (env : Env) (msg : Msg) (a : App) : option (App * Cmd) :=
  match msg with
  | WindowSizeMsg w h => Some (with_size a w h, CmdNone)
  | Key k => handleKeyPress x env k a
  | Mouse m => handleMouseEvent m a
  | TickMsg => Some (a, Tick)
  | resourcesMsg resources =>
      let a := upd (set_Resources resources) a in
      let a := upd (set_TotalItems (len resources)) a in
      totalPages ←
        quot (sub (add (len resources) (PageSize (state a))) 1) (PageSize (state a));
      Some (upd (set_TotalPages totalPages) a, CmdNone)
  | describeMsg output => Some (upd (set_DescribeOutput output) a, CmdNone)
  | tagsMsg output => Some (upd (set_TagsOutput output) a, CmdNone)
  | containerResourcesMsg output => Some (upd (set_ResourcesOutput output) a, CmdNone)
  | yamlMsg output => Some (upd (set_YamlOutput output) a, CmdNone)
  | eventsMsg output => Some (upd (set_EventsOutput output) a, CmdNone)
  | diagramMsg output => Some (upd (set_DiagramOutput output) a, CmdNone)
  | FeedbackSubmittedMsg success => Some (upd (set_FeedbackSubmitting false) a, Quit)
  | OtherMsg => Some (a, CmdNone)
  end.

(** [Init]. *)
Definition Init : Cmd := Batch CmdFetchResources Tick.

(** A run of the message loop: each message is folded in with the answers
    the outside world gives at that moment; the commands handed back are
    collected.  A panic ends the run. *)
Fixpoint run (x : Outside) (inputs : list (Env * Msg)) (a : App) : option (App * list Cmd) :=
  match inputs with
  | [] => Some (a, [])
  | (env, msg) :: rest =>
      '(a, cmd) ← Update x env msg a;
      '(a, cmds) ← run x rest a;
      Some (a, cmd :: cmds)
  end.

(* ===================================================================== *)
(** ** Text helpers ([table.go], [app.go]) *)
(* ===================================================================== *)

(** [truncateString] of [table.go]. *)
Definition truncateString (s : string) (maxLen : Z) : option string :=
  if GoStrings.len s <=? maxLen then Some s
  else if maxLen <=? 3 then GoStrings.sliceTo s maxLen
  else
    head ← GoStrings.sliceTo s (sub maxLen 3);
    Some (head +:+ "...").

(** The loop [for len(s) < length { s += " " }]. *)
Fixpoint padLoop (fuel : nat) (s : string) (length : Z) : string :=
  match fuel with
  | O => s
  | S fuel => if GoStrings.len s <? length then padLoop fuel (s +:+ " ") length else s
  end.

(** [padString] of [app.go]; the loop runs at most [length] times. *)
Definition padString (s : string) (length : Z) : option string :=
  let s := if String.eqb s "" || String.eqb s "<none>" then "-" else s in
  if length <? GoStrings.len s then
    head ← GoStrings.sliceTo s (sub length 3);
    Some (head +:+ "...")
  else Some (padLoop (Z.to_nat length) s length).

(* ===================================================================== *)
(** ** The CLI listings ([utils.OcCommands]) *)
(* ===================================================================== *)

Module OcCommands.

(** The answer of a child process: [Some output] when [cmd.Output()]
    returns no error. *)
Definition Exec := list string -> option string.

Definition row (name ready status restarts age cpu memory : string) : PodInfo :=
  {| PodInfo.Name := name; PodInfo.Ready := ready; PodInfo.Status := status;
     PodInfo.Restarts := restarts; PodInfo.Age := age;
     PodInfo.CPU := cpu; PodInfo.Memory := memory;
     PodInfo.Volume := ""; PodInfo.Capacity := ""; PodInfo.AccessModes := "";
     PodInfo.StorageClass := "" |}.

(** The loop shared by the parsers: line 0 is the header, blank lines are
    skipped, [fields] decides whether a record is appended. *)
Fixpoint parseLoop (fields : list string -> option PodInfo) (lines : list string) (i : Z)
    : list PodInfo :=
  match lines with
  | [] => []
  | line :: rest =>
      if (i =? 0) || String.eqb (GoStrings.TrimSpace line) "" then parseLoop fields rest (i + 1)
      else match fields (GoStrings.Fields line) with
           | Some record => record :: parseLoop fields rest (i + 1)
           | None => parseLoop fields rest (i + 1)
           end
  end.

Definition linesOf (output : string) : list string :=
  GoStrings.Split (GoStrings.TrimSpace output) GoStrings.newline.

(** [fields[len(fields)-1]] of a non-empty slice. *)
Definition lastField (fields : list string) : string := default "" (last fields).

(** [parsePodOutput]. *)
Definition podFields (fields : list string) : option PodInfo :=
  match fields with
  | f0 :: f1 :: f2 :: f3 :: f4 :: _ => Some (row f0 f1 f2 f3 f4 "" "")
  | _ => None
  end.

Definition parsePodOutput (output : string) : list PodInfo :=
  parseLoop podFields (linesOf output) 0.

(** [parseServiceOutput]. *)
Definition serviceFields (fields : list string) : option PodInfo :=
  match fields with
  | f0 :: f1 :: f2 :: f3 :: f4 :: more =>
      let '(externalIP, ports) :=
        match more with
        | _ :: _ => (f3, f4)
        | [] => ("<none>", f3)
        end in
      Some (row f0 f1 f2 "0" (lastField fields) externalIP ports)
  | _ => None
  end.

Definition parseServiceOutput (output : string) : list PodInfo :=
  parseLoop serviceFields (linesOf output) 0.

(** [parseDeploymentOutput]. *)
Definition deploymentFields (fields : list string) : option PodInfo :=
  match fields with
  | f0 :: f1 :: f2 :: f3 :: _ :: _ => Some (row f0 f1 f2 f3 (lastField fields) "" "")
  | _ => None
  end.

Definition parseDeploymentOutput (output : string) : list PodInfo :=
  parseLoop deploymentFields (linesOf output) 0.

(** [parseGenericOutput]. *)
Definition genericFields (fields : list string) : option PodInfo :=
  match fields with
  | f0 :: f1 :: f2 :: f3 :: _ => Some (row f0 f1 f2 f3 (lastField fields) "" "")
  | [f0; f1; f2] => Some (row f0 f1 f2 "0" (lastField fields) "" "")
  | [f0; f1] => Some (row f0 "N/A" f1 "0" (lastField fields) "" "")
  | _ => None
  end.

Definition parseGenericOutput (output : string) : list PodInfo :=
  parseLoop genericFields (linesOf output) 0.

(** [parsePVCOutput]. *)
Definition pvcFields (fields : list string) : option PodInfo :=
  match fields with
  | name :: status :: more =>
      let '(volume, capacity, accessModes, storageClass, age) :=
        match more with
        | f2 :: f3 :: f4 :: f5 :: _ :: f7 :: _ => (f2, f3, f4, f5, f7)
        | f2 :: f3 :: f4 :: f5 :: _ => (f2, f3, f4, f5, lastField fields)
        | _ => ("N/A", "N/A", "N/A", "N/A", lastField fields)
        end in
      Some {| PodInfo.Name := name; PodInfo.Ready := status; PodInfo.Status := volume;
              PodInfo.Restarts := capacity; PodInfo.Age := age;
              PodInfo.CPU := ""; PodInfo.Memory := "";
              PodInfo.Volume := volume; PodInfo.Capacity := capacity;
              PodInfo.AccessModes := accessModes; PodInfo.StorageClass := storageClass |}
  | _ => None
  end.

Definition parsePVCOutput (output : string) : list PodInfo :=
  let lines := linesOf output in
  if len lines <=? 1 then [] else parseLoop pvcFields lines 0.

(** [parseEventsOutput]. *)
Definition eventFields (fields : list string) : option PodInfo :=
  match fields with
  | namespace :: lastSeen :: eventType :: reason :: object :: ((_ :: _) as message) =>
      Some (row (namespace +:+ "/" +:+ object) eventType reason
                (GoStrings.Join message " ") lastSeen "" "")
  | _ => None
  end.

Definition parseEventsOutput (output : string) : list PodInfo :=
  parseLoop eventFields (linesOf output) 0.

(** [parseImageStreamOutput]. *)
Definition imageStreamFields (fields : list string) : option PodInfo :=
  match fields with
  | name :: f1 :: f2 :: f3 :: _ => Some (row name f2 f1 "0" f3 "" "")
  | [name; f1; f2] => Some (row name f2 f1 "0" "N/A" "" "")
  | [name; f1] => Some (row name "N/A" f1 "0" "N/A" "" "")
  | _ => None
  end.

Definition parseImageStreamOutput (output : string) : list PodInfo :=
  parseLoop imageStreamFields (linesOf output) 0.

(** [GetContexts]: [None] is a non-nil error. *)
Definition GetContexts (exec : Exec) (tool : string) : option (list string * string) :=
  match exec [tool; "config"; "get-contexts"; "-o"; "name"] with
  | None => None
  | Some output =>
      let contexts := GoStrings.Split (GoStrings.TrimSpace output) GoStrings.newline in
      match exec [tool; "config"; "current-context"] with
      | None => Some (contexts, "")
      | Some currentOutput => Some (contexts, GoStrings.TrimSpace currentOutput)
      end
  end.

(** The loop of [GetNamespaces]. *)
Fixpoint namespaceNames (prefix : string) (lines : list string) : list string :=
  match lines with
  | [] => []
  | line :: rest =>
      let ns := GoStrings.TrimPrefix line prefix in
      if negb (String.eqb ns "") then ns :: namespaceNames prefix rest
      else namespaceNames prefix rest
  end.

(** [GetNamespaces]. *)
Definition GetNamespaces (exec : Exec) (tool : string) : option (list string) :=
  let cmd :=
    if String.eqb tool "oc" then [tool; "get"; "projects"; "-o"; "name"]
    else [tool; "get"; "namespaces"; "-o"; "name"] in
  match exec cmd with
  | None => None
  | Some output =>
      let lines := GoStrings.Split (GoStrings.TrimSpace output) GoStrings.newline in
      Some (namespaceNames
              (if String.eqb tool "oc" then "project.project.openshift.io/" else "namespace/")
              lines)
  end.

(** [GetCurrentNamespace]; the error is always nil. *)
Definition GetCurrentNamespace (exec : Exec) (tool : string) : string :=
  if String.eqb tool "oc" then
    match exec [tool; "project"; "-q"] with
    | None => "default"
    | Some output => GoStrings.TrimSpace output
    end
  else
    match exec [tool; "config"; "view"; "--minify"; "-o"; "jsonpath={..namespace}"] with
    | None => "default"
    | Some output =>
        let namespace := GoStrings.TrimSpace output in
        if String.eqb namespace "" then "default" else namespace
    end.

(** [GetPods]. *)
Definition GetPods (exec : Exec) (tool namespace : string) : option (list PodInfo) :=
  let cmd :=
    if String.eqb namespace "" then [tool; "get"; "pods"]
    else [tool; "get"; "pods"; "-n"; namespace] in
  match exec cmd with
  | None => None
  | Some output => Some (parsePodOutput output)
  end.

End OcCommands.

(* ===================================================================== *)
(** ** The visible window of a pane ([app.go]) *)
(* ===================================================================== *)

(** [for len(visibleLines) < viewHeight { visibleLines = append(visibleLines, "") }];
    the loop adds one line per turn, so [viewHeight] turns are never
    exceeded. *)
Fixpoint padLines (fuel : nat) (visibleLines : list string) (viewHeight : Z)
    : list string :=
  match fuel with
  | O => visibleLines
  | S fuel =>
      if len visibleLines <? viewHeight
      then padLines fuel (visibleLines ++ [""]) viewHeight
      else visibleLines
  end.

(** The clamping of [startLine] that the window functions share. *)
Definition clampStart (lines : list string) (startLine : Z) : Z :=
  if len lines <=? startLine then
    let startLine := sub (len lines) 1 in
    if startLine <? 0 then 0 else startLine
  else startLine.

(** [getScrollableDescribeContent]. *)
Definition getScrollableDescribeContent (a : App) : option string :=
  if String.eqb (DescribeOutput (state a)) "" then Some "Loading resource description..."
  else
    let lines := GoStrings.Split (DescribeOutput (state a)) GoStrings.newline in
    let viewHeight := sub (getDescribeViewHeight a) 2 in
    let startLine := DescribeScrollOffset (state a) in
    let endLine := add startLine viewHeight in
    let startLine := clampStart lines startLine in
    let endLine := if len lines <? endLine then len lines else endLine in
    if endLine <=? startLine then Some "-- End of content --"
    else
      visibleLines ← sliceList lines startLine endLine;
      let visibleLines := padLines (Z.to_nat viewHeight) visibleLines viewHeight in
      Some (GoStrings.Join visibleLines (String GoStrings.newline "")).

(** [getScrollInfo]. *)
Definition getScrollInfo (a : App) : string :=
  if String.eqb (DescribeOutput (state a)) "" then "Loading..."
  else
    let lines := GoStrings.Split (DescribeOutput (state a)) GoStrings.newline in
    let totalLines := len lines in
    let viewHeight := sub (getDescribeViewHeight a) 2 in
    let currentLine := add (DescribeScrollOffset (state a)) 1 in
    if totalLines <=? viewHeight then "All"
    else
      let endLine := sub (add currentLine viewHeight) 1 in
      let endLine := if totalLines <? endLine then totalLines else endLine in
      "Lines " +:+ GoStrings.itoa currentLine +:+ "-" +:+ GoStrings.itoa endLine +:+
      " of " +:+ GoStrings.itoa totalLines.

(** [getScrollableDiagramContent]: the same window without the check for
    an empty range and without padding. *)
Definition getScrollableDiagramContent (a : App) : option string :=
  if String.eqb (DiagramOutput (state a)) "" then Some "Loading diagram..."
  else
    let lines := GoStrings.Split (DiagramOutput (state a)) GoStrings.newline in
    let viewHeight := sub (getDiagramViewHeight a) 2 in
    let startLine := DiagramScrollOffset (state a) in
    let endLine := add startLine viewHeight in
    let startLine := clampStart lines startLine in
    let endLine := if len lines <? endLine then len lines else endLine in
    visibleLines ← sliceList lines startLine endLine;
    Some (GoStrings.Join visibleLines (String GoStrings.newline "")).

(** [getDiagramLineCount]. *)
Definition getDiagramLineCount (a : App) : Z :=
  if String.eqb (DiagramOutput (state a)) "" then 0
  else len (GoStrings.Split (DiagramOutput (state a)) GoStrings.newline).
End UI.

(* ===================================================================== *)
(** ** Closed forms and side conditions used in the statements *)
(* ===================================================================== *)

Module Forms.

Import GoInt UI.

(** The page window in closed form, valid while the page arithmetic stays
    inside [int]: [pageSize] rows from row [currentPage * pageSize] on, cut
    at the end of the list. *)
Definition pageWindow (a : App) : PaginatedResult :=
  let s := state a in
  let n := len (Resources s) in
  let pages := Z.max 1 ((n + PageSize s - 1) / PageSize s) in
  {| PaginatedResult.Items :=
       take (Z.to_nat (PageSize s))
            (drop (Z.to_nat (CurrentPage s * PageSize s)) (Resources s));
     PaginatedResult.CurrentPage := CurrentPage s;
     PaginatedResult.TotalPages := pages;
     PaginatedResult.TotalItems := n;
     PaginatedResult.HasNext :=
       (CurrentPage s * PageSize s <? n) && (CurrentPage s <? pages - 1);
     PaginatedResult.HasPrev := 0 <? CurrentPage s |}.

(** The arithmetic of [paginateResources] does not leave [int]. *)
Definition pageArithmeticFits (a : App) : Prop :=
  len (Resources (state a)) + PageSize (state a) - 1 <= max_int /\
  CurrentPage (state a) * PageSize (state a) <= max_int.

(** The nine scrollable panes and the six scroll operations. *)
Inductive Pane :=
| Describe | Tags | Top | ContainerResources | Yaml | Events | Diagram | Memory | Logs.

Inductive ScrollOp := ScrollDown | ScrollUp | PageDown | PageUp | ToTop | ToBottom.

Definition paneOutput (p : Pane) (s : AppState) : string :=
  match p with
  | Describe => DescribeOutput s | Tags => TagsOutput s | Top => TopOutput s
  | ContainerResources => ResourcesOutput s | Yaml => YamlOutput s
  | Events => EventsOutput s | Diagram => DiagramOutput s
  | Memory => MemoryOutput s | Logs => LogsOutput s
  end.

Definition paneOffset (p : Pane) (s : AppState) : Z :=
  match p with
  | Describe => DescribeScrollOffset s | Tags => TagsScrollOffset s
  | Top => TopScrollOffset s | ContainerResources => ResourcesScrollOffset s
  | Yaml => YamlScrollOffset s | Events => EventsScrollOffset s
  | Diagram => DiagramScrollOffset s | Memory => MemoryScrollOffset s
  | Logs => LogsScrollOffset s
  end.

Definition paneViewHeight (x : Outside) (p : Pane) (a : App) : Z :=
  match p with
  | Describe => getDescribeViewHeight a | Tags => getTagsViewHeight a
  | Top => getTopViewHeight a | ContainerResources => getResourcesViewHeight a
  | Yaml => getYamlViewHeight a | Events => getEventsViewHeight a
  | Diagram => getDiagramViewHeight a | Memory => getMemoryViewHeight x a
  | Logs => getLogsViewHeight x a
  end.

Definition paneMaxScroll (x : Outside) (p : Pane) (a : App) : Z :=
  match p with
  | Describe => getMaxDescribeScroll a | Tags => getMaxTagsScroll a
  | Top => getMaxTopScroll a | ContainerResources => getMaxResourcesScroll a
  | Yaml => getMaxYamlScroll a | Events => getMaxEventsScroll a
  | Diagram => getMaxDiagramScroll a | Memory => getMaxMemoryScroll x a
  | Logs => getMaxLogsScroll x a
  end.

(** The handler each pane runs for each operation ([ToTop] is the
    assignment made on key ["g"]). *)
Definition scrollOp (x : Outside) (p : Pane) (op : ScrollOp) : App -> App :=
  match p, op with
  | Describe, ScrollDown => scrollDescribeDown
  | Describe, ScrollUp => scrollDescribeUp
  | Describe, PageDown => pageDescribeDown
  | Describe, PageUp => pageDescribeUp
  | Describe, ToTop => upd (set_DescribeScrollOffset 0)
  | Describe, ToBottom => scrollDescribeToBottom
  | Tags, ScrollDown => scrollTagsDown
  | Tags, ScrollUp => scrollTagsUp
  | Tags, PageDown => pageTagsDown
  | Tags, PageUp => pageTagsUp
  | Tags, ToTop => upd (set_TagsScrollOffset 0)
  | Tags, ToBottom => scrollTagsToBottom
  | Top, ScrollDown => scrollTopDown
  | Top, ScrollUp => scrollTopUp
  | Top, PageDown => pageTopDown
  | Top, PageUp => pageTopUp
  | Top, ToTop => upd (set_TopScrollOffset 0)
  | Top, ToBottom => scrollTopToBottom
  | ContainerResources, ScrollDown => scrollResourcesDown
  | ContainerResources, ScrollUp => scrollResourcesUp
  | ContainerResources, PageDown => pageResourcesDown
  | ContainerResources, PageUp => pageResourcesUp
  | ContainerResources, ToTop => upd (set_ResourcesScrollOffset 0)
  | ContainerResources, ToBottom => scrollResourcesToBottom
  | Yaml, ScrollDown => scrollYamlDown
  | Yaml, ScrollUp => scrollYamlUp
  | Yaml, PageDown => pageYamlDown
  | Yaml, PageUp => pageYamlUp
  | Yaml, ToTop => upd (set_YamlScrollOffset 0)
  | Yaml, ToBottom => scrollYamlToBottom
  | Events, ScrollDown => scrollEventsDown
  | Events, ScrollUp => scrollEventsUp
  | Events, PageDown => pageEventsDown
  | Events, PageUp => pageEventsUp
  | Events, ToTop => upd (set_EventsScrollOffset 0)
  | Events, ToBottom => scrollEventsToBottom
  | Diagram, ScrollDown => scrollDiagramDown
  | Diagram, ScrollUp => scrollDiagramUp
  | Diagram, PageDown => pageDiagramDown
  | Diagram, PageUp => pageDiagramUp
  | Diagram, ToTop => upd (set_DiagramScrollOffset 0)
  | Diagram, ToBottom => scrollDiagramToBottom
  | Memory, ScrollDown => scrollMemoryDown x
  | Memory, ScrollUp => scrollMemoryUp
  | Memory, PageDown => pageMemoryDown x
  | Memory, PageUp => pageMemoryUp x
  | Memory, ToTop => upd (set_MemoryScrollOffset 0)
  | Memory, ToBottom => scrollMemoryToBottom x
  | Logs, ScrollDown => scrollLogsDown x
  | Logs, ScrollUp => scrollLogsUp
  | Logs, PageDown => pageLogsDown x
  | Logs, PageUp => pageLogsUp x
  | Logs, ToTop => upd (set_LogsScrollOffset 0)
  | Logs, ToBottom => scrollLogsToBottom x
  end.

(** A sequence of scroll operations on one pane, applied left to right. *)
Definition scrollSeq (x : Outside) (p : Pane) (ops : list ScrollOp) (a : App) : App :=
  fold_left (fun a op => scrollOp x p op a) ops a.

(** The offset an operation leaves, from the offset before, the viewport
    height and the pane's maximum. *)
Definition opOffset (op : ScrollOp) (off vh M : Z) : Z :=
  match op with
  | ScrollDown => scrollDownFrom off M
  | ScrollUp => scrollUpFrom off
  | PageDown => pageDownFrom off vh M
  | PageUp => pageUpFrom off vh
  | ToTop => 0
  | ToBottom => M
  end.

(** The number of lines of a pane's text as the code counts them. *)
Definition lineCount (p : Pane) (s : AppState) : Z :=
  len (GoStrings.Split (paneOutput p s) GoStrings.newline).

(** The bound as the specification words it. *)
Definition statedMaxScroll (lines viewportHeight : Z) : Z :=
  Z.max 0 (lines - viewportHeight + 2).

(** The scroll arithmetic of pane [p] does not leave [int]. *)
Definition paneArithmeticFits (x : Outside) (p : Pane) (a : App) : Prop :=
  let vh := paneViewHeight x p a in
  let lc := lineCount p (state a) in
  in_range (lc - vh) /\ in_range (lc - vh + 2) /\
  statedMaxScroll lc vh + halfPage vh <= max_int.

(** The two viewport heights defined outside the source tree do not read
    the scroll offset of their own pane. *)
Definition heightIgnoresScroll (x : Outside) : Prop :=
  (forall a v, getMemoryViewHeight x (upd (set_MemoryScrollOffset v) a)
               = getMemoryViewHeight x a) /\
  (forall a v, getLogsViewHeight x (upd (set_LogsScrollOffset v) a)
               = getLogsViewHeight x a).

(** The view in which each pane is shown. *)
Definition paneView (p : Pane) : ViewType :=
  match p with
  | Describe => DescribeView | Tags => TagsView | Top => TopView
  | ContainerResources => ResourcesView | Yaml => YamlView | Events => EventsView
  | Diagram => DiagramView | Memory => MemoryView | Logs => LogsView
  end.

(** Logical line [i] of a text (empty when there is no such line). *)
Definition logicalLine (text : string) (i : nat) : string :=
  nth i (GoStrings.Split text GoStrings.newline) "".

(** Bytes [lo, hi) of a line, cut at the end of the line. *)
Definition columns (line : string) (lo hi : nat) : string :=
  String.substring lo (Nat.min hi (String.length line) - lo) line.

(** The line holds no line feed. *)
Fixpoint oneLine (s : string) : bool :=
  match s with
  | EmptyString => true
  | String c rest => negb (Ascii.eqb c GoStrings.newline) && oneLine rest
  end.

(** The selection state is the same in [a'] as in [a]. *)
Definition selectionKept (a a' : App) : Prop :=
  SelectionActive (state a') = SelectionActive (state a) /\
  SelectedText (state a') = SelectedText (state a).

(** The command is a copy to the clipboard. *)
Definition isCopy (c : Cmd) : bool :=
  match c with
  | CmdCopy _ => true
  | _ => false
  end.

(** What a step may do to the selection: a step that hands back a copy
    command leaves it inactive and empty, any other step leaves it as it
    was. *)
Definition selectionOutcome (a a' : App) (c : Cmd) : Prop :=
  if isCopy c
  then SelectionActive (state a') = false /\ SelectedText (state a') = ""
  else selectionKept a a'.

(** What an observer [f] of the state sees after one step, with the
    command handed back. *)
Definition observe {T} (f : AppState -> T) (r : option (App * Cmd)) : option (T * Cmd) :=
  match r with
  | Some (a, c) => Some (f (state a), c)
  | None => None
  end.

(** What an observer [f] of the state sees at the end of a run. *)
Definition finally {T} (f : AppState -> T) (r : option (App * list Cmd)) : option T :=
  match r with
  | Some (a, _) => Some (f (state a))
  | None => None
  end.

(** The selected text a run of the message loop ends with. *)
Definition selectedAfter (r : option (App * list Cmd)) : option string :=
  match r with
  | Some (a, _) => Some (SelectedText (state a))
  | None => None
  end.

(** The views of the nine panes. *)
Definition isPaneView (v : ViewType) : bool :=
  match v with
  | DescribeView | TagsView | TopView | ResourcesView | YamlView | EventsView
  | DiagramView | MemoryView | LogsView => true
  | _ => false
  end.

(** The keys every pane treats as "back". *)
Definition isBackKey (key : string) : bool :=
  String.eqb key "esc" || String.eqb key "backspace".

(** In the root program: a run of the message loop that counts the forward
    transitions (a message other than "back" after which the current view
    is another one) and the back transitions taken on a non-empty stack. *)
Definition rootIsBack (msg : Root.Msg) : bool :=
  match msg with
  | Root.KeyMsg key => isBackKey key
  | _ => false
  end.

Fixpoint rootNavRun (msgs : list Root.Msg) (m : Root.Model)
    : option (Root.Model * (Z * Z)) :=
  match msgs with
  | [] => Some (m, (0, 0))
  | msg :: rest =>
      match Root.Update msg m with
      | None => None
      | Some (m', _) =>
          let forward :=
            if negb (rootIsBack msg)
               && negb (Root.view_eqb (Root.currentView m') (Root.currentView m))
            then 1 else 0 in
          let back :=
            if rootIsBack msg && negb (GoInt.len (Root.viewStack m) =? 0)
            then 1 else 0 in
          match rootNavRun rest m' with
          | None => None
          | Some (mf, (f, b)) => Some (mf, (forward + f, back + b))
          end
      end
  end.

(** What one step does to the stack: a back key pops the top view into
    [currentView], or does nothing at all on an empty stack; any other
    message either keeps view and stack or moves to another view and pushes
    the view it left. *)
Definition rootStep (msg : Root.Msg) (m m' : Root.Model) : Prop :=
  if rootIsBack msg then
    (Root.viewStack m = [] /\ m' = m) \/
    (Root.viewStack m <> [] /\
     Root.viewStack m = Root.viewStack m' ++ [Root.currentView m'])
  else
    (Root.view_eqb (Root.currentView m') (Root.currentView m) = true /\
     Root.viewStack m' = Root.viewStack m) \/
    (Root.view_eqb (Root.currentView m') (Root.currentView m) = false /\
     Root.viewStack m' = Root.viewStack m ++ [Root.currentView m]).

(** The cursor of the root program stays a valid non-negative [int], so
    no step indexes out of range. *)
Definition cursorOk (m : Root.Model) : Prop := 0 <= Root.cursor m <= max_int.

(** In [pkg/ui]: the depth a navigation stack would have along a run of the
    message loop, counted the way the specification words it: one more for
    a key press that is not a back key and after which the current view is
    another one, one less (never below zero) for a back key. *)
Fixpoint statedDepth (x : Outside) (inputs : list (Env * Msg)) (a : App) (d : Z)
    : option Z :=
  match inputs with
  | [] => Some d
  | (env, msg) :: rest =>
      match Update x env msg a with
      | None => None
      | Some (a', _) =>
          let d' :=
            match msg with
            | Key k =>
                if isBackKey (keyString k) then Z.max 0 (d - 1)
                else if view_eqb (CurrentView (state a')) (CurrentView (state a))
                then d else d + 1
            | _ => d
            end in
          statedDepth x rest a' d'
      end
  end.

(** The application a run of the message loop ends with. *)
Definition endOf (r : option (App * list Cmd)) : option App :=
  match r with
  | Some (a, _) => Some a
  | None => None
  end.

End Forms.

(* ===================================================================== *)
(** ** Concrete inputs used by the examples below *)
(* ===================================================================== *)

Module Examples.

(** A pod that ended in phase [Failed] after seven restarts. *)
Definition failedPod : Root.K8sResource :=
  {| Root.Name := "web-0"; Root.Namespace := "default"; Root.Status := "Failed";
     Root.Age := "3h"; Root.Details := {[ "Restarts" := "7" ]};
     Root.ResourceKind := Root.PodsResource; Root.Errors := []; Root.Warnings := [] |}.






(** A row as [fetchResources] builds it for a running pod. *)
Definition pod (name : string) : UI.Resource :=
  {| UI.Resource.Name := name; UI.Resource.Namespace := "default";
     UI.Resource.Type_ := "Pods"; UI.Resource.Status := "Running";
     UI.Resource.Ready := "1/1"; UI.Resource.Restarts := 0;
     UI.Resource.Age := 3 * UI.Hour; UI.Resource.CPU := "N/A";
     UI.Resource.Memory := "N/A"; UI.Resource.Description := "";
     UI.Resource.Volume := ""; UI.Resource.Capacity := "";
     UI.Resource.AccessModes := ""; UI.Resource.StorageClass := "" |}.

(** The application as started, showing the table [rows] at page
    [currentPage] with page size [pageSize]. *)
Definition tableApp (pageSize currentPage : Z) (rows : list UI.Resource) : UI.App :=
  UI.upd (fun s =>
    {| UI.CurrentView := UI.CurrentView s; UI.SelectedResource := UI.SelectedResource s;
       UI.CurrentPage := currentPage; UI.PageSize := pageSize;
       UI.TotalItems := UI.TotalItems s; UI.TotalPages := UI.TotalPages s;
       UI.SelectedIndex := UI.SelectedIndex s; UI.FocusedElement := UI.FocusedElement s;
       UI.Resources := rows; UI.ResourceType := UI.ResourceType s;
       UI.Context := UI.Context s; UI.Namespace := UI.Namespace s; UI.Tool := UI.Tool s;
       UI.DescribeOutput := UI.DescribeOutput s; UI.PreviousView := UI.PreviousView s;
       UI.PreviousResource := UI.PreviousResource s;
       UI.DescribeScrollOffset := UI.DescribeScrollOffset s;
       UI.TagsOutput := UI.TagsOutput s; UI.TagsScrollOffset := UI.TagsScrollOffset s;
       UI.TopOutput := UI.TopOutput s; UI.TopScrollOffset := UI.TopScrollOffset s;
       UI.ResourcesOutput := UI.ResourcesOutput s;
       UI.ResourcesScrollOffset := UI.ResourcesScrollOffset s;
       UI.YamlOutput := UI.YamlOutput s; UI.YamlScrollOffset := UI.YamlScrollOffset s;
       UI.EventsOutput := UI.EventsOutput s;
       UI.EventsScrollOffset := UI.EventsScrollOffset s;
       UI.DiagramOutput := UI.DiagramOutput s;
       UI.DiagramScrollOffset := UI.DiagramScrollOffset s;
       UI.MemoryOutput := UI.MemoryOutput s;
       UI.MemoryScrollOffset := UI.MemoryScrollOffset s;
       UI.LogsOutput := UI.LogsOutput s; UI.LogsScrollOffset := UI.LogsScrollOffset s;
       UI.StatusMessage := UI.StatusMessage s; UI.SelectionActive := UI.SelectionActive s;
       UI.SelectionStartX := UI.SelectionStartX s;
       UI.SelectionStartY := UI.SelectionStartY s;
       UI.SelectionEndX := UI.SelectionEndX s; UI.SelectionEndY := UI.SelectionEndY s;
       UI.SelectedText := UI.SelectedText s; UI.FeedbackText := UI.FeedbackText s;
       UI.FeedbackCursorPos := UI.FeedbackCursorPos s;
       UI.ShowFeedbackForm := UI.ShowFeedbackForm s;
       UI.FeedbackSubmitting := UI.FeedbackSubmitting s; UI.SortField := UI.SortField s;
       UI.SortDirection := UI.SortDirection s |}) UI.NewApp.

(** A table of 142 rows, page size 50, first page. *)
Definition app142 : UI.App := tableApp 50 0 (replicate 142 (pod "web")).

(** The same table asked for page 5, past its last page. *)
Definition pastEnd : UI.App := tableApp 50 5 (replicate 142 (pod "web")).

(** Page 2 with a page size of 2^62: [CurrentPage * PageSize] is 2^63. *)
Definition overflowStart : UI.App := tableApp (2 ^ 62) 2 [pod "web"].

(** Two rows with the largest page size: [totalItems + PageSize - 1] is 2^63. *)
Definition overflowTotal : UI.App := tableApp GoInt.max_int 0 [pod "a"; pod "b"].

(** An instance of [Outside]: the two missing viewport heights follow their
    seven siblings ([height - 8]); the feedback form ignores its keys. *)
Definition outside : UI.Outside :=
  {| UI.getMemoryViewHeight := fun a => GoInt.sub (UI.height a) 8;
     UI.getLogsViewHeight := fun a => GoInt.sub (UI.height a) 8;
     UI.handleFeedbackViewKeys := fun _ a => Some (a, UI.CmdNone) |}.

(** A 24-row terminal showing a YAML text of forty lines. *)
Definition fortyLines : string :=
  GoStrings.Join (replicate 40 "key: value") (String GoStrings.newline "").

Definition yamlPane : UI.App :=
  UI.with_size (UI.upd (UI.set_YamlOutput fortyLines)
                  (UI.upd (UI.set_CurrentView UI.YamlView) UI.NewApp)) 80 24.

(** An 8-row terminal on the YAML pane before its text has arrived. *)
Definition emptyPane : UI.App :=
  UI.with_size (UI.upd (UI.set_CurrentView UI.YamlView) UI.NewApp) 80 8.

(** Every call to the cluster fails; nothing is sorted or scanned. *)
Definition offline : UI.Env :=
  {| UI.GetTool := "kubectl";
     UI.GetContexts := None;
     UI.SwitchContext := fun _ => false;
     UI.GetNamespaces := None;
     UI.GetCurrentNamespace := None;
     UI.runProject := fun _ _ => false;
     UI.list_ := fun _ _ => inr "connection refused";
     UI.sort_Slice := fun _ rows => rows;
     UI.Sscanf_int := fun _ _ => 0 |}.

(** Four lines of text whose first and fourth lines differ. *)
Definition fourLines : string :=
  GoStrings.Join
    ["0123456789abcdefghijKLMNOP"; "line one"; "line two"; "ABCDEFGHIJKLMNOPQRSTUVWXYZ"]
    (String GoStrings.newline "").

(** The YAML pane showing [fourLines], not scrolled, on a 24-row terminal. *)
Definition fourLinePane : UI.App :=
  UI.with_size (UI.upd (UI.set_YamlOutput fourLines)
                  (UI.upd (UI.set_CurrentView UI.YamlView) UI.NewApp)) 80 24.

Definition mouse (t : UI.MouseEventType) (x y : Z) : UI.Msg :=
  UI.Mouse {| UI.mouseType := t; UI.X := x; UI.Y := y |}.

(** Press at (5, 3), drag to (20, 3), release there. *)
Definition drag_5_3_to_20_3 : list (UI.Env * UI.Msg) :=
  [(offline, mouse UI.MouseLeft 5 3);
   (offline, mouse UI.MouseMotion 20 3);
   (offline, mouse UI.MouseRelease 20 3)].

(** [fourLinePane] with the drag from (5, 3) to (20, 3) recorded. *)
Definition draggedPane : UI.App :=
  UI.upd (fun s =>
    UI.set_SelectionEndY 3 (UI.set_SelectionEndX 20
      (UI.set_SelectionStartY 3 (UI.set_SelectionStartX 5
        (UI.set_SelectionActive true s))))) fourLinePane.

(** Three pods listed, the cursor left at index 5 by a longer, earlier list. *)
Definition staleCursor : UI.App :=
  UI.upd (UI.set_SelectedIndex 5) (tableApp 50 0 [pod "a"; pod "b"; pod "c"]).

Definition key (k : string) : UI.Msg := UI.Key {| UI.keyString := k; UI.keyType := 0 |}.


(** To the bottom of the pane, then the terminal grows to 60 rows, then up
    by one line. *)
Definition bottom_resize_up : list (UI.Env * UI.Msg) :=
  [(offline, key "G"); (offline, UI.WindowSizeMsg 80 60); (offline, key "k")].


Definition podInfo (name : string) : UI.PodInfo :=
  {| UI.PodInfo.Name := name; UI.PodInfo.Ready := "1/1";
     UI.PodInfo.Status := "Running"; UI.PodInfo.Restarts := "0";
     UI.PodInfo.Age := "3h"; UI.PodInfo.CPU := ""; UI.PodInfo.Memory := "";
     UI.PodInfo.Volume := ""; UI.PodInfo.Capacity := "";
     UI.PodInfo.AccessModes := ""; UI.PodInfo.StorageClass := "" |}.

(** A reachable cluster with one pod and one service in namespace
    [default]. *)
Definition cluster : UI.Env :=
  {| UI.GetTool := "kubectl";
     UI.GetContexts := Some (["dev"], "dev");
     UI.SwitchContext := fun _ => true;
     UI.GetNamespaces := Some ["default"];
     UI.GetCurrentNamespace := Some "default";
     UI.runProject := fun _ _ => true;
     UI.list_ := fun call _ =>
       match call with
       | UI.GetPods => inl [podInfo "web-0"]
       | UI.GetServices => inl [podInfo "api"]
       | _ => inl []
       end;
     UI.sort_Slice := fun _ rows => rows;
     UI.Sscanf_int := fun _ _ => 0 |}.

(** The application after [initialize] against [cluster]. *)
Definition started : UI.App := UI.initialize cluster UI.NewApp.

(** Command A: the start-up fetch, run while the target is still pods. *)
Definition resultA : UI.Msg := UI.fetchResources cluster (UI.state started).




(** The pod list on screen, one real row. *)
Definition listed : UI.App :=
  match UI.Update outside cluster resultA started with
  | Some (a, _) => a
  | None => started
  end.

(** A refresh of [listed] that fails. *)
Definition failedRefresh : UI.Msg := UI.fetchResources offline (UI.state listed).

Definition keys (ks : list string) : list (UI.Env * UI.Msg) :=
  map (fun k => (cluster, key k)) ks.

End Examples.

(* ===================================================================== *)
(** ** CLI text as the parsers expect it *)
(* ===================================================================== *)

Module Tables.

Import GoInt UI.

Definition nl : string := String GoStrings.newline "".

(** No byte of [s] is ASCII white space. *)
Fixpoint noSpace (s : string) : bool :=
  match s with
  | EmptyString => true
  | String c rest => negb (GoStrings.asciiSpace c) && noSpace rest
  end.

(** A word: not empty, no white space. *)
Definition isWord (w : string) : bool := negb (String.eqb w "") && noSpace w.

(** A column gap: one or more space bytes. *)
Fixpoint spaces (s : string) : bool :=
  match s with
  | EmptyString => true
  | String c rest => Ascii.eqb c " " && spaces rest
  end.

Definition isGap (gap : string) : bool := negb (String.eqb gap "") && spaces gap.

(** The words of a line, [gap] between them. *)
Definition lineOf (gap : string) (words : list string) : string := GoStrings.Join words gap.

(** A listing as the CLI prints it: a first line, then one line per
    record, each ended by a line feed. *)
Definition listing (first : string) (lines : list string) : string :=
  GoStrings.Join (first :: lines) nl +:+ nl.

(** The five columns of [get pods]. *)
Definition podWords (p : PodInfo) : list string :=
  [PodInfo.Name p; PodInfo.Ready p; PodInfo.Status p; PodInfo.Restarts p; PodInfo.Age p].

(** A record as [parsePodOutput] builds it: five words, nothing else. *)
Definition isPodRow (p : PodInfo) : bool :=
  forallb isWord (podWords p) &&
  String.eqb (PodInfo.CPU p) "" && String.eqb (PodInfo.Memory p) "" &&
  String.eqb (PodInfo.Volume p) "" && String.eqb (PodInfo.Capacity p) "" &&
  String.eqb (PodInfo.AccessModes p) "" && String.eqb (PodInfo.StorageClass p) "".

(** A line without line feed that starts and ends with a byte that is not
    white space. *)
Fixpoint endsInk (s : string) : bool :=
  match s with
  | EmptyString => false
  | String c EmptyString => negb (GoStrings.asciiSpace c)
  | String _ rest => endsInk rest
  end.

Definition startsInk (s : string) : bool :=
  match s with
  | EmptyString => false
  | String c _ => negb (GoStrings.asciiSpace c)
  end.

Definition isCleanLine (s : string) : bool :=
  Forms.oneLine s && startsInk s && endsInk s.

(** Plain text: a word, a line or a record of ASCII bytes only, as the
    CLI prints the names, counts and ages of Kubernetes objects. *)
Definition isPlainWord (w : string) : bool := isWord w && GoStrings.isASCII w.

Definition isPlainLine (s : string) : bool := isCleanLine s && GoStrings.isASCII s.

Definition isPlainPodRow (p : PodInfo) : bool :=
  isPodRow p && forallb GoStrings.isASCII (podWords p).

(** U+00A0, the no-break space, in UTF-8: white space to Go, and no ASCII
    byte. *)
Definition nbsp : string := String (ascii_of_nat 194) (String (ascii_of_nat 160) "").

(** A pod whose name holds a no-break space. *)
Definition nbspPod : PodInfo :=
  OcCommands.row ("web" +:+ nbsp +:+ "0") "1/1" "Running" "0" "3d" "" "".

(** The seven parsers of [utils.OcCommands]. *)
Definition parsers : list (string -> list PodInfo) :=
  [OcCommands.parsePodOutput; OcCommands.parseServiceOutput;
   OcCommands.parseDeploymentOutput; OcCommands.parseGenericOutput;
   OcCommands.parsePVCOutput; OcCommands.parseEventsOutput;
   OcCommands.parseImageStreamOutput].

(** A child process that answers every command with [output]. *)
Definition answering (output : string) : OcCommands.Exec := fun _ => Some output.

(** The name and the age of a record are words. *)
Definition named (r : PodInfo) : Prop :=
  isWord (PodInfo.Name r) = true /\ isWord (PodInfo.Age r) = true.

(** Two pods as [get pods] lists them. *)
Definition webPod : PodInfo := OcCommands.row "web-0" "1/1" "Running" "0" "3d" "" "".
Definition dbPod : PodInfo := OcCommands.row "db-0" "0/1" "CrashLoopBackOff" "12" "5h" "" "".

(** A listing of events as [get events --all-namespaces] prints it. *)
Definition eventListing : string :=
  listing "NAMESPACE   LAST SEEN   TYPE      REASON    OBJECT     MESSAGE"
    ["default     3m          Warning   BackOff   pod/db-0   Back-off restarting failed container";
     "default     5m          Normal    Pulled"].

(** The prefix [GetNamespaces] strips from each line. *)
Definition namespacePrefix (tool : string) : string :=
  if String.eqb tool "oc" then "project.project.openshift.io/" else "namespace/".

End Tables.

(* ===================================================================== *)
(** ** The table cursor *)
(* ===================================================================== *)

Module Cursor.

Import GoInt UI.

(** The selected index names a record, and that record lies on the page
    being shown. *)
Definition cursorOnPage (a : App) : Prop :=
  let s := state a in
  0 <= SelectedIndex s < len (Resources s) /\
  CurrentPage s * PageSize s <= SelectedIndex s < CurrentPage s * PageSize s + PageSize s.

(** The table fits [int]: page arithmetic on it cannot overflow. *)
Definition tableFits (a : App) : Prop :=
  1 <= PageSize (state a) /\
  len (Resources (state a)) + PageSize (state a) <= max_int.

(** Cursor keys: [true] is down ("j"), [false] is up ("k"). *)
Definition move (down : bool) (a : App) : App :=
  if down then fst (handleDownNavigation a) else fst (handleUpNavigation a).

Definition moves (keys : list bool) (a : App) : App := foldl (fun a k => move k a) a keys.

Definition key (k : string) : KeyMsg := {| keyString := k; keyType := 0 |}.

(** The keys of the resource table that open a view on the selected
    record. *)
Definition detailKeys : list string := ["i"; "y"; "e"; "d"; "m"].

(** A table showing the single row [r], cursor on it. *)
Definition singleRow (r : Resource) (a : App) : Prop :=
  CurrentView (state a) = ResourceView /\
  Resources (state a) = [r] /\
  SelectedIndex (state a) = 0.

End Cursor.

(* ===================================================================== *)
(** ** More concrete inputs *)
(* ===================================================================== *)

Module Samples.

Import GoInt.

(** A reachable cluster in which every listing is empty. *)
Definition quiet : UI.Env :=
  {| UI.GetTool := "kubectl";
     UI.GetContexts := Some (["dev"], "dev");
     UI.SwitchContext := fun _ => true;
     UI.GetNamespaces := Some ["default"];
     UI.GetCurrentNamespace := Some "default";
     UI.runProject := fun _ _ => true;
     UI.list_ := fun _ _ => inl [];
     UI.sort_Slice := fun _ rows => rows;
     UI.Sscanf_int := fun _ _ => 0 |}.

(** The table after such a listing: the single row "No pods found". *)
Definition emptyTable : UI.App :=
  Examples.tableApp 50 0 [UI.placeholder "No pods found" "default" "Info" "Empty"].

End Samples.

(* ===================================================================== *)
(** ** Mouse gestures and table columns *)
(* ===================================================================== *)

Module Mouse.

Import GoInt UI.

(** The application with an active selection from cell [(sx, sy)] to cell
    [(ex, ey)]. *)
Definition withSelection (sx sy ex ey : Z) (a : App) : App :=
  let a := upd (set_SelectionActive true) a in
  let a := upd (set_SelectionStartX sx) a in
  let a := upd (set_SelectionStartY sy) a in
  let a := upd (set_SelectionEndX ex) a in
  upd (set_SelectionEndY ey) a.

(** The text that [extractSelectedText] selects, when it returns. *)
Definition selectedBy (a : App) : option string :=
  match extractSelectedText a with
  | Some a' => Some (SelectedText (state a'))
  | None => None
  end.

(** The first screen column of table column [i]: two border bytes, then
    each earlier column and its three separator bytes. *)
Fixpoint columnStart (widths : list Z) (i : nat) : Z :=
  match i, widths with
  | S i, w :: rest => w + 3 + columnStart rest i
  | _, _ => 2
  end.

(** A mouse message. *)
Definition mouse (t : MouseEventType) (x y : Z) : Msg :=
  Mouse {| mouseType := t; X := x; Y := y |}.

(** A drag: the left button pressed at [(sx, sy)], the mouse moved to
    [(ex, ey)] and the button released there. *)
Definition drag (env : Env) (sx sy ex ey : Z) : list (Env * Msg) :=
  [(env, mouse MouseLeft sx sy); (env, mouse MouseMotion ex ey);
   (env, mouse MouseRelease ex ey)].

(** The selection the application holds: whether it is active, and its
    text. *)
Definition selection (s : AppState) : bool * string := (SelectionActive s, SelectedText s).

(** Press and release of the left button at the same cell. *)
Definition click (env : Env) (x y : Z) : list (Env * Msg) :=
  [(env, mouse MouseLeft x y); (env, mouse MouseRelease x y)].

(** The sort order after a click on a sortable header of field [field]. *)
Definition sortAfter (field : string) (s : AppState) : string * string :=
  if String.eqb (SortField s) field
  then (field, if String.eqb (SortDirection s) "asc" then "desc" else "asc")
  else (field, "asc").

Definition sortOrder (s : AppState) : string * string := (SortField s, SortDirection s).

(** Column widths of a terminal table. *)
Definition smallWidths (ws : list Z) : Prop := Forall (fun w => 0 <= w <= 1000) ws.

End Mouse.

(* ===================================================================== *)
(** ** Forms used to state the window of a pane *)
(* ===================================================================== *)

Module Panes.

Import GoInt UI.

Definition nl : string := String GoStrings.newline "".

(** A window of [viewHeight] rows over [lines] scrolled by [offset]: row
    [i] is line [offset + i], or an empty row past the end of the text. *)
Definition rowsShown (lines : list string) (offset viewHeight : Z) : list string :=
  map (fun i => default "" (lines !! (Z.to_nat offset + i)%nat))
      (seq 0 (Z.to_nat viewHeight)).

Definition describeLines (a : App) : list string :=
  GoStrings.Split (DescribeOutput (state a)) GoStrings.newline.

Definition diagramLines (a : App) : list string :=
  GoStrings.Split (DiagramOutput (state a)) GoStrings.newline.

(** The describe pane showing [text] scrolled by [offset] on a terminal of
    [rows] rows. *)
Definition describePane (text : string) (offset rows : Z) : App :=
  with_size
    (upd (set_DescribeScrollOffset offset)
       (upd (set_DescribeOutput text) (upd (set_CurrentView DescribeView) NewApp)))
    80 rows.

(** The diagram pane, likewise. *)
Definition diagramPane (text : string) (offset rows : Z) : App :=
  with_size
    (upd (set_DiagramScrollOffset offset)
       (upd (set_DiagramOutput text) (upd (set_CurrentView DiagramView) NewApp)))
    80 rows.

End Panes.

(* ===================================================================== *)
(** ** Forms and inputs for the context and namespace selectors *)
(* ===================================================================== *)

Module Selectors.

Import GoInt UI.

(** A reachable cluster with two contexts and three namespaces. *)
Definition cluster : Env :=
  {| GetTool := "kubectl";
     GetContexts := Some (["dev"; "prod"], "prod");
     SwitchContext := fun _ => true;
     GetNamespaces := Some ["default"; "kube-system"; "web"];
     GetCurrentNamespace := Some "default";
     runProject := fun _ _ => true;
     list_ := fun _ _ => inl [];
     sort_Slice := fun _ rows => rows;
     Sscanf_int := fun _ _ => 0 |}.

(** The application as [Run] starts it. *)
Definition started (env : Env) : App := initialize env NewApp.

(** A key press, with the answers of [env]. *)
Definition press (env : Env) (k : string) : Env * Msg := (env, Examples.key k).

(** Cursor keys of a selector: [true] is down ("j"), [false] is up ("k"). *)
Definition cursorKeys (env : Env) (keys : list bool) : list (Env * Msg) :=
  map (fun down : bool => press env (if down then "j" else "k")) keys.

(** The namespace under the cursor of the namespace selector, when the
    selector exists and its cursor names one. *)
Definition underCursor (a : App) : option string :=
  ns ← namespaceSelector a;
  index (NamespaceSelector.namespaces ns) (NamespaceSelector.selectedIndex ns).

(** The namespaces the selector lists. *)
Definition listed (a : App) : option (list string) :=
  ns ← namespaceSelector a; Some (NamespaceSelector.namespaces ns).

(** The namespace view with its selector in place, listing [nss], the
    cursor on one of them. *)
Definition cursorInside (nss : list string) (a : App) : Prop :=
  CurrentView (state a) = NamespaceView /\
  exists ns, namespaceSelector a = Some ns /\
             NamespaceSelector.namespaces ns = nss /\
             0 <= NamespaceSelector.selectedIndex ns < len nss.

(** The keys of the resource table that switch the resource type. *)
Definition digitKeys : list string := ["1"; "2"; "3"; "4"; "5"; "6"; "7"; "8"].

(** What the navigation reads and writes besides the current view. *)
Definition shown (s : AppState) : ViewType * string * Z * Z :=
  (CurrentView s, ResourceType s, CurrentPage s, SelectedIndex s).

End Selectors.

(* ===================================================================== *)
(** * Properties *)
(* ===================================================================== *)

(** ** Arithmetic and strings *)

Module GoFacts.

Import GoInt.

Lemma wrap_in_range (z : Z) : in_range z -> wrap z = z.
Proof.
  unfold in_range, min_int, max_int, wrap. intros [Hlo Hhi].
  rewrite Z.mod_small; lia.
Qed.

Lemma wrap_range (z : Z) : in_range (wrap z).
Proof.
  unfold in_range, min_int, max_int, wrap.
  pose proof (Z.mod_pos_bound (z + 2 ^ 63) (2 ^ 64) ltac:(lia)). lia.
Qed.

Lemma wrap_idem_add (a b : Z) : wrap (wrap a + b) = wrap (a + b).
Proof.
  unfold wrap. f_equal.
  replace ((a + 2 ^ 63) mod 2 ^ 64 - 2 ^ 63 + b + 2 ^ 63)
    with ((a + 2 ^ 63) mod 2 ^ 64 + b) by lia.
  rewrite Zplus_mod_idemp_l. f_equal. lia.
Qed.

Lemma wrap_idem_sub (a b : Z) : wrap (wrap a - b) = wrap (a - b).
Proof.
  replace (wrap a - b) with (wrap a + - b) by lia.
  rewrite wrap_idem_add. f_equal; lia.
Qed.

Lemma add_exact (a b : Z) : in_range (a + b) -> add a b = a + b.
Proof. apply wrap_in_range. Qed.

Lemma sub_exact (a b : Z) : in_range (a - b) -> sub a b = a - b.
Proof. apply wrap_in_range. Qed.

Lemma mul_exact (a b : Z) : in_range (a * b) -> mul a b = a * b.
Proof. apply wrap_in_range. Qed.

Lemma len_nonneg {A} (l : list A) : 0 <= len l.
Proof. unfold len. lia. Qed.

Lemma quot_exact (a b : Z) :
  b <> 0 -> in_range (Z.quot a b) -> quot a b = Some (Z.quot a b).
Proof.
  intros Hb Hr. unfold quot.
  destruct (Z.eqb_spec b 0) as [->|_]; [congruence|].
  now rewrite wrap_in_range.
Qed.

End GoFacts.

(** ** The root program *)

Module RootProps.

Import Root.

Lemma detail_lookup (r : K8sResource) (key value : string) :
  Details r !! key = Some value -> detail r key = value.
Proof. unfold detail. now intros ->. Qed.






(** The helper [analyzeResourceHealth] on a pod record in a terminal failure
    status whose detail "Restarts" reads 7. *)
Lemma classify_failed_pod_with_7_restarts (r : K8sResource) :
  ResourceKind r = PodsResource ->
  Status r = "Failed" \/ Status r = "Error" ->
  Details r !! "Restarts" = Some "7" ->
  Errors (analyzeResourceHealth r) = ["Pod is in failed state"] /\
  Warnings (analyzeResourceHealth r) = ["High restart count: 7"].
Proof.
  intros Hkind Hstatus Hrestarts.
  unfold analyzeResourceHealth. rewrite Hkind.
  rewrite (detail_lookup _ _ _ Hrestarts).
  destruct Hstatus as [-> | ->]; split; reflexivity.
Qed.

(** Its warning threshold sits at 5: five restarts raise nothing, six do. *)
Lemma restart_threshold (r : K8sResource) :
  ResourceKind r = PodsResource ->
  Status r = "Running" ->
  (Details r !! "Restarts" = Some "5" -> Warnings (analyzeResourceHealth r) = []) /\
  (Details r !! "Restarts" = Some "6" ->
   Warnings (analyzeResourceHealth r) = ["High restart count: 6"]).
Proof.
  intros Hkind Hstatus. unfold analyzeResourceHealth. rewrite Hkind, Hstatus.
  split; intros H; rewrite (detail_lookup _ _ _ H); reflexivity.
Qed.

End RootProps.

(** ** The [pkg/ui] application: pagination *)

Module PageProps.

Import GoInt GoFacts UI Forms.

Lemma paginateResources_window (a : App) :
  1 <= PageSize (state a) ->
  0 <= CurrentPage (state a) ->
  pageArithmeticFits a ->
  paginateResources a = Some (pageWindow a).
Proof.
  intros Hps Hcp [Hsum Hmul].
  unfold paginateResources, pageWindow.
  set (s := state a) in *. set (n := len (Resources s)) in *.
  set (ps := PageSize s) in *. set (cp := CurrentPage s) in *.
  assert (Hn : 0 <= n) by apply len_nonneg.
  assert (Hmm : min_int < 0 < max_int) by (unfold min_int, max_int; lia).
  assert (Hsub : sub (add n ps) 1 = n + ps - 1).
  { unfold sub, add. rewrite wrap_idem_sub. apply wrap_in_range. unfold in_range. lia. }
  rewrite Hsub.
  assert (Hq : Z.quot (n + ps - 1) ps = (n + ps - 1) / ps)
    by (apply Z.quot_div_nonneg; lia).
  assert (Hq0 : 0 <= (n + ps - 1) / ps) by (apply Z.div_pos; lia).
  assert (Hq1 : (n + ps - 1) / ps <= n + ps - 1) by (apply Z.div_le_upper_bound; nia).
  rewrite quot_exact by (rewrite ?Hq; unfold in_range; lia).
  rewrite Hq. simpl.
  assert (Hstart : 0 <= cp * ps) by nia.
  rewrite (mul_exact cp ps) by (unfold in_range; lia).
  assert (Hpages :
    (if (n + ps - 1) / ps =? 0 then 1 else (n + ps - 1) / ps)
    = Z.max 1 ((n + ps - 1) / ps)).
  { destruct (Z.eqb_spec ((n + ps - 1) / ps) 0); lia. }
  rewrite Hpages.
  destruct (Z.leb_spec n (cp * ps)) as [Hpast | Hin].
  - (* past the end *)
    f_equal. f_equal.
    + symmetry. rewrite drop_ge; [apply take_nil|]. unfold n, len in Hpast. lia.
    + destruct (Z.ltb_spec (cp * ps) n); [lia | reflexivity].
  - rewrite (add_exact (cp * ps) ps) by (unfold in_range; lia).
    assert (Hsl :
      sliceList (Resources s) (cp * ps) (if n <? cp * ps + ps then n else cp * ps + ps)
      = Some (take (Z.to_nat ps) (drop (Z.to_nat (cp * ps)) (Resources s)))).
    { unfold sliceList. fold n.
      destruct (Z.ltb_spec n (cp * ps + ps)) as [Hcut | Hfull].
      - destruct (Z.leb_spec 0 (cp * ps)); [|lia].
        destruct (Z.leb_spec (cp * ps) n); [|lia].
        destruct (Z.leb_spec n n); [|lia]. simpl. f_equal.
        rewrite !take_ge; [reflexivity | |]; rewrite length_drop; unfold n, len in *; lia.
      - destruct (Z.leb_spec 0 (cp * ps)); [|lia].
        destruct (Z.leb_spec (cp * ps) (cp * ps + ps)); [|lia].
        destruct (Z.leb_spec (cp * ps + ps) n); [|lia]. simpl. do 3 f_equal. lia. }
    rewrite Hsl. simpl. f_equal. f_equal.
    rewrite (sub_exact _ 1) by (unfold in_range; lia).
    destruct (Z.ltb_spec (cp * ps) n); [reflexivity | lia].
Qed.

Lemma handleRightNavigation_window (a : App) :
  1 <= PageSize (state a) ->
  0 <= CurrentPage (state a) ->
  pageArithmeticFits a ->
  handleRightNavigation a =
  Some (if PaginatedResult.HasNext (pageWindow a)
        then upd (set_CurrentPage (add (CurrentPage (state a)) 1)) a else a, CmdNone).
Proof.
  intros Hps Hcp Hfit. unfold handleRightNavigation.
  rewrite paginateResources_window by assumption. simpl.
  now destruct (_ && _).
Qed.

(** C4.  With 142 rows and a page size of 50, pagination reports three
    pages; page 0 has no previous and has a next page; pressing "next page"
    twice reaches page 2, which holds the last 42 rows and has no next
    page. *)
Theorem pagination_142_by_50 (a : App) :
  length (Resources (state a)) = 142%nat ->
  PageSize (state a) = 50 ->
  CurrentPage (state a) = 0 ->
  exists p0 a1 a2 p2,
    paginateResources a = Some p0 /\
    PaginatedResult.TotalPages p0 = 3 /\
    PaginatedResult.HasPrev p0 = false /\
    PaginatedResult.HasNext p0 = true /\
    handleRightNavigation a = Some (a1, CmdNone) /\
    handleRightNavigation a1 = Some (a2, CmdNone) /\
    CurrentPage (state a2) = 2 /\
    paginateResources a2 = Some p2 /\
    PaginatedResult.Items p2 = drop 100 (Resources (state a)) /\
    length (PaginatedResult.Items p2) = 42%nat /\
    PaginatedResult.TotalPages p2 = 3 /\
    PaginatedResult.HasNext p2 = false.
Proof.
  intros Hlen Hps Hcp.
  assert (Hn : len (Resources (state a)) = 142) by (unfold len; now rewrite Hlen).
  assert (Hmax : max_int = 9223372036854775807) by reflexivity.
  set (a1 := upd (set_CurrentPage 1) a).
  set (a2 := upd (set_CurrentPage 2) a1).
  assert (Hfit : forall b, Resources (state b) = Resources (state a) ->
            PageSize (state b) = 50 -> 0 <= CurrentPage (state b) <= 2 ->
            pageArithmeticFits b).
  { intros b Hr Hp Hc. unfold pageArithmeticFits. rewrite Hr, Hp, Hn, Hmax. lia. }
  assert (Hw : forall b, Resources (state b) = Resources (state a) ->
            PageSize (state b) = 50 -> 0 <= CurrentPage (state b) <= 2 ->
            paginateResources b = Some (pageWindow b) /\
            PaginatedResult.TotalPages (pageWindow b) = 3 /\
            PaginatedResult.HasNext (pageWindow b) = (CurrentPage (state b) <? 2)).
  { intros b Hr Hp Hc. split.
    - apply paginateResources_window; [lia | lia | now apply Hfit].
    - unfold pageWindow. simpl. rewrite Hr, Hp, Hn. split; [reflexivity|].
      change (Z.max 1 ((142 + 50 - 1) / 50) - 1) with 2.
      destruct (Z.ltb_spec (CurrentPage (state b) * 50) 142);
        destruct (Z.ltb_spec (CurrentPage (state b)) 2); simpl; lia. }
  destruct (Hw a eq_refl Hps ltac:(lia)) as (Hp0 & Ht0 & Hn0).
  destruct (Hw a1 eq_refl Hps ltac:(simpl; lia)) as (Hp1 & Ht1 & Hn1).
  destruct (Hw a2 eq_refl Hps ltac:(simpl; lia)) as (Hp2 & Ht2 & Hn2).
  exists (pageWindow a), a1, a2, (pageWindow a2).
  split; [exact Hp0|]. split; [exact Ht0|].
  split; [unfold pageWindow; simpl; now rewrite Hcp|].
  split; [now rewrite Hn0, Hcp|].
  split.
  { rewrite handleRightNavigation_window; [|lia|lia|now apply Hfit; [| |lia]].
    rewrite Hn0, Hcp. reflexivity. }
  split.
  { rewrite handleRightNavigation_window;
      [|simpl; lia|simpl; lia|now apply Hfit; [| |simpl; lia]].
    rewrite Hn1. reflexivity. }
  split; [reflexivity|].
  split; [exact Hp2|].
  assert (Hitems : PaginatedResult.Items (pageWindow a2) = drop 100 (Resources (state a))).
  { unfold pageWindow. simpl. rewrite Hps.
    change (Z.to_nat (2 * 50)) with 100%nat.
    apply take_ge. rewrite length_drop. change (Z.to_nat 50) with 50%nat. lia. }
  split; [exact Hitems|].
  split; [rewrite Hitems, length_drop; lia|].
  split; [exact Ht2|].
  now rewrite Hn2.
Qed.

Lemma pagination_142_by_50_witness :
  exists p0 a1 a2 p2,
    paginateResources Examples.app142 = Some p0 /\
    PaginatedResult.TotalPages p0 = 3 /\
    PaginatedResult.HasPrev p0 = false /\
    PaginatedResult.HasNext p0 = true /\
    handleRightNavigation Examples.app142 = Some (a1, CmdNone) /\
    handleRightNavigation a1 = Some (a2, CmdNone) /\
    CurrentPage (state a2) = 2 /\
    paginateResources a2 = Some p2 /\
    PaginatedResult.Items p2 = drop 100 (Resources (state Examples.app142)) /\
    length (PaginatedResult.Items p2) = 42%nat /\
    PaginatedResult.TotalPages p2 = 3 /\
    PaginatedResult.HasNext p2 = false.
Proof.
  apply pagination_142_by_50; reflexivity.
Defined.

(** C10, the claim as stated fails: with [PageSize >= 1] and
    [CurrentPage >= 0] the page arithmetic can leave [int]; then either the
    slice bounds are out of range (a panic), or the page count drops below
    one. *)
Lemma paginate_overflow :
  (1 <= PageSize (state Examples.overflowStart) /\
   0 <= CurrentPage (state Examples.overflowStart) /\
   paginateResources Examples.overflowStart = None) /\
  (1 <= PageSize (state Examples.overflowTotal) /\
   0 <= CurrentPage (state Examples.overflowTotal) /\
   exists p, paginateResources Examples.overflowTotal = Some p /\
             PaginatedResult.TotalPages p = -1).
Proof.
  split.
  - split; [vm_compute; discriminate|]. split; [vm_compute; discriminate|].
    vm_compute. reflexivity.
  - split; [vm_compute; discriminate|]. split; [vm_compute; discriminate|].
    eexists. split; vm_compute; reflexivity.
Qed.

(** C10, amended.  For every list, every [PageSize >= 1] and every
    [CurrentPage >= 0] whose page arithmetic stays inside [int],
    [paginateResources] returns (no bounds violation) with at least one
    page and at most [PageSize] items; on a page past the end of the list
    the items are empty, there is no next page, and there is a previous
    page exactly when [CurrentPage > 0]. *)
Theorem paginate_total_within_int (a : App) :
  1 <= PageSize (state a) ->
  0 <= CurrentPage (state a) ->
  pageArithmeticFits a ->
  exists p,
    paginateResources a = Some p /\
    1 <= PaginatedResult.TotalPages p /\
    len (PaginatedResult.Items p) <= PageSize (state a) /\
    (len (Resources (state a)) <= CurrentPage (state a) * PageSize (state a) ->
     PaginatedResult.Items p = [] /\
     PaginatedResult.HasNext p = false /\
     PaginatedResult.HasPrev p = (0 <? CurrentPage (state a))).
Proof.
  intros Hps Hcp Hfit. exists (pageWindow a).
  split; [now apply paginateResources_window|].
  unfold pageWindow. simpl. split; [lia|]. split.
  - unfold len. rewrite length_take. lia.
  - intros Hpast. split; [|split; [|reflexivity]].
    + rewrite drop_ge; [apply take_nil|]. unfold len in Hpast.
      assert (0 <= CurrentPage (state a) * PageSize (state a)) by nia. lia.
    + destruct (Z.ltb_spec (CurrentPage (state a) * PageSize (state a))
                           (len (Resources (state a)))); [lia | reflexivity].
Qed.

Lemma paginate_total_within_int_witness :
  exists p,
    paginateResources Examples.pastEnd = Some p /\
    1 <= PaginatedResult.TotalPages p /\
    len (PaginatedResult.Items p) <= 50 /\
    PaginatedResult.Items p = [] /\
    PaginatedResult.HasNext p = false /\
    PaginatedResult.HasPrev p = true.
Proof.
  destruct (paginate_total_within_int Examples.pastEnd) as (p & Hp & Ht & Hl & Hpast).
  - vm_compute. discriminate.
  - vm_compute. discriminate.
  - split; vm_compute; discriminate.
  - destruct Hpast as (Hi & Hn & Hv); [vm_compute; discriminate|].
    exists p. split; [exact Hp|]. split; [exact Ht|]. split; [exact Hl|].
    split; [exact Hi|]. split; [exact Hn | exact Hv].
Defined.

End PageProps.

(** ** The [pkg/ui] application: scrolling *)

Module ScrollProps.

Import GoInt GoFacts UI Forms.

Lemma int_bounds : min_int < 0 < max_int /\ min_int = - max_int - 1.
Proof. unfold min_int, max_int. lia. Qed.

Lemma halfPage_max (vh : Z) : halfPage vh = Z.max 1 (Z.quot vh 2).
Proof. unfold halfPage. destruct (Z.ltb_spec (Z.quot vh 2) 1); lia. Qed.

Lemma halfPage_pos (vh : Z) : 1 <= halfPage vh.
Proof. rewrite halfPage_max. lia. Qed.

Lemma halfPage_range (vh : Z) : in_range vh -> halfPage vh <= max_int.
Proof.
  intros [Hlo Hhi]. rewrite halfPage_max. pose proof int_bounds.
  assert (Z.quot vh 2 <= max_int); [|lia].
  destruct (Z.le_gt_cases 0 vh).
  - rewrite Z.quot_div_nonneg by lia.
    assert (vh / 2 <= vh) by (apply Z.div_le_upper_bound; lia). lia.
  - assert (Z.quot vh 2 <= 0); [|lia].
    apply Z.quot_le_upper_bound; lia.
Qed.

Lemma maxScrollFor_range (output : string) (vh : Z) :
  0 <= maxScrollFor output vh <= max_int.
Proof.
  unfold maxScrollFor. pose proof int_bounds.
  destruct (String.eqb output ""); [lia|].
  destruct (Z.ltb_spec (add (sub (len (GoStrings.Split output GoStrings.newline)) vh) 2) 0).
  - lia.
  - split; [assumption|]. apply wrap_range.
Qed.

Lemma maxScrollFor_empty (vh : Z) : maxScrollFor "" vh = 0.
Proof. reflexivity. Qed.

Lemma maxScrollFor_stated (output : string) (vh : Z) :
  output <> "" ->
  let lc := len (GoStrings.Split output GoStrings.newline) in
  in_range (lc - vh) -> in_range (lc - vh + 2) ->
  maxScrollFor output vh = statedMaxScroll lc vh.
Proof.
  intros Hne lc H1 H2. unfold maxScrollFor, statedMaxScroll.
  destruct (String.eqb_spec output ""); [contradiction|]. fold lc.
  rewrite (sub_exact lc vh) by assumption.
  rewrite add_exact by assumption.
  destruct (Z.ltb_spec (lc - vh + 2) 0); lia.
Qed.

Lemma paneMaxScroll_eq (x : Outside) (p : Pane) (a : App) :
  paneMaxScroll x p a = maxScrollFor (paneOutput p (state a)) (paneViewHeight x p a).
Proof. destruct p; reflexivity. Qed.

Lemma scrollOp_offset (x : Outside) (p : Pane) (op : ScrollOp) (a : App) :
  paneOffset p (state (scrollOp x p op a))
  = opOffset op (paneOffset p (state a)) (paneViewHeight x p a) (paneMaxScroll x p a).
Proof. destruct p, op; reflexivity. Qed.

Lemma scrollOp_output (x : Outside) (p : Pane) (op : ScrollOp) (a : App) :
  paneOutput p (state (scrollOp x p op a)) = paneOutput p (state a).
Proof. destruct p, op; reflexivity. Qed.

Lemma scrollOp_height (x : Outside) (p : Pane) (op : ScrollOp) (a : App) :
  heightIgnoresScroll x ->
  paneViewHeight x p (scrollOp x p op a) = paneViewHeight x p a.
Proof.
  intros [Hm Hl]. destruct p; try (destruct op; reflexivity).
  - destruct op; apply Hm.
  - destruct op; apply Hl.
Qed.

Lemma scrollOp_max (x : Outside) (p : Pane) (op : ScrollOp) (a : App) :
  heightIgnoresScroll x ->
  paneMaxScroll x p (scrollOp x p op a) = paneMaxScroll x p a.
Proof.
  intros H. rewrite !paneMaxScroll_eq, scrollOp_output, scrollOp_height by assumption.
  reflexivity.
Qed.

(** What each operation computes, in plain arithmetic, from an offset
    within bounds. *)
Lemma opOffset_plain (op : ScrollOp) (off vh M : Z) :
  0 <= off <= M -> M + halfPage vh <= max_int ->
  opOffset op off vh M =
  match op with
  | ScrollDown => Z.min M (off + 1)
  | ScrollUp => Z.max 0 (off - 1)
  | PageDown => Z.min M (off + Z.max 1 (Z.quot vh 2))
  | PageUp => Z.max 0 (off - Z.max 1 (Z.quot vh 2))
  | ToTop => 0
  | ToBottom => M
  end.
Proof.
  intros Hoff Hfit. pose proof int_bounds. pose proof (halfPage_pos vh).
  rewrite <- halfPage_max.
  destruct op; simpl; try reflexivity.
  - unfold scrollDownFrom. destruct (Z.ltb_spec off M); [|lia].
    rewrite add_exact by (unfold in_range; lia). lia.
  - unfold scrollUpFrom. destruct (Z.ltb_spec 0 off); [|lia].
    rewrite sub_exact by (unfold in_range; lia). lia.
  - unfold pageDownFrom. rewrite add_exact by (unfold in_range; lia).
    destruct (Z.ltb_spec M (off + halfPage vh)); lia.
  - unfold pageUpFrom. rewrite sub_exact by (unfold in_range; lia).
    destruct (Z.ltb_spec (off - halfPage vh) 0); lia.
Qed.

Lemma opOffset_bounded (op : ScrollOp) (off vh M : Z) :
  0 <= off <= M -> M + halfPage vh <= max_int ->
  0 <= opOffset op off vh M <= M.
Proof.
  intros Hoff Hfit. rewrite opOffset_plain by assumption. destruct op; lia.
Qed.

(** The side conditions and the bound survive any scroll operation. *)
Lemma scrollOp_invariant (x : Outside) (p : Pane) (op : ScrollOp) (a : App) :
  heightIgnoresScroll x ->
  paneArithmeticFits x p a ->
  0 <= paneOffset p (state a) <= paneMaxScroll x p a ->
  paneArithmeticFits x p (scrollOp x p op a) /\
  paneMaxScroll x p (scrollOp x p op a) = paneMaxScroll x p a /\
  paneViewHeight x p (scrollOp x p op a) = paneViewHeight x p a /\
  0 <= paneOffset p (state (scrollOp x p op a)) <= paneMaxScroll x p a.
Proof.
  intros Hx Hfit Hoff.
  split; [|split; [now apply scrollOp_max | split; [now apply scrollOp_height|]]].
  - unfold paneArithmeticFits, lineCount in *.
    now rewrite scrollOp_output, scrollOp_height.
  - rewrite scrollOp_offset. apply opOffset_bounded; [assumption|].
    destruct Hfit as (H1 & H2 & H3). rewrite paneMaxScroll_eq.
    destruct (String.eqb_spec (paneOutput p (state a)) "") as [He | Hne].
    + rewrite He, maxScrollFor_empty. unfold statedMaxScroll in H3. lia.
    + rewrite maxScrollFor_stated by assumption. exact H3.
Qed.

Lemma scrollSeq_invariant (x : Outside) (p : Pane) (ops : list ScrollOp) (a : App) :
  heightIgnoresScroll x ->
  paneArithmeticFits x p a ->
  0 <= paneOffset p (state a) <= paneMaxScroll x p a ->
  paneArithmeticFits x p (scrollSeq x p ops a) /\
  paneMaxScroll x p (scrollSeq x p ops a) = paneMaxScroll x p a /\
  paneViewHeight x p (scrollSeq x p ops a) = paneViewHeight x p a /\
  0 <= paneOffset p (state (scrollSeq x p ops a)) <= paneMaxScroll x p a.
Proof.
  intros Hx. revert a. induction ops as [|op ops IH]; intros a Hfit Hoff.
  - simpl. auto.
  - simpl.
    destruct (scrollOp_invariant x p op a Hx Hfit Hoff) as (Hfit' & Hmax' & Hvh' & Hoff').
    rewrite <- Hmax' in Hoff'.
    destruct (IH _ Hfit' Hoff') as (F & M & V & O).
    rewrite Hmax' in M, O. rewrite Hvh' in V. auto.
Qed.

(** C5, the claim as stated fails, twice.  (1) On an 8-row terminal the
    viewport height is 0; while the pane's text is still empty, to-bottom
    leaves the offset at 0, not at [max(0, lineCount - viewportHeight + 2)],
    whether the empty text is counted as one line (as [strings.Split] does)
    or as none.  (2) The bound is not kept when the terminal is resized
    between two operations: on forty lines and 24 rows, to-bottom sets the
    offset to 26; after the terminal has grown to 60 rows the maximum is 0,
    and one line up leaves the offset at 25. *)
Lemma stated_scroll_bound_fails :
  (paneOutput Yaml (state Examples.emptyPane) = "" /\
   paneViewHeight Examples.outside Yaml Examples.emptyPane = 0 /\
   lineCount Yaml (state Examples.emptyPane) = 1 /\
   paneOffset Yaml (state (scrollOp Examples.outside Yaml ToBottom Examples.emptyPane)) = 0 /\
   statedMaxScroll 1 0 = 3 /\
   statedMaxScroll 0 0 = 2) /\
  (paneOffset Yaml (state Examples.yamlPane) = 0 /\
   paneMaxScroll Examples.outside Yaml Examples.yamlPane = 26 /\
   exists a' cmds,
     run Examples.outside Examples.bottom_resize_up Examples.yamlPane = Some (a', cmds) /\
     paneOffset Yaml (state a') = 25 /\
     paneMaxScroll Examples.outside Yaml a' = 0).
Proof.
  split.
  - split; [vm_compute; reflexivity|].
    split; [vm_compute; reflexivity|].
    split; [vm_compute; reflexivity|].
    split; [vm_compute; reflexivity|].
    split; vm_compute; reflexivity.
  - split; [vm_compute; reflexivity|].
    split; [vm_compute; reflexivity|].
    destruct (run Examples.outside Examples.bottom_resize_up Examples.yamlPane)
      as [[a' cmds]|] eqn:Hrun; [|vm_compute in Hrun; discriminate Hrun].
    exists a', cmds. split; [reflexivity|].
    vm_compute in Hrun. injection Hrun as <- _. split; vm_compute; reflexivity.
Qed.

(** C5, amended.  For every pane: from an offset within
    [0 <= offset <= maxScroll] (such as the 0 a pane is opened with), and
    as long as the terminal size and the pane's text stay as they are, every
    sequence of scroll operations (by one, by half a page, to top, to
    bottom) keeps the offset within [0 <= offset <= maxScroll], provided
    the pane's scroll arithmetic stays inside [int] and the viewport heights
    of the memory and logs panes, which are computed outside the source
    tree, do not depend on the scroll offset.  [maxScroll] does not change
    along the way and is 0 for an empty pane and
    [max(0, lineCount - viewportHeight + 2)] otherwise; a page operation
    moves by half the viewport height, at least 1, clamped to these bounds;
    to-bottom sets the offset to [maxScroll].  No message other than a key
    press or a mouse event writes an offset: a resize or the arrival of a
    new text changes [maxScroll] and leaves the offset where it was, inside
    the new bounds or not. *)
Theorem scroll_offset_within_bounds
    (x : Outside) (p : Pane) (ops : list ScrollOp) (a : App) :
  heightIgnoresScroll x ->
  paneArithmeticFits x p a ->
  0 <= paneOffset p (state a) <= paneMaxScroll x p a ->
  0 <= paneOffset p (state (scrollSeq x p ops a)) <= paneMaxScroll x p a /\
  paneMaxScroll x p (scrollSeq x p ops a) = paneMaxScroll x p a /\
  paneMaxScroll x p a =
    (if String.eqb (paneOutput p (state a)) "" then 0
     else statedMaxScroll (lineCount p (state a)) (paneViewHeight x p a)) /\
  paneOffset p (state (scrollOp x p PageDown (scrollSeq x p ops a))) =
    Z.min (paneMaxScroll x p a)
          (paneOffset p (state (scrollSeq x p ops a))
           + Z.max 1 (Z.quot (paneViewHeight x p a) 2)) /\
  paneOffset p (state (scrollOp x p PageUp (scrollSeq x p ops a))) =
    Z.max 0 (paneOffset p (state (scrollSeq x p ops a))
             - Z.max 1 (Z.quot (paneViewHeight x p a) 2)) /\
  paneOffset p (state (scrollOp x p ToBottom (scrollSeq x p ops a))) = paneMaxScroll x p a /\
  (forall env msg a' cmd,
     match msg with Key _ | Mouse _ => False | _ => True end ->
     Update x env msg a = Some (a', cmd) ->
     paneOffset p (state a') = paneOffset p (state a)).
Proof.
  intros Hx Hfit Hoff.
  destruct (scrollSeq_invariant x p ops a Hx Hfit Hoff) as (Hfit' & Hmax' & Hvh' & Hoff').
  assert (Hstated : paneMaxScroll x p a =
    (if String.eqb (paneOutput p (state a)) "" then 0
     else statedMaxScroll (lineCount p (state a)) (paneViewHeight x p a))).
  { rewrite paneMaxScroll_eq. destruct Hfit as (H1 & H2 & _).
    destruct (String.eqb_spec (paneOutput p (state a)) "") as [-> | Hne].
    - reflexivity.
    - now apply maxScrollFor_stated. }
  assert (Hpage : paneMaxScroll x p a + halfPage (paneViewHeight x p a) <= max_int).
  { destruct Hfit as (_ & _ & H3). rewrite Hstated.
    destruct (String.eqb (paneOutput p (state a)) ""); [|exact H3].
    unfold statedMaxScroll in H3. lia. }
  split; [exact Hoff'|]. split; [exact Hmax'|]. split; [exact Hstated|].
  rewrite !scrollOp_offset, Hmax', Hvh'.
  rewrite !opOffset_plain by assumption.
  repeat (split; [reflexivity|]).
  intros env msg a' cmd Hmsg Hstep. unfold Update in Hstep.
  destruct msg; try contradiction;
    try (injection Hstep as <- _; destruct p; reflexivity).
  destruct (quot _ _); [|discriminate Hstep].
  injection Hstep as <- _. destruct p; reflexivity.
Qed.

Lemma scroll_offset_within_bounds_witness :
  0 <= paneOffset Yaml
         (state (scrollSeq Examples.outside Yaml
                   [PageDown; ScrollDown; ToBottom; PageUp; ScrollUp] Examples.yamlPane))
    <= paneMaxScroll Examples.outside Yaml Examples.yamlPane /\
  paneMaxScroll Examples.outside Yaml Examples.yamlPane = 26.
Proof.
  split; [|reflexivity].
  apply (scroll_offset_within_bounds Examples.outside Yaml
           [PageDown; ScrollDown; ToBottom; PageUp; ScrollUp] Examples.yamlPane).
  - split; intros; reflexivity.
  - repeat split; vm_compute; discriminate.
  - split; vm_compute; discriminate.
Defined.

End ScrollProps.

(** ** The [pkg/ui] application: selection and extraction *)

Module SelectProps.

Import GoInt GoFacts UI Forms Mouse.

Lemma Split_nonempty (s : string) : GoStrings.Split s GoStrings.newline <> [].
Proof.
  destruct s as [|c rest]; simpl; [discriminate|].
  destruct (Ascii.eqb c GoStrings.newline); [discriminate|].
  destruct (GoStrings.Split rest GoStrings.newline); discriminate.
Qed.

(** The pieces [strings.Split] returns hold no separator. *)
Lemma Split_oneLine (s : string) :
  Forall (fun l => oneLine l = true) (GoStrings.Split s GoStrings.newline).
Proof.
  induction s as [|c rest IH]; simpl.
  - repeat constructor.
  - destruct (Ascii.eqb c GoStrings.newline) eqn:Hc.
    + constructor; [reflexivity | exact IH].
    + destruct (GoStrings.Split rest GoStrings.newline) as [|l ls].
      * repeat constructor. simpl. now rewrite Hc.
      * inversion IH; subst. constructor; [|assumption].
        simpl. rewrite Hc. assumption.
Qed.

(** A text without separator splits into itself. *)
Lemma Split_of_oneLine (s : string) :
  oneLine s = true -> GoStrings.Split s GoStrings.newline = [s].
Proof.
  induction s as [|c rest IH]; simpl; [reflexivity|].
  intros H. apply andb_true_iff in H as [Hc Hrest].
  apply negb_true_iff in Hc. rewrite Hc, (IH Hrest). reflexivity.
Qed.

Lemma substring_oneLine (s : string) (n m : nat) :
  oneLine s = true -> oneLine (String.substring n m s) = true.
Proof.
  revert n m. induction s as [|c rest IH]; intros n m H.
  - destruct n, m; reflexivity.
  - simpl in H. apply andb_true_iff in H as [Hc Hrest].
    destruct n as [|n]; simpl.
    + destruct m as [|m]; [reflexivity|]. simpl. rewrite Hc. now apply IH.
    + now apply IH.
Qed.

Lemma logicalLine_oneLine (text : string) (i : nat) : oneLine (logicalLine text i) = true.
Proof.
  unfold logicalLine. pose proof (Split_oneLine text) as H.
  revert i. induction H as [|l ls Hl _ IH]; intros [|i]; simpl; auto.
Qed.

(** The clean-up of [extractSelectedText] on a piece of one line: trimming. *)
Lemma clean_oneLine (content : string) :
  oneLine content = true ->
  GoStrings.Join (cleanLines content) (String GoStrings.newline "")
  = GoStrings.TrimSpace content.
Proof.
  intros H. unfold cleanLines. rewrite (Split_of_oneLine _ H). simpl.
  rewrite filter_cons, filter_nil.
  destruct (decide (GoStrings.TrimSpace content <> "")) as [Hne | He]; [reflexivity|].
  simpl. destruct (decide (GoStrings.TrimSpace content = "")) as [->|]; tauto.
Qed.

Lemma slice_columns (line : string) (lo hi : nat) :
  (lo <= hi)%nat -> (hi <= String.length line)%nat ->
  GoStrings.slice line (Z.of_nat lo) (Z.of_nat hi)
  = Some (String.substring lo (hi - lo) line).
Proof.
  intros H1 H2. unfold GoStrings.slice, GoStrings.len.
  destruct (Z.leb_spec 0 (Z.of_nat lo)); [|lia].
  destruct (Z.leb_spec (Z.of_nat lo) (Z.of_nat hi)); [|lia].
  destruct (Z.leb_spec (Z.of_nat hi) (Z.of_nat (String.length line))); [|lia].
  simpl. do 2 f_equal; lia.
Qed.

Lemma substring_zero (line : string) (lo : nat) : String.substring lo 0 line = "".
Proof. revert lo. induction line; intros [|lo]; simpl; auto. Qed.

(** A one-row selection on row [row] takes, from a line shown on that row,
    the columns [lo, hi). *)
Lemma lineContribution_on_row (line : string) (row : Z) (lo hi : nat) :
  (lo < hi)%nat ->
  lineContribution line row (Z.of_nat lo) row (Z.of_nat hi) row
  = Some (if (lo <? String.length line)%nat then [columns line lo hi] else []).
Proof.
  intros Hlt. unfold lineContribution, clampEnd, GoStrings.len, columns.
  rewrite Z.leb_refl, Z.eqb_refl. simpl.
  destruct (Nat.ltb_spec lo (String.length line)) as [Hin | Hout].
  - destruct (Z.ltb_spec (Z.of_nat lo) (Z.of_nat (String.length line))); [|lia].
    destruct (Z.ltb_spec (Z.of_nat (String.length line)) (Z.of_nat hi)) as [Hcut | Hfull].
    + destruct (Z.ltb_spec (Z.of_nat lo) (Z.of_nat (String.length line))); [|lia].
      rewrite slice_columns by lia. simpl. do 3 f_equal. lia.
    + destruct (Z.ltb_spec (Z.of_nat lo) (Z.of_nat hi)); [|lia].
      rewrite slice_columns by lia. simpl. do 3 f_equal. lia.
  - destruct (Z.ltb_spec (Z.of_nat lo) (Z.of_nat (String.length line))); [lia|].
    reflexivity.
Qed.

(** A line shown on another row adds nothing to a one-row selection. *)
Lemma lineContribution_off_row (line : string) (screenY row startX endX : Z) :
  screenY <> row ->
  lineContribution line screenY startX row endX row = Some [].
Proof.
  intros Hne. unfold lineContribution.
  destruct (Z.leb_spec row screenY); destruct (Z.leb_spec screenY row); simpl;
    try reflexivity. lia.
Qed.

Lemma extractLoop_off_row (f : Z -> Z) (lines : list string) (k row startX endX : Z) :
  (forall j, k <= j < k + len lines -> f j <> row) ->
  extractLoop f lines k startX row endX row = Some [].
Proof.
  revert k. induction lines as [|line rest IH]; intros k Hf; [reflexivity|].
  simpl. unfold len in Hf. simpl length in Hf.
  rewrite lineContribution_off_row by (apply Hf; lia).
  simpl. rewrite IH; [reflexivity|].
  intros j Hj. apply Hf. unfold len in Hj. lia.
Qed.

(** Without scrolling, only line 0 is shown on screen row 3. *)
Lemma row3_is_line0 (j : Z) : 1 <= j <= max_int -> sub (add viewStartY j) 0 <> 3.
Proof.
  intros Hj. unfold sub, add, viewStartY. rewrite wrap_idem_sub, Z.sub_0_r.
  unfold wrap, max_int in *.
  destruct (Z.le_gt_cases (3 + j) (2 ^ 63 - 1)).
  - rewrite Z.mod_small; lia.
  - replace (3 + j + 2 ^ 63) with ((3 + j - 2 ^ 63) + 1 * 2 ^ 64) by lia.
    rewrite Z.mod_add by lia. rewrite Z.mod_small; lia.
Qed.

(** Extraction from an unscrolled pane for a one-row selection on screen
    row 3: the columns of logical line 0. *)
Lemma extract_row3 (output : string) (lo hi : nat) :
  (lo < hi)%nat ->
  len (GoStrings.Split output GoStrings.newline) <= max_int ->
  extractTextFromScrollableView output 0 (Z.of_nat lo) 3 (Z.of_nat hi) 3
  = Some (columns (logicalLine output 0) lo hi).
Proof.
  intros Hlt Hlen. unfold extractTextFromScrollableView, logicalLine.
  destruct (String.eqb_spec output "") as [-> | Hne].
  { simpl. unfold columns. simpl String.length. rewrite Nat.min_0_r.
    now rewrite substring_zero. }
  pose proof (Split_nonempty output) as Hs.
  destruct (GoStrings.Split output GoStrings.newline) as [|line rest]; [congruence|].
  simpl extractLoop. simpl nth.
  change (sub (add viewStartY 0) 0) with 3.
  rewrite lineContribution_on_row by assumption. simpl.
  rewrite extractLoop_off_row.
  2:{ intros j Hj. apply row3_is_line0. unfold len in *. simpl length in Hlen. lia. }
  simpl. destruct (Nat.ltb_spec lo (String.length line)); simpl; [reflexivity|].
  unfold columns. replace (Nat.min hi (String.length line) - lo)%nat with 0%nat by lia.
  now rewrite substring_zero.
Qed.

(** C6, the claim as stated fails.  On an unscrolled pane showing four
    lines, the drag from (5, 3) to (20, 3) selects columns [5, 20) of the
    first line (logical line 0), which differ from those of logical
    line 3. *)
Lemma drag_row3_is_not_line3 :
  selectedAfter (run Examples.outside Examples.drag_5_3_to_20_3 Examples.fourLinePane)
    = Some "56789abcdefghij" /\
  columns (logicalLine Examples.fourLines 0) 5 20 = "56789abcdefghij" /\
  columns (logicalLine Examples.fourLines 3) 5 20 = "FGHIJKLMNOPQRST" /\
  selectedAfter (run Examples.outside Examples.drag_5_3_to_20_3 Examples.fourLinePane)
    <> Some (columns (logicalLine Examples.fourLines 3) 5 20).
Proof.
  assert (H : selectedAfter
                (run Examples.outside Examples.drag_5_3_to_20_3 Examples.fourLinePane)
              = Some "56789abcdefghij") by (vm_compute; reflexivity).
  split; [exact H|]. split; [reflexivity|]. split; [reflexivity|].
  rewrite H. vm_compute. discriminate.
Qed.

(** What [extractSelectedText] makes of a selection from (5, 3) to (20, 3)
    on an unscrolled pane. *)
Lemma extractSelectedText_row3 (p : Pane) (a : App) :
  CurrentView (state a) = paneView p ->
  paneOffset p (state a) = 0 ->
  SelectionActive (state a) = true ->
  SelectionStartX (state a) = 5 ->
  SelectionStartY (state a) = 3 ->
  SelectionEndX (state a) = 20 ->
  SelectionEndY (state a) = 3 ->
  lineCount p (state a) <= max_int ->
  extractSelectedText a =
  Some (upd (set_SelectedText
               (GoStrings.TrimSpace (columns (logicalLine (paneOutput p (state a)) 0) 5 20)))
            a).
Proof.
  intros Hview Hoff Hact Hsx Hsy Hex Hey Hlen.
  unfold extractSelectedText. rewrite Hact, Hsx, Hsy, Hex, Hey, Hview. simpl negb.
  change ((3 <? 3) || (3 =? 3) && (20 <? 5)) with false. cbv iota.
  change ((5 <? 0) || (3 <? 0) || (20 <? 0) || (3 <? 0)) with false.
  change ((5 =? 20) && (3 =? 3)) with false. cbv iota.
  assert (Hextract :
    extractTextFromScrollableView (paneOutput p (state a)) (paneOffset p (state a)) 5 3 20 3
    = Some (columns (logicalLine (paneOutput p (state a)) 0) 5 20)).
  { rewrite Hoff. apply (extract_row3 _ 5 20); [lia | exact Hlen]. }
  assert (Hclean :
    GoStrings.Join (cleanLines (columns (logicalLine (paneOutput p (state a)) 0) 5 20))
                   (String GoStrings.newline "")
    = GoStrings.TrimSpace (columns (logicalLine (paneOutput p (state a)) 0) 5 20)).
  { apply clean_oneLine. apply substring_oneLine, logicalLine_oneLine. }
  destruct p; simpl paneView; cbv iota;
    unfold extractTextFromTagsView, extractTextFromDescribeView;
    simpl paneOutput in *; simpl paneOffset in *;
    rewrite Hextract; simpl; rewrite Hclean; reflexivity.
Qed.

Lemma pane_not_table (p : Pane) : view_eqb (paneView p) ResourceView = false.
Proof. now destruct p. Qed.

(** The press of the drag: in a pane where the mouse selects, a selection
    starts at the cell pressed; the pane is as it was. *)
Lemma press_in_pane (x : Outside) (env : Env) (p : Pane) (a : App) (cx cy : Z) :
  CurrentView (state a) = paneView p ->
  selectableView (paneView p) = true ->
  exists b,
    Update x env (mouse MouseLeft cx cy) a = Some (b, CmdNone) /\
    CurrentView (state b) = paneView p /\
    paneOutput p (state b) = paneOutput p (state a) /\
    paneOffset p (state b) = paneOffset p (state a) /\
    SelectionActive (state b) = true /\
    SelectionStartX (state b) = cx /\ SelectionStartY (state b) = cy.
Proof.
  intros Hview Hsel.
  set (a0 := upd (set_StatusMessage ("Mouse click at " +:+ at_ cx cy)) a).
  exists (startSelection {| mouseType := MouseLeft; X := cx; Y := cy |} a0).
  split.
  { unfold mouse, Update, handleMouseEvent. cbn [mouseType X Y].
    unfold handleMouseClick. fold a0.
    change (CurrentView (state a0)) with (CurrentView (state a)).
    now rewrite Hview, pane_not_table. }
  unfold startSelection. change (CurrentView (state a0)) with (CurrentView (state a)).
  rewrite Hview, Hsel. repeat split; try exact Hview; destruct p; reflexivity.
Qed.

(** The motion of the drag: the end of the selection follows the mouse and
    the text is extracted. *)
Lemma motion_in_pane (x : Outside) (env : Env) (p : Pane) (b : App) :
  CurrentView (state b) = paneView p ->
  selectableView (paneView p) = true ->
  paneOffset p (state b) = 0 ->
  lineCount p (state b) <= max_int ->
  SelectionActive (state b) = true ->
  SelectionStartX (state b) = 5 -> SelectionStartY (state b) = 3 ->
  exists c,
    Update x env (mouse MouseMotion 20 3) b = Some (c, CmdNone) /\
    CurrentView (state c) = paneView p /\
    paneOutput p (state c) = paneOutput p (state b) /\
    paneOffset p (state c) = 0 /\
    SelectionActive (state c) = true /\
    SelectionStartX (state c) = 5 /\ SelectionStartY (state c) = 3.
Proof.
  intros Hview Hsel Hoff Hlen Hact Hsx Hsy.
  set (b0 := upd (set_StatusMessage ("Dragging to " +:+ at_ 20 3)) b).
  set (b1 := upd (set_SelectionEndY 3) (upd (set_SelectionEndX 20) b0)).
  assert (Hpane : paneOutput p (state b1) = paneOutput p (state b) /\
                  paneOffset p (state b1) = paneOffset p (state b))
    by (split; destruct p; reflexivity).
  destruct Hpane as [Hout1 Hoff1].
  assert (Hextract := extractSelectedText_row3 p b1).
  rewrite Hout1 in Hextract.
  specialize (Hextract Hview (eq_trans Hoff1 Hoff) Hact Hsx Hsy eq_refl eq_refl).
  unfold lineCount in Hextract, Hlen. rewrite Hout1 in Hextract. specialize (Hextract Hlen).
  eexists. split.
  { unfold mouse, Update, handleMouseEvent. cbn [mouseType X Y]. rewrite Hact. fold b0.
    unfold handleMouseMotion. cbn [X Y].
    change (SelectionActive (state b0)) with (SelectionActive (state b)).
    change (CurrentView (state b0)) with (CurrentView (state b)).
    rewrite Hact, Hview, Hsel. simpl andb. cbv iota. fold b1.
    rewrite Hextract. reflexivity. }
  repeat split; try assumption; try (destruct p; reflexivity); destruct p; exact Hoff.
Qed.

(** The release of the drag: the text is extracted once more and trimmed;
    a selection without text ends. *)
Lemma release_in_pane (x : Outside) (env : Env) (p : Pane) (c : App) :
  CurrentView (state c) = paneView p ->
  paneOffset p (state c) = 0 ->
  lineCount p (state c) <= max_int ->
  SelectionActive (state c) = true ->
  SelectionStartX (state c) = 5 -> SelectionStartY (state c) = 3 ->
  exists d,
    Update x env (mouse MouseRelease 20 3) c = Some (d, CmdNone) /\
    selection (state d) =
    (negb (String.eqb
             (GoStrings.TrimSpace
                (GoStrings.TrimSpace (columns (logicalLine (paneOutput p (state c)) 0) 5 20)))
             ""),
     GoStrings.TrimSpace
       (GoStrings.TrimSpace (columns (logicalLine (paneOutput p (state c)) 0) 5 20))).
Proof.
  intros Hview Hoff Hlen Hact Hsx Hsy.
  set (c0 := upd (set_StatusMessage ("Mouse release at " +:+ at_ 20 3)) c).
  set (c1 := upd (set_SelectionEndY 3) (upd (set_SelectionEndX 20) c0)).
  assert (Hpane : paneOutput p (state c1) = paneOutput p (state c) /\
                  paneOffset p (state c1) = paneOffset p (state c))
    by (split; destruct p; reflexivity).
  destruct Hpane as [Hout1 Hoff1].
  assert (Hextract := extractSelectedText_row3 p c1).
  rewrite Hout1 in Hextract.
  specialize (Hextract Hview (eq_trans Hoff1 Hoff) Hact Hsx Hsy eq_refl eq_refl).
  unfold lineCount in Hextract, Hlen. rewrite Hout1 in Hextract. specialize (Hextract Hlen).
  set (once := GoStrings.TrimSpace (columns (logicalLine (paneOutput p (state c)) 0) 5 20))
    in *.
  unfold mouse, Update, handleMouseEvent. cbn [mouseType X Y]. fold c0.
  unfold handleMouseRelease. cbn [X Y].
  change (SelectionActive (state c0)) with (SelectionActive (state c)).
  rewrite Hact. fold c1. rewrite Hextract. cbn [mbind option_bind].
  change (SelectedText (state (upd (set_SelectedText once) c1))) with once.
  destruct (String.eqb_spec once "") as [He | Hne].
  { eexists. split; [reflexivity|]. rewrite He. reflexivity. }
  change (SelectedText
            (state (upd (set_SelectedText (GoStrings.TrimSpace once))
                      (upd (set_SelectedText once) c1))))
    with (GoStrings.TrimSpace once).
  destruct (String.eqb_spec (GoStrings.TrimSpace once) "") as [He | Hne2].
  { eexists. split; [reflexivity|]. rewrite He. reflexivity. }
  eexists. split; [reflexivity|]. unfold selection.
  apply (f_equal2 pair); [exact Hact | reflexivity].
Qed.

(** C6, amended.  On a pane shown with zero scroll offset, a mouse drag
    from screen cell (5, 3) to (20, 3) -- the left button pressed at
    (5, 3), the mouse moved to (20, 3) and the button released there --
    selects from logical line 0, the first line (the pane's text starts on
    screen row 3), not from line 3.  In the seven panes where the mouse
    selects (describe, tags, top, container resources, YAML, events,
    diagram) the selected text is bytes [5, 20) of that line, cut at the
    end of the line and passed through [strings.TrimSpace] by
    [extractSelectedText] and once more by [handleMouseRelease]; the
    selection stays active exactly when that text is not empty.  In the
    memory and logs panes a press starts no selection: with none active
    before the drag, none is active after it and the selected text is what
    it was. *)
Theorem drag_row3_extracts_line0 (x : Outside) (env : Env) (p : Pane) (a : App) :
  CurrentView (state a) = paneView p ->
  paneOffset p (state a) = 0 ->
  lineCount p (state a) <= max_int ->
  (selectableView (paneView p) = true ->
   finally selection (run x (drag env 5 3 20 3) a) =
   Some (negb (String.eqb
                 (GoStrings.TrimSpace
                    (GoStrings.TrimSpace
                       (columns (logicalLine (paneOutput p (state a)) 0) 5 20))) ""),
         GoStrings.TrimSpace
           (GoStrings.TrimSpace (columns (logicalLine (paneOutput p (state a)) 0) 5 20)))) /\
  (selectableView (paneView p) = false ->
   SelectionActive (state a) = false ->
   finally selection (run x (drag env 5 3 20 3) a) = Some (false, SelectedText (state a))).
Proof.
  intros Hview Hoff Hlen. split.
  - intros Hsel.
    destruct (press_in_pane x env p a 5 3 Hview Hsel)
      as (b & Hb & Hvb & Hob & Hfb & Hab & Hxb & Hyb).
    assert (Hlb : lineCount p (state b) <= max_int)
      by (unfold lineCount in *; now rewrite Hob).
    destruct (motion_in_pane x env p b Hvb Hsel (eq_trans Hfb Hoff) Hlb Hab Hxb Hyb)
      as (c & Hc & Hvc & Hoc & Hfc & Hac & Hxc & Hyc).
    assert (Hlc : lineCount p (state c) <= max_int)
      by (unfold lineCount in *; now rewrite Hoc).
    destruct (release_in_pane x env p c Hvc Hfc Hlc Hac Hxc Hyc) as (d & Hd & Hsd).
    unfold drag. cbn [run]. rewrite Hb. cbn [mbind option_bind]. cbn [run].
    rewrite Hc. cbn [mbind option_bind]. cbn [run]. rewrite Hd. cbn [mbind option_bind].
    cbn [finally]. rewrite Hsd, Hoc, Hob. reflexivity.
  - intros Hsel Hact.
    unfold drag, mouse. cbn [run]. unfold Update, handleMouseEvent. cbn [mouseType X Y].
    unfold handleMouseClick, startSelection.
    change (CurrentView (state (upd (set_StatusMessage ("Mouse click at " +:+ at_ 5 3)) a)))
      with (CurrentView (state a)).
    rewrite Hview, pane_not_table, Hsel. cbn [mbind option_bind].
    change (SelectionActive (state (upd (set_StatusMessage ("Mouse click at " +:+ at_ 5 3)) a)))
      with (SelectionActive (state a)).
    rewrite Hact. unfold handleMouseMotion.
    change (SelectionActive (state (upd (set_StatusMessage ("Mouse click at " +:+ at_ 5 3)) a)))
      with (SelectionActive (state a)).
    rewrite Hact. cbn [andb mbind option_bind]. unfold handleMouseRelease.
    match goal with
    | |- context [SelectionActive (state (upd (set_StatusMessage ?m) (upd ?f a)))] =>
        change (SelectionActive (state (upd (set_StatusMessage m) (upd f a))))
          with (SelectionActive (state a))
    end.
    rewrite Hact. cbn [mbind option_bind finally]. unfold selection.
    do 2 f_equal. exact Hact.
Qed.

Lemma drag_row3_extracts_line0_witness :
  finally selection
    (run Examples.outside (drag Examples.offline 5 3 20 3) Examples.fourLinePane)
  = Some (true, "56789abcdefghij").
Proof.
  apply (drag_row3_extracts_line0 Examples.outside Examples.offline Yaml
           Examples.fourLinePane); try reflexivity.
  vm_compute. discriminate.
Defined.

End SelectProps.

(** ** The [pkg/ui] application: entering views, selection state *)

Module NavProps.

Import GoInt GoFacts UI Forms.

Lemma noValidSelection_stale (s : AppState) :
  len (Resources s) <= SelectedIndex s -> noValidSelection s = true.
Proof.
  intros H. unfold noValidSelection.
  destruct (Z.leb_spec (len (Resources s)) (SelectedIndex s)); [|lia].
  apply orb_true_r.
Qed.

(** C9, the claim as stated fails.  With three rows and the cursor at
    index 5, asking for the YAML view changes nothing: the view stays the
    resource table, the cursor stays at 5, no command is issued; asking for
    the describe view moves the cursor to 0, not to the last index 2. *)
Lemma stale_cursor_not_clamped :
  Update Examples.outside Examples.offline (Examples.key "y") Examples.staleCursor
    = Some (Examples.staleCursor, CmdNone) /\
  CurrentView (state Examples.staleCursor) = ResourceView /\
  SelectedIndex (state Examples.staleCursor) = 5 /\
  len (Resources (state Examples.staleCursor)) = 3 /\
  observe (fun s => (CurrentView s, SelectedIndex s))
    (Update Examples.outside Examples.offline (Examples.key "i") Examples.staleCursor)
    = Some ((DescribeView, 0), CmdFetchResourceDescription).
Proof.
  split; [vm_compute; reflexivity|].
  split; [vm_compute; reflexivity|].
  split; [vm_compute; reflexivity|].
  split; vm_compute; reflexivity.
Qed.

(** C9, amended.  When the cursor index is at or beyond the list length,
    a request for the YAML, events, diagram, memory, tags or
    container-resources view is ignored: state unchanged, no command.  The
    describe view, and the logs view of a pod list, instead move the cursor
    to index 0 and proceed with the first record when it is a real one. *)
Theorem stale_cursor_policy (a : App) :
  len (Resources (state a)) <= SelectedIndex (state a) ->
  handleShowYaml a = Some (a, CmdNone) /\
  handleShowEvents a = Some (a, CmdNone) /\
  handleShowDiagram a = Some (a, CmdNone) /\
  handleShowMemory a = Some (a, CmdNone) /\
  handleShowTags a = Some (a, CmdNone) /\
  handleShowResources a = Some (a, CmdNone) /\
  (forall first rest,
     Resources (state a) = first :: rest ->
     isPlaceholder first = false ->
     (exists a', handleDescribeResource a = Some (a', CmdFetchResourceDescription) /\
                 CurrentView (state a') = DescribeView /\
                 PreviousView (state a') = CurrentView (state a) /\
                 SelectedIndex (state a') = 0 /\
                 SelectedResource (state a') = first) /\
     (ResourceType (state a) = "pods" ->
      exists a', handleShowLogs a = Some (a', CmdFetchPodLogs) /\
                 CurrentView (state a') = LogsView /\
                 PreviousView (state a') = CurrentView (state a) /\
                 SelectedIndex (state a') = 0 /\
                 SelectedResource (state a') = first)).
Proof.
  intros Hstale. pose proof (noValidSelection_stale _ Hstale) as Hno.
  unfold handleShowYaml, handleShowEvents, handleShowDiagram, handleShowMemory,
    handleShowTags, handleShowResources. rewrite Hno.
  do 6 (split; [reflexivity|]).
  intros first rest Hrows Hreal.
  assert (Hlen : (len (Resources (state a)) =? 0) = false).
  { rewrite Hrows. unfold len. simpl length. apply Z.eqb_neq. lia. }
  assert (Hle : (len (Resources (state a)) <=? SelectedIndex (state a)) = true)
    by now apply Z.leb_le.
  split.
  - unfold handleDescribeResource. rewrite Hlen, Hle. simpl orb. cbv iota.
    simpl. rewrite Hrows. unfold index. simpl. rewrite Hreal.
    eexists. repeat split.
  - intros Hpods. unfold handleShowLogs. rewrite Hlen, Hle. simpl.
    rewrite Hpods. simpl. rewrite Hrows. unfold index. simpl. rewrite Hreal.
    eexists. repeat split.
Qed.

Lemma stale_cursor_policy_witness :
  handleShowYaml Examples.staleCursor = Some (Examples.staleCursor, CmdNone) /\
  handleShowTags Examples.staleCursor = Some (Examples.staleCursor, CmdNone) /\
  exists a', handleDescribeResource Examples.staleCursor
               = Some (a', CmdFetchResourceDescription) /\
             CurrentView (state a') = DescribeView /\
             PreviousView (state a') = ResourceView /\
             SelectedIndex (state a') = 0 /\
             SelectedResource (state a') = Examples.pod "a".
Proof.
  assert (H : len (Resources (state Examples.staleCursor))
              <= SelectedIndex (state Examples.staleCursor))
    by (vm_compute; discriminate).
  destruct (stale_cursor_policy Examples.staleCursor H) as (Hy & _ & _ & _ & Ht & _ & Hd).
  split; [exact Hy|]. split; [exact Ht|].
  exact (proj1 (Hd (Examples.pod "a") [Examples.pod "b"; Examples.pod "c"]
                  eq_refl eq_refl)).
Defined.

(** *** Selection state across key presses *)




Lemma outcome_kept (a a' : App) (c : Cmd) :
  isCopy c = false -> selectionKept a a' -> selectionOutcome a a' c.
Proof. unfold selectionOutcome. now intros ->. Qed.





























End NavProps.

(** ** Folding delivered results into state *)

Module MsgProps.

Import GoInt GoFacts UI Forms.

(** A [resourcesMsg] is folded in whatever the view and target are. *)
Lemma Update_resourcesMsg (x : Outside) (env : Env) (rs : list Resource) (a : App) :
  PageSize (state a) <> 0 ->
  exists a',
    Update x env (resourcesMsg rs) a = Some (a', CmdNone) /\
    Resources (state a') = rs /\
    TotalItems (state a') = len rs /\
    PageSize (state a') = PageSize (state a) /\
    CurrentView (state a') = CurrentView (state a) /\
    ResourceType (state a') = ResourceType (state a) /\
    Namespace (state a') = Namespace (state a) /\
    StatusMessage (state a') = StatusMessage (state a).
Proof.
  intros Hps. unfold Update. simpl. unfold quot.
  destruct (Z.eqb_spec (PageSize (state a)) 0) as [|_]; [contradiction|].
  simpl. eexists. repeat split.
Qed.




(** C3, the claim as stated fails.  With one pod row on screen, a refresh
    that fails is delivered as a list of one synthetic "Error" row; folding
    it in replaces the pod row, and no status message is set. *)
Lemma failed_fetch_replaces_list :
  map Resource.Name (Resources (state Examples.listed)) = ["web-0"] /\
  observe (fun s => (map Resource.Name (Resources s), map Resource.Type_ (Resources s),
                     map Resource.Status (Resources s), StatusMessage s))
    (Update Examples.outside Examples.offline Examples.failedRefresh Examples.listed)
    = Some ((["Error fetching pods"], ["Error"], ["connection refused"], ""), CmdNone).
Proof.
  split; vm_compute; reflexivity.
Qed.

(** C3, amended.  In [pkg/ui] a failed listing is delivered as a
    one-element list holding a synthetic record of type "Error" whose name
    is "Error fetching <type>" and whose status is the error text; folding
    it in replaces the stored list (the previous rows are gone) and leaves
    [StatusMessage] untouched.  In the root program a failed load leaves
    the resource list as it was, clears [loading] and sets
    [errorMessage]. *)
Theorem failed_fetch_outcome
    (x : Outside) (env now : Env) (a : App) (err : string) :
  PageSize (state a) <> 0 ->
  list_ env (fst (listingFor (ResourceType (state a)))) (Namespace (state a)) = inr err ->
  (exists a',
     Update x now (fetchResources env (state a)) a = Some (a', CmdNone) /\
     Resources (state a') =
       [placeholder ("Error fetching " +:+ ResourceType (state a))
                    (Namespace (state a)) "Error" err] /\
     StatusMessage (state a') = StatusMessage (state a)) /\
  (forall (m : Root.Model) (rs : list Root.K8sResource) (e : string),
     exists m',
       Root.Update (Root.resourcesLoadedMsg rs (Some e)) m = Some (m', Root.CmdNone) /\
       Root.resources m' = Root.resources m /\
       Root.loading m' = false /\
       Root.errorMessage m' = "Error loading resources: " +:+ e).
Proof.
  intros Hps Herr. split.
  - unfold fetchResources.
    destruct (listingFor (ResourceType (state a))) as [call name] eqn:Hcall.
    simpl in Herr. rewrite Herr.
    destruct (Update_resourcesMsg x now
                [placeholder ("Error fetching " +:+ ResourceType (state a))
                   (Namespace (state a)) "Error" err] a Hps)
      as (a' & H & Hr & _ & _ & _ & _ & _ & Hs).
    exists a'. auto.
  - intros m rs e. eexists. simpl. repeat split.
Qed.

Lemma failed_fetch_outcome_witness :
  exists a',
    Update Examples.outside Examples.offline
      (fetchResources Examples.offline (state Examples.listed)) Examples.listed
      = Some (a', CmdNone) /\
    Resources (state a') =
      [placeholder ("Error fetching " +:+ ResourceType (state Examples.listed))
                   (Namespace (state Examples.listed)) "Error" "connection refused"] /\
    StatusMessage (state a') = StatusMessage (state Examples.listed).
Proof.
  refine (proj1 (failed_fetch_outcome Examples.outside Examples.offline Examples.offline
                   Examples.listed "connection refused" _ _)).
  - vm_compute. discriminate.
  - reflexivity.
Defined.

End MsgProps.

(** ** Navigation history *)

Module HistoryProps.

Import GoInt GoFacts UI Forms.

(** *** The root program: a view stack *)

Lemma root_view_eqb_refl (v : Root.ViewType) : Root.view_eqb v v = true.
Proof. now destruct v. Qed.

Lemma root_index_some {A} (l : list A) (i : Z) :
  0 <= i -> i < len l -> exists x, Root.index l i = Some x.
Proof.
  intros H0 H1. unfold Root.index.
  destruct (Z.leb_spec 0 i); [|lia]. destruct (Z.ltb_spec i (len l)); [|lia]. simpl.
  destruct (l !! Z.to_nat i) eqn:E; [eauto|].
  apply lookup_ge_None in E. unfold len in H1. lia.
Qed.

Lemma len_app_one {A} (l : list A) (x : A) : len (l ++ [x]) = len l + 1.
Proof. unfold len. rewrite length_app. simpl. lia. Qed.

Ltac root_same :=
  left; split; [apply root_view_eqb_refl | reflexivity].

Ltac root_cases H :=
  repeat match type of H with
         | context [if ?c then _ else _] => destruct c eqn:?
         | context [mbind _ ?o] => destruct o eqn:?; simpl in H
         | context [match ?o with Some _ => _ | None => _ end] => destruct o eqn:?
         end;
  try discriminate H.

Lemma navigateBack_step (m m' : Root.Model) (c : Root.Cmd) :
  Root.navigateBack m = (m', c) ->
  (Root.viewStack m = [] /\ m' = m) \/
  (Root.viewStack m <> [] /\
   Root.viewStack m = Root.viewStack m' ++ [Root.currentView m']).
Proof.
  unfold Root.navigateBack.
  destruct (last (Root.viewStack m)) as [top|] eqn:Hlast; intros [= <- <-].
  - right. apply last_Some in Hlast as [l' Hl]. simpl. rewrite Hl. split.
    + now destruct l'.
    + now rewrite removelast_last.
  - left. apply last_None in Hlast. auto.
Qed.

Lemma handleSelection_step (m m' : Root.Model) (c : Root.Cmd) :
  Root.handleSelection m = Some (m', c) ->
  (Root.view_eqb (Root.currentView m') (Root.currentView m) = true /\
   Root.viewStack m' = Root.viewStack m) \/
  (Root.view_eqb (Root.currentView m') (Root.currentView m) = false /\
   Root.viewStack m' = Root.viewStack m ++ [Root.currentView m]).
Proof.
  unfold Root.handleSelection. intros H.
  destruct (Root.currentView m) eqn:Hcv; simpl in H;
    root_cases H; injection H as <- <-; simpl; rewrite ?Hcv;
    first [ right; split; reflexivity | root_same ].
Qed.

Lemma openResourcePane_step (m m' : Root.Model) (c : Root.Cmd) (target : Root.ViewType)
    (supported : Root.ResourceInfo -> bool) (load : Root.Model -> Root.Cmd) :
  target = Root.LogView \/ target = Root.EventView ->
  Root.openResourcePane m target supported load = Some (m', c) ->
  (Root.view_eqb (Root.currentView m') (Root.currentView m) = true /\
   Root.viewStack m' = Root.viewStack m) \/
  (Root.view_eqb (Root.currentView m') (Root.currentView m) = false /\
   Root.viewStack m' = Root.viewStack m ++ [Root.currentView m]).
Proof.
  unfold Root.openResourcePane. intros Ht H.
  destruct (Root.view_eqb (Root.currentView m) Root.DetailView) eqn:Hcv; simpl in H.
  - assert (Hd : Root.currentView m = Root.DetailView)
      by (destruct (Root.currentView m); simpl in Hcv; congruence).
    root_cases H; injection H as <- <-; try root_same.
    right. destruct Ht as [-> | ->]; simpl; rewrite Hd; split; reflexivity.
  - injection H as <- <-. root_same.
Qed.

Lemma root_step (msg : Root.Msg) (m m' : Root.Model) (c : Root.Cmd) :
  Root.Update msg m = Some (m', c) -> rootStep msg m m'.
Proof.
  unfold rootStep. destruct msg as [w h|key|ns e|rs e|ls e|es e|]; simpl.
  - intros [= <- <-]. root_same.
  - unfold Root.handleKeyPress, isBackKey. intros H.
    destruct (String.eqb key "esc" || String.eqb key "backspace") eqn:Hback.
    + assert (Hkey : key = "esc" \/ key = "backspace").
      { apply orb_true_iff in Hback as [Hk | Hk]; apply String.eqb_eq in Hk; auto. }
      destruct Hkey as [-> | ->]; simpl in H; injection H as H;
        now apply navigateBack_step in H.
    + repeat match type of H with
             | (if ?b then _ else _) = _ => destruct b eqn:?
             end;
      try (injection H as <- <-; root_same);
      try (now apply handleSelection_step in H);
      try (now apply openResourcePane_step in H; auto);
      destruct (Root.currentView m) eqn:Hcv;
      root_cases H; injection H as <- <-; simpl; rewrite ?Hcv; root_same.
  - destruct e; intros [= <- <-]; root_same.
  - destruct e; intros [= <- <-]; root_same.
  - destruct e; intros [= <- <-]; root_same.
  - destruct e; intros [= <- <-]; root_same.
  - intros H. assert (Hm : m' = m).
    { revert H. destruct (Root.autoRefresh m); [destruct (Root.currentView m)|];
        congruence. }
    subst m'. root_same.
Qed.

Lemma below_wrapped (c n : Z) : 0 <= c -> c < sub n 1 -> 0 <= add c 1 <= max_int.
Proof.
  intros H0 H1. pose proof (wrap_range (n - 1)) as [_ Hhi]. unfold sub in H1.
  rewrite add_exact; unfold in_range, min_int, max_int in *; lia.
Qed.

Ltac cursor_fin :=
  unfold cursorOk in *; simpl;
  repeat match goal with
         | H : (_ <? _) = true |- _ => apply Z.ltb_lt in H
         end;
  first [ lia
        | rewrite sub_exact; unfold in_range, min_int, max_int in *; lia
        | rewrite add_exact; unfold in_range, min_int, max_int in *; lia
        | eapply below_wrapped; [lia | eassumption] ].

Ltac root_leaf := do 2 eexists; split; [reflexivity | cursor_fin].

Lemma handleSelection_total (m : Root.Model) :
  cursorOk m ->
  exists m' c, Root.handleSelection m = Some (m', c) /\ cursorOk m'.
Proof.
  intros Hc. unfold Root.handleSelection.
  assert (Hmax : 0 <= max_int) by (unfold max_int; lia).
  destruct (Root.currentView m); simpl; try root_leaf.
  - destruct (Root.cursor m =? 0); root_leaf.
  - destruct (Z.ltb_spec 0 (len (Root.namespaces m)));
      destruct (Z.ltb_spec (Root.cursor m) (len (Root.namespaces m))); simpl;
      try root_leaf.
    destruct (root_index_some (Root.namespaces m) (Root.cursor m)) as [ns ->];
      [unfold cursorOk in Hc; lia | lia |]. simpl. root_leaf.
  - destruct (Z.ltb_spec 0 (len (Root.resourceTypes m)));
      destruct (Z.ltb_spec (Root.cursor m) (len (Root.resourceTypes m))); simpl;
      try root_leaf.
    destruct (root_index_some (Root.resourceTypes m) (Root.cursor m)) as [rt ->];
      [unfold cursorOk in Hc; lia | lia |]. simpl. root_leaf.
Qed.

Lemma openResourcePane_total (m : Root.Model) (target : Root.ViewType)
    (supported : Root.ResourceInfo -> bool) (load : Root.Model -> Root.Cmd) :
  cursorOk m ->
  exists m' c, Root.openResourcePane m target supported load = Some (m', c) /\ cursorOk m'.
Proof.
  intros Hc. unfold Root.openResourcePane.
  assert (Hmax : 0 <= max_int) by (unfold max_int; lia).
  destruct (Root.view_eqb (Root.currentView m) Root.DetailView); simpl; [|root_leaf].
  destruct (Z.ltb_spec 0 (len (Root.resources m)));
    destruct (Z.ltb_spec (Root.cursor m) (len (Root.resources m))); simpl;
    try root_leaf.
  destruct (root_index_some (Root.resources m) (Root.cursor m)) as [r ->];
    [unfold cursorOk in Hc; lia | lia |]. simpl.
  destruct (supported _); [|root_leaf].
  destruct target; root_leaf.
Qed.

Lemma root_total (msg : Root.Msg) (m : Root.Model) :
  cursorOk m ->
  exists m' c, Root.Update msg m = Some (m', c) /\ cursorOk m'.
Proof.
  intros Hc. assert (Hmax : 0 <= max_int) by (unfold max_int; lia).
  destruct msg as [w h|key|ns e|rs e|ls e|es e|]; simpl;
    try (destruct e; root_leaf); try root_leaf.
  - unfold Root.handleKeyPress.
    destruct (_ || _); [root_leaf|].
    destruct (_ || _).
    { destruct (Root.currentView m);
        match goal with
        | |- context [if ?b then _ else _] => destruct b eqn:?
        end; root_leaf. }
    destruct (_ || _).
    { destruct (Root.currentView m);
        match goal with
        | |- context [if ?b then _ else _] => destruct b eqn:?
        end; root_leaf. }
    destruct (_ || _); [now apply handleSelection_total|].
    destruct (_ || _).
    { unfold Root.navigateBack. destruct (last (Root.viewStack m)); root_leaf. }
    destruct (String.eqb key "l"); [now apply openResourcePane_total|].
    destruct (String.eqb key "e"); [now apply openResourcePane_total|].
    destruct (String.eqb key "r").
    { destruct (Root.currentView m); try root_leaf.
      destruct (Root.selectedK8sResource m); root_leaf. }
    destruct (String.eqb key "a"); root_leaf.
  - destruct (Root.autoRefresh m); [destruct (Root.currentView m)|]; root_leaf.
Qed.

(** The depth of the stack along a run. *)
Lemma rootNavRun_depth (msgs : list Root.Msg) (m : Root.Model) :
  cursorOk m ->
  exists mf f b,
    rootNavRun msgs m = Some (mf, (f, b)) /\
    0 <= f /\ 0 <= b /\
    len (Root.viewStack mf) = len (Root.viewStack m) + f - b.
Proof.
  revert m. induction msgs as [|msg rest IH]; intros m Hc.
  - exists m, 0, 0. simpl. repeat split; lia.
  - destruct (root_total msg m Hc) as (m' & c & Hup & Hc').
    destruct (IH m' Hc') as (mf & f & b & Hrun & Hf & Hb & Hlen).
    pose proof (root_step msg m m' c Hup) as Hstep. unfold rootStep in Hstep.
    simpl. rewrite Hup, Hrun. do 3 eexists. split; [reflexivity|].
    destruct (rootIsBack msg); simpl.
    + destruct Hstep as [[He ->] | [Hne Hs]].
      * assert (Hz : len (Root.viewStack m) = 0) by (rewrite He; reflexivity).
        rewrite Hz in *. simpl. repeat split; lia.
      * assert (Hpos : (len (Root.viewStack m) =? 0) = false).
        { apply Z.eqb_neq. unfold len. destruct (Root.viewStack m); [congruence|].
          simpl. lia. }
        rewrite Hpos. simpl. rewrite Hs, len_app_one. repeat split; lia.
    + destruct Hstep as [[Hv Hs] | [Hv Hs]]; rewrite Hv; simpl.
      * rewrite Hs in Hlen. repeat split; lia.
      * rewrite Hs, len_app_one in Hlen. repeat split; lia.
Qed.

(** *** [pkg/ui]: a single slot *)

Lemma clearStatusMessage_views (a : App) :
  CurrentView (state (clearStatusMessage a)) = CurrentView (state a) /\
  PreviousView (state (clearStatusMessage a)) = PreviousView (state a).
Proof.
  unfold clearStatusMessage.
  destruct (negb (GoStrings.Contains (StatusMessage (state a)) "Copied")); simpl;
    destruct (SelectionActive (state a)) eqn:Hact; simpl; rewrite ?Hact; simpl;
    split; reflexivity.
Qed.

Lemma isBackKey_cases (key : string) :
  isBackKey key = true -> key = "esc" \/ key = "backspace".
Proof.
  unfold isBackKey. intros H. apply orb_true_iff in H.
  destruct H as [H|H]; apply String.eqb_eq in H; auto.
Qed.

(** A back key in a pane: the resource table, whatever was visited before;
    the slot is not consulted and not written. *)
Lemma pane_back (x : Outside) (env : Env) (k : KeyMsg) (a : App) :
  isPaneView (CurrentView (state a)) = true ->
  isBackKey (keyString k) = true ->
  exists a',
    handleKeyPress x env k a = Some (a', CmdNone) /\
    CurrentView (state a') = ResourceView /\
    PreviousView (state a') = PreviousView (state a).
Proof.
  intros Hpane Hback. unfold handleKeyPress.
  destruct (clearStatusMessage_views a) as [Hcv Hpv].
  assert (Hx : negb (String.eqb (keyString k) "x") = true)
    by (destruct (isBackKey_cases _ Hback) as [-> | ->]; reflexivity).
  rewrite Hx, Hcv.
  destruct (CurrentView (state a)); try discriminate Hpane;
    destruct (isBackKey_cases _ Hback) as [-> | ->];
    (eexists; split; [reflexivity | split; [reflexivity | exact Hpv]]).
Qed.

(** Backspace in the resource table: [handleBackNavigation] does nothing. *)
Lemma table_backspace (x : Outside) (env : Env) (k : KeyMsg) (a : App) :
  CurrentView (state a) = ResourceView ->
  keyString k = "backspace" ->
  handleKeyPress x env k a = Some (clearStatusMessage a, CmdNone) /\
  CurrentView (state (clearStatusMessage a)) = ResourceView /\
  PreviousView (state (clearStatusMessage a)) = PreviousView (state a).
Proof.
  intros Hv Hk. unfold handleKeyPress.
  destruct (clearStatusMessage_views a) as [Hcv Hpv].
  rewrite Hk. simpl negb. cbv iota. rewrite Hcv, Hv. split.
  - unfold handleMainKeys. simpl. unfold handleBackNavigation.
    rewrite Hcv, Hv. reflexivity.
  - rewrite <- Hv. auto.
Qed.

(** A back key on an empty stack, root program. *)
Lemma root_back_on_empty (key : string) (m : Root.Model) :
  isBackKey key = true ->
  Root.viewStack m = [] ->
  Root.Update (Root.KeyMsg key) m = Some (m, Root.CmdNone).
Proof.
  intros Hback Hs.
  destruct (isBackKey_cases _ Hback) as [-> | ->]; simpl;
    unfold Root.handleKeyPress; simpl; unfold Root.navigateBack;
    rewrite Hs; reflexivity.
Qed.

(** C2, the claim as stated fails on the code it cites.  [pkg/ui] keeps no
    stack, only the slot [PreviousView].  From a listing of one pod,
    "y" (YAML) then "esc" and "y", "L" (logs), "esc", "y", "esc" end in the
    very same application, although a stack counted as the claim says would
    be empty after the first run and hold one view after the second.  After
    "y", "L" the logs pane is shown with the YAML pane in the slot; "esc"
    then shows the resource table, not the YAML pane that was left, and a
    further backspace stays there. *)
Lemma single_slot_is_not_a_stack :
  statedDepth Examples.outside (Examples.keys ["y"; "esc"]) Examples.listed 0 = Some 0 /\
  statedDepth Examples.outside (Examples.keys ["y"; "L"; "esc"; "y"; "esc"])
    Examples.listed 0 = Some 1 /\
  endOf (run Examples.outside (Examples.keys ["y"; "esc"]) Examples.listed)
    = endOf (run Examples.outside (Examples.keys ["y"; "L"; "esc"; "y"; "esc"])
               Examples.listed) /\
  finally (fun s => (CurrentView s, PreviousView s))
    (run Examples.outside (Examples.keys ["y"; "esc"]) Examples.listed)
    = Some (ResourceView, ResourceView) /\
  finally (fun s => (CurrentView s, PreviousView s))
    (run Examples.outside (Examples.keys ["y"; "L"]) Examples.listed)
    = Some (LogsView, YamlView) /\
  finally (fun s => (CurrentView s, PreviousView s))
    (run Examples.outside (Examples.keys ["y"; "L"; "esc"]) Examples.listed)
    = Some (ResourceView, YamlView) /\
  finally (fun s => (CurrentView s, PreviousView s))
    (run Examples.outside (Examples.keys ["y"; "L"; "esc"; "backspace"]) Examples.listed)
    = Some (ResourceView, YamlView).
Proof.
  split; [vm_compute; reflexivity|].
  split; [vm_compute; reflexivity|].
  split; [vm_compute; reflexivity|].
  split; [vm_compute; reflexivity|].
  split; [vm_compute; reflexivity|].
  split; vm_compute; reflexivity.
Qed.

(** C2, amended.  In the root program every sequence of messages processed
    from the initial model runs to its end, and the length of [viewStack]
    then equals the number of forward transitions (messages other than esc
    and backspace after which [currentView] is another view) minus the
    number of esc or backspace presses made on a non-empty stack; esc or
    backspace on an empty stack leaves the whole model as it is.  In
    [pkg/ui] there is no stack but the single slot [PreviousView]: esc or
    backspace in any of the nine panes shows the resource table and leaves
    the slot untouched, and backspace in the resource table changes neither
    the view nor the slot. *)
Theorem history_policy
    (msgs : list Root.Msg) (key : string) (m : Root.Model)
    (x : Outside) (env : Env) (k b : KeyMsg) (pane table : App) :
  isBackKey key = true ->
  Root.viewStack m = [] ->
  isPaneView (CurrentView (state pane)) = true ->
  isBackKey (keyString k) = true ->
  CurrentView (state table) = ResourceView ->
  keyString b = "backspace" ->
  (exists mf fwd back,
     rootNavRun msgs Root.initialModel = Some (mf, (fwd, back)) /\
     0 <= fwd /\ 0 <= back /\
     len (Root.viewStack mf) = fwd - back) /\
  Root.Update (Root.KeyMsg key) m = Some (m, Root.CmdNone) /\
  (exists pane',
     handleKeyPress x env k pane = Some (pane', CmdNone) /\
     CurrentView (state pane') = ResourceView /\
     PreviousView (state pane') = PreviousView (state pane)) /\
  (exists table',
     handleKeyPress x env b table = Some (table', CmdNone) /\
     CurrentView (state table') = ResourceView /\
     PreviousView (state table') = PreviousView (state table)).
Proof.
  intros Hkey Hempty Hpane Hk Htable Hb.
  split; [|split; [|split]].
  - assert (Hc : cursorOk Root.initialModel) by (unfold cursorOk, max_int; simpl; lia).
    destruct (rootNavRun_depth msgs _ Hc) as (mf & fwd & back & Hrun & Hf & Hbk & Hlen).
    exists mf, fwd, back. repeat split; auto.
  - now apply root_back_on_empty.
  - now apply pane_back.
  - destruct (table_backspace x env b table Htable Hb) as (H1 & H2 & H3). eauto.
Qed.

Lemma history_policy_witness :
  (exists mf fwd back,
     rootNavRun [Root.KeyMsg "enter"; Root.KeyMsg "esc"; Root.KeyMsg "esc"]
       Root.initialModel = Some (mf, (fwd, back)) /\
     0 <= fwd /\ 0 <= back /\
     len (Root.viewStack mf) = fwd - back) /\
  Root.Update (Root.KeyMsg "esc") Root.initialModel
    = Some (Root.initialModel, Root.CmdNone) /\
  (exists pane',
     handleKeyPress Examples.outside Examples.offline
       {| keyString := "esc"; keyType := 0 |} Examples.yamlPane = Some (pane', CmdNone) /\
     CurrentView (state pane') = ResourceView /\
     PreviousView (state pane') = PreviousView (state Examples.yamlPane)) /\
  (exists table',
     handleKeyPress Examples.outside Examples.offline
       {| keyString := "backspace"; keyType := 0 |} Examples.listed
       = Some (table', CmdNone) /\
     CurrentView (state table') = ResourceView /\
     PreviousView (state table') = PreviousView (state Examples.listed)).
Proof.
  refine (history_policy _ "esc" Root.initialModel Examples.outside Examples.offline
            {| keyString := "esc"; keyType := 0 |}
            {| keyString := "backspace"; keyType := 0 |}
            Examples.yamlPane Examples.listed _ _ _ _ _ _).
  - reflexivity.
  - reflexivity.
  - reflexivity.
  - reflexivity.
  - vm_compute. reflexivity.
  - reflexivity.
Defined.

End HistoryProps.

(** ** Text helpers *)

Module TextProps.

Import GoInt GoFacts UI.

Lemma app_cons (c : ascii) (a b : string) : String c a +:+ b = String c (a +:+ b).
Proof. reflexivity. Qed.

Lemma app_empty_l (s : string) : "" +:+ s = s.
Proof. reflexivity. Qed.

Lemma length_app (a b : string) :
  String.length (a +:+ b) = (String.length a + String.length b)%nat.
Proof.
  induction a as [|c a IH]; [reflexivity|]. rewrite app_cons. simpl. now rewrite IH.
Qed.

Lemma app_empty_r (s : string) : s +:+ "" = s.
Proof. induction s as [|c s IH]; [reflexivity|]. rewrite app_cons. now rewrite IH. Qed.

Lemma app_assoc (a b c : string) : (a +:+ b) +:+ c = a +:+ (b +:+ c).
Proof. induction a as [|x a IH]; [reflexivity|]. rewrite !app_cons. now rewrite IH. Qed.

Lemma length_substring (s : string) (n m : nat) :
  (n + m <= String.length s)%nat -> String.length (String.substring n m s) = m.
Proof.
  revert n m. induction s as [|c s IH]; intros n m H; simpl in *.
  - destruct n, m; simpl; lia.
  - destruct n as [|n].
    + destruct m as [|m]; simpl; [reflexivity|]. rewrite IH; [reflexivity | lia].
    + apply IH. lia.
Qed.

Lemma substring_all (s : string) : String.substring 0 (String.length s) s = s.
Proof. induction s as [|c s IH]; simpl; [reflexivity | now rewrite IH]. Qed.

Lemma sliceTo_some (s : string) (hi : Z) :
  0 <= hi <= GoStrings.len s ->
  exists r, GoStrings.sliceTo s hi = Some r /\ GoStrings.len r = hi.
Proof.
  intros [H0 H1]. unfold GoStrings.sliceTo, GoStrings.slice.
  destruct (Z.leb_spec 0 0); [|lia]. destruct (Z.leb_spec 0 hi); [|lia].
  destruct (Z.leb_spec hi (GoStrings.len s)); [|lia]. simpl.
  eexists. split; [reflexivity|]. unfold GoStrings.len in *.
  rewrite length_substring; lia.
Qed.

Lemma sliceTo_negative (s : string) (hi : Z) : hi < 0 -> GoStrings.sliceTo s hi = None.
Proof.
  intros H. unfold GoStrings.sliceTo, GoStrings.slice.
  destruct (Z.leb_spec 0 hi); [lia|]. reflexivity.
Qed.

Lemma strlen_nonneg (s : string) : 0 <= GoStrings.len s.
Proof. unfold GoStrings.len. lia. Qed.

Lemma HasSuffix_app (a b : string) : GoStrings.HasSuffix (a +:+ b) b = true.
Proof.
  unfold GoStrings.HasSuffix. rewrite length_app.
  apply andb_true_intro. split.
  - apply Nat.leb_le. lia.
  - replace (String.length a + String.length b - String.length b)%nat
      with (String.length a) by lia.
    apply String.eqb_eq.
    induction a as [|c a IH]; [apply substring_all|]. rewrite app_cons. exact IH.
Qed.

(** X1.  [truncateString] panics exactly for a negative [maxLen]; for
    [maxLen >= 0] it returns [min(len s, maxLen)] bytes: [s] itself when it
    fits, and otherwise, when [maxLen > 3], a text that ends in "...". *)
Theorem truncateString_fits (s : string) (maxLen : Z) :
  in_range maxLen ->
  (maxLen < 0 -> truncateString s maxLen = None) /\
  (0 <= maxLen ->
   exists r,
     truncateString s maxLen = Some r /\
     GoStrings.len r = Z.min (GoStrings.len s) maxLen /\
     (GoStrings.len s <= maxLen -> r = s) /\
     (maxLen < GoStrings.len s -> 3 < maxLen -> GoStrings.HasSuffix r "..." = true)).
Proof.
  intros Hr. pose proof (strlen_nonneg s) as Hs. unfold truncateString. split.
  - intros Hneg. destruct (Z.leb_spec (GoStrings.len s) maxLen); [lia|].
    destruct (Z.leb_spec maxLen 3); [|lia]. now apply sliceTo_negative.
  - intros Hpos. destruct (Z.leb_spec (GoStrings.len s) maxLen) as [Hfit | Hcut].
    + exists s. repeat split; [lia | lia].
    + destruct (Z.leb_spec maxLen 3) as [Hsmall | Hbig].
      * destruct (sliceTo_some s maxLen) as (r & Hr1 & Hr2); [lia|].
        exists r. rewrite Hr1. repeat split; lia.
      * assert (Hsub : sub maxLen 3 = maxLen - 3).
        { apply sub_exact. unfold in_range, min_int, max_int in *. lia. }
        rewrite Hsub.
        destruct (sliceTo_some s (maxLen - 3)) as (r & Hr1 & Hr2); [lia|].
        rewrite Hr1. simpl. exists (r +:+ "..."). split; [reflexivity|].
        split; [|split].
        -- unfold GoStrings.len in *. rewrite length_app. simpl. lia.
        -- lia.
        -- intros _ _. apply HasSuffix_app.
Qed.

Lemma truncateString_fits_witness :
  truncateString "kube-apiserver" (-1) = None /\
  exists r,
    truncateString "kube-apiserver" 8 = Some r /\
    GoStrings.len r = Z.min (GoStrings.len "kube-apiserver") 8 /\
    GoStrings.HasSuffix r "..." = true.
Proof.
  assert (H1 : in_range (-1)) by (unfold in_range, min_int, max_int; lia).
  assert (H8 : in_range 8) by (unfold in_range, min_int, max_int; lia).
  split.
  - apply (proj1 (truncateString_fits "kube-apiserver" (-1) H1)). lia.
  - destruct (proj2 (truncateString_fits "kube-apiserver" 8 H8)) as (r & Hr & Hl & _ & Hs);
      [lia|].
    exists r. split; [exact Hr|]. split; [exact Hl|]. apply Hs; vm_compute; reflexivity.
Defined.

Lemma padLoop_width (fuel : nat) (s : string) (length : Z) :
  length - GoStrings.len s <= Z.of_nat fuel ->
  GoStrings.len s <= length ->
  GoStrings.len (padLoop fuel s length) = length /\
  exists spaces, padLoop fuel s length = s +:+ spaces.
Proof.
  revert s. induction fuel as [|fuel IH]; intros s Hfuel Hle; simpl.
  - split; [lia|]. exists "". now rewrite app_empty_r.
  - destruct (Z.ltb_spec (GoStrings.len s) length) as [Hlt | Hge].
    + assert (Hl : GoStrings.len (s +:+ " ") = GoStrings.len s + 1).
      { unfold GoStrings.len. rewrite length_app. simpl. lia. }
      destruct (IH (s +:+ " ")) as [Hw [sp Hsp]]; [lia | lia |].
      split; [exact Hw|]. exists (" " +:+ sp). rewrite Hsp. apply app_assoc.
    + split; [lia|]. exists "". now rewrite app_empty_r.
Qed.

(** The text [padString] works on: "-" for an empty or "<none>" cell. *)
Lemma padString_cell (s : string) :
  let cell := if String.eqb s "" || String.eqb s "<none>" then "-" else s in
  1 <= GoStrings.len cell /\ (s <> "<none>" -> GoStrings.len s <= GoStrings.len cell).
Proof.
  simpl. destruct (String.eqb_spec s "") as [-> | Hne]; simpl.
  - unfold GoStrings.len. simpl. lia.
  - destruct (String.eqb_spec s "<none>") as [-> | Hnn]; simpl.
    + split; [unfold GoStrings.len; simpl; lia | congruence].
    + split; [|lia]. destruct s; [congruence|]. unfold GoStrings.len. simpl. lia.
Qed.

(** X2.  [padString] shows an empty or "<none>" cell as "-".  For a width
    of at least 3 it returns exactly [length] bytes (the text cut to
    [length - 3] bytes and "...", or the text followed by spaces).  For a
    smaller width it panics on every other text longer than the width,
    and for a width of zero or less on every text. *)
Theorem padString_width (s : string) (length : Z) :
  in_range (length - 3) ->
  padString "" length = padString "-" length /\
  padString "<none>" length = padString "-" length /\
  (3 <= length ->
   exists r, padString s length = Some r /\ GoStrings.len r = length) /\
  (length < 3 -> s <> "<none>" -> length < GoStrings.len s -> padString s length = None) /\
  (length <= 0 -> padString s length = None).
Proof.
  intros Hr. split; [reflexivity|]. split; [reflexivity|].
  pose proof (padString_cell s) as Hcell. simpl in Hcell. unfold padString.
  set (t := if String.eqb s "" || String.eqb s "<none>" then "-" else s) in *.
  destruct Hcell as [Hone Hlen].
  rewrite (sub_exact length 3 Hr).
  assert (Hcut : length < 3 -> length < GoStrings.len t ->
                 (if length <? GoStrings.len t
                  then head ← GoStrings.sliceTo t (length - 3); Some (head +:+ "...")
                  else Some (padLoop (Z.to_nat length) t length)) = None).
  { intros Hsmall Hlong. destruct (Z.ltb_spec length (GoStrings.len t)); [|lia].
    rewrite sliceTo_negative; [reflexivity | lia]. }
  split; [|split].
  - intros H3. destruct (Z.ltb_spec length (GoStrings.len t)) as [Hc | Hpad].
    + destruct (sliceTo_some t (length - 3)) as (r & Hr1 & Hr2); [lia|].
      rewrite Hr1. simpl. eexists. split; [reflexivity|].
      unfold GoStrings.len in *. rewrite length_app. simpl. lia.
    + eexists. split; [reflexivity|]. apply padLoop_width; lia.
  - intros Hsmall Hnn Hlong. apply Hcut; [exact Hsmall|]. specialize (Hlen Hnn). lia.
  - intros Hzero. apply Hcut; lia.
Qed.

Lemma padString_width_witness :
  (exists r, padString "nginx" 16 = Some r /\ GoStrings.len r = 16) /\
  padString "nginx" 2 = None /\
  padString "nginx" 0 = None.
Proof.
  assert (H16 : in_range (16 - 3)) by (unfold in_range, min_int, max_int; lia).
  assert (H2 : in_range (2 - 3)) by (unfold in_range, min_int, max_int; lia).
  assert (H0 : in_range (0 - 3)) by (unfold in_range, min_int, max_int; lia).
  split; [|split].
  - apply (proj1 (proj2 (proj2 (padString_width "nginx" 16 H16)))). lia.
  - apply (proj1 (proj2 (proj2 (proj2 (padString_width "nginx" 2 H2))))); [lia | |].
    + discriminate.
    + vm_compute. reflexivity.
  - apply (proj2 (proj2 (proj2 (proj2 (padString_width "nginx" 0 H0))))). lia.
Defined.

End TextProps.

(** ** The CLI listings *)

Module ParseProps.

Import GoInt GoFacts UI Forms Tables TextProps.

(** *** [strings.Fields], [TrimSpace] and [Split] on words and lines *)

Lemma isWord_cons (w : string) :
  isWord w = true ->
  exists c rest, w = String c rest /\ GoStrings.asciiSpace c = false /\ noSpace rest = true.
Proof.
  unfold isWord. destruct w as [|c rest]; simpl; [discriminate|].
  intros H. apply andb_true_iff in H as [Hc Hr]. apply negb_true_iff in Hc. eauto.
Qed.

(** **** The ASCII path *)

Lemma fieldsASCII_cons (c : ascii) (rest : string) :
  GoStrings.fieldsASCII (String c rest) =
  if GoStrings.asciiSpace c then GoStrings.fieldsASCII rest
  else match rest with
       | EmptyString => [String c EmptyString]
       | String d _ =>
           if GoStrings.asciiSpace d then String c EmptyString :: GoStrings.fieldsASCII rest
           else match GoStrings.fieldsASCII rest with
                | f :: fs => String c f :: fs
                | [] => [String c EmptyString]
                end
       end.
Proof. reflexivity. Qed.

(** A word at the start of a text is its first field, when the text goes on
    with white space or ends. *)
Lemma fieldsASCII_word (w rest : string) :
  isWord w = true ->
  startsInk rest = false ->
  GoStrings.fieldsASCII (w +:+ rest) = w :: GoStrings.fieldsASCII rest.
Proof.
  intros Hw Hrest. apply isWord_cons in Hw as (c & w' & -> & Hc & Hw').
  revert c Hc. induction w' as [|d w' IH]; intros c Hc.
  - rewrite app_cons, app_empty_l, fieldsASCII_cons, Hc.
    destruct rest as [|e rest]; [reflexivity|].
    simpl in Hrest. apply negb_false_iff in Hrest. now rewrite Hrest.
  - simpl in Hw'. apply andb_true_iff in Hw' as [Hd Hw']. apply negb_true_iff in Hd.
    rewrite app_cons, fieldsASCII_cons, Hc. rewrite app_cons, Hd.
    rewrite <- app_cons, (IH Hw' d Hd). reflexivity.
Qed.

Lemma fieldsASCII_gap (gap rest : string) :
  spaces gap = true -> GoStrings.fieldsASCII (gap +:+ rest) = GoStrings.fieldsASCII rest.
Proof.
  induction gap as [|c gap IH]; intros H; [reflexivity|].
  simpl in H. apply andb_true_iff in H as [Hc Hg]. apply Ascii.eqb_eq in Hc. subst c.
  rewrite app_cons, fieldsASCII_cons. simpl. now apply IH.
Qed.

Lemma gap_starts (gap rest : string) : isGap gap = true -> startsInk (gap +:+ rest) = false.
Proof.
  unfold isGap. destruct gap as [|c gap]; simpl; [discriminate|].
  intros H. apply andb_true_iff in H as [Hc _]. apply Ascii.eqb_eq in Hc. now subst c.
Qed.

Lemma fieldsASCII_lineOf (gap : string) (words : list string) :
  isGap gap = true ->
  Forall (fun w => isWord w = true) words ->
  GoStrings.fieldsASCII (lineOf gap words) = words.
Proof.
  intros Hgap Hwords. unfold lineOf.
  induction Hwords as [|w ws Hw Hws IH]; [reflexivity|].
  destruct ws as [|w2 ws].
  - simpl. rewrite <- (app_empty_r w) at 1. rewrite fieldsASCII_word; auto.
  - change (GoStrings.Join (w :: w2 :: ws) gap)
      with (w +:+ gap +:+ GoStrings.Join (w2 :: ws) gap).
    rewrite fieldsASCII_word; [|exact Hw | now apply gap_starts].
    rewrite fieldsASCII_gap; [now rewrite IH|].
    unfold isGap in Hgap. now apply andb_true_iff in Hgap as [_ ?].
Qed.

Lemma fieldsASCII_words (s : string) :
  Forall (fun w => isWord w = true) (GoStrings.fieldsASCII s).
Proof.
  induction s as [|c rest IH]; [constructor|].
  rewrite fieldsASCII_cons. destruct (GoStrings.asciiSpace c) eqn:Hc; [exact IH|].
  assert (Hone : isWord (String c "") = true) by (unfold isWord; simpl; now rewrite Hc).
  destruct rest as [|d rest']; [repeat constructor; exact Hone|].
  destruct (GoStrings.asciiSpace d) eqn:Hd; [constructor; [exact Hone | exact IH]|].
  destruct (GoStrings.fieldsASCII (String d rest')) as [|f fs];
    [repeat constructor; exact Hone|].
  inversion IH as [|? ? Hf Hfs]; subst. constructor; [|exact Hfs].
  unfold isWord in *. simpl. rewrite Hc. simpl.
  now apply andb_true_iff in Hf as [_ ?].
Qed.

Lemma isASCII_app (a b : string) :
  GoStrings.isASCII (a +:+ b) = GoStrings.isASCII a && GoStrings.isASCII b.
Proof.
  induction a as [|c a IH]; [reflexivity|]. rewrite app_cons. simpl.
  now rewrite IH, andb_assoc.
Qed.

Lemma isASCII_spaces (gap : string) : spaces gap = true -> GoStrings.isASCII gap = true.
Proof.
  induction gap as [|c gap IH]; [reflexivity|]. simpl. intros H.
  apply andb_true_iff in H as [Hc Hg]. apply Ascii.eqb_eq in Hc. subst c.
  now rewrite (IH Hg).
Qed.

Lemma isASCII_Join (sep : string) (words : list string) :
  GoStrings.isASCII sep = true ->
  Forall (fun w => GoStrings.isASCII w = true) words ->
  GoStrings.isASCII (GoStrings.Join words sep) = true.
Proof.
  intros Hsep H. induction H as [|w ws Hw Hws IH]; [reflexivity|].
  destruct ws as [|w2 ws]; [exact Hw|].
  change (GoStrings.Join (w :: w2 :: ws) sep)
    with (w +:+ sep +:+ GoStrings.Join (w2 :: ws) sep).
  now rewrite !isASCII_app, Hw, Hsep, IH.
Qed.

(** Round trip on plain text: the fields of words joined by a gap are the
    words. *)
Lemma Fields_lineOf (gap : string) (words : list string) :
  isGap gap = true ->
  Forall (fun w => isPlainWord w = true) words ->
  GoStrings.Fields (lineOf gap words) = words.
Proof.
  intros Hgap Hwords.
  assert (Hw : Forall (fun w => isWord w = true) words).
  { eapply Forall_impl; [exact Hwords|]. intros w H.
    now apply andb_true_iff in H as [? _]. }
  assert (Ha : Forall (fun w => GoStrings.isASCII w = true) words).
  { eapply Forall_impl; [exact Hwords|]. intros w H.
    now apply andb_true_iff in H as [_ ?]. }
  unfold GoStrings.Fields, lineOf. rewrite isASCII_Join; [|apply isASCII_spaces|exact Ha].
  - now apply fieldsASCII_lineOf.
  - unfold isGap in Hgap. now apply andb_true_iff in Hgap as [_ ?].
Qed.

(** **** Runes *)

Lemma asciiSpace_low (c : ascii) :
  GoStrings.asciiSpace c = true ->
  GoStrings.byte c < 128 /\ GoStrings.IsSpace (GoStrings.byte c) = true.
Proof.
  destruct c as [[] [] [] [] [] [] [] []]; intros H; try discriminate H;
    split; reflexivity.
Qed.

Lemma first_low (s0 : Z) (sz : nat) (lo hi : Z) :
  GoStrings.first s0 = Some (sz, lo, hi) -> 128 <= lo.
Proof.
  unfold GoStrings.first.
  repeat match goal with
         | |- context [if ?b then _ else _] => destruct b
         end; intros [= <- <- <-]; lia.
Qed.

(** The bytes of a rune after its first have the top bit set. *)
Lemma decode_high (c : ascii) (rest : string) (r : Z) (size : nat) :
  GoStrings.DecodeRuneInString (String c rest) = (r, size) ->
  (1 <= size)%nat /\
  Forall (fun b => 128 <= GoStrings.byte b) (take (size - 1) (list_ascii_of_string rest)).
Proof.
  unfold GoStrings.DecodeRuneInString, GoStrings.continues.
  destruct (GoStrings.byte c <? 128); [intros [= <- <-]; split; [lia | constructor]|].
  destruct (GoStrings.first (GoStrings.byte c)) as [[[sz lo] hi]|] eqn:Hf;
    [|intros [= <- <-]; split; [lia | constructor]].
  apply first_low in Hf.
  destruct (_ <? sz)%nat; [intros [= <- <-]; split; [lia | constructor]|].
  destruct rest as [|c1 rest1]; [intros [= <- <-]; split; [lia | constructor]|].
  destruct (Z.ltb_spec (GoStrings.byte c1) lo); simpl orb; cbv iota;
    [intros [= <- <-]; split; [lia | constructor]|].
  destruct (hi <? GoStrings.byte c1); [intros [= <- <-]; split; [lia | constructor]|].
  destruct (sz <=? 2)%nat.
  { intros [= <- <-]. split; [lia|]. simpl. repeat constructor. lia. }
  destruct rest1 as [|c2 rest2]; [intros [= <- <-]; split; [lia | constructor]|].
  destruct (Z.leb_spec 128 (GoStrings.byte c2)); simpl andb; simpl negb; cbv iota;
    [|intros [= <- <-]; split; [lia | constructor]].
  destruct (GoStrings.byte c2 <=? 191); simpl negb; cbv iota;
    [|intros [= <- <-]; split; [lia | constructor]].
  destruct (sz <=? 3)%nat.
  { intros [= <- <-]. split; [lia|]. simpl. repeat constructor; lia. }
  destruct rest2 as [|c3 rest3]; [intros [= <- <-]; split; [lia | constructor]|].
  destruct (Z.leb_spec 128 (GoStrings.byte c3)); simpl andb; simpl negb; cbv iota;
    [|intros [= <- <-]; split; [lia | constructor]].
  destruct (GoStrings.byte c3 <=? 191); simpl negb; cbv iota;
    intros [= <- <-]; split; try lia; simpl; repeat constructor; lia.
Qed.

(** The first byte of a rune that is not white space is not ASCII white
    space. *)
Lemma decode_ink (c : ascii) (rest : string) (r : Z) (size : nat) :
  GoStrings.DecodeRuneInString (String c rest) = (r, size) ->
  GoStrings.IsSpace r = false ->
  GoStrings.asciiSpace c = false.
Proof.
  intros Hd Hr. destruct (GoStrings.asciiSpace c) eqn:Hc; [|reflexivity].
  apply asciiSpace_low in Hc as [Hlow Hsp].
  unfold GoStrings.DecodeRuneInString in Hd.
  destruct (Z.ltb_spec (GoStrings.byte c) 128); [|lia].
  injection Hd as <- _. congruence.
Qed.

Lemma high_ink (c : ascii) : 128 <= GoStrings.byte c -> GoStrings.asciiSpace c = false.
Proof.
  intros H. destruct (GoStrings.asciiSpace c) eqn:Hc; [|reflexivity].
  apply asciiSpace_low in Hc as [Hlow _]. lia.
Qed.

(** Every byte marked as not white space is not ASCII white space. *)
Lemma runeKinds_ink (s : string) (skip : nat) (white : bool) :
  (white = false ->
   Forall (fun b => 128 <= GoStrings.byte b) (take skip (list_ascii_of_string s))) ->
  Forall2 (fun c k => k = false -> GoStrings.asciiSpace c = false)
    (list_ascii_of_string s) (GoStrings.runeKinds s skip white).
Proof.
  revert skip white. induction s as [|c rest IH]; intros skip white Hskip; [constructor|].
  cbn [GoStrings.runeKinds list_ascii_of_string]. destruct skip as [|k].
  - destruct (GoStrings.DecodeRuneInString (String c rest)) as [r size] eqn:Hd.
    destruct (decode_high c rest r size Hd) as [_ Hhigh].
    constructor.
    + intros Hr. exact (decode_ink c rest r size Hd Hr).
    + apply IH. intros _. exact Hhigh.
  - constructor.
    + intros Hw. specialize (Hskip Hw). cbn [list_ascii_of_string take] in Hskip.
      apply Forall_cons in Hskip as [Hc _]. now apply high_ink.
    + apply IH. intros Hw. specialize (Hskip Hw).
      cbn [list_ascii_of_string take] in Hskip. now apply Forall_cons in Hskip as [_ ?].
Qed.

Lemma runsOf_words (s : string) (kinds : list bool) :
  Forall2 (fun c k => k = false -> GoStrings.asciiSpace c = false)
    (list_ascii_of_string s) kinds ->
  Forall (fun w => isWord w = true) (GoStrings.runsOf s kinds).
Proof.
  revert kinds. induction s as [|c rest IH]; intros kinds H; [constructor|].
  cbn [list_ascii_of_string] in H. inversion H as [|? k ? kinds' Hc Hrest]; subst.
  cbn [GoStrings.runsOf]. specialize (IH kinds' Hrest).
  destruct k; [exact IH|]. specialize (Hc eq_refl).
  assert (Hone : isWord (String c "") = true) by (unfold isWord; simpl; now rewrite Hc).
  destruct kinds' as [|[] kinds'']; try (constructor; [exact Hone | exact IH]).
  destruct (GoStrings.runsOf rest (false :: kinds'')) as [|f fs];
    [repeat constructor; exact Hone|].
  inversion IH as [|? ? Hf Hfs]; subst. constructor; [|exact Hfs].
  unfold isWord in *. simpl. rewrite Hc. simpl.
  now apply andb_true_iff in Hf as [_ ?].
Qed.

(** Every field is a word: not empty, and without ASCII white space. *)
Lemma Fields_words (s : string) :
  Forall (fun w => isWord w = true) (GoStrings.Fields s).
Proof.
  unfold GoStrings.Fields. destruct (GoStrings.isASCII s); [apply fieldsASCII_words|].
  apply runsOf_words, runeKinds_ink. intros _. constructor.
Qed.

(** **** Trimming plain text *)

Lemma bytes_app (a b : string) :
  list_ascii_of_string (a +:+ b) = list_ascii_of_string a ++ list_ascii_of_string b.
Proof.
  induction a as [|c a IH]; [reflexivity|]. rewrite app_cons. simpl. now rewrite IH.
Qed.

Lemma ofReversed_reversed (s : string) : GoStrings.ofReversed (GoStrings.reversed s) = s.
Proof.
  unfold GoStrings.ofReversed, GoStrings.reversed.
  rewrite rev_involutive. apply string_of_list_ascii_of_string.
Qed.

Lemma reversed_nl (s : string) :
  GoStrings.reversed (s +:+ nl) = GoStrings.newline :: GoStrings.reversed s.
Proof.
  unfold GoStrings.reversed. rewrite bytes_app. unfold nl. simpl.
  now rewrite rev_app_distr.
Qed.

(** The last byte of a plain text that ends in ink. *)
Lemma reversed_ink (s : string) :
  endsInk s = true -> GoStrings.isASCII s = true ->
  exists c before,
    GoStrings.reversed s = c :: before /\
    GoStrings.byte c < 128 /\ GoStrings.asciiSpace c = false.
Proof.
  induction s as [|c rest IH]; [discriminate|]. intros He Ha.
  simpl in Ha. apply andb_true_iff in Ha as [Hc Ha]. apply Z.ltb_lt in Hc.
  unfold GoStrings.reversed in *. simpl list_ascii_of_string. simpl rev.
  destruct rest as [|d rest'].
  - simpl in He. apply negb_true_iff in He. exists c, []. auto.
  - destruct (IH He Ha) as (e & before & -> & He1 & He2).
    exists e, (before ++ [c]). auto.
Qed.

Lemma trimSpaceEnd_ink (c : ascii) (before : list ascii) :
  GoStrings.byte c < 128 -> GoStrings.asciiSpace c = false ->
  GoStrings.trimSpaceEnd (c :: before) = GoStrings.ofReversed (c :: before).
Proof.
  intros Hc Hs. simpl. destruct (Z.leb_spec 128 (GoStrings.byte c)); [lia|].
  now rewrite Hs.
Qed.

Lemma TrimSpace_start (s : string) :
  startsInk s = true -> GoStrings.isASCII s = true ->
  GoStrings.TrimSpace s = GoStrings.trimSpaceEnd (GoStrings.reversed s).
Proof.
  destruct s as [|c rest]; [discriminate|]. intros Hs Ha.
  simpl in Hs, Ha. apply negb_true_iff in Hs.
  apply andb_true_iff in Ha as [Hc _]. apply Z.ltb_lt in Hc.
  cbn [GoStrings.TrimSpace]. destruct (Z.leb_spec 128 (GoStrings.byte c)); [lia|].
  now rewrite Hs.
Qed.

(** A plain text that starts and ends in ink is left as it is, ... *)
Lemma TrimSpace_ink (s : string) :
  startsInk s = true -> endsInk s = true -> GoStrings.isASCII s = true ->
  GoStrings.TrimSpace s = s.
Proof.
  intros Hs He Ha. rewrite TrimSpace_start by assumption.
  destruct (reversed_ink s He Ha) as (c & before & Hr & Hc & Hsp).
  rewrite Hr, trimSpaceEnd_ink by assumption. rewrite <- Hr. apply ofReversed_reversed.
Qed.

(** ... and loses the line feed that follows it. *)
Lemma TrimSpace_nl (s : string) :
  startsInk s = true -> endsInk s = true -> GoStrings.isASCII s = true ->
  GoStrings.TrimSpace (s +:+ nl) = s.
Proof.
  intros Hs He Ha.
  assert (Hs' : startsInk (s +:+ nl) = true)
    by (destruct s; [discriminate|]; now rewrite app_cons).
  assert (Ha' : GoStrings.isASCII (s +:+ nl) = true)
    by (rewrite isASCII_app, Ha; reflexivity).
  rewrite TrimSpace_start by assumption. rewrite reversed_nl.
  destruct (reversed_ink s He Ha) as (c & before & Hr & Hc & Hsp).
  cbn [GoStrings.trimSpaceEnd]. change (128 <=? GoStrings.byte GoStrings.newline) with false.
  change (GoStrings.asciiSpace GoStrings.newline) with true. cbv iota.
  rewrite Hr, trimSpaceEnd_ink by assumption. rewrite <- Hr. apply ofReversed_reversed.
Qed.

Lemma startsInk_app (a b : string) : startsInk a = true -> startsInk (a +:+ b) = true.
Proof. destruct a; [discriminate|]. now rewrite app_cons. Qed.

Lemma endsInk_app (a b : string) : endsInk b = true -> endsInk (a +:+ b) = true.
Proof.
  intros Hb. induction a as [|c a IH]; [exact Hb|].
  rewrite app_cons. simpl. destruct (a +:+ b) eqn:E; [|exact IH].
  destruct a; [|discriminate E]. rewrite app_empty_l in E. subst b. discriminate Hb.
Qed.

Lemma isPlainLine_parts (l : string) :
  isPlainLine l = true ->
  oneLine l = true /\ startsInk l = true /\ endsInk l = true /\ GoStrings.isASCII l = true.
Proof.
  unfold isPlainLine, isCleanLine. intros H.
  apply andb_true_iff in H as [H Ha]. apply andb_true_iff in H as [H He].
  apply andb_true_iff in H as [Ho Hs]. auto.
Qed.

(** The text of a listing, trimmed, is its lines joined by line feeds. *)
Lemma Join_ink (first : string) (lines : list string) :
  Forall (fun l => isPlainLine l = true) (first :: lines) ->
  startsInk (GoStrings.Join (first :: lines) nl) = true /\
  endsInk (GoStrings.Join (first :: lines) nl) = true /\
  GoStrings.isASCII (GoStrings.Join (first :: lines) nl) = true.
Proof.
  intros H. split; [|split].
  - clear -H. apply Forall_cons in H as [Hf _].
    apply isPlainLine_parts in Hf as (_ & Hs & _).
    destruct lines as [|l ls]; [exact Hs|].
    change (GoStrings.Join (first :: l :: ls) nl)
      with (first +:+ nl +:+ GoStrings.Join (l :: ls) nl).
    now apply startsInk_app.
  - revert first H. induction lines as [|l ls IH]; intros first H;
      apply Forall_cons in H as [Hf Hrest].
    + now apply isPlainLine_parts in Hf as (_ & _ & ? & _).
    + change (GoStrings.Join (first :: l :: ls) nl)
        with (first +:+ nl +:+ GoStrings.Join (l :: ls) nl).
      apply endsInk_app, endsInk_app. now apply IH.
  - apply isASCII_Join; [reflexivity|].
    eapply Forall_impl; [exact H|]. intros l Hl.
    now apply isPlainLine_parts in Hl as (_ & _ & _ & ?).
Qed.

Lemma Split_single (s : string) :
  oneLine s = true -> GoStrings.Split s GoStrings.newline = [s].
Proof.
  induction s as [|c rest IH]; simpl; [reflexivity|].
  intros H. apply andb_true_iff in H as [Hc Hrest].
  apply negb_true_iff in Hc. rewrite Hc, (IH Hrest). reflexivity.
Qed.

Lemma Split_line (l rest : string) :
  oneLine l = true ->
  GoStrings.Split (l +:+ nl +:+ rest) GoStrings.newline
  = l :: GoStrings.Split rest GoStrings.newline.
Proof.
  induction l as [|c l IH]; intros H.
  - rewrite app_empty_l. unfold nl. rewrite app_cons, app_empty_l. reflexivity.
  - simpl in H. apply andb_true_iff in H as [Hc Hl]. apply negb_true_iff in Hc.
    rewrite app_cons. simpl. rewrite Hc, (IH Hl). reflexivity.
Qed.

Lemma Split_Join (first : string) (lines : list string) :
  Forall (fun l => oneLine l = true) (first :: lines) ->
  GoStrings.Split (GoStrings.Join (first :: lines) nl) GoStrings.newline = first :: lines.
Proof.
  revert first. induction lines as [|l ls IH]; intros first H;
    inversion H as [|? ? Hf Hrest]; subst.
  - simpl. now apply Split_single.
  - change (GoStrings.Join (first :: l :: ls) nl)
      with (first +:+ nl +:+ GoStrings.Join (l :: ls) nl).
    rewrite Split_line by exact Hf. now rewrite IH.
Qed.

(** The lines the parsers see in a listing of plain lines. *)
Lemma linesOf_listing (first : string) (lines : list string) :
  Forall (fun l => isPlainLine l = true) (first :: lines) ->
  OcCommands.linesOf (listing first lines) = first :: lines.
Proof.
  intros H. unfold OcCommands.linesOf, listing.
  destruct (Join_ink first lines H) as (Hs & He & Ha).
  rewrite TrimSpace_nl by assumption.
  apply Split_Join. eapply Forall_impl; [exact H|]. intros l Hl.
  now apply isPlainLine_parts in Hl as (? & _).
Qed.

(** *** The parsers *)

Lemma oneLine_app (a b : string) : oneLine (a +:+ b) = oneLine a && oneLine b.
Proof.
  induction a as [|c a IH]; [reflexivity|]. rewrite app_cons. simpl.
  now rewrite IH, andb_assoc.
Qed.

Lemma noSpace_oneLine (w : string) : noSpace w = true -> oneLine w = true.
Proof.
  induction w as [|c w IH]; [reflexivity|]. simpl. intros H.
  apply andb_true_iff in H as [Hc Hw]. rewrite (IH Hw), andb_true_r.
  apply negb_true_iff. apply negb_true_iff in Hc.
  destruct (Ascii.eqb_spec c GoStrings.newline) as [-> | _]; [discriminate Hc | reflexivity].
Qed.

Lemma spaces_oneLine (gap : string) : spaces gap = true -> oneLine gap = true.
Proof.
  induction gap as [|c gap IH]; [reflexivity|]. simpl. intros H.
  apply andb_true_iff in H as [Hc Hg]. apply Ascii.eqb_eq in Hc. subst c.
  now rewrite (IH Hg).
Qed.

Lemma isWord_noSpace (w : string) : isWord w = true -> noSpace w = true.
Proof. unfold isWord. intros H. now apply andb_true_iff in H as [_ ?]. Qed.

Lemma isWord_starts (w : string) : isWord w = true -> startsInk w = true.
Proof.
  intros H. apply isWord_cons in H as (c & rest & -> & Hc & _). simpl. now rewrite Hc.
Qed.

Lemma isWord_ends (w : string) : isWord w = true -> endsInk w = true.
Proof.
  intros H. apply isWord_cons in H as (c & rest & -> & Hc & Hr).
  revert c Hc. induction rest as [|d rest IH]; intros c Hc; simpl.
  - now rewrite Hc.
  - simpl in Hr. apply andb_true_iff in Hr as [Hd Hr]. apply negb_true_iff in Hd.
    now apply IH.
Qed.

(** A line of words is a clean line. *)
Lemma lineOf_clean (gap w : string) (ws : list string) :
  isGap gap = true ->
  Forall (fun w => isWord w = true) (w :: ws) ->
  isCleanLine (lineOf gap (w :: ws)) = true.
Proof.
  intros Hgap H. unfold isGap in Hgap. apply andb_true_iff in Hgap as [_ Hsp].
  unfold isCleanLine, lineOf. revert w H.
  induction ws as [|w2 ws IH]; intros w H; inversion H as [|? ? Hw Hws]; subst.
  - simpl. rewrite (noSpace_oneLine _ (isWord_noSpace _ Hw)), (isWord_starts _ Hw),
      (isWord_ends _ Hw). reflexivity.
  - specialize (IH w2 Hws).
    apply andb_true_iff in IH as [IH He]. apply andb_true_iff in IH as [Ho _].
    change (GoStrings.Join (w :: w2 :: ws) gap)
      with (w +:+ gap +:+ GoStrings.Join (w2 :: ws) gap).
    rewrite !oneLine_app, (noSpace_oneLine _ (isWord_noSpace _ Hw)),
      (spaces_oneLine _ Hsp), Ho.
    rewrite (startsInk_app _ _ (isWord_starts _ Hw)).
    rewrite (endsInk_app _ _ (endsInk_app _ _ He)). reflexivity.
Qed.

Lemma isASCII_lineOf (gap : string) (words : list string) :
  isGap gap = true ->
  Forall (fun w => GoStrings.isASCII w = true) words ->
  GoStrings.isASCII (lineOf gap words) = true.
Proof.
  intros Hgap H. apply isASCII_Join; [apply isASCII_spaces|exact H].
  unfold isGap in Hgap. now apply andb_true_iff in Hgap as [_ ?].
Qed.

Lemma TrimSpace_plain (l : string) : isPlainLine l = true -> GoStrings.TrimSpace l = l /\ l <> "".
Proof.
  intros H. apply isPlainLine_parts in H as (_ & Hs & He & Ha).
  split; [now apply TrimSpace_ink|].
  destruct l; [discriminate Hs | discriminate].
Qed.

Lemma isPlainPodRow_spec (p : PodInfo) :
  isPlainPodRow p = true ->
  Forall (fun w => isWord w = true) (podWords p) /\
  Forall (fun w => GoStrings.isASCII w = true) (podWords p) /\
  OcCommands.podFields (podWords p) = Some p.
Proof.
  unfold isPlainPodRow, isPodRow. intros H. apply andb_true_iff in H as [H Ha].
  split; [|split].
  2:{ apply Forall_forall. intros w Hw. apply list_elem_of_In in Hw.
      exact (proj1 (forallb_forall _ _) Ha w Hw). }
  all: do 6 (apply andb_true_iff in H as [H ?]).
  - apply Forall_forall. intros w Hw. apply list_elem_of_In in Hw.
    exact (proj1 (forallb_forall _ _) H w Hw).
  - repeat match goal with Hx : String.eqb _ _ = true |- _ => apply String.eqb_eq in Hx end.
    destruct p; simpl in *. subst. reflexivity.
Qed.

Lemma podLine_plain (gap : string) (p : PodInfo) :
  isGap gap = true -> isPlainPodRow p = true -> isPlainLine (lineOf gap (podWords p)) = true.
Proof.
  intros Hgap Hp. destruct (isPlainPodRow_spec p Hp) as (Hwords & Hascii & _).
  unfold isPlainLine. rewrite (isASCII_lineOf gap _ Hgap Hascii), andb_true_r.
  unfold podWords in *. now apply lineOf_clean.
Qed.

Lemma plainWords (words : list string) :
  Forall (fun w => isWord w = true) words ->
  Forall (fun w => GoStrings.isASCII w = true) words ->
  Forall (fun w => isPlainWord w = true) words.
Proof.
  intros Hw Ha. induction Hw as [|w ws H Hws IH]; [constructor|].
  apply Forall_cons in Ha as [Ha Has]. constructor; [|now apply IH].
  unfold isPlainWord. now rewrite H, Ha.
Qed.

Lemma parseLoop_cons (fields : list string -> option PodInfo) (line : string)
    (rest : list string) (i : Z) :
  OcCommands.parseLoop fields (line :: rest) i =
  if (i =? 0) || String.eqb (GoStrings.TrimSpace line) ""
  then OcCommands.parseLoop fields rest (i + 1)
  else match fields (GoStrings.Fields line) with
       | Some record => record :: OcCommands.parseLoop fields rest (i + 1)
       | None => OcCommands.parseLoop fields rest (i + 1)
       end.
Proof. reflexivity. Qed.

Lemma parseLoop_pods (gap : string) (pods : list PodInfo) (i : Z) :
  isGap gap = true ->
  Forall (fun p => isPlainPodRow p = true) pods ->
  0 < i ->
  OcCommands.parseLoop OcCommands.podFields
    (map (fun p => lineOf gap (podWords p)) pods) i = pods.
Proof.
  intros Hgap H. revert i. induction H as [|p ps Hp Hps IH]; intros i Hi; [reflexivity|].
  destruct (isPlainPodRow_spec p Hp) as (Hwords & Hascii & Hfields).
  assert (Hclean : isPlainLine (lineOf gap (podWords p)) = true)
    by now apply podLine_plain.
  destruct (TrimSpace_plain _ Hclean) as [Htrim Hne].
  rewrite map_cons, parseLoop_cons.
  destruct (Z.eqb_spec i 0); [lia|]. rewrite Htrim.
  destruct (String.eqb_spec (lineOf gap (podWords p)) ""); [contradiction|].
  simpl orb. cbv iota.
  rewrite (Fields_lineOf gap _ Hgap (plainWords _ Hwords Hascii)), Hfields, IH by lia.
  reflexivity.
Qed.

(** X3.  Round trip of [parsePodOutput] on plain (ASCII) text: a listing
    whose first line is any plain line at all (the header, but just as well
    a record when the CLI is run without headers) and whose other lines are
    the five columns of the records [pods], all of ASCII bytes and separated
    by spaces, parses to exactly [pods]; the first line is always dropped.
    Outside ASCII the round trip fails: [strings.Fields] also cuts a column
    at a no-break space (U+00A0, bytes C2 A0), so a name that holds one is
    read as two columns. *)
Theorem parsePodOutput_round_trip (gap first : string) (pods : list PodInfo) :
  isGap gap = true ->
  isPlainLine first = true ->
  Forall (fun p => isPlainPodRow p = true) pods ->
  OcCommands.parsePodOutput
    (listing first (map (fun p => lineOf gap (podWords p)) pods)) = pods /\
  (forall p, isPlainPodRow p = true ->
     OcCommands.parsePodOutput
       (listing (lineOf gap (podWords p))
          (map (fun p => lineOf gap (podWords p)) pods)) = pods) /\
  (isPodRow nbspPod = true /\
   OcCommands.parsePodOutput
     (listing "NAME READY STATUS RESTARTS AGE" [lineOf " " (podWords nbspPod)])
   = [OcCommands.row "web" "0" "1/1" "Running" "0" "" ""]).
Proof.
  intros Hgap Hfirst Hpods.
  assert (Hlines : forall l rows, isPlainLine l = true ->
            Forall (fun r => isPlainLine r = true) rows ->
            OcCommands.parsePodOutput (listing l rows)
            = OcCommands.parseLoop OcCommands.podFields rows 1).
  { intros l rows Hl Hrows. unfold OcCommands.parsePodOutput. rewrite linesOf_listing.
    - rewrite parseLoop_cons. reflexivity.
    - now constructor. }
  assert (Hrows : Forall (fun r => isPlainLine r = true)
                    (map (fun p => lineOf gap (podWords p)) pods)).
  { apply Forall_map. eapply Forall_impl; [exact Hpods|].
    intros p Hp. now apply podLine_plain. }
  split; [|split].
  - rewrite Hlines by assumption. apply parseLoop_pods; [assumption | assumption | lia].
  - intros p Hp. rewrite Hlines; [|now apply podLine_plain | assumption].
    apply parseLoop_pods; [assumption | assumption | lia].
  - split; vm_compute; reflexivity.
Qed.

Lemma parsePodOutput_round_trip_witness :
  OcCommands.parsePodOutput
    (listing "NAME   READY   STATUS    RESTARTS   AGE"
       (map (fun p => lineOf "   " (podWords p)) [webPod; dbPod])) = [webPod; dbPod].
Proof.
  apply (parsePodOutput_round_trip "   " "NAME   READY   STATUS    RESTARTS   AGE"
           [webPod; dbPod]).
  - reflexivity.
  - reflexivity.
  - repeat constructor.
Defined.

(** What a parser makes of one line. *)
Lemma parseLoop_Forall (P : PodInfo -> Prop) (fields : list string -> option PodInfo)
    (lines : list string) (i : Z) :
  (forall fs r, Forall (fun w => isWord w = true) fs -> fields fs = Some r -> P r) ->
  Forall P (OcCommands.parseLoop fields lines i).
Proof.
  intros Hf. revert i. induction lines as [|line rest IH]; intros i; [constructor|].
  rewrite parseLoop_cons. destruct ((i =? 0) || _); [apply IH|].
  destruct (fields (GoStrings.Fields line)) eqn:E; [|apply IH].
  constructor; [|apply IH]. exact (Hf _ _ (Fields_words line) E).
Qed.

Lemma parseLoop_length (fields : list string -> option PodInfo) (lines : list string) (i : Z) :
  (length (OcCommands.parseLoop fields lines i) <= length lines)%nat.
Proof.
  revert i. induction lines as [|line rest IH]; intros i; [reflexivity|].
  rewrite parseLoop_cons. specialize (IH (i + 1)).
  destruct ((i =? 0) || _); [simpl; lia|].
  destruct (fields (GoStrings.Fields line)); simpl; lia.
Qed.

Lemma parseLoop_header (fields : list string -> option PodInfo) (lines : list string) :
  (length (OcCommands.parseLoop fields lines 0) <= length lines - 1)%nat.
Proof.
  destruct lines as [|line rest]; [reflexivity|].
  rewrite parseLoop_cons. simpl orb. cbv iota.
  pose proof (parseLoop_length fields rest (0 + 1)). simpl length. lia.
Qed.

Lemma isWord_app (a b : string) : isWord a = true -> isWord b = true -> isWord (a +:+ b) = true.
Proof.
  intros Ha Hb. apply isWord_cons in Ha as (c & a' & -> & Hc & Ha').
  unfold isWord. rewrite app_cons. simpl. rewrite Hc. simpl.
  apply isWord_noSpace in Hb. clear c Hc.
  induction a' as [|d a' IH]; [exact Hb|]. rewrite app_cons. simpl in *.
  apply andb_true_iff in Ha' as [Hd Ha']. now rewrite Hd, IH.
Qed.

Lemma last_word (fs : list string) (f : string) :
  Forall (fun w => isWord w = true) (f :: fs) ->
  isWord (OcCommands.lastField (f :: fs)) = true.
Proof.
  unfold OcCommands.lastField. revert f.
  induction fs as [|g fs IH]; intros f H; inversion H as [|? ? Hf Hfs]; subst.
  - exact Hf.
  - rewrite last_cons_cons. now apply IH.
Qed.

Ltac words H :=
  repeat match type of H with
         | Forall _ (_ :: _) =>
             let Hw := fresh "Hw" in
             apply Forall_cons in H as [Hw H]
         end.

Ltac named_record Hfs E :=
  words Hfs; injection E as <-; split; simpl;
  first [ assumption
        | apply last_word; repeat (constructor; [assumption|]); assumption
        | reflexivity
        | apply isWord_app; [assumption | apply isWord_app; [reflexivity | assumption]] ].

Lemma podFields_named (fs : list string) (r : PodInfo) :
  Forall (fun w => isWord w = true) fs -> OcCommands.podFields fs = Some r -> named r.
Proof.
  intros Hfs E. destruct fs as [|f0 [|f1 [|f2 [|f3 [|f4 more]]]]]; try discriminate E.
  named_record Hfs E.
Qed.

Lemma serviceFields_named (fs : list string) (r : PodInfo) :
  Forall (fun w => isWord w = true) fs -> OcCommands.serviceFields fs = Some r -> named r.
Proof.
  intros Hfs E. destruct fs as [|f0 [|f1 [|f2 [|f3 [|f4 more]]]]]; try discriminate E.
  unfold OcCommands.serviceFields in E. destruct more; named_record Hfs E.
Qed.

Lemma deploymentFields_named (fs : list string) (r : PodInfo) :
  Forall (fun w => isWord w = true) fs -> OcCommands.deploymentFields fs = Some r -> named r.
Proof.
  intros Hfs E. destruct fs as [|f0 [|f1 [|f2 [|f3 [|f4 more]]]]]; try discriminate E.
  named_record Hfs E.
Qed.

Lemma genericFields_named (fs : list string) (r : PodInfo) :
  Forall (fun w => isWord w = true) fs -> OcCommands.genericFields fs = Some r -> named r.
Proof.
  intros Hfs E. destruct fs as [|f0 [|f1 [|f2 [|f3 more]]]]; try discriminate E;
    named_record Hfs E.
Qed.

Lemma pvcFields_named (fs : list string) (r : PodInfo) :
  Forall (fun w => isWord w = true) fs -> OcCommands.pvcFields fs = Some r -> named r.
Proof.
  intros Hfs E. destruct fs as [|f0 [|f1 more]]; try discriminate E.
  unfold OcCommands.pvcFields in E.
  destruct more as [|f2 [|f3 [|f4 [|f5 [|f6 [|f7 more]]]]]]; named_record Hfs E.
Qed.

Lemma eventFields_named (fs : list string) (r : PodInfo) :
  Forall (fun w => isWord w = true) fs -> OcCommands.eventFields fs = Some r -> named r.
Proof.
  intros Hfs E. destruct fs as [|f0 [|f1 [|f2 [|f3 [|f4 [|f5 more]]]]]]; try discriminate E.
  named_record Hfs E.
Qed.

Lemma imageStreamFields_named (fs : list string) (r : PodInfo) :
  Forall (fun w => isWord w = true) fs -> OcCommands.imageStreamFields fs = Some r -> named r.
Proof.
  intros Hfs E. destruct fs as [|f0 [|f1 [|f2 [|f3 more]]]]; try discriminate E;
    named_record Hfs E.
Qed.

(** X4.  Whatever text the CLI prints, each of the seven parsers returns
    at most one record per line after the first (the first line is never a
    record), and the name and the age of every record are non-empty and
    free of white space. *)
Theorem parsers_records (parse : string -> list PodInfo) (output : string) :
  In parse parsers ->
  (length (parse output) <= length (OcCommands.linesOf output) - 1)%nat /\
  Forall named (parse output).
Proof.
  intros Hin. simpl in Hin.
  destruct Hin as [<- | [<- | [<- | [<- | [<- | [<- | [<- | []]]]]]]].
  - split; [apply parseLoop_header | apply parseLoop_Forall, podFields_named].
  - split; [apply parseLoop_header | apply parseLoop_Forall, serviceFields_named].
  - split; [apply parseLoop_header | apply parseLoop_Forall, deploymentFields_named].
  - split; [apply parseLoop_header | apply parseLoop_Forall, genericFields_named].
  - unfold OcCommands.parsePVCOutput.
    destruct (len (OcCommands.linesOf output) <=? 1).
    + split; [simpl; lia | constructor].
    + split; [apply parseLoop_header | apply parseLoop_Forall, pvcFields_named].
  - split; [apply parseLoop_header | apply parseLoop_Forall, eventFields_named].
  - split; [apply parseLoop_header | apply parseLoop_Forall, imageStreamFields_named].
Qed.

Lemma parsers_records_witness :
  (length (OcCommands.parseEventsOutput eventListing)
     <= length (OcCommands.linesOf eventListing) - 1)%nat /\
  Forall named (OcCommands.parseEventsOutput eventListing).
Proof.
  apply (parsers_records OcCommands.parseEventsOutput eventListing).
  simpl. tauto.
Defined.

(** *** Names of namespaces and contexts *)

Lemma HasPrefix_app (p s : string) : GoStrings.HasPrefix (p +:+ s) p = true.
Proof.
  induction p as [|c p IH]; [now destruct s|].
  rewrite app_cons. simpl. now rewrite Ascii.eqb_refl.
Qed.

Lemma TrimPrefix_app (p s : string) : GoStrings.TrimPrefix (p +:+ s) p = s.
Proof.
  unfold GoStrings.TrimPrefix. rewrite HasPrefix_app, length_app.
  replace (String.length p + String.length s - String.length p)%nat
    with (String.length s) by lia.
  induction p as [|c p IH]; [apply substring_all | exact IH].
Qed.

Lemma namespaceNames_nonempty (prefix : string) (lines : list string) :
  Forall (fun n => n <> "") (OcCommands.namespaceNames prefix lines).
Proof.
  induction lines as [|line rest IH]; simpl; [constructor|].
  destruct (String.eqb_spec (GoStrings.TrimPrefix line prefix) ""); simpl; [exact IH|].
  constructor; assumption.
Qed.

Lemma namespaceNames_prefixed (prefix : string) (names : list string) :
  Forall (fun n => isWord n = true) names ->
  OcCommands.namespaceNames prefix (map (fun n => prefix +:+ n) names) = names.
Proof.
  induction 1 as [|n ns Hn Hns IH]; [reflexivity|].
  simpl. rewrite TrimPrefix_app, IH.
  apply isWord_cons in Hn as (c & r & -> & _). reflexivity.
Qed.

(** X5.  [GetNamespaces] fails exactly when the child process does, and
    never returns an empty name.  Round trip on plain (ASCII) names: from
    output that lists the names [name :: names] one per line, each behind
    the prefix of the tool ("project.project.openshift.io/" for oc,
    "namespace/" otherwise), it returns exactly these names; from empty
    output it returns none.  Outside ASCII the round trip fails: the output
    is trimmed with [strings.TrimSpace], which also strips a no-break space
    (U+00A0) that ends the last name. *)
Theorem GetNamespaces_names (exec : OcCommands.Exec) (tool name : string)
    (names : list string) :
  Forall (fun n => isPlainWord n = true) (name :: names) ->
  (forall found, OcCommands.GetNamespaces exec tool = Some found ->
     Forall (fun n => n <> "") found) /\
  OcCommands.GetNamespaces
    (answering (listing (namespacePrefix tool +:+ name)
                  (map (fun n => namespacePrefix tool +:+ n) names))) tool
    = Some (name :: names) /\
  OcCommands.GetNamespaces (answering "") tool = Some [] /\
  OcCommands.GetNamespaces (fun _ => None) tool = None /\
  (isWord ("team" +:+ nbsp) = true /\
   OcCommands.GetNamespaces
     (answering (listing ("namespace/" +:+ "team" +:+ nbsp) [])) "kubectl"
   = Some ["team"]).
Proof.
  intros Hnames.
  assert (Hprefix : isPlainWord (namespacePrefix tool) = true)
    by (unfold namespacePrefix; now destruct (String.eqb tool "oc")).
  assert (Hwords : Forall (fun n => isWord n = true) (name :: names)).
  { eapply Forall_impl; [exact Hnames|]. intros n Hn.
    now apply andb_true_iff in Hn as [? _]. }
  split; [|split; [|split; [|split]]].
  - intros found. unfold OcCommands.GetNamespaces.
    destruct (exec _); [|discriminate]. intros H. injection H as <-.
    apply namespaceNames_nonempty.
  - unfold OcCommands.GetNamespaces, answering.
    fold (OcCommands.linesOf
            (listing (namespacePrefix tool +:+ name)
               (map (fun n => namespacePrefix tool +:+ n) names))).
    rewrite linesOf_listing.
    + f_equal. fold (namespacePrefix tool).
      change ((namespacePrefix tool +:+ name) :: map (fun n => namespacePrefix tool +:+ n) names)
        with (map (fun n => namespacePrefix tool +:+ n) (name :: names)).
      now apply namespaceNames_prefixed.
    + change ((namespacePrefix tool +:+ name) :: map (fun n => namespacePrefix tool +:+ n) names)
        with (map (fun n => namespacePrefix tool +:+ n) (name :: names)).
      apply Forall_map. eapply Forall_impl; [exact Hnames|]. intros n Hn.
      apply andb_true_iff in Hprefix as [Hpw Hpa]. apply andb_true_iff in Hn as [Hnw Hna].
      pose proof (isWord_app _ _ Hpw Hnw) as Hw.
      unfold isPlainLine, isCleanLine.
      rewrite (noSpace_oneLine _ (isWord_noSpace _ Hw)), (isWord_starts _ Hw),
        (isWord_ends _ Hw), isASCII_app, Hpa, Hna. reflexivity.
  - unfold OcCommands.GetNamespaces, answering. simpl.
    now destruct (String.eqb tool "oc").
  - unfold OcCommands.GetNamespaces. now destruct (String.eqb tool "oc").
  - split; vm_compute; reflexivity.
Qed.

Lemma GetNamespaces_names_witness :
  OcCommands.GetNamespaces
    (answering (listing "namespace/default" ["namespace/kube-system"])) "kubectl"
    = Some ["default"; "kube-system"].
Proof.
  refine (proj1 (proj2 (GetNamespaces_names (fun _ => None) "kubectl" "default"
                          ["kube-system"] _))).
  repeat constructor.
Defined.

(** X6.  Whenever the [get-contexts] query succeeds, [GetContexts]
    succeeds with a list of contexts that is never empty: output that is
    empty or all white space gives the single empty name.  A failing
    [current-context] query is no error: the current context is then
    empty. *)
Theorem GetContexts_never_empty (exec : OcCommands.Exec) (tool output : string) :
  exec [tool; "config"; "get-contexts"; "-o"; "name"] = Some output ->
  exists contexts current,
    OcCommands.GetContexts exec tool = Some (contexts, current) /\
    contexts <> [] /\
    (GoStrings.TrimSpace output = "" -> contexts = [""]) /\
    (exec [tool; "config"; "current-context"] = None -> current = "").
Proof.
  intros Hout. unfold OcCommands.GetContexts. rewrite Hout.
  assert (Hne : GoStrings.Split (GoStrings.TrimSpace output) GoStrings.newline <> []).
  { destruct (GoStrings.TrimSpace output) as [|c rest]; simpl; [discriminate|].
    destruct (Ascii.eqb c GoStrings.newline); [discriminate|].
    destruct (GoStrings.Split rest GoStrings.newline); discriminate. }
  destruct (exec [tool; "config"; "current-context"]) as [cur|].
  - do 2 eexists. split; [reflexivity|]. split; [exact Hne|].
    split; [now intros -> | discriminate].
  - do 2 eexists. split; [reflexivity|]. split; [exact Hne|].
    split; [now intros -> | reflexivity].
Qed.

Lemma GetContexts_never_empty_witness :
  exists contexts current,
    OcCommands.GetContexts (answering nl) "kubectl" = Some (contexts, current) /\
    contexts <> [] /\
    (GoStrings.TrimSpace nl = "" -> contexts = [""]) /\
    (answering nl ["kubectl"; "config"; "current-context"] = None -> current = "").
Proof.
  apply (GetContexts_never_empty (answering nl) "kubectl" nl). reflexivity.
Defined.

End ParseProps.

(** ** The table cursor and the page shown *)

Module TableProps.

Import GoInt GoFacts UI Forms Cursor.

Lemma bounds : min_int = - max_int - 1 /\ 0 < max_int.
Proof. unfold min_int, max_int. lia. Qed.

Ltac exact_arith :=
  repeat first
    [ rewrite add_exact by (unfold in_range; pose proof bounds; nia)
    | rewrite sub_exact by (unfold in_range; pose proof bounds; nia)
    | rewrite mul_exact by (unfold in_range; pose proof bounds; nia) ].

Ltac arith_cases :=
  repeat match goal with
         | |- context [Z.eqb ?x ?y] => destruct (Z.eqb_spec x y)
         | |- context [Z.ltb ?x ?y] => destruct (Z.ltb_spec x y)
         end; nia.

(** One step down in closed form. *)
Lemma handleDownNavigation_step (a : App) :
  tableFits a -> cursorOnPage a ->
  let s := state a in
  let s' := state (fst (handleDownNavigation a)) in
  Resources s' = Resources s /\ PageSize s' = PageSize s /\
  SelectedIndex s' = Z.min (SelectedIndex s + 1) (len (Resources s) - 1) /\
  CurrentPage s' =
    (if SelectedIndex s' =? CurrentPage s * PageSize s + PageSize s
     then CurrentPage s + 1 else CurrentPage s).
Proof.
  intros [Hps Hfit] [[Hi0 Hi1] [Hp0 Hp1]]. simpl.
  unfold handleDownNavigation.
  set (s := state a) in *. set (n := len (Resources s)) in *.
  set (ps := PageSize s) in *. set (cp := CurrentPage s) in *.
  set (idx := SelectedIndex s) in *.
  pose proof bounds as Hb.
  destruct (Z.ltb_spec 0 n); [|lia].
  assert (Hsub : sub n 1 = n - 1) by (apply sub_exact; unfold in_range; lia).
  rewrite Hsub.
  destruct (Z.ltb_spec idx (n - 1)) as [Hlt | Hge].
  - assert (Hadd : add idx 1 = idx + 1) by (apply add_exact; unfold in_range; lia).
    rewrite Hadd. simpl.
    fold ps cp.
    assert (Hmul : mul cp ps = cp * ps) by (apply mul_exact; unfold in_range; lia).
    rewrite Hmul.
    assert (Hadd2 : add (cp * ps) ps = cp * ps + ps) by (apply add_exact; unfold in_range; lia).
    rewrite Hadd2.
    assert (Hsub2 : sub (cp * ps + ps) 1 = cp * ps + ps - 1)
      by (apply sub_exact; unfold in_range; lia).
    rewrite Hsub2.
    destruct (Z.ltb_spec (cp * ps + ps - 1) (idx + 1)) as [Hnext | Hsame]; simpl.
    + repeat split; try reflexivity; [lia|].
      replace (Z.min (idx + 1) (n - 1)) with (idx + 1) by lia.
      destruct (Z.eqb_spec (idx + 1) (cp * ps + ps)); [|lia].
      apply add_exact. unfold in_range. nia.
    + repeat split; try reflexivity; [lia|].
      replace (Z.min (idx + 1) (n - 1)) with (idx + 1) by lia.
      destruct (Z.eqb_spec (idx + 1) (cp * ps + ps)); [lia | reflexivity].
  - simpl. fold s idx n cp ps.
    replace (Z.min (idx + 1) (n - 1)) with idx by lia.
    destruct (Z.eqb_spec idx (cp * ps + ps)); [lia|]. auto.
Qed.

(** One step up in closed form. *)
Lemma handleUpNavigation_step (a : App) :
  tableFits a -> cursorOnPage a ->
  let s := state a in
  let s' := state (fst (handleUpNavigation a)) in
  Resources s' = Resources s /\ PageSize s' = PageSize s /\
  SelectedIndex s' = Z.max (SelectedIndex s - 1) 0 /\
  CurrentPage s' =
    (if SelectedIndex s' <? CurrentPage s * PageSize s
     then CurrentPage s - 1 else CurrentPage s).
Proof.
  intros [Hps Hfit] [[Hi0 Hi1] [Hp0 Hp1]]. simpl.
  unfold handleUpNavigation.
  set (s := state a) in *. set (n := len (Resources s)) in *.
  set (ps := PageSize s) in *. set (cp := CurrentPage s) in *.
  set (idx := SelectedIndex s) in *.
  pose proof bounds as Hb.
  destruct (Z.ltb_spec 0 n); [|lia].
  destruct (Z.ltb_spec 0 idx) as [Hpos | Hzero].
  - assert (Hsub : sub idx 1 = idx - 1) by (apply sub_exact; unfold in_range; lia).
    rewrite Hsub. simpl. fold ps cp.
    assert (Hmul : mul cp ps = cp * ps) by (apply mul_exact; unfold in_range; lia).
    rewrite Hmul.
    replace (Z.max (idx - 1) 0) with (idx - 1) by lia.
    destruct (Z.ltb_spec (idx - 1) (cp * ps)) as [Hprev | Hsame]; simpl.
    + repeat split; try reflexivity.
      destruct (Z.ltb_spec (idx - 1) (cp * ps)); [|lia].
      apply sub_exact. unfold in_range. nia.
    + repeat split; try reflexivity.
      destruct (Z.ltb_spec (idx - 1) (cp * ps)); [lia | reflexivity].
  - simpl. fold s idx n cp ps.
    replace (Z.max (idx - 1) 0) with idx by lia.
    destruct (Z.ltb_spec idx (cp * ps)); [lia|]. auto.
Qed.

Lemma move_step (down : bool) (a : App) :
  tableFits a -> cursorOnPage a ->
  Resources (state (move down a)) = Resources (state a) /\
  tableFits (move down a) /\ cursorOnPage (move down a).
Proof.
  intros Hfit Hon. pose proof Hfit as [Hps Hlen]. pose proof Hon as [[Hi0 Hi1] [Hp0 Hp1]].
  unfold move, tableFits, cursorOnPage. destruct down.
  - destruct (handleDownNavigation_step a Hfit Hon) as (Hr & Hp & Hi & Hc).
    simpl in Hr, Hp, Hi, Hc. rewrite Hr, Hp, Hc, Hi.
    split; [reflexivity|]. split; [auto|].
    destruct (Z.eqb_spec (Z.min (SelectedIndex (state a) + 1) (len (Resources (state a)) - 1))
                (CurrentPage (state a) * PageSize (state a) + PageSize (state a))); nia.
  - destruct (handleUpNavigation_step a Hfit Hon) as (Hr & Hp & Hi & Hc).
    simpl in Hr, Hp, Hi, Hc. rewrite Hr, Hp, Hc, Hi.
    split; [reflexivity|]. split; [auto|].
    destruct (Z.ltb_spec (Z.max (SelectedIndex (state a) - 1) 0)
                (CurrentPage (state a) * PageSize (state a))); nia.
Qed.

(** X7.  Whatever sequence of cursor keys (down "j", up "k") is pressed on
    a table whose cursor names a record of the page shown, the cursor
    still names a record of the page shown afterwards: it never leaves
    [0, len) and the page follows it. *)
Theorem cursor_stays_on_page (keys : list bool) (a : App) :
  tableFits a -> cursorOnPage a ->
  Resources (state (moves keys a)) = Resources (state a) /\
  cursorOnPage (moves keys a).
Proof.
  revert a. induction keys as [|k keys IH]; intros a Hfit Hon; [auto|].
  destruct (move_step k a Hfit Hon) as (Hr & Hfit' & Hon').
  specialize (IH (move k a) Hfit' Hon'). unfold moves in *. simpl.
  destruct IH as [IHr IHon]. split; [congruence | exact IHon].
Qed.

Lemma cursor_stays_on_page_witness :
  cursorOnPage (moves [true; true; false; true] Examples.app142).
Proof.
  apply (cursor_stays_on_page [true; true; false; true] Examples.app142).
  - split; vm_compute; discriminate.
  - repeat split; vm_compute; discriminate || reflexivity.
Defined.

Lemma cursor_page_nonneg (a : App) :
  tableFits a -> cursorOnPage a -> 0 <= CurrentPage (state a) /\ pageArithmeticFits a.
Proof.
  intros [Hps Hfit] [[Hi0 Hi1] [Hp0 Hp1]]. unfold pageArithmeticFits.
  split; [nia | split; lia].
Qed.

(** X8.  On a table whose cursor names a record of the page shown, the
    row that the page highlights ([getSelectedIndex], the cursor relative
    to the page start) exists on that page and holds the selected
    record. *)
Theorem highlighted_row_is_selected (a : App) :
  tableFits a -> cursorOnPage a ->
  exists p,
    paginateResources a = Some p /\
    0 <= getSelectedIndex a < len (PaginatedResult.Items p) /\
    index (PaginatedResult.Items p) (getSelectedIndex a)
      = index (Resources (state a)) (SelectedIndex (state a)) /\
    index (Resources (state a)) (SelectedIndex (state a)) <> None.
Proof.
  intros Hfit Hon. destruct (cursor_page_nonneg a Hfit Hon) as [Hcp Hpf].
  pose proof Hfit as [Hps Hlen]. pose proof Hon as [[Hi0 Hi1] [Hp0 Hp1]].
  exists (pageWindow a).
  split; [apply PageProps.paginateResources_window; assumption|].
  pose proof bounds as Hb.
  unfold getSelectedIndex, pageWindow. simpl.
  set (s := state a) in *. set (ps := PageSize s) in *. set (cp := CurrentPage s) in *.
  set (idx := SelectedIndex s) in *.
  rewrite (mul_exact cp ps) by (unfold in_range; nia).
  rewrite (sub_exact idx (cp * ps)) by (unfold in_range; nia).
  assert (Hlen' : len (take (Z.to_nat ps) (drop (Z.to_nat (cp * ps)) (Resources s)))
                  = Z.min ps (len (Resources s) - cp * ps)).
  { assert (0 <= cp * ps) by nia. unfold len in *. rewrite length_take, length_drop. lia. }
  assert (Hstart : 0 <= cp * ps) by nia.
  split; [rewrite Hlen'; lia|].
  unfold index. rewrite Hlen'.
  destruct (Z.leb_spec 0 (idx - cp * ps)); [|lia].
  destruct (Z.ltb_spec (idx - cp * ps) (Z.min ps (len (Resources s) - cp * ps))); [|lia].
  destruct (Z.leb_spec 0 idx); [|lia].
  destruct (Z.ltb_spec idx (len (Resources s))); [|lia]. simpl.
  rewrite lookup_take_lt by lia. rewrite lookup_drop.
  replace (Z.to_nat (cp * ps) + Z.to_nat (idx - cp * ps))%nat with (Z.to_nat idx) by lia.
  split; [reflexivity|].
  intros Hnone. apply lookup_ge_None in Hnone. unfold len in *. lia.
Qed.

Lemma highlighted_row_is_selected_witness :
  exists p,
    paginateResources (moves [true; true] Examples.app142) = Some p /\
    0 <= getSelectedIndex (moves [true; true] Examples.app142)
      < len (PaginatedResult.Items p).
Proof.
  destruct (highlighted_row_is_selected (moves [true; true] Examples.app142))
    as (p & Hp & Hi & _).
  - split; vm_compute; discriminate.
  - repeat split; vm_compute; discriminate || reflexivity.
  - exists p. exact (conj Hp Hi).
Defined.

(** The cursor keys on the index alone, whatever page is shown. *)
Lemma cursor_keys_index (a : App) :
  let s := state a in
  (Resources (state (fst (handleDownNavigation a))) = Resources s /\
   SelectedIndex (state (fst (handleDownNavigation a))) =
     if (0 <? len (Resources s)) && (SelectedIndex s <? sub (len (Resources s)) 1)
     then add (SelectedIndex s) 1 else SelectedIndex s) /\
  (Resources (state (fst (handleUpNavigation a))) = Resources s /\
   SelectedIndex (state (fst (handleUpNavigation a))) =
     if (0 <? len (Resources s)) && (0 <? SelectedIndex s)
     then sub (SelectedIndex s) 1 else SelectedIndex s).
Proof.
  simpl. unfold handleDownNavigation, handleUpNavigation. split.
  - destruct (0 <? len (Resources (state a))); [|auto].
    destruct (SelectedIndex (state a) <? sub (len (Resources (state a))) 1); [|auto].
    simpl. destruct (_ <? _); auto.
  - destruct (0 <? len (Resources (state a))); [|auto].
    destruct (0 <? SelectedIndex (state a)); [|auto].
    simpl. destruct (_ <? _); auto.
Qed.

(** X9.  Cursor keys undo each other on the cursor: on a table whose
    cursor names a record, down then up, from a record that is not the
    last, and up then down, from a record that is not the first, bring
    back the same record, whatever page is shown.  They bring back the
    same page as well when the cursor was on the page shown; when a page
    key has moved the page away from the cursor they do not: with 142
    records, after "right" (page 1, cursor still 0) down then up ends on
    page 0. *)
Theorem cursor_round_trip (a : App) :
  len (Resources (state a)) <= max_int ->
  0 <= SelectedIndex (state a) < len (Resources (state a)) ->
  (SelectedIndex (state a) < len (Resources (state a)) - 1 ->
   SelectedIndex (state (moves [true; false] a)) = SelectedIndex (state a) /\
   (tableFits a -> cursorOnPage a ->
    CurrentPage (state (moves [true; false] a)) = CurrentPage (state a))) /\
  (0 < SelectedIndex (state a) ->
   SelectedIndex (state (moves [false; true] a)) = SelectedIndex (state a) /\
   (tableFits a -> cursorOnPage a ->
    CurrentPage (state (moves [false; true] a)) = CurrentPage (state a))) /\
  (exists b,
     handleRightNavigation Examples.app142 = Some (b, CmdNone) /\
     (SelectedIndex (state b), CurrentPage (state b)) = (0, 1) /\
     (SelectedIndex (state (moves [true; false] b)),
      CurrentPage (state (moves [true; false] b))) = (0, 0)).
Proof.
  intros Hlen [Hi0 Hi1]. pose proof bounds as Hb.
  split; [|split].
  - intros Hroom. split.
    + unfold moves. simpl. unfold move.
      destruct (cursor_keys_index a) as [[Hr Hd] _].
      destruct (cursor_keys_index (fst (handleDownNavigation a))) as [_ [_ Hu]].
      simpl in Hr, Hd, Hu. rewrite Hu, Hr, Hd.
      rewrite (sub_exact (len (Resources (state a))) 1) by (unfold in_range; lia).
      destruct (Z.ltb_spec 0 (len (Resources (state a)))); [|lia].
      destruct (Z.ltb_spec (SelectedIndex (state a)) (len (Resources (state a)) - 1)); [|lia].
      simpl. rewrite (add_exact (SelectedIndex (state a)) 1) by (unfold in_range; lia).
      destruct (Z.ltb_spec 0 (SelectedIndex (state a) + 1)); [|lia].
      rewrite sub_exact by (unfold in_range; lia). lia.
    + intros Hfit Hon. pose proof Hfit as [Hps _]. pose proof Hon as [_ [Hp0 Hp1]].
      unfold moves. simpl.
      destruct (move_step true a Hfit Hon) as (Hr1 & Hfit1 & Hon1).
      destruct (handleDownNavigation_step a Hfit Hon) as (_ & Hp & Hi & Hc).
      destruct (handleUpNavigation_step (move true a) Hfit1 Hon1) as (_ & _ & Hi2 & Hc2).
      unfold move in *. simpl in *.
      rewrite Hi in Hc, Hi2. rewrite Hi2, Hc, Hp in Hc2. rewrite Hc2.
      clear Hi Hc Hi2 Hc2 Hon1 Hfit1 Hr1 Hp.
      replace (Z.min (SelectedIndex (state a) + 1) (len (Resources (state a)) - 1))
        with (SelectedIndex (state a) + 1) by lia.
      replace (Z.max (SelectedIndex (state a) + 1 - 1) 0) with (SelectedIndex (state a))
        by lia.
      arith_cases.
  - intros Hroom. split.
    + unfold moves. simpl. unfold move.
      destruct (cursor_keys_index a) as [_ [Hr Hu]].
      destruct (cursor_keys_index (fst (handleUpNavigation a))) as [[_ Hd] _].
      simpl in Hr, Hd, Hu. rewrite Hd, Hr, Hu.
      rewrite (sub_exact (len (Resources (state a))) 1) by (unfold in_range; lia).
      destruct (Z.ltb_spec 0 (len (Resources (state a)))); [|lia].
      destruct (Z.ltb_spec 0 (SelectedIndex (state a))); [|lia].
      simpl. rewrite (sub_exact (SelectedIndex (state a)) 1) by (unfold in_range; lia).
      destruct (Z.ltb_spec (SelectedIndex (state a) - 1) (len (Resources (state a)) - 1));
        [|lia].
      rewrite add_exact by (unfold in_range; lia). lia.
    + intros Hfit Hon. pose proof Hfit as [Hps _]. pose proof Hon as [_ [Hp0 Hp1]].
      unfold moves. simpl.
      destruct (move_step false a Hfit Hon) as (Hr1 & Hfit1 & Hon1).
      destruct (handleUpNavigation_step a Hfit Hon) as (_ & Hp & Hi & Hc).
      destruct (handleDownNavigation_step (move false a) Hfit1 Hon1) as (_ & _ & Hi2 & Hc2).
      unfold move in *. simpl in *.
      rewrite Hi in Hc, Hi2. rewrite Hr1 in Hi2. rewrite Hi2, Hc, Hp in Hc2. rewrite Hc2.
      clear Hi Hc Hi2 Hc2 Hon1 Hfit1 Hr1 Hp.
      replace (Z.max (SelectedIndex (state a) - 1) 0) with (SelectedIndex (state a) - 1)
        by lia.
      replace (Z.min (SelectedIndex (state a) - 1 + 1) (len (Resources (state a)) - 1))
        with (SelectedIndex (state a)) by lia.
      arith_cases.
  - destruct (handleRightNavigation Examples.app142) as [[b c]|] eqn:Hright;
      [|vm_compute in Hright; discriminate Hright].
    vm_compute in Hright. injection Hright as <- <-.
    eexists. split; [reflexivity|]. split; vm_compute; reflexivity.
Qed.

Lemma cursor_round_trip_witness :
  SelectedIndex (state (moves [true; false] Examples.app142))
    = SelectedIndex (state Examples.app142) /\
  CurrentPage (state (moves [true; false] Examples.app142))
    = CurrentPage (state Examples.app142).
Proof.
  destruct (cursor_round_trip Examples.app142) as (Hdown & _ & _).
  - vm_compute. discriminate.
  - split; [vm_compute; discriminate | vm_compute; reflexivity].
  - destruct Hdown as [Hi Hp]; [vm_compute; reflexivity|].
    split; [exact Hi|]. apply Hp.
    + split; vm_compute; discriminate.
    + repeat split; vm_compute; discriminate || reflexivity.
Defined.

Lemma hasNext_iff (n ps cp : Z) :
  1 <= ps -> 0 <= cp -> 0 <= n ->
  ((cp * ps <? n) && (cp <? Z.max 1 ((n + ps - 1) / ps) - 1)) = ((cp + 1) * ps <? n).
Proof.
  intros Hps Hcp Hn.
  pose proof (Z.div_mod (n + ps - 1) ps ltac:(lia)) as Hdm.
  pose proof (Z.mod_pos_bound (n + ps - 1) ps ltac:(lia)) as Hmod.
  set (q := (n + ps - 1) / ps) in *. set (r := (n + ps - 1) mod ps) in *.
  destruct (Z.ltb_spec (cp * ps) n); destruct (Z.ltb_spec cp (Z.max 1 q - 1));
    destruct (Z.ltb_spec ((cp + 1) * ps) n); simpl; try reflexivity; exfalso; nia.
Qed.

(** X10.  The page keys never move the cursor: "right" and "left" leave
    the selected index as it was, on every table.  On a table whose cursor
    names a record of the page shown, "right" goes to the next page exactly
    when records remain beyond the page shown, "left" goes back exactly
    when the page is not the first, and after a key that changed the page
    the cursor is off the page shown, so that no row of it is highlighted.
    A second page key can bring the page back to the cursor: with 142
    records, after "right" then "left" the page is the first again and its
    row 0 is highlighted. *)
Theorem page_keys_leave_cursor (a : App) :
  (forall a' c,
     handleRightNavigation a = Some (a', c) ->
     SelectedIndex (state a') = SelectedIndex (state a)) /\
  SelectedIndex (state (fst (handleLeftNavigation a))) = SelectedIndex (state a) /\
  (tableFits a -> cursorOnPage a ->
   (exists a',
      handleRightNavigation a = Some (a', CmdNone) /\
      CurrentPage (state a') =
        (if (CurrentPage (state a) + 1) * PageSize (state a) <? len (Resources (state a))
         then CurrentPage (state a) + 1 else CurrentPage (state a)) /\
      (CurrentPage (state a') <> CurrentPage (state a) -> getSelectedIndex a' < 0)) /\
   (let a' := fst (handleLeftNavigation a) in
    CurrentPage (state a') = Z.max 0 (CurrentPage (state a) - 1) /\
    (CurrentPage (state a') <> CurrentPage (state a) ->
     PageSize (state a') <= getSelectedIndex a'))) /\
  (exists b,
     handleRightNavigation Examples.app142 = Some (b, CmdNone) /\
     CurrentPage (state b) = 1 /\
     CurrentPage (state (fst (handleLeftNavigation b))) = 0 /\
     getSelectedIndex (fst (handleLeftNavigation b)) = 0).
Proof.
  split; [|split; [|split]].
  - intros a' c H. unfold handleRightNavigation in H.
    destruct (paginateResources a) as [p|]; [|discriminate H]. simpl in H.
    destruct (PaginatedResult.HasNext p); injection H as <- _; reflexivity.
  - unfold handleLeftNavigation. destruct (0 <? CurrentPage (state a)); reflexivity.
  - intros Hfit Hon. destruct (cursor_page_nonneg a Hfit Hon) as [Hcp Hpf].
    pose proof Hfit as [Hps Hlen]. pose proof Hon as [[Hi0 Hi1] [Hp0 Hp1]].
    pose proof bounds as Hb. split.
    + rewrite PageProps.handleRightNavigation_window by assumption.
      unfold pageWindow. simpl PaginatedResult.HasNext.
      rewrite hasNext_iff by (try assumption; unfold len; lia).
      destruct (Z.ltb_spec ((CurrentPage (state a) + 1) * PageSize (state a))
                  (len (Resources (state a)))) as [Hmore | Hlast].
      * eexists. split; [reflexivity|]. unfold getSelectedIndex. simpl.
        rewrite (add_exact (CurrentPage (state a)) 1) by (unfold in_range; nia).
        split; [reflexivity|]. intros _.
        rewrite mul_exact by (unfold in_range; nia).
        rewrite sub_exact by (unfold in_range; nia). nia.
      * eexists. split; [reflexivity|]. split; [reflexivity|].
        intros Hne. now contradiction Hne.
    + unfold handleLeftNavigation.
      destruct (Z.ltb_spec 0 (CurrentPage (state a))) as [Hpos | Hfirst]; simpl.
      * unfold getSelectedIndex. simpl.
        rewrite (sub_exact (CurrentPage (state a)) 1) by (unfold in_range; nia).
        split; [lia|]. intros _.
        rewrite mul_exact by (unfold in_range; nia).
        rewrite sub_exact by (unfold in_range; nia). nia.
      * split; [lia|]. intros Hne. now contradiction Hne.
  - destruct (handleRightNavigation Examples.app142) as [[b c]|] eqn:Hright;
      [|vm_compute in Hright; discriminate Hright].
    vm_compute in Hright. injection Hright as <- <-.
    eexists. split; [reflexivity|]. repeat split; vm_compute; reflexivity.
Qed.

Lemma page_keys_leave_cursor_witness :
  exists a',
    handleRightNavigation Examples.app142 = Some (a', CmdNone) /\
    CurrentPage (state a') = 1 /\
    (CurrentPage (state a') <> CurrentPage (state Examples.app142) ->
     getSelectedIndex a' < 0).
Proof.
  refine (proj1 (proj1 (proj2 (proj2 (page_keys_leave_cursor Examples.app142))) _ _)).
  - split; vm_compute; discriminate.
  - repeat split; vm_compute; discriminate || reflexivity.
Defined.

(** *** Placeholder rows *)

Lemma clearStatusMessage_table (a : App) :
  CurrentView (state (clearStatusMessage a)) = CurrentView (state a) /\
  Resources (state (clearStatusMessage a)) = Resources (state a) /\
  SelectedIndex (state (clearStatusMessage a)) = SelectedIndex (state a) /\
  ResourceType (state (clearStatusMessage a)) = ResourceType (state a).
Proof.
  unfold clearStatusMessage.
  destruct (negb (GoStrings.Contains (StatusMessage (state a)) "Copied")); simpl;
    destruct (SelectionActive (state a)) eqn:Hact; simpl; rewrite ?Hact; simpl;
    repeat split; reflexivity.
Qed.

Lemma fetchResources_rows (env : Env) (s : AppState) :
  exists rows, fetchResources env s = resourcesMsg rows /\ rows <> [].
Proof.
  unfold fetchResources. destruct (listingFor (ResourceType s)) as [call name].
  destruct (list_ env call (Namespace s)) as [data | err].
  - eexists. split; [reflexivity|].
    destruct (Z.eqb_spec (len (sortResources env s (map (toResource env s name) data))) 0)
      as [Hz | Hnz].
    + intros H. apply app_eq_nil in H as [_ H]. discriminate H.
    + intros H. rewrite H in Hnz. now apply Hnz.
  - eexists. split; [reflexivity | discriminate].
Qed.

(** X11.  [fetchResources] never delivers an empty table: an empty listing
    is delivered as the single row "No <type> found" of type "Info".  On a
    table that shows only such a placeholder row (type "Info" or "Error"),
    the keys that open a view on the selected record (describe "i", YAML
    "y", events "e", diagram "d", memory "m") do nothing but clear the
    status line. *)
Theorem placeholder_row_opens_nothing
    (x : Outside) (env : Env) (s : AppState) (a : App) (r : Resource) (k : string) :
  list_ env (fst (listingFor (ResourceType s))) (Namespace s) = inl [] ->
  singleRow r a ->
  isPlaceholder r = true ->
  In k detailKeys ->
  (exists rows, fetchResources env s = resourcesMsg rows /\ rows <> []) /\
  fetchResources env s =
    resourcesMsg [placeholder ("No " +:+ ResourceType s +:+ " found")
                    (Namespace s) "Info" "Empty"] /\
  isPlaceholder (placeholder ("No " +:+ ResourceType s +:+ " found")
                   (Namespace s) "Info" "Empty") = true /\
  handleKeyPress x env (key k) a = Some (clearStatusMessage a, CmdNone).
Proof.
  intros Hempty (Hview & Hrows & Hidx) Hr Hk.
  split; [apply fetchResources_rows|]. split; [|split; [reflexivity|]].
  - unfold fetchResources. destruct (listingFor (ResourceType s)) as [call name].
    simpl in Hempty. rewrite Hempty. reflexivity.
  - destruct (clearStatusMessage_table a) as (Hv & Hrs & Hi & _).
    rewrite Hview in Hv. rewrite Hrows in Hrs. rewrite Hidx in Hi.
    assert (Hkey : forall k, k <> "x" ->
              handleKeyPress x env (key k) a
              = handleMainKeys env k (clearStatusMessage a)).
    { intros k' Hk'. unfold handleKeyPress, key. simpl keyString.
      destruct (String.eqb_spec k' "x"); [contradiction|]. simpl negb. cbv iota.
      now rewrite Hv. }
    assert (Hno : noValidSelection (state (clearStatusMessage a)) = false)
      by (unfold noValidSelection; now rewrite Hrs, Hi).
    simpl in Hk. pose proof Hr as Hr'. unfold isPlaceholder in Hr'.
    destruct Hk as [<- | [<- | [<- | [<- | [<- | []]]]]];
      (rewrite Hkey by discriminate); unfold handleMainKeys; simpl;
      unfold handleDescribeResource, handleShowYaml, handleShowEvents,
        handleShowDiagram, handleShowMemory;
      repeat (rewrite ?Hno, ?Hrs, ?Hi, ?Hr, ?Hr'; simpl);
      try reflexivity; destruct (negb _); try reflexivity;
      repeat (rewrite ?Hno, ?Hrs, ?Hi, ?Hr, ?Hr'; simpl); reflexivity.
Qed.

Lemma placeholder_row_opens_nothing_witness :
  handleKeyPress Examples.outside Examples.offline (key "y") Samples.emptyTable
    = Some (clearStatusMessage Samples.emptyTable, CmdNone).
Proof.
  refine (proj2 (proj2 (proj2
    (placeholder_row_opens_nothing Examples.outside Samples.quiet
       (state Examples.started) Samples.emptyTable
       (placeholder "No pods found" "default" "Info" "Empty") "y" _ _ _ _)))).
  - reflexivity.
  - repeat split; vm_compute; reflexivity.
  - reflexivity.
  - simpl. tauto.
Defined.

End TableProps.

(** ** Mouse gestures *)

Module MouseProps.

Import GoInt GoFacts UI Forms Mouse.

(** *** Extraction stays inside the lines *)

Lemma slice_some (s : string) (lo hi : Z) :
  0 <= lo -> lo <= hi -> hi <= GoStrings.len s -> exists r, GoStrings.slice s lo hi = Some r.
Proof.
  intros H0 H1 H2. unfold GoStrings.slice.
  destruct (Z.leb_spec 0 lo); [|lia]. destruct (Z.leb_spec lo hi); [|lia].
  destruct (Z.leb_spec hi (GoStrings.len s)); [|lia]. simpl. eauto.
Qed.

Lemma lineContribution_some (line : string) (screenY startX startY endX endY : Z) :
  0 <= startX ->
  exists pieces, lineContribution line screenY startX startY endX endY = Some pieces.
Proof.
  intros Hx. unfold lineContribution, clampEnd, GoStrings.sliceFrom, GoStrings.sliceTo.
  pose proof (TextProps.strlen_nonneg line) as Hlen.
  destruct ((startY <=? screenY) && (screenY <=? endY)); [|eauto].
  destruct ((startY =? endY) && (startY =? screenY)).
  - destruct (Z.ltb_spec startX (GoStrings.len line)); [|eauto].
    destruct (Z.ltb_spec (GoStrings.len line) endX).
    + destruct (Z.ltb_spec startX (GoStrings.len line)); [|eauto].
      destruct (slice_some line startX (GoStrings.len line)) as [r ->]; try lia. simpl. eauto.
    + destruct (Z.ltb_spec startX endX); [|eauto].
      destruct (slice_some line startX endX) as [r ->]; try lia. simpl. eauto.
  - destruct (screenY =? startY).
    + destruct (Z.ltb_spec startX (GoStrings.len line)); [|eauto].
      destruct (slice_some line startX (GoStrings.len line)) as [r ->]; try lia. simpl. eauto.
    + destruct (screenY =? endY); [|eauto].
      destruct (Z.ltb_spec (GoStrings.len line) endX).
      * destruct (Z.ltb_spec 0 (GoStrings.len line)); [|eauto].
        destruct (slice_some line 0 (GoStrings.len line)) as [r ->]; try lia. simpl. eauto.
      * destruct (Z.ltb_spec 0 endX); [|eauto].
        destruct (slice_some line 0 endX) as [r ->]; try lia. simpl. eauto.
Qed.

Lemma extractLoop_some (screenYOf : Z -> Z) (lines : list string)
    (lineIdx startX startY endX endY : Z) :
  0 <= startX ->
  exists pieces, extractLoop screenYOf lines lineIdx startX startY endX endY = Some pieces.
Proof.
  intros Hx. revert lineIdx. induction lines as [|line rest IH]; intros lineIdx; simpl.
  - eauto.
  - destruct (lineContribution_some line (screenYOf lineIdx) startX startY endX endY Hx)
      as [here ->].
    destruct (IH (lineIdx + 1)) as [more ->]. simpl. eauto.
Qed.

Lemma extractTextFromScrollableView_some (output : string)
    (scrollOffset startX startY endX endY : Z) :
  0 <= startX ->
  exists text,
    extractTextFromScrollableView output scrollOffset startX startY endX endY = Some text.
Proof.
  intros Hx. unfold extractTextFromScrollableView.
  destruct (String.eqb output ""); [eauto|].
  destruct (extractLoop_some (fun lineIdx => sub (add viewStartY lineIdx) scrollOffset)
              (GoStrings.Split output GoStrings.newline) 0 startX startY endX endY Hx)
    as [pieces ->].
  simpl. eauto.
Qed.

(** X12.  In every view but the resource table, whatever the selection
    coordinates, the pane's text and its scroll offset are,
    [extractSelectedText] returns, and changes nothing but the selected
    text: no slice of a line is ever taken out of range. *)
Theorem extractSelectedText_in_bounds (a : App) :
  CurrentView (state a) <> ResourceView ->
  exists text, extractSelectedText a = Some (upd (set_SelectedText text) a).
Proof.
  intros Hview. unfold extractSelectedText.
  destruct (negb (SelectionActive (state a))); [eauto|].
  set (backwards :=
         (SelectionEndY (state a) <? SelectionStartY (state a)) ||
         ((SelectionStartY (state a) =? SelectionEndY (state a)) &&
          (SelectionEndX (state a) <? SelectionStartX (state a)))).
  set (startX := if backwards then SelectionEndX (state a) else SelectionStartX (state a)).
  set (endX := if backwards then SelectionStartX (state a) else SelectionEndX (state a)).
  set (startY := if backwards then SelectionEndY (state a) else SelectionStartY (state a)).
  set (endY := if backwards then SelectionStartY (state a) else SelectionEndY (state a)).
  destruct (Z.ltb_spec startX 0) as [|Hx]; [simpl; eauto|].
  destruct ((startY <? 0) || (endX <? 0) || (endY <? 0)) eqn:Hneg.
  { simpl orb. rewrite Hneg. eauto. }
  simpl orb. rewrite Hneg.
  destruct ((startX =? endX) && (startY =? endY)); [eauto|].
  assert (Hpane : forall output offset,
            exists text,
              extractTextFromScrollableView output offset startX startY endX endY
              = Some text)
    by (intros; now apply extractTextFromScrollableView_some).
  unfold extractTextFromTagsView, extractTextFromDescribeView.
  destruct (CurrentView (state a)); try contradiction;
    try (match goal with
         | |- context [extractTextFromScrollableView ?o ?f _ _ _ _] =>
             destruct (Hpane o f) as [text ->]
         end);
    simpl; eauto.
Qed.

Lemma extractSelectedText_in_bounds_witness :
  exists text,
    extractSelectedText Examples.draggedPane
    = Some (upd (set_SelectedText text) Examples.draggedPane).
Proof.
  apply (extractSelectedText_in_bounds Examples.draggedPane).
  vm_compute. discriminate.
Defined.

(** What [extractSelectedText] reads of the application besides the
    selection itself is the same whichever way the selection runs. *)
Ltac same_content :=
  match goal with
  | |- match ?L ≫= _ with _ => _ end = match ?R ≫= _ with _ => _ end =>
      change R with L; destruct L; reflexivity
  end.

(** X13.  The direction of a drag does not matter: dragging from cell A
    to cell B selects the same text as dragging from B to A, in every
    view. *)
Theorem selection_direction (sx sy ex ey : Z) (a : App) :
  selectedBy (withSelection sx sy ex ey a) = selectedBy (withSelection ex ey sx sy a).
Proof.
  unfold selectedBy, extractSelectedText.
  change (state (withSelection sx sy ex ey a))
    with (state (withSelection sx sy ex ey a)).
  assert (Hfields : forall p q r t,
            let b := withSelection p q r t a in
            SelectionActive (state b) = true /\
            SelectionStartX (state b) = p /\ SelectionStartY (state b) = q /\
            SelectionEndX (state b) = r /\ SelectionEndY (state b) = t /\
            CurrentView (state b) = CurrentView (state a))
    by (intros; repeat split; reflexivity).
  destruct (Hfields sx sy ex ey) as (HA1 & HX1 & HY1 & HU1 & HV1 & HC1).
  destruct (Hfields ex ey sx sy) as (HA2 & HX2 & HY2 & HU2 & HV2 & HC2).
  rewrite HA1, HX1, HY1, HU1, HV1, HC1, HA2, HX2, HY2, HU2, HV2, HC2.
  simpl negb. cbv iota.
  assert (Hcases :
    (sx = ex /\ sy = ey) \/
    (((ey <? sy) || ((sy =? ey) && (ex <? sx))) = true /\
     ((sy <? ey) || ((ey =? sy) && (sx <? ex))) = false) \/
    (((ey <? sy) || ((sy =? ey) && (ex <? sx))) = false /\
     ((sy <? ey) || ((ey =? sy) && (sx <? ex))) = true)).
  { destruct (Z.ltb_spec ey sy); destruct (Z.ltb_spec sy ey);
      destruct (Z.eqb_spec sy ey); destruct (Z.eqb_spec ey sy);
      destruct (Z.ltb_spec ex sx); destruct (Z.ltb_spec sx ex); simpl;
      try lia; auto; left; lia. }
  destruct Hcases as [[-> ->] | [[-> ->] | [-> ->]]].
  - rewrite Z.ltb_irrefl, Z.eqb_refl. simpl.
    destruct ((ex <? 0) || (ey <? 0) || (ex <? 0) || (ey <? 0)); reflexivity.
  - destruct ((ex <? 0) || (ey <? 0) || (sx <? 0) || (sy <? 0)); [reflexivity|].
    destruct ((ex =? sx) && (ey =? sy)); [reflexivity|].
    destruct (CurrentView (state a)); same_content.
  - destruct ((sx <? 0) || (sy <? 0) || (ex <? 0) || (ey <? 0)); [reflexivity|].
    destruct ((sx =? ex) && (sy =? ey)); [reflexivity|].
    destruct (CurrentView (state a)); same_content.
Qed.

Lemma extractSelectedText_point (a : App) (cx cy : Z) :
  SelectionActive (state a) = true ->
  SelectionStartX (state a) = cx -> SelectionStartY (state a) = cy ->
  SelectionEndX (state a) = cx -> SelectionEndY (state a) = cy ->
  extractSelectedText a = Some (upd (set_SelectedText "") a).
Proof.
  intros Hact Hsx Hsy Hex Hey. unfold extractSelectedText.
  rewrite Hact, Hsx, Hsy, Hex, Hey. simpl negb. cbv iota.
  rewrite !Z.ltb_irrefl, !Z.eqb_refl. simpl.
  now destruct ((cx <? 0) || (cy <? 0) || (cx <? 0) || (cy <? 0)).
Qed.

(** X14.  A press and release of the left button at one and the same
    cell, in a view that supports selection, selects nothing: the
    selection ends inactive with empty text, the status line reads "No
    text selected - click and drag to select text", and the view is the
    one it was. *)
Theorem click_selects_nothing (x : Outside) (env : Env) (cx cy : Z) (a : App) :
  selectableView (CurrentView (state a)) = true ->
  exists a',
    run x (click env cx cy) a = Some (a', [CmdNone; CmdNone]) /\
    SelectionActive (state a') = false /\
    SelectedText (state a') = "" /\
    StatusMessage (state a') = "No text selected - click and drag to select text" /\
    CurrentView (state a') = CurrentView (state a).
Proof.
  intros Hview.
  assert (Hnot : view_eqb (CurrentView (state a)) ResourceView = false)
    by (destruct (CurrentView (state a)); try discriminate Hview; reflexivity).
  pose (press := {| mouseType := MouseLeft; X := cx; Y := cy |}).
  pose (release := {| mouseType := MouseRelease; X := cx; Y := cy |}).
  set (a0 := upd (set_StatusMessage ("Mouse click at " +:+ at_ cx cy)) a).
  assert (H1 : Update x env (Mouse press) a = Some (startSelection press a0, CmdNone)).
  { unfold Update, handleMouseEvent, press. cbn [mouseType X Y].
    unfold handleMouseClick. cbn [X Y]. fold a0.
    change (CurrentView (state a0)) with (CurrentView (state a)). now rewrite Hnot. }
  set (b := startSelection press a0) in *.
  assert (Hb : SelectionActive (state b) = true /\
               SelectionStartX (state b) = cx /\ SelectionStartY (state b) = cy /\
               SelectionEndX (state b) = cx /\ SelectionEndY (state b) = cy /\
               CurrentView (state b) = CurrentView (state a)).
  { unfold b, startSelection.
    change (CurrentView (state a0)) with (CurrentView (state a)). rewrite Hview.
    repeat split. }
  destruct Hb as (Hact & Hsx & Hsy & Hex & Hey & Hcv).
  set (b0 := upd (set_StatusMessage ("Mouse release at " +:+ at_ cx cy)) b).
  set (b1 := upd (set_SelectionEndY cy) (upd (set_SelectionEndX cx) b0)).
  assert (H2 : Update x env (Mouse release) b
               = Some (noTextSelected (upd (set_SelectedText "") b1), CmdNone)).
  { unfold Update, handleMouseEvent, release. cbn [mouseType X Y].
    unfold handleMouseRelease. cbn [X Y]. fold b0.
    change (SelectionActive (state b0)) with (SelectionActive (state b)). rewrite Hact.
    fold b1.
    rewrite (extractSelectedText_point b1 cx cy); try reflexivity; try assumption. }
  exists (noTextSelected (upd (set_SelectedText "") b1)).
  split.
  - unfold click, mouse. fold press release. cbn [run]. rewrite H1. cbn [mbind option_bind].
    cbn [run]. rewrite H2. reflexivity.
  - repeat split. exact Hcv.
Qed.

Lemma click_selects_nothing_witness :
  exists a',
    run Examples.outside (click Examples.offline 5 3) Examples.fourLinePane
      = Some (a', [CmdNone; CmdNone]) /\
    SelectionActive (state a') = false /\
    SelectedText (state a') = "" /\
    StatusMessage (state a') = "No text selected - click and drag to select text" /\
    CurrentView (state a') = CurrentView (state Examples.fourLinePane).
Proof.
  apply (click_selects_nothing Examples.outside Examples.offline 5 3 Examples.fourLinePane).
  reflexivity.
Defined.

(** *** Sorting by a click on a column header *)

Lemma columnHeaders_seven (resourceType : string) : len (columnHeaders resourceType) = 7.
Proof. unfold columnHeaders. repeat (destruct (String.eqb _ _); [reflexivity|]). reflexivity. Qed.

Lemma handleColumnSort_sortable (i : Z) (a : App) (header : string) :
  index (columnHeaders (ResourceType (state a))) i = Some header ->
  isColumnSortable header = true ->
  exists a',
    handleColumnSort i a = Some (a', CmdFetchResources) /\
    sortOrder (state a') = sortAfter (getFieldNameFromHeader header) (state a) /\
    ResourceType (state a') = ResourceType (state a).
Proof.
  intros Hidx Hsort. unfold handleColumnSort.
  assert (Hi : i < 7).
  { unfold index in Hidx. rewrite columnHeaders_seven in Hidx.
    destruct (Z.leb_spec 0 i); destruct (Z.ltb_spec i 7); simpl in Hidx;
      try discriminate; lia. }
  rewrite columnHeaders_seven. destruct (Z.leb_spec 7 i); [lia|].
  rewrite Hidx. simpl mbind.
  destruct (String.eqb_spec header "") as [-> | _]; [discriminate Hsort|].
  rewrite Hsort. simpl negb. cbv iota.
  unfold sortOrder, sortAfter.
  destruct (String.eqb (SortField (state a)) (getFieldNameFromHeader header)) eqn:Hf.
  - apply String.eqb_eq in Hf.
    destruct (String.eqb (SortDirection (state a)) "asc");
      (eexists; split; [reflexivity|]; simpl; now rewrite Hf).
  - eexists. split; [reflexivity|]. simpl. auto.
Qed.

(** X15.  A click on a sortable column header always asks for a fresh
    listing and sorts by that column's field: ascending when the table
    was sorted by another field, and otherwise the reverse of the current
    direction.  Two clicks in a row leave the table sorted by that field
    in its original direction when it was already sorted by it, ascending
    or descending, and descending in every other case. *)
Theorem column_sort_toggles (i : Z) (a : App) (header : string) :
  index (columnHeaders (ResourceType (state a))) i = Some header ->
  isColumnSortable header = true ->
  exists a1 a2,
    handleColumnSort i a = Some (a1, CmdFetchResources) /\
    sortOrder (state a1) = sortAfter (getFieldNameFromHeader header) (state a) /\
    handleColumnSort i a1 = Some (a2, CmdFetchResources) /\
    sortOrder (state a2) =
      (getFieldNameFromHeader header,
       if String.eqb (SortField (state a)) (getFieldNameFromHeader header)
          && (String.eqb (SortDirection (state a)) "asc"
              || String.eqb (SortDirection (state a)) "desc")
       then SortDirection (state a) else "desc").
Proof.
  intros Hidx Hsort.
  destruct (handleColumnSort_sortable i a header Hidx Hsort) as (a1 & H1 & Ho1 & Ht1).
  rewrite <- Ht1 in Hidx.
  destruct (handleColumnSort_sortable i a1 header Hidx Hsort) as (a2 & H2 & Ho2 & _).
  exists a1, a2. split; [exact H1|]. split; [exact Ho1|]. split; [exact H2|].
  rewrite Ho2. unfold sortOrder, sortAfter in *.
  destruct (String.eqb (SortField (state a)) (getFieldNameFromHeader header)) eqn:Hf;
    injection Ho1 as Hf1 Hd1; rewrite Hf1, Hd1, String.eqb_refl.
  - destruct (String.eqb_spec (SortDirection (state a)) "asc") as [-> | Hna]; simpl.
    + reflexivity.
    + destruct (String.eqb_spec (SortDirection (state a)) "desc") as [-> | _]; reflexivity.
  - reflexivity.
Qed.

Lemma column_sort_toggles_witness :
  exists a1 a2,
    handleColumnSort 6 Examples.app142 = Some (a1, CmdFetchResources) /\
    sortOrder (state a1) = ("age", "asc") /\
    handleColumnSort 6 a1 = Some (a2, CmdFetchResources) /\
    sortOrder (state a2) = ("age", "desc").
Proof.
  apply (column_sort_toggles 6 Examples.app142 "AGE"); reflexivity.
Defined.

(** X16.  A header that is empty or not sortable, and a column index of 7
    or more, leave the application as it is and ask for nothing; a
    negative column index indexes the header slice out of range. *)
Theorem column_sort_ignored (i : Z) (a : App) :
  (7 <= i -> handleColumnSort i a = Some (a, CmdNone)) /\
  (i < 0 -> handleColumnSort i a = None) /\
  (forall header,
     index (columnHeaders (ResourceType (state a))) i = Some header ->
     isColumnSortable header = false ->
     handleColumnSort i a = Some (a, CmdNone)).
Proof.
  unfold handleColumnSort. rewrite columnHeaders_seven. split; [|split].
  - intros Hi. now destruct (Z.leb_spec 7 i); [|lia].
  - intros Hi. destruct (Z.leb_spec 7 i); [lia|].
    unfold index. destruct (Z.leb_spec 0 i); [lia|]. reflexivity.
  - intros header Hidx Hno. destruct (Z.leb_spec 7 i); [reflexivity|].
    rewrite Hidx. simpl mbind. rewrite Hno.
    now destruct (String.eqb header "").
Qed.

Lemma column_sort_ignored_witness :
  handleColumnSort 9 Examples.app142 = Some (Examples.app142, CmdNone) /\
  handleColumnSort (-1) Examples.app142 = None /\
  handleColumnSort 4 Examples.app142 = Some (Examples.app142, CmdNone).
Proof.
  destruct (column_sort_ignored 9 Examples.app142) as (H9 & _ & _).
  destruct (column_sort_ignored (-1) Examples.app142) as (_ & Hneg & _).
  destruct (column_sort_ignored 4 Examples.app142) as (_ & _ & H4).
  split; [apply H9; lia|]. split; [apply Hneg; lia|].
  apply (H4 "CPU"); reflexivity.
Defined.

(** *** Which column a click falls in *)

Lemma clickedColumnLoop_hit (ws : list Z) (x cx k : Z) (i : nat) (w : Z) :
  smallWidths ws -> 0 <= cx <= 1000000 - 1003 * Z.of_nat (length ws) ->
  ws !! i = Some w ->
  cx - 2 + columnStart ws i <= x < cx - 2 + columnStart ws i + w ->
  clickedColumnLoop x cx k ws = k + Z.of_nat i.
Proof.
  intros Hws. revert cx k i. induction Hws as [|w0 ws Hw0 Hws IH]; intros cx k i Hcx Hi Hx.
  - discriminate Hi.
  - simpl length in Hcx. simpl clickedColumnLoop.
    assert (Hb := TableProps.bounds). unfold max_int in Hb.
    rewrite (add_exact cx w0) by (unfold in_range, min_int, max_int; lia).
    rewrite (add_exact w0 3) by (unfold in_range, min_int, max_int; lia).
    rewrite (add_exact cx (w0 + 3)) by (unfold in_range, min_int, max_int; lia).
    destruct i as [|i].
    + injection Hi as <-. simpl in Hx.
      destruct (Z.leb_spec cx x); [|lia]. destruct (Z.ltb_spec x (cx + w0)); [|lia].
      simpl. lia.
    + simpl in Hi, Hx.
      assert (Hge : 2 <= columnStart ws i).
      { clear - Hws. revert i. induction Hws as [|v vs Hv _ IHv]; intros [|i]; simpl; try lia.
        specialize (IHv i). lia. }
      destruct (Z.leb_spec cx x); destruct (Z.ltb_spec x (cx + w0)); simpl; try lia.
      all: rewrite (IH (cx + (w0 + 3)) (k + 1) i ltac:(lia) Hi ltac:(lia)); lia.
Qed.

Lemma clickedColumnLoop_result (ws : list Z) (x cx k : Z) :
  smallWidths ws -> 0 <= cx <= 1000000 - 1003 * Z.of_nat (length ws) ->
  clickedColumnLoop x cx k ws = -1 \/
  exists (i : nat) (w : Z),
    ws !! i = Some w /\ clickedColumnLoop x cx k ws = k + Z.of_nat i /\
    cx - 2 + columnStart ws i <= x < cx - 2 + columnStart ws i + w.
Proof.
  intros Hws. revert cx k. induction Hws as [|w0 ws Hw0 Hws IH]; intros cx k Hcx.
  - left. reflexivity.
  - simpl length in Hcx. simpl clickedColumnLoop.
    rewrite (add_exact cx w0) by (unfold in_range, min_int, max_int; lia).
    rewrite (add_exact w0 3) by (unfold in_range, min_int, max_int; lia).
    rewrite (add_exact cx (w0 + 3)) by (unfold in_range, min_int, max_int; lia).
    destruct (Z.leb_spec cx x); destruct (Z.ltb_spec x (cx + w0)); simpl.
    1: right; exists 0%nat, w0; simpl; repeat split; lia.
    all: destruct (IH (cx + (w0 + 3)) (k + 1)) as [Hnone | (i & w & Hi & Hr & Hx)];
      [lia | left; exact Hnone
      | right; exists (S i), w; simpl; repeat split; [exact Hi | lia | lia | lia] ].
Qed.

Lemma calculateColumnWidths_small (a : App) :
  smallWidths (calculateColumnWidths a) /\ length (calculateColumnWidths a) = 7%nat.
Proof.
  unfold calculateColumnWidths, smallWidths.
  destruct ((0 <? width a) && (width a <? 100)); destruct (140 <? width a);
    (split; [repeat constructor; lia | reflexivity]).
Qed.

(** X17.  [getClickedColumn] inverts the column layout: column [i] occupies
    the screen columns from its start (2 for the first column, each later
    one 3 past the end of the one before) for its width, a click inside a
    column returns that column's index, and every other click (the border
    and the separators) returns -1. *)
Theorem clicked_column_inverts_layout (a : App) (x : Z) (i : nat) (w : Z) :
  calculateColumnWidths a !! i = Some w ->
  (columnStart (calculateColumnWidths a) i <= x
     < columnStart (calculateColumnWidths a) i + w ->
   getClickedColumn a x = Z.of_nat i) /\
  (getClickedColumn a x = Z.of_nat i ->
   columnStart (calculateColumnWidths a) i <= x
     < columnStart (calculateColumnWidths a) i + w) /\
  (getClickedColumn a x = -1 \/ 0 <= getClickedColumn a x < 7).
Proof.
  intros Hi. destruct (calculateColumnWidths_small a) as [Hsmall Hlen].
  unfold getClickedColumn.
  assert (Hcx : 0 <= 2 <= 1000000 - 1003 * Z.of_nat (length (calculateColumnWidths a)))
    by (rewrite Hlen; lia).
  split; [|split].
  - intros Hx. rewrite (clickedColumnLoop_hit _ x 2 0 i w); try assumption; lia.
  - intros Hr.
    destruct (clickedColumnLoop_result (calculateColumnWidths a) x 2 0 Hsmall Hcx)
      as [Hnone | (j & v & Hj & Hrj & Hx)]; [lia|].
    assert (j = i) by lia. subst j. rewrite Hi in Hj. injection Hj as <-. lia.
  - destruct (clickedColumnLoop_result (calculateColumnWidths a) x 2 0 Hsmall Hcx)
      as [Hnone | (j & v & Hj & Hrj & Hx)]; [left; exact Hnone|].
    right. apply lookup_lt_Some in Hj. rewrite Hlen in Hj. lia.
Qed.

Lemma clicked_column_inverts_layout_witness :
  getClickedColumn Examples.app142 60 = 1.
Proof.
  destruct (clicked_column_inverts_layout Examples.app142 60 1 10 eq_refl) as (Hin & _ & _).
  apply Hin. vm_compute. split; [discriminate | reflexivity].
Defined.

End MouseProps.

(* ===================================================================== *)
(** ** The visible window of the describe and diagram panes *)
(* ===================================================================== *)

Module WindowProps.

Import GoInt GoFacts UI Forms Panes.

Lemma len_app_row (l : list string) : len (l ++ [""]) = len l + 1.
Proof. unfold len. rewrite length_app. simpl. lia. Qed.

(** With enough turns the padding loop fills the window exactly. *)
Lemma padLines_fill (fuel : nat) (l : list string) (vh : Z) :
  (Z.to_nat (vh - len l) <= fuel)%nat ->
  padLines fuel l vh = l ++ replicate (Z.to_nat (vh - len l)) "".
Proof.
  revert l. induction fuel as [|fuel IH]; intros l Hfuel; simpl.
  - replace (Z.to_nat (vh - len l)) with 0%nat by lia. simpl. now rewrite app_nil_r.
  - destruct (Z.ltb_spec (len l) vh).
    + rewrite IH by (rewrite len_app_row; lia).
      rewrite len_app_row, <- app_assoc. f_equal.
      replace (Z.to_nat (vh - len l)) with (S (Z.to_nat (vh - (len l + 1)))) by lia.
      reflexivity.
    + replace (Z.to_nat (vh - len l)) with 0%nat by lia. simpl. now rewrite app_nil_r.
Qed.

Lemma sliceList_some {A} (l : list A) (lo hi : Z) :
  0 <= lo <= hi -> hi <= len l ->
  sliceList l lo hi = Some (take (Z.to_nat (hi - lo)) (drop (Z.to_nat lo) l)).
Proof.
  intros H1 H2. unfold sliceList.
  destruct (Z.leb_spec 0 lo); [|lia].
  destruct (Z.leb_spec lo hi); [|lia].
  destruct (Z.leb_spec hi (len l)); [|lia]. reflexivity.
Qed.

Lemma sliceList_none {A} (l : list A) (lo hi : Z) :
  hi < lo -> sliceList l lo hi = None.
Proof.
  intros H. unfold sliceList.
  destruct (Z.leb_spec lo hi); [lia|]. now rewrite andb_false_r.
Qed.

(** The rows of a window, read off the slice and its padding. *)
Lemma window_rows (lines : list string) (off vh : Z) :
  0 <= off <= len lines -> 0 <= vh ->
  take (Z.to_nat (Z.min (off + vh) (len lines) - off)) (drop (Z.to_nat off) lines)
    ++ replicate (Z.to_nat (vh - (Z.min (off + vh) (len lines) - off))) ""
  = rowsShown lines off vh.
Proof.
  intros Hoff Hvh. unfold rowsShown, len in *. apply list_eq. intros i.
  rewrite list_lookup_fmap.
  destruct (decide (i < Z.to_nat vh)%nat) as [Hi | Hi].
  - rewrite lookup_seq_lt by assumption. simpl.
    destruct (decide (Z.to_nat off + i < length lines)%nat) as [Hin | Hout].
    + rewrite lookup_app_l by (rewrite length_take, length_drop; lia).
      rewrite lookup_take_lt by lia. rewrite lookup_drop.
      destruct (lookup_lt_is_Some_2 lines (Z.to_nat off + i) Hin) as [x Hx].
      now rewrite Hx.
    + rewrite (lookup_ge_None_2 lines) by lia. simpl.
      rewrite lookup_app_r by (rewrite length_take, length_drop; lia).
      apply lookup_replicate_2. rewrite length_take, length_drop. lia.
  - rewrite lookup_seq_ge by lia. simpl.
    apply lookup_ge_None_2.
    rewrite length_app, length_take, length_drop, length_replicate.
    destruct (Z.min_spec (off + vh) (Z.of_nat (length lines))) as [[? ->]|[? ->]]; lia.
Qed.

Lemma rowsShown_length (lines : list string) (off vh : Z) :
  0 <= vh -> len (rowsShown lines off vh) = vh.
Proof.
  intros H. unfold rowsShown, len. rewrite length_map, length_seq. lia.
Qed.

Lemma rowsShown_last (lines : list string) (off vh : Z) :
  0 <= off -> 1 <= vh -> off + vh = len lines ->
  last (rowsShown lines off vh) = last lines.
Proof.
  intros Hoff Hvh Hend. unfold len in Hend.
  rewrite !last_lookup. unfold rowsShown.
  rewrite length_map, length_seq, list_lookup_fmap.
  rewrite lookup_seq_lt by lia. simpl.
  replace (Z.to_nat off + Nat.pred (Z.to_nat vh))%nat with (Nat.pred (length lines)) by lia.
  destruct (lookup_lt_is_Some_2 lines (Nat.pred (length lines))) as [x Hx]; [lia|].
  now rewrite Hx.
Qed.

Lemma lines_nonempty (text : string) : 1 <= len (GoStrings.Split text GoStrings.newline).
Proof.
  pose proof (SelectProps.Split_nonempty text) as H. unfold len.
  destruct (GoStrings.Split text GoStrings.newline); [congruence | simpl; lia].
Qed.

Lemma clampStart_inside (lines : list string) (off : Z) :
  off < len lines -> clampStart lines off = off.
Proof.
  intros H. unfold clampStart. destruct (Z.leb_spec (len lines) off); [lia | reflexivity].
Qed.

Lemma take_drop_len {A} (l : list A) (lo hi : Z) :
  0 <= lo <= hi -> hi <= len l ->
  len (take (Z.to_nat (hi - lo)) (drop (Z.to_nat lo) l)) = hi - lo.
Proof.
  intros H1 H2. unfold len in *. rewrite length_take, length_drop. lia.
Qed.

(** The viewport of the two panes: the terminal rows less 10. *)
Lemma rows_less_10 (h : Z) : 0 <= h <= max_int -> sub (sub h 8) 2 = h - 10.
Proof.
  intros H. pose proof ScrollProps.int_bounds.
  rewrite (sub_exact h 8) by (unfold in_range, min_int, max_int in *; lia).
  rewrite sub_exact by (unfold in_range, min_int, max_int in *; lia). lia.
Qed.

Lemma describe_max (a : App) :
  DescribeOutput (state a) <> "" ->
  10 <= height a <= max_int -> len (describeLines a) <= max_int ->
  getMaxDescribeScroll a = Z.max 0 (len (describeLines a) - (height a - 10)).
Proof.
  intros Hne Hh Hlc. pose proof ScrollProps.int_bounds.
  pose proof (lines_nonempty (DescribeOutput (state a))) as Hpos.
  unfold describeLines in *. unfold getMaxDescribeScroll, getDescribeViewHeight.
  rewrite (sub_exact (height a) 8) by (unfold in_range, min_int, max_int in *; lia).
  rewrite ScrollProps.maxScrollFor_stated; [unfold statedMaxScroll; lia | assumption | |];
    unfold in_range, min_int, max_int in *; lia.
Qed.

(** The maximum on a terminal of at most 10 rows: beyond the last line. *)
Lemma describe_max_small (a : App) :
  DescribeOutput (state a) <> "" ->
  0 <= height a <= 10 -> len (describeLines a) + 10 <= max_int ->
  getMaxDescribeScroll a = len (describeLines a) - (height a - 10).
Proof.
  intros Hne Hh Hlc. pose proof ScrollProps.int_bounds.
  pose proof (lines_nonempty (DescribeOutput (state a))) as Hpos.
  unfold describeLines in *. unfold getMaxDescribeScroll, getDescribeViewHeight.
  rewrite (sub_exact (height a) 8) by (unfold in_range, min_int, max_int in *; lia).
  rewrite ScrollProps.maxScrollFor_stated; [unfold statedMaxScroll; lia | assumption | |];
    unfold in_range, min_int, max_int in *; lia.
Qed.

(** The last line of a text, as a slice. *)
Lemma last_slice (lines : list string) :
  1 <= len lines ->
  sliceList lines (len lines - 1) (len lines) = Some [default "" (last lines)].
Proof.
  intros Hpos. rewrite sliceList_some by lia. f_equal.
  destruct lines as [|x rest _] using rev_ind; [unfold len in Hpos; simpl in Hpos; lia|].
  rewrite last_snoc. simpl. unfold len. rewrite length_app. simpl.
  replace (Z.to_nat (Z.of_nat (length rest + 1) - 1)) with (length rest) by lia.
  rewrite drop_app_length.
  replace (Z.to_nat (Z.of_nat (length rest + 1) - (Z.of_nat (length rest + 1) - 1)))
    with 1%nat by lia.
  reflexivity.
Qed.

(** X18.  The window of the describe pane, for a text that is not empty
    and a scroll offset within [0, maxScroll], while the arithmetic stays
    inside [int].  On a terminal of at least 11 rows the pane shows
    [height - 10] rows and [maxScroll] is the line count less the rows
    shown, floored at 0; row [i] is line [offset + i] of the text, or an
    empty row past its end; at [maxScroll] the last row is the last line
    of a text that fills the window; and [getScrollInfo] names exactly
    the lines shown, "Lines offset+1-offset+rows of count", or "All" for
    a text that fits.  On a terminal of 10 rows or fewer [maxScroll] is the
    line count plus [10 - height], at or beyond the end of the text; at
    [maxScroll] the pane shows the last line of the text alone, at every
    smaller offset it shows "-- End of content --" in place of any
    line. *)
Theorem describe_window (a : App) :
  let lines := describeLines a in
  let off := DescribeScrollOffset (state a) in
  let vh := height a - 10 in
  DescribeOutput (state a) <> "" ->
  0 <= height a <= max_int ->
  len lines + 10 <= max_int ->
  0 <= off <= getMaxDescribeScroll a ->
  (height a <= 10 ->
   getMaxDescribeScroll a = len lines + (10 - height a) /\
   getScrollableDescribeContent a =
     Some (if off =? getMaxDescribeScroll a then default "" (last lines)
           else "-- End of content --")) /\
  (11 <= height a ->
   getMaxDescribeScroll a = Z.max 0 (len lines - vh) /\
   getScrollableDescribeContent a = Some (GoStrings.Join (rowsShown lines off vh) nl) /\
   (vh <= len lines -> off = getMaxDescribeScroll a ->
    last (rowsShown lines off vh) = last lines) /\
   getScrollInfo a =
     if len lines <=? vh then "All"
     else "Lines " +:+ GoStrings.itoa (off + 1) +:+ "-" +:+ GoStrings.itoa (off + vh)
          +:+ " of " +:+ GoStrings.itoa (len lines)).
Proof.
  intros lines off vh Hne Hh Hlc10 [Hoff Hmax]. pose proof ScrollProps.int_bounds as Hb.
  assert (Hlc : len lines <= max_int) by lia.
  pose proof (lines_nonempty (DescribeOutput (state a))) as Hpos.
  fold (describeLines a) in Hpos. fold lines in Hpos.
  assert (Hvh : sub (getDescribeViewHeight a) 2 = vh) by now apply rows_less_10.
  split.
  - intros Hsmall.
    pose proof (describe_max_small a Hne ltac:(lia) Hlc10) as HM. fold lines vh in HM.
    rewrite HM in *. clear HM. split; [unfold vh; lia|].
    unfold getScrollableDescribeContent.
    destruct (String.eqb_spec (DescribeOutput (state a)) ""); [contradiction|].
    fold (describeLines a). fold lines. fold off. rewrite Hvh.
    rewrite add_exact by (unfold in_range, min_int, max_int, vh in *; lia).
    unfold clampStart.
    rewrite (sub_exact (len lines) 1) by (unfold in_range, min_int, max_int in *; lia).
    destruct (Z.ltb_spec (len lines - 1) 0); [lia|].
    destruct (Z.eqb_spec off (len lines - vh)) as [Hat | Hbelow].
    + destruct (Z.leb_spec (len lines) off); [|unfold vh in *; lia].
      destruct (Z.ltb_spec (len lines) (off + vh)); [lia|].
      replace (off + vh) with (len lines) by lia.
      destruct (Z.leb_spec (len lines) (len lines - 1)); [lia|].
      rewrite last_slice by assumption. simpl.
      replace (Z.to_nat vh) with 0%nat by (unfold vh; lia). reflexivity.
    + destruct (Z.ltb_spec (len lines) (off + vh)); [lia|].
      destruct (Z.leb_spec (len lines) off).
      * destruct (Z.leb_spec (off + vh) (len lines - 1)); [reflexivity | lia].
      * destruct (Z.leb_spec (off + vh) off); [reflexivity | unfold vh in *; lia].
  - intros Hbig.
    pose proof (describe_max a Hne ltac:(lia) Hlc) as HM. fold lines vh in HM.
    rewrite HM in *. clear HM.
    assert (Hin : off < len lines) by (unfold vh in *; lia).
    assert (Hend : in_range (off + vh)) by (unfold in_range, min_int, max_int, vh in *; lia).
    split; [reflexivity|]. split; [|split].
    + unfold getScrollableDescribeContent.
      destruct (String.eqb_spec (DescribeOutput (state a)) ""); [contradiction|].
      fold (describeLines a). fold lines. fold off. rewrite Hvh.
      rewrite clampStart_inside by assumption.
      rewrite add_exact by assumption.
      assert (He : (if len lines <? off + vh then len lines else off + vh)
                   = Z.min (off + vh) (len lines))
        by (destruct (Z.ltb_spec (len lines) (off + vh)); lia).
      rewrite He.
      destruct (Z.leb_spec (Z.min (off + vh) (len lines)) off); [unfold min_int, max_int, vh in *; lia|].
      rewrite sliceList_some by lia. simpl.
      rewrite padLines_fill by (rewrite take_drop_len by lia; lia).
      rewrite take_drop_len by lia.
      rewrite window_rows by (unfold vh; lia). reflexivity.
    + intros Hfull ->. apply rowsShown_last; unfold vh in *; lia.
    + unfold getScrollInfo.
      destruct (String.eqb_spec (DescribeOutput (state a)) ""); [contradiction|].
      fold (describeLines a). fold lines. fold off. rewrite Hvh.
      destruct (Z.leb_spec (len lines) vh); [reflexivity|].
      rewrite (add_exact off 1) by (unfold in_range, min_int, max_int in *; lia).
      assert (Hs : sub (add (off + 1) vh) 1 = off + vh).
      { unfold sub, add. rewrite wrap_idem_sub.
        replace (off + 1 + vh - 1) with (off + vh) by lia.
        now apply wrap_in_range. }
      rewrite Hs.
      destruct (Z.ltb_spec (len lines) (off + vh)); [lia | reflexivity].
Qed.

Lemma describe_window_witness :
  getScrollableDescribeContent (describePane Examples.fourLines 2 12)
    = Some (GoStrings.Join ["line two"; "ABCDEFGHIJKLMNOPQRSTUVWXYZ"] nl) /\
  getScrollInfo (describePane Examples.fourLines 2 12) = "Lines 3-4 of 4" /\
  getScrollableDescribeContent (describePane Examples.fourLines 2 10)
    = Some "-- End of content --" /\
  getMaxDescribeScroll (describePane Examples.fourLines 4 10) = 4 /\
  getScrollableDescribeContent (describePane Examples.fourLines 4 10)
    = Some "ABCDEFGHIJKLMNOPQRSTUVWXYZ".
Proof.
  destruct (describe_window (describePane Examples.fourLines 2 12)) as (_ & Hbig);
    [vm_compute; discriminate | vm_compute; split; discriminate | vm_compute; discriminate
    | vm_compute; split; discriminate |].
  destruct Hbig as (_ & Hshown & _ & Hinfo); [vm_compute; discriminate |].
  destruct (describe_window (describePane Examples.fourLines 2 10)) as (Hsmall & _);
    [vm_compute; discriminate | vm_compute; split; discriminate | vm_compute; discriminate
    | vm_compute; split; discriminate |].
  destruct (describe_window (describePane Examples.fourLines 4 10)) as (Hlast & _);
    [vm_compute; discriminate | vm_compute; split; discriminate | vm_compute; discriminate
    | vm_compute; split; discriminate |].
  split; [exact Hshown | split; [exact Hinfo | split; [|split]]].
  - apply Hsmall. vm_compute. discriminate.
  - apply Hlast. vm_compute. discriminate.
  - apply Hlast. vm_compute. discriminate.
Defined.

(** X19.  The window of the diagram pane has no check for an empty range:
    on a terminal of fewer than 10 rows, rendering a diagram scrolled to any
    line of its text slices [lines[start:end]] with [end < start] and
    panics.  From 10 rows on it returns lines [offset] to
    [offset + height - 10] of the text, cut at its end and not padded. *)
Theorem diagram_window (a : App) :
  let lines := diagramLines a in
  let off := DiagramScrollOffset (state a) in
  DiagramOutput (state a) <> "" ->
  0 <= height a ->
  len lines + height a <= max_int ->
  0 <= off < len lines ->
  (height a < 10 -> getScrollableDiagramContent a = None) /\
  (10 <= height a ->
   getScrollableDiagramContent a =
     Some (GoStrings.Join (take (Z.to_nat (height a - 10)) (drop (Z.to_nat off) lines)) nl)).
Proof.
  intros lines off Hne Hh Hfit Hoff. pose proof ScrollProps.int_bounds as Hb.
  pose proof (len_nonneg lines) as Hpos.
  assert (Hvh : sub (getDiagramViewHeight a) 2 = height a - 10)
    by (apply rows_less_10; lia).
  unfold getScrollableDiagramContent.
  destruct (String.eqb_spec (DiagramOutput (state a)) ""); [contradiction|].
  fold (diagramLines a). fold lines. fold off. rewrite Hvh.
  rewrite clampStart_inside by lia.
  rewrite add_exact by (unfold in_range, min_int, max_int in *; lia).
  split; intros Hrows.
  - destruct (Z.ltb_spec (len lines) (off + (height a - 10))); [lia|].
    rewrite sliceList_none by lia. reflexivity.
  - destruct (Z.ltb_spec (len lines) (off + (height a - 10))).
    + rewrite sliceList_some by lia. simpl. do 2 f_equal.
      rewrite !firstn_all2; [reflexivity | | ]; rewrite length_drop; unfold len in *; lia.
    + rewrite sliceList_some by lia. simpl. do 3 f_equal. lia.
Qed.

Lemma diagram_window_witness :
  getScrollableDiagramContent (diagramPane Examples.fourLines 0 9) = None /\
  getScrollableDiagramContent (diagramPane Examples.fourLines 1 12)
    = Some (GoStrings.Join ["line one"; "line two"] nl).
Proof.
  destruct (diagram_window (diagramPane Examples.fourLines 0 9)) as (Hsmall & _);
    [vm_compute; discriminate | vm_compute; discriminate | vm_compute; discriminate
    | vm_compute; split; [discriminate | reflexivity] |].
  destruct (diagram_window (diagramPane Examples.fourLines 1 12)) as (_ & Hbig);
    [vm_compute; discriminate | vm_compute; discriminate | vm_compute; discriminate
    | vm_compute; split; [discriminate | reflexivity] |].
  split; [apply Hsmall; vm_compute; reflexivity | apply Hbig; vm_compute; discriminate].
Defined.

End WindowProps.

(* ===================================================================== *)
(** ** The context and namespace selectors *)
(* ===================================================================== *)

Module SelectorProps.

Import GoInt GoFacts UI Forms Selectors.

Lemma clearStatusMessage_keeps (a : App) :
  CurrentView (state (clearStatusMessage a)) = CurrentView (state a) /\
  contextSelector (clearStatusMessage a) = contextSelector a /\
  namespaceSelector (clearStatusMessage a) = namespaceSelector a /\
  Namespace (state (clearStatusMessage a)) = Namespace (state a) /\
  Tool (state (clearStatusMessage a)) = Tool (state a).
Proof.
  unfold clearStatusMessage.
  destruct (negb (GoStrings.Contains (StatusMessage (state a)) "Copied")); simpl;
    match goal with
    | |- context [if ?b then _ else _] => destruct b
    end; simpl; repeat split; reflexivity.
Qed.

(** The index found by the search loop names the first occurrence. *)
Lemma firstIndexOf_found (cur : string) (xs : list string) (k i : Z) :
  firstIndexOf cur xs k = Some i ->
  k <= i < k + len xs /\ xs !! Z.to_nat (i - k) = Some cur.
Proof.
  revert k. induction xs as [|x rest IH]; intros k H; simpl in H; [discriminate|].
  unfold len. simpl length.
  destruct (String.eqb_spec x cur) as [-> | Hne].
  - injection H as <-. split; [lia|]. now replace (Z.to_nat (k - k)) with 0%nat by lia.
  - destruct (IH _ H) as (Hr & Hl). unfold len in Hr. split; [lia|].
    replace (Z.to_nat (i - k)) with (S (Z.to_nat (i - (k + 1)))) by lia. exact Hl.
Qed.

Lemma firstIndexOf_listed (cur : string) (xs : list string) (k : Z) :
  In cur xs -> exists i, firstIndexOf cur xs k = Some i.
Proof.
  revert k. induction xs as [|x rest IH]; intros k Hin; [contradiction|]. simpl.
  destruct (String.eqb_spec x cur) as [-> | Hne]; [eauto|].
  destruct Hin as [-> | Hin]; [contradiction|]. now apply IH.
Qed.

Lemma index_lookup {A} (l : list A) (i : Z) (v : A) :
  0 <= i < len l -> l !! Z.to_nat i = Some v -> index l i = Some v.
Proof.
  intros Hr Hl. unfold index.
  destruct (Z.leb_spec 0 i); [|lia]. destruct (Z.ltb_spec i (len l)); [|lia]. exact Hl.
Qed.

(** Key "c" in the resource table. *)
Lemma table_c (x : Outside) (env : Env) (a : App) :
  CurrentView (state a) = ResourceView ->
  Update x env (Examples.key "c") a = Some (handleContextSwitch env (clearStatusMessage a)).
Proof.
  intros Hv. destruct (clearStatusMessage_keeps a) as (Hv' & _).
  unfold Update, Examples.key, handleKeyPress. cbn [keyString].
  change (negb ("c" =? "x")%string) with true. cbv iota.
  rewrite Hv', Hv. reflexivity.
Qed.

(** Key "enter" in the context view. *)
Lemma context_enter (x : Outside) (env : Env) (a : App) :
  CurrentView (state a) = ContextView ->
  Update x env (Examples.key "enter") a
    = handleContextViewKeys env "enter" (clearStatusMessage a).
Proof.
  intros Hv. destruct (clearStatusMessage_keeps a) as (Hv' & _).
  unfold Update, Examples.key, handleKeyPress. cbn [keyString].
  change (negb ("enter" =? "x")%string) with true. cbv iota.
  rewrite Hv', Hv. reflexivity.
Qed.

(** X20.  [NewApp] creates no namespace selector; the key "n" of the
    resource table creates one when the namespaces can be listed.  From
    the resource table, on a cluster that lists its contexts (the current
    one among them), accepts the switch and lists its namespaces, the keys
    "c" (open the context view, cursor on the current context) and "enter"
    (select it) dereference the nil selector and panic while no selector
    exists; with a selector in place they end in the namespace view, which
    lists the namespaces of the cluster. *)
Theorem context_enter_needs_namespace_selector
    (x : Outside) (env : Env) (a : App)
    (contexts nss : list string) (current : string) :
  CurrentView (state a) = ResourceView ->
  GetContexts env = Some (contexts, current) ->
  In current contexts ->
  SwitchContext env current = true ->
  GetNamespaces env = Some nss ->
  namespaceSelector (started env) = None /\
  listed (fst (handleNamespaceSelector env a)) = Some nss /\
  (namespaceSelector a = None ->
   run x [press env "c"; press env "enter"] a = None) /\
  (namespaceSelector a <> None ->
   exists a',
     run x [press env "c"; press env "enter"] a = Some (a', [CmdNone; CmdNone]) /\
     CurrentView (state a') = NamespaceView /\
     Context (state a') = current /\
     Namespace (state a') = default "default" (GetCurrentNamespace env) /\
     listed a' = Some nss).
Proof.
  intros Hv Hctx Hin Hsw Hns.
  split; [reflexivity|].
  split; [unfold handleNamespaceSelector, listed; rewrite Hns; reflexivity|].
  destruct (firstIndexOf_listed current contexts 0 Hin) as [i Hi].
  destruct (firstIndexOf_found _ _ _ _ Hi) as (Hr & Hl).
  rewrite Z.sub_0_r in Hl.
  assert (Hidx : index contexts i = Some current) by (apply index_lookup; [lia | exact Hl]).
  destruct (clearStatusMessage_keeps a) as (_ & _ & Hsel & _).
  assert (Hstep : Update x env (Examples.key "c") a
                  = Some (handleContextSwitch env (clearStatusMessage a)))
    by now apply table_c.
  unfold handleContextSwitch, LoadContexts in Hstep. rewrite Hctx, Hi in Hstep.
  cbn [default] in Hstep.
  set (a1 := upd (set_CurrentView ContextView) _) in Hstep.
  assert (Hv1 : CurrentView (state a1) = ContextView) by reflexivity.
  pose proof (context_enter x env a1 Hv1) as Henter.
  destruct (clearStatusMessage_keeps a1) as (_ & Hcs1 & Hns1 & _).
  unfold handleContextViewKeys in Henter.
  change ("enter" =? "q")%string with false in Henter.
  change ("enter" =? "ctrl+c")%string with false in Henter.
  change ("enter" =? "esc")%string with false in Henter.
  change (("enter" =? "j")%string || ("enter" =? "down")%string) with false in Henter.
  change (("enter" =? "k")%string || ("enter" =? "up")%string) with false in Henter.
  change ("enter" =? "enter")%string with true in Henter.
  cbv iota in Henter. rewrite Hcs1 in Henter.
  change (contextSelector a1) with
    {| ContextSelector.contexts := contexts; ContextSelector.currentContext := current;
       ContextSelector.selectedIndex := i |} in Henter.
  cbn [ContextSelector.contexts ContextSelector.selectedIndex] in Henter.
  destruct (Z.ltb_spec i 0); [lia|].
  destruct (Z.leb_spec (len contexts) i); [lia|].
  cbn [orb] in Henter. cbv iota in Henter.
  rewrite Hidx in Henter. cbn [mbind option_bind] in Henter.
  rewrite Hsw, Hns in Henter. cbn [negb] in Henter. cbv iota in Henter.
  cbn [namespaceSelector with_contextSelector upd with_state] in Henter.
  rewrite Hns1 in Henter.
  change (namespaceSelector a1) with (namespaceSelector (clearStatusMessage a)) in Henter.
  rewrite Hsel in Henter.
  split.
  - intros Hnil. rewrite Hnil in Henter.
    unfold run, press. rewrite Hstep. cbn [mbind option_bind]. fold a1.
    rewrite Henter. reflexivity.
  - intros Hsome. destruct (namespaceSelector a) as [ns|] eqn:He; [|congruence].
    cbn [mbind option_bind] in Henter.
    unfold run, press. rewrite Hstep. cbn [mbind option_bind]. fold a1.
    rewrite Henter. cbn [mbind option_bind].
    eexists. split; [reflexivity|]. repeat split.
Qed.

Lemma context_enter_needs_namespace_selector_witness :
  run Examples.outside [press cluster "c"; press cluster "enter"] (started cluster) = None.
Proof.
  destruct (context_enter_needs_namespace_selector Examples.outside cluster
              (started cluster) ["dev"; "prod"] ["default"; "kube-system"; "web"] "prod")
    as (_ & _ & Hnil & _);
    [reflexivity | reflexivity | simpl; tauto | reflexivity | reflexivity |].
  apply Hnil. reflexivity.
Defined.

(** Key "n" in the resource table. *)
Lemma table_n (x : Outside) (env : Env) (a : App) :
  CurrentView (state a) = ResourceView ->
  Update x env (Examples.key "n") a
    = Some (handleNamespaceSelector env (clearStatusMessage a)).
Proof.
  intros Hv. destruct (clearStatusMessage_keeps a) as (Hv' & _).
  unfold Update, Examples.key, handleKeyPress. cbn [keyString].
  change (negb ("n" =? "x")%string) with true. cbv iota.
  rewrite Hv', Hv. reflexivity.
Qed.

(** A key other than "x" in the namespace view. *)
Lemma namespace_key (x : Outside) (env : Env) (k : string) (a : App) :
  CurrentView (state a) = NamespaceView ->
  String.eqb k "x" = false ->
  Update x env (Examples.key k) a = handleNamespaceViewKeys env k (clearStatusMessage a).
Proof.
  intros Hv Hk. destruct (clearStatusMessage_keeps a) as (Hv' & _).
  unfold Update, Examples.key, handleKeyPress. cbn [keyString].
  rewrite Hk. cbn [negb]. cbv iota. rewrite Hv', Hv. reflexivity.
Qed.

Lemma namespace_move (x : Outside) (env : Env) (down : bool) (nss : list string) (a : App) :
  len nss <= max_int ->
  cursorInside nss a ->
  exists a',
    Update x env (Examples.key (if down then "j" else "k")) a = Some (a', CmdNone) /\
    cursorInside nss a' /\
    Namespace (state a') = Namespace (state a) /\
    Tool (state a') = Tool (state a).
Proof.
  intros Hfit (Hv & ns & Hsel & Hnss & Hidx).
  pose proof ScrollProps.int_bounds as Hb.
  destruct (clearStatusMessage_keeps a) as (Hv' & _ & Hns' & Hn' & Ht').
  destruct down.
  - rewrite namespace_key by (assumption || reflexivity).
    unfold handleNamespaceViewKeys.
    change ("j" =? "q")%string with false. change ("j" =? "ctrl+c")%string with false.
    change (("j" =? "esc")%string || ("j" =? "backspace")%string) with false.
    change (("j" =? "j")%string || ("j" =? "down")%string) with true. cbv iota.
    rewrite Hns', Hsel. cbn [mbind option_bind]. rewrite Hnss.
    eexists. split; [reflexivity|].
    split; [|split; [exact Hn' | exact Ht']].
    split; [exact (eq_trans Hv' Hv)|]. eexists. split; [reflexivity|]. split; [reflexivity|].
    cbn [NamespaceSelector.selectedIndex].
    rewrite (sub_exact (len nss) 1) by (unfold in_range; lia).
    destruct (Z.ltb_spec (NamespaceSelector.selectedIndex ns) (len nss - 1)); [|lia].
    rewrite add_exact by (unfold in_range; lia). lia.
  - rewrite namespace_key by (assumption || reflexivity).
    unfold handleNamespaceViewKeys.
    change ("k" =? "q")%string with false. change ("k" =? "ctrl+c")%string with false.
    change (("k" =? "esc")%string || ("k" =? "backspace")%string) with false.
    change (("k" =? "j")%string || ("k" =? "down")%string) with false.
    change (("k" =? "k")%string || ("k" =? "up")%string) with true. cbv iota.
    rewrite Hns', Hsel. cbn [mbind option_bind]. rewrite Hnss.
    eexists. split; [reflexivity|].
    split; [|split; [exact Hn' | exact Ht']].
    split; [exact (eq_trans Hv' Hv)|]. eexists. split; [reflexivity|]. split; [reflexivity|].
    cbn [NamespaceSelector.selectedIndex].
    destruct (Z.ltb_spec 0 (NamespaceSelector.selectedIndex ns)); [|lia].
    rewrite sub_exact by (unfold in_range; lia). lia.
Qed.

Lemma namespace_moves (x : Outside) (env : Env) (keys : list bool) (nss : list string)
    (a : App) :
  len nss <= max_int ->
  cursorInside nss a ->
  exists a' cmds,
    run x (cursorKeys env keys) a = Some (a', cmds) /\
    cursorInside nss a' /\
    Namespace (state a') = Namespace (state a) /\
    Tool (state a') = Tool (state a).
Proof.
  intros Hfit. revert a. induction keys as [|k keys IH]; intros a Hin.
  - exists a, []. split; [reflexivity | split; [exact Hin | split; reflexivity]].
  - destruct (namespace_move x env k nss a Hfit Hin) as (a1 & Hstep & Hin1 & Hn1 & Ht1).
    destruct (IH a1 Hin1) as (a2 & cmds & Hrun & Hin2 & Hn2 & Ht2).
    exists a2, (CmdNone :: cmds).
    split; [|split; [exact Hin2 | split; congruence]].
    unfold cursorKeys in *. cbn [map run]. unfold press at 1.
    rewrite Hstep. cbn [mbind option_bind]. rewrite Hrun. reflexivity.
Qed.

(** X21.  The namespace selector.  Key "n" in the resource table opens it
    with the cursor on the current namespace, when the cluster lists it;
    whatever cursor keys ("j", "k") follow, the selector still lists the
    same namespaces and its cursor still names one of them; and "enter"
    then switches to exactly the namespace under the cursor, back in the
    resource table on page 0 with the first row selected and a fresh
    listing requested, or, when the switch fails, changes nothing but the
    status line. *)
Theorem namespace_selector_cursor
    (x : Outside) (env : Env) (keys : list bool) (nss : list string) (a : App) :
  CurrentView (state a) = ResourceView ->
  GetNamespaces env = Some nss ->
  In (Namespace (state a)) nss ->
  len nss <= max_int ->
  exists a' cmds name,
    run x (press env "n" :: cursorKeys env keys) a = Some (a', cmds) /\
    CurrentView (state a') = NamespaceView /\
    listed a' = Some nss /\
    underCursor a' = Some name /\
    In name nss /\
    (keys = [] -> name = Namespace (state a)) /\
    Namespace (state a') = Namespace (state a) /\
    (name <> "" ->
     if switchToNamespace env a name then
       exists a'',
         Update x env (Examples.key "enter") a' = Some (a'', CmdFetchResources) /\
         CurrentView (state a'') = ResourceView /\
         Namespace (state a'') = name /\
         CurrentPage (state a'') = 0 /\
         SelectedIndex (state a'') = 0
     else Update x env (Examples.key "enter") a' = Some (clearStatusMessage a', CmdNone)).
Proof.
  intros Hv Hns Hin Hfit.
  destruct (firstIndexOf_listed (Namespace (state a)) nss 0 Hin) as [i Hi].
  destruct (firstIndexOf_found _ _ _ _ Hi) as (Hr & Hl). rewrite Z.sub_0_r in Hl.
  destruct (clearStatusMessage_keeps a) as (_ & _ & _ & Hn0 & Ht0).
  pose proof (table_n x env a Hv) as Hopen.
  unfold handleNamespaceSelector in Hopen. rewrite Hns in Hopen.
  unfold SetNamespaces in Hopen. rewrite Hn0, Hi in Hopen. cbn [default] in Hopen.
  set (a1 := upd (set_CurrentView NamespaceView) _) in Hopen.
  assert (Hin1 : cursorInside nss a1).
  { split; [reflexivity|]. eexists. split; [reflexivity|]. split; [reflexivity|].
    simpl. lia. }
  assert (Hn1 : Namespace (state a1) = Namespace (state a)) by exact Hn0.
  assert (Ht1 : Tool (state a1) = Tool (state a)) by exact Ht0.
  assert (Hc1 : underCursor a1 = Some (Namespace (state a))).
  { unfold underCursor, a1. simpl. apply index_lookup; [lia | exact Hl]. }
  destruct (namespace_moves x env keys nss a1 Hfit Hin1)
    as (a2 & cmds & Hrun & (Hv2 & ns2 & Hsel2 & Hnss2 & Hidx2) & Hn2 & Ht2).
  destruct (lookup_lt_is_Some_2 nss (Z.to_nat (NamespaceSelector.selectedIndex ns2)))
    as [name Hname]; [unfold len in Hidx2; lia|].
  assert (Hunder : index (NamespaceSelector.namespaces ns2)
                     (NamespaceSelector.selectedIndex ns2) = Some name)
    by (rewrite Hnss2; apply index_lookup; assumption).
  exists a2, (CmdNone :: cmds), name.
  split.
  { cbn [run]. unfold press at 1. rewrite Hopen. cbn [mbind option_bind]. fold a1.
    rewrite Hrun. reflexivity. }
  split; [exact Hv2|].
  split; [unfold listed; rewrite Hsel2; cbn [mbind option_bind]; now rewrite Hnss2|].
  split; [unfold underCursor; rewrite Hsel2; exact Hunder|].
  split; [apply list_elem_of_In; eapply list_elem_of_lookup_2; exact Hname|].
  split.
  { intros ->. simpl in Hrun. injection Hrun as <- _.
    unfold underCursor in Hc1. 
    assert (Some ns2 = namespaceSelector a1) by now rewrite Hsel2.
    rewrite <- H in Hc1. cbn [mbind option_bind] in Hc1. congruence. }
  split; [congruence|].
  intros Hne.
  destruct (clearStatusMessage_keeps a2) as (Hv' & _ & Hns' & Hn' & Ht').
  rewrite namespace_key by (assumption || reflexivity).
  unfold handleNamespaceViewKeys.
  change ("enter" =? "q")%string with false.
  change ("enter" =? "ctrl+c")%string with false.
  change (("enter" =? "esc")%string || ("enter" =? "backspace")%string) with false.
  change (("enter" =? "j")%string || ("enter" =? "down")%string) with false.
  change (("enter" =? "k")%string || ("enter" =? "up")%string) with false.
  change ("enter" =? "enter")%string with true. cbv iota.
  rewrite Hns', Hsel2. cbn [mbind option_bind]. rewrite Hnss2.
  destruct (Z.leb_spec 0 (NamespaceSelector.selectedIndex ns2)); [|lia].
  destruct (Z.ltb_spec (NamespaceSelector.selectedIndex ns2) (len nss)); [|lia].
  cbn [andb]. cbv iota. rewrite Hnss2 in Hunder. rewrite Hunder.
  cbn [mbind option_bind].
  destruct (String.eqb_spec name ""); [contradiction|]. cbn [negb]. cbv iota.
  assert (Hsw : switchToNamespace env (clearStatusMessage a2) name
                = switchToNamespace env a name)
    by (unfold switchToNamespace; rewrite Ht', Ht2, Ht1; reflexivity).
  rewrite Hsw. destruct (switchToNamespace env a name); cbn [negb]; cbv iota.
  - eexists. split; [reflexivity|]. repeat split.
  - reflexivity.
Qed.

Lemma namespace_selector_cursor_witness :
  exists a' cmds,
    run Examples.outside (press cluster "n" :: cursorKeys cluster [true; true; true; false])
      (started cluster) = Some (a', cmds) /\
    underCursor a' = Some "kube-system".
Proof.
  destruct (namespace_selector_cursor Examples.outside cluster [true; true; true; false]
              ["default"; "kube-system"; "web"] (started cluster))
    as (a' & cmds & name & Hrun & _ & _ & Hunder & _);
    [reflexivity | reflexivity | simpl; tauto | vm_compute; discriminate |].
  exists a', cmds. split; [exact Hrun|].
  vm_compute in Hrun. injection Hrun as <- _. reflexivity.
Defined.

End SelectorProps.

(* ===================================================================== *)
(** ** Clicks in the resource table *)
(* ===================================================================== *)

Module ClickProps.

Import GoInt GoFacts UI Forms Cursor Mouse.

(** X22.  A left click in the resource table on screen row [y], with
    [8 <= y < 8 + len(Resources)], selects record [y - 8] of the whole list
    and changes nothing else but the status line: the page shown is not
    taken into account, so on any page but the first a click on one of the
    first [PageSize] rows leaves the cursor on a record that is not on the
    page shown.  A click above the header row or below these rows changes
    the status line only; it never starts a text selection. *)
Theorem row_click_selects_absolute_index
    (x : Outside) (env : Env) (cx cy : Z) (a : App) :
  let a0 := upd (set_StatusMessage ("Mouse click at " +:+ at_ cx cy)) a in
  CurrentView (state a) = ResourceView ->
  len (Resources (state a)) + 8 <= max_int ->
  (8 <= cy < 8 + len (Resources (state a)) ->
   Update x env (mouse MouseLeft cx cy) a
     = Some (upd (set_SelectedIndex (cy - 8)) a0, CmdNone) /\
   (1 <= PageSize (state a) -> 1 <= CurrentPage (state a) ->
    cy - 8 < PageSize (state a) ->
    ~ cursorOnPage (upd (set_SelectedIndex (cy - 8)) a0))) /\
  (cy < 7 \/ 8 + len (Resources (state a)) <= cy ->
   Update x env (mouse MouseLeft cx cy) a = Some (a0, CmdNone)).
Proof.
  intros a0 Hv Hfit. pose proof ScrollProps.int_bounds as Hb.
  pose proof (len_nonneg (Resources (state a))) as Hlen.
  assert (Hstep : Update x env (mouse MouseLeft cx cy) a
                  = handleMouseClick {| mouseType := MouseLeft; X := cx; Y := cy |} a0)
    by reflexivity.
  rewrite Hstep. unfold handleMouseClick. cbn [X Y].
  change (CurrentView (state a0)) with (CurrentView (state a)).
  change (Resources (state a0)) with (Resources (state a)).
  rewrite Hv. cbn [view_eqb]. cbv iota.
  rewrite (add_exact 8) by (unfold in_range; lia).
  split.
  - intros Hrow.
    destruct (Z.eqb_spec cy 7); [lia|]. cbn [andb]. cbv iota.
    rewrite sub_exact by (unfold in_range; lia).
    destruct (Z.leb_spec 8 cy); [|lia].
    destruct (Z.ltb_spec cy (8 + len (Resources (state a)))); [|lia].
    destruct (Z.leb_spec 0 (cy - 8)); [|lia].
    destruct (Z.ltb_spec (cy - 8) (len (Resources (state a)))); [|lia].
    cbn [andb]. cbv iota. split; [reflexivity|].
    intros Hps Hcp Hfirst [_ [Hlo _]]. simpl in Hlo. nia.
  - intros Hout.
    assert (Hsel : startSelection {| mouseType := MouseLeft; X := cx; Y := cy |} a0 = a0).
    { unfold startSelection. change (CurrentView (state a0)) with (CurrentView (state a)).
      now rewrite Hv. }
    destruct (Z.eqb_spec cy 7); [lia|]. cbn [andb]. cbv iota.
    destruct Hout as [Hup | Hdown].
    + destruct (Z.leb_spec 8 cy); [lia|]. cbn [andb]. cbv iota. now rewrite Hsel.
    + destruct (Z.ltb_spec cy (8 + len (Resources (state a)))); [lia|].
      rewrite andb_false_r. cbn [andb]. cbv iota. now rewrite Hsel.
Qed.

Lemma row_click_selects_absolute_index_witness :
  observe (fun s => (SelectedIndex s, CurrentPage s))
    (Update Examples.outside Examples.offline (mouse MouseLeft 10 11)
       (Examples.tableApp 50 1 (replicate 142 (Examples.pod "web"))))
    = Some ((3, 1), CmdNone).
Proof.
  destruct (row_click_selects_absolute_index Examples.outside Examples.offline 10 11
              (Examples.tableApp 50 1 (replicate 142 (Examples.pod "web")))) as (Hrow & _);
    [reflexivity | vm_compute; discriminate |].
  destruct Hrow as (Hstep & _); [vm_compute; split; [discriminate | reflexivity]|].
  rewrite Hstep. reflexivity.
Defined.

End ClickProps.

(* ===================================================================== *)
(** ** The root program: health annotations, forward and back *)
(* ===================================================================== *)

Module RootNavProps.

Import GoInt GoFacts Forms.
Import Root.

Lemma withHealth_fields (r : K8sResource) (es ws : list string) :
  ResourceKind (withHealth r es ws) = ResourceKind r /\
  Status (withHealth r es ws) = Status r /\
  Details (withHealth r es ws) = Details r.
Proof. repeat split. Qed.

Lemma withHealth_again (r : K8sResource) (es ws es' ws' : list string) :
  withHealth (withHealth r es ws) es' ws' = withHealth r es' ws'.
Proof. reflexivity. Qed.

(** Annotating reads the kind, the status and the details only. *)
Lemma analyzeResourceHealth_reads (r r' : K8sResource) (es ws : list string) :
  r' = withHealth r es ws -> analyzeResourceHealth r' = analyzeResourceHealth r.
Proof.
  intros ->. unfold analyzeResourceHealth, detail.
  destruct (withHealth_fields r es ws) as (-> & -> & ->).
  destruct (ResourceKind r); reflexivity.
Qed.

Lemma analyzeResourceHealth_shape (r : K8sResource) :
  exists es ws, analyzeResourceHealth r = withHealth r es ws.
Proof. unfold analyzeResourceHealth. destruct (ResourceKind r); eauto. Qed.

Lemma restart_text_differs (restarts : string) :
  "Pod is stuck in pending state" <> "High restart count: " +:+ restarts.
Proof. rewrite TextProps.app_cons. discriminate. Qed.

(** X23.  [analyzeResourceHealth] starts from empty annotations: it is
    idempotent and does not depend on the errors and warnings the record
    held before, so repeated analysis never piles up duplicates.  It
    leaves the other fields alone, reports at most one error and at most
    two warnings, reports nothing for kinds other than pods, deployments,
    services and jobs, and warns of a high restart count on a pod exactly
    when the "Restarts" detail is a decimal integer above 5. *)
Theorem health_annotations (r : K8sResource) :
  analyzeResourceHealth (analyzeResourceHealth r) = analyzeResourceHealth r /\
  (forall es ws, analyzeResourceHealth (withHealth r es ws) = analyzeResourceHealth r) /\
  analyzeResourceHealth r
    = withHealth r (Errors (analyzeResourceHealth r)) (Warnings (analyzeResourceHealth r)) /\
  (length (Errors (analyzeResourceHealth r)) <= 1)%nat /\
  (length (Warnings (analyzeResourceHealth r)) <= 2)%nat /\
  (ResourceKind r <> PodsResource -> ResourceKind r <> DeploymentsResource ->
   ResourceKind r <> ServicesResource -> ResourceKind r <> JobsResource ->
   Errors (analyzeResourceHealth r) = [] /\ Warnings (analyzeResourceHealth r) = []) /\
  (ResourceKind r = PodsResource ->
   (In ("High restart count: " +:+ detail r "Restarts") (Warnings (analyzeResourceHealth r))
    <-> exists n, GoStrings.Atoi (detail r "Restarts") = Some n /\ 5 < n)).
Proof.
  split.
  { destruct (analyzeResourceHealth_shape r) as (es & ws & H). rewrite H.
    rewrite (analyzeResourceHealth_reads r _ es ws eq_refl). exact H. }
  split.
  { intros es ws. now apply analyzeResourceHealth_reads with (es := es) (ws := ws). }
  split.
  { destruct (analyzeResourceHealth_shape r) as (es & ws & ->). reflexivity. }
  unfold analyzeResourceHealth.
  split; [|split; [|split]].
  - destruct (ResourceKind r); simpl; try lia;
      match goal with
      | |- context [if ?b then _ else _] => destruct b
      end; simpl; lia.
  - destruct (ResourceKind r); simpl; try lia;
      repeat match goal with
             | |- context [if ?b then _ else _] => destruct b
             | |- context [match ?o with Some _ => _ | None => _ end] => destruct o
             end; simpl; lia.
  - intros Hp Hd Hs Hj. destruct (ResourceKind r); try contradiction; split; reflexivity.
  - intros ->. cbn [Errors Warnings withHealth].
    set (restarts := detail r "Restarts").
    destruct (String.eqb_spec restarts "") as [He | Hne].
    { rewrite He. cbn [negb andb]. split.
      - destruct (String.eqb (Status r) "Pending"); simpl; [|tauto].
        intros [H | []]. now apply restart_text_differs in H.
      - intros (n & Hn & _). discriminate Hn. }
    destruct (String.eqb_spec restarts "0") as [Hz | Hnz].
    { rewrite Hz. cbn [negb andb]. split.
      - destruct (String.eqb (Status r) "Pending"); simpl; [|tauto].
        intros [H | []]. now apply restart_text_differs in H.
      - intros (n & Hn & Hbig). vm_compute in Hn. injection Hn as <-. lia. }
    cbn [negb andb].
    destruct (GoStrings.Atoi restarts) as [n|] eqn:Hatoi.
    + destruct (Z.ltb_spec 5 n).
      * split; [eauto|]. intros _. apply in_or_app. right. now left.
      * split.
        -- destruct (String.eqb (Status r) "Pending"); simpl; [|tauto].
           intros [H' | []]. now apply restart_text_differs in H'.
        -- intros (n' & Hn' & Hbig). injection Hn' as <-. lia.
    + split.
      * destruct (String.eqb (Status r) "Pending"); simpl; [|tauto].
        intros [H' | []]. now apply restart_text_differs in H'.
      * intros (n' & Hn' & _). discriminate Hn'.
Qed.

(** X24.  Back undoes forward.  After any message that moved the root
    program to another view, "esc" or "backspace" shows the view that was
    left and restores the stack as it was; the cursor and both scroll
    offsets come back as 0, not as they were, and the error line is
    cleared. *)
Theorem back_undoes_forward
    (msg : Msg) (key : string) (m m1 : Model) (c : Cmd) :
  rootIsBack msg = false ->
  isBackKey key = true ->
  Update msg m = Some (m1, c) ->
  currentView m1 <> currentView m ->
  Update (KeyMsg key) m1
    = Some (set_errorMessage
              (set_scroll (set_nav m1 (currentView m) (viewStack m) 0) 0 0) "",
            CmdNone).
Proof.
  intros Hfwd Hback Hup Hmoved.
  pose proof (HistoryProps.root_step msg m m1 c Hup) as Hstep.
  unfold rootStep in Hstep. rewrite Hfwd in Hstep.
  destruct Hstep as [[Hsame _] | [_ Hpush]].
  { exfalso. apply Hmoved. destruct (currentView m1), (currentView m); simpl in Hsame;
      congruence. }
  assert (Hkey : key = "esc" \/ key = "backspace").
  { unfold isBackKey in Hback.
    apply orb_true_iff in Hback as [Hk | Hk]; apply String.eqb_eq in Hk; auto. }
  assert (Hnav : navigateBack m1
                 = (set_errorMessage
                      (set_scroll (set_nav m1 (currentView m) (viewStack m) 0) 0 0) "",
                    CmdNone)).
  { unfold navigateBack. rewrite Hpush, last_snoc, removelast_last. reflexivity. }
  destruct Hkey as [-> | ->].
  - change (Update (KeyMsg "esc") m1) with (Some (navigateBack m1)). now rewrite Hnav.
  - change (Update (KeyMsg "backspace") m1) with (Some (navigateBack m1)). now rewrite Hnav.
Qed.

Lemma back_undoes_forward_witness :
  exists m1 c m2,
    Update (KeyMsg "enter") (set_cursor initialModel 1) = Some (m1, c) /\
    currentView m1 = NamespaceView /\
    Update (KeyMsg "esc") m1 = Some (m2, CmdNone) /\
    currentView m2 = ClusterOrNamespaceView /\ viewStack m2 = [] /\ cursor m2 = 0.
Proof.
  do 3 eexists. split; [reflexivity|]. split; [reflexivity|].
  split.
  - eapply (back_undoes_forward (KeyMsg "enter") "esc" (set_cursor initialModel 1));
      [reflexivity | reflexivity | reflexivity | discriminate].
  - split; [reflexivity | split; reflexivity].
Defined.

End RootNavProps.

(* ===================================================================== *)
(** ** Switching the resource type, and leaving the help view *)
(* ===================================================================== *)

Module SwitchProps.

Import GoInt GoFacts UI Forms Selectors.

Lemma clearStatusMessage_nav (a : App) :
  CurrentView (state (clearStatusMessage a)) = CurrentView (state a) /\
  PreviousView (state (clearStatusMessage a)) = PreviousView (state a) /\
  ResourceType (state (clearStatusMessage a)) = ResourceType (state a) /\
  PreviousResource (state (clearStatusMessage a)) = PreviousResource (state a) /\
  Tool (state (clearStatusMessage a)) = Tool (state a) /\
  CurrentPage (state (clearStatusMessage a)) = CurrentPage (state a) /\
  SelectedIndex (state (clearStatusMessage a)) = SelectedIndex (state a).
Proof.
  unfold clearStatusMessage.
  destruct (negb (GoStrings.Contains (StatusMessage (state a)) "Copied")); simpl;
    match goal with
    | |- context [if ?b then _ else _] => destruct b
    end; simpl; repeat split; reflexivity.
Qed.

(** A key other than "x" in the resource table or the help view. *)
Lemma main_key (x : Outside) (env : Env) (k : string) (a : App) :
  CurrentView (state a) = ResourceView \/ CurrentView (state a) = HelpView ->
  String.eqb k "x" = false ->
  Update x env (Examples.key k) a = handleMainKeys env k (clearStatusMessage a).
Proof.
  intros Hv Hk. destruct (clearStatusMessage_nav a) as (Hv' & _).
  unfold Update, Examples.key, handleKeyPress. cbn [keyString].
  rewrite Hk. cbn [negb]. cbv iota. rewrite Hv'.
  destruct Hv as [-> | ->]; reflexivity.
Qed.

Ltac keys := cbn [String.eqb Ascii.eqb Bool.eqb orb andb negb existsb]; cbv iota.

Lemma digit_key (x : Outside) (env : Env) (i : nat) (key : string) (a : App) :
  digitKeys !! i = Some key ->
  CurrentView (state a) = ResourceView ->
  Update x env (Examples.key key) a
    = (if Z.of_nat i <? len (getAvailableResourceTypes a)
       then t ← index (getAvailableResourceTypes a) (Z.of_nat i);
            Some (handleResourceTypeSwitch t (clearStatusMessage a))
       else Some (clearStatusMessage a, CmdNone)).
Proof.
  intros Hkey Hv.
  assert (Htypes : getAvailableResourceTypes (clearStatusMessage a)
                   = getAvailableResourceTypes a).
  { unfold getAvailableResourceTypes.
    destruct (clearStatusMessage_nav a) as (_ & _ & _ & _ & -> & _). reflexivity. }
  unfold digitKeys in Hkey.
  do 8 (destruct i as [|i];
        [injection Hkey as <-; rewrite main_key by (auto || reflexivity);
         unfold handleMainKeys; keys; unfold handleResourceTypeSwitchByIndex;
         rewrite Htypes;
         match goal with
         | |- context [(?n mod 256)] =>
             let v := eval vm_compute in (n mod 256) in
             change (n mod 256) with v
         end;
         reflexivity |]).
  discriminate Hkey.
Qed.

Lemma clearStatusMessage_shown (a : App) :
  shown (state (clearStatusMessage a)) = shown (state a).
Proof.
  unfold shown. destruct (clearStatusMessage_nav a) as (-> & _ & -> & _ & _ & -> & ->).
  reflexivity.
Qed.

Lemma shown_set_view (v : ViewType) (b : App) :
  shown (state (upd (set_CurrentView v) b))
  = (v, ResourceType (state b), CurrentPage (state b), SelectedIndex (state b)).
Proof. reflexivity. Qed.

(** Backspace in the help view, the table having been the view before. *)
Lemma handleBackNavigation_help (b : App) :
  CurrentView (state b) = HelpView ->
  PreviousView (state b) = ResourceView ->
  PreviousResource (state b) <> "" ->
  exists b',
    handleBackNavigation b = (b', CmdFetchResources) /\
    shown (state b') = (ResourceView, PreviousResource (state b), 0, 0) /\
    PreviousResource (state b') = ResourceType (state b).
Proof.
  intros Hv Hpv Hpr. unfold handleBackNavigation. rewrite Hv, Hpv. simpl.
  destruct (String.eqb_spec (PreviousResource (state b)) ""); [contradiction|]. simpl.
  eexists. split; [reflexivity|]. split; reflexivity.
Qed.

(** X25.  Switching the resource type.  In the resource table the digit
    key [i + 1] shows the [i]-th of the available types (eight with [oc],
    seven otherwise) from page 0 with the first row selected, and asks for
    a fresh listing; a digit beyond the list does nothing.  The type left
    is remembered, but backspace in the table does not bring it back, and
    neither does leaving the help view with "esc"; leaving the help view
    with backspace does: it shows the table with the type that was left,
    again from page 0, and asks for a fresh listing. *)
Theorem digit_switch_and_help
    (x : Outside) (env : Env) (i : nat) (key : string) (a : App) :
  digitKeys !! i = Some key ->
  CurrentView (state a) = ResourceView ->
  (getAvailableResourceTypes a !! i = None ->
   Update x env (Examples.key key) a = Some (clearStatusMessage a, CmdNone)) /\
  (forall t,
     getAvailableResourceTypes a !! i = Some t ->
     (exists a1,
        Update x env (Examples.key key) a = Some (a1, CmdFetchResources) /\
        shown (state a1) = (ResourceView, t, 0, 0) /\
        PreviousResource (state a1) = ResourceType (state a)) /\
     finally shown (run x [press env key; press env "backspace"] a)
       = Some (ResourceView, t, 0, 0) /\
     finally shown (run x [press env key; press env "?"; press env "esc"] a)
       = Some (ResourceView, t, 0, 0) /\
     (ResourceType (state a) <> "" ->
      exists a3,
        run x [press env key; press env "?"; press env "backspace"] a
          = Some (a3, [CmdFetchResources; CmdNone; CmdFetchResources]) /\
        shown (state a3) = (ResourceView, ResourceType (state a), 0, 0) /\
        PreviousResource (state a3) = t)).
Proof.
  intros Hkey Hv. rewrite (digit_key x env i key a Hkey Hv).
  split.
  { intros Hnone. apply lookup_ge_None in Hnone. unfold len.
    destruct (Z.ltb_spec (Z.of_nat i) (Z.of_nat (length (getAvailableResourceTypes a))));
      [lia | reflexivity]. }
  intros t Ht.
  assert (Hlt : Z.of_nat i < len (getAvailableResourceTypes a))
    by (apply lookup_lt_Some in Ht; unfold len; lia).
  assert (Hidx : index (getAvailableResourceTypes a) (Z.of_nat i) = Some t).
  { unfold index. destruct (Z.leb_spec 0 (Z.of_nat i)); [|lia].
    destruct (Z.ltb_spec (Z.of_nat i) (len (getAvailableResourceTypes a))); [|lia].
    simpl. now rewrite Nat2Z.id. }
  assert (Hstep : Update x env (Examples.key key) a
                  = Some (handleResourceTypeSwitch t (clearStatusMessage a))).
  { rewrite (digit_key x env i key a Hkey Hv).
    destruct (Z.ltb_spec (Z.of_nat i) (len (getAvailableResourceTypes a))); [|lia].
    now rewrite Hidx. }
  destruct (Z.ltb_spec (Z.of_nat i) (len (getAvailableResourceTypes a))); [|lia].
  rewrite Hidx. cbn [mbind option_bind].
  destruct (clearStatusMessage_nav a) as (Hv0 & _ & Hrt0 & _).
  set (a1 := fst (handleResourceTypeSwitch t (clearStatusMessage a))).
  assert (Ha1 : handleResourceTypeSwitch t (clearStatusMessage a) = (a1, CmdFetchResources))
    by reflexivity.
  assert (Hv1 : CurrentView (state a1) = ResourceView) by (simpl; congruence).
  assert (Hpv1 : PreviousView (state a1) = ResourceView) by (simpl; congruence).
  assert (Hpr1 : PreviousResource (state a1) = ResourceType (state a)) by (simpl; congruence).
  assert (Hs1 : shown (state a1) = (ResourceView, t, 0, 0)) by (unfold shown; simpl; congruence).
  rewrite Ha1 in *.
  (* the steps that follow *)
  assert (Hback : Update x env (Examples.key "backspace") a1
                  = Some (clearStatusMessage a1, CmdNone)).
  { rewrite main_key by (auto || reflexivity). unfold handleMainKeys. keys.
    unfold handleBackNavigation.
    destruct (clearStatusMessage_nav a1) as (-> & _). now rewrite Hv1. }
  set (a2 := upd (set_CurrentView HelpView) (clearStatusMessage a1)).
  assert (Hhelp : Update x env (Examples.key "?") a1 = Some (a2, CmdNone)).
  { rewrite main_key by (auto || reflexivity). unfold handleMainKeys. keys.
    destruct (clearStatusMessage_nav a1) as (-> & _). now rewrite Hv1. }
  destruct (clearStatusMessage_nav a1) as (_ & Hpv1' & Hrt1' & Hpr1' & _).
  assert (Hv2 : CurrentView (state a2) = HelpView) by reflexivity.
  assert (Hesc : Update x env (Examples.key "esc") a2
                 = Some (upd (set_CurrentView ResourceView) (clearStatusMessage a2), CmdNone)).
  { rewrite main_key by (auto || reflexivity). unfold handleMainKeys. keys.
    destruct (clearStatusMessage_nav a2) as (-> & _). now rewrite Hv2. }
  assert (Hbs : Update x env (Examples.key "backspace") a2
                = Some (handleBackNavigation (clearStatusMessage a2))).
  { rewrite main_key by (auto || reflexivity). unfold handleMainKeys. keys. reflexivity. }
  split; [exists a1; auto|].
  split.
  { unfold run, press. rewrite Hstep. cbn [mbind option_bind].
    rewrite Hback. cbn [mbind option_bind finally].
    now rewrite clearStatusMessage_shown, Hs1. }
  split.
  { unfold run, press. rewrite Hstep. cbn [mbind option_bind].
    rewrite Hhelp. cbn [mbind option_bind]. rewrite Hesc. cbn [mbind option_bind finally].
    assert (Hs2 : shown (state a2) = (HelpView, t, 0, 0)).
    { unfold a2. rewrite shown_set_view.
      pose proof (clearStatusMessage_shown a1) as Hc1. rewrite Hs1 in Hc1.
      unfold shown in Hc1. injection Hc1 as _ -> -> ->. reflexivity. }
    rewrite shown_set_view.
    pose proof (clearStatusMessage_shown a2) as Hc2. rewrite Hs2 in Hc2.
    unfold shown in Hc2. injection Hc2 as _ -> -> ->. reflexivity. }
  intros Hne.
  destruct (clearStatusMessage_nav a2) as (Hv2' & Hpv2' & Hrt2' & Hpr2' & _).
  destruct (handleBackNavigation_help (clearStatusMessage a2)) as (a3 & Hnav & Hs3 & Hpr3).
  { now rewrite Hv2'. }
  { rewrite Hpv2'. simpl. congruence. }
  { rewrite Hpr2'. simpl. congruence. }
  exists a3. split.
  { unfold run, press. rewrite Hstep. cbn [mbind option_bind].
    rewrite Hhelp. cbn [mbind option_bind]. rewrite Hbs, Hnav. reflexivity. }
  split.
  - rewrite Hs3, Hpr2'. simpl. congruence.
  - rewrite Hpr3, Hrt2'. simpl. rewrite Hrt1'. reflexivity.
Qed.

Lemma digit_switch_and_help_witness :
  exists a3,
    run Examples.outside [press cluster "2"; press cluster "?"; press cluster "backspace"]
      (started cluster)
      = Some (a3, [CmdFetchResources; CmdNone; CmdFetchResources]) /\
    shown (state a3) = (ResourceView, "pods", 0, 0) /\
    PreviousResource (state a3) = "services".
Proof.
  destruct (digit_switch_and_help Examples.outside cluster 1 "2" (started cluster))
    as (_ & Hsome); [reflexivity | reflexivity |].
  destruct (Hsome "services" eq_refl) as (_ & _ & _ & Hback).
  apply Hback. discriminate.
Defined.

End SwitchProps.
